(** * HeartSense cardiac monitoring simulator: the simulation hook

    A shallow embedding of [useCardiacDataSimulator.ts] (the hook imported by
    [App.tsx]) together with the constants and types of [constants.ts] that
    it reads, followed by the properties of the specification that concern
    them.

    Conventions of the embedding.
    - The three pieces of React state of the hook ([patients],
      [selectedPatientId], [simulationDataMap]) form one record,
      [HookState]; every state updater of the source is a function on it or
      on the simulation map.  React applies queued functional updaters one
      after the other, so an operation is the composition of its updaters.
    - [Date.now()], [crypto.randomUUID()] and the random rate generators are
      inputs of the functions that call them.
    - Heart rates, SpO2, blood pressure, respiratory rate, thresholds and
      pacer rates are integers in the simulator (integer rate generators, an
      integer convergence step, [parseInt] on the pacer rate): they are [Z].
      Quantities the source divides (the inter-beat countdown, the
      respiration phase, waveform amplitudes, temperature) are exact
      rationals [Q]; [Infinity] is a constructor of its own.  [Math.sin] is
      kept symbolic in the amplitude of SpO2 and respiration samples.
      [stretchPattern], whose result depends on how doubles round, computes
      with the kernel's binary64 floats. *)

From Stdlib Require Import ZArith QArith Qround Bool List Lia Lqa Floats.
From stdpp Require Import gmap strings list fin_maps pretty.
Import ListNotations.

Local Open Scope string_scope.
Local Open Scope list_scope.
Local Open Scope Z_scope.

(** ** Types ([types] section of the sources) *)

Inductive CardiacRhythm :=
| NSR | VT | SINUS_TACHYCARDIA | SINUS_BRADYCARDIA | VENTRICULAR_FIBRILLATION
| TORSADES_DE_POINTES | FIRST_DEGREE_AV_BLOCK | SECOND_DEGREE_AV_BLOCK_TYPE_I
| SECOND_DEGREE_AV_BLOCK_TYPE_II | THIRD_DEGREE_AV_BLOCK | ATRIAL_FIBRILLATION
| ATRIAL_FLUTTER | SVT | ASYSTOLE.

Inductive PacerMode := Off | Demand.

(** [PacerSettings].  Both fields are mandatory in the interface; they are
    optional here because [updatePatientPacingSettings] spreads a partial
    object over [p.pacerSettings!], which leaves a field absent when the
    patient had no settings and the partial object lacks it. *)
Record PacerSettings := { mode : option PacerMode; rate : option Z }.

Inductive AlertSeverity := WARNING | CRITICAL.

#[global] Instance AlertSeverity_eq_dec : EqDecision AlertSeverity.
Proof. solve_decision. Defined.

#[global] Instance CardiacRhythm_eq_dec : EqDecision CardiacRhythm.
Proof. solve_decision. Defined.

#[global] Instance PacerMode_eq_dec : EqDecision PacerMode.
Proof. solve_decision. Defined.

Record MetricThresholds := {
  lowWarning : option Z;
  lowCritical : option Z;
  highWarning : option Z;
  highCritical : option Z
}.

Record PersonalizedAlertThresholds := {
  pt_heartRate : option MetricThresholds;
  pt_bloodPressureSystolic : option MetricThresholds;
  pt_bloodPressureDiastolic : option MetricThresholds;
  pt_spo2 : option MetricThresholds;
  pt_temperature : option MetricThresholds;
  pt_respiratoryRate : option MetricThresholds
}.

Record Patient := {
  p_id : string;
  p_name : string;
  p_age : Z;
  p_gender : string;
  p_room : string;
  p_notes : option string;
  p_diagnosis : option string;
  personalizedThresholds : option PersonalizedAlertThresholds;
  activeRhythm : CardiacRhythm;
  pacerSettings : option PacerSettings;
  noiseSignatures : option (list string);
  codeStatus : option string;
  p_source : option string
}.

Record BloodPressure := { systolic : Z; diastolic : Z }.

Record CardiacMetrics := {
  heartRate : Z;
  bloodPressure : BloodPressure;
  spo2 : Z;
  temperature : Q;
  respiratoryRate : Z
}.

(** A JavaScript number that may be [Infinity]. *)
Inductive Num := Finite (q : Q) | Infinity.

(** The amplitude of a waveform sample.  ECG samples are pattern entries;
    the SpO2 and respiration samples go through [Math.sin], which stays
    symbolic:
    [Spo2Pulse v p s] is
      [ECG_SPO2_BASELINE_VALUE + v * 0.5 * Math.max(0.5, Math.sin(p * PI) * (s / 100))],
    [RespSine ph] is [Math.sin(ph * 2 * PI) * RESP_AMPLITUDE]. *)
Inductive Amplitude :=
| Exact (q : Q)
| Spo2Pulse (patternValue : Q) (pulseProgress : Q) (spo2Metric : Z)
| RespSine (phase : Q).

Record ECGDataPoint := { time : Z; value : Amplitude }.

Record TrendDataPoint := { td_time : string; td_value : Z }.

Record Alert := {
  a_id : string;
  message : string;
  severity : AlertSeverity;
  timestamp : Z;
  metric : string
}.

Record LoggedVitalSign := { lv_timestamp : Z; lv_metrics : CardiacMetrics }.

Inductive HeartSenseAIRiskLevel :=
| STABLE | LOW | MODERATE | HIGH | RISK_CRITICAL | PENDING | INSUFFICIENT_DATA | ERROR.

Record HeartSenseAIOutput := {
  o_riskScore : Z;
  o_riskLevel : HeartSenseAIRiskLevel;
  o_predictionReasoning : string;
  o_confidenceScore : option Z
}.

Record HeartSenseAIState := {
  riskScore : Z;
  riskLevel : HeartSenseAIRiskLevel;
  predictionReasoning : string;
  confidenceScore : option Z;
  lastAnalyzedTimestamp : Z;
  isLoading : bool;
  error : option string
}.

Inductive AlarmFeedbackType := true_positive | false_positive.

Record AlertSnapshot := {
  as_message : string;
  as_severity : AlertSeverity;
  as_metric : string;
  originalTimestamp : Z
}.

Record AlarmFeedbackEntry := {
  f_id : string;
  f_patientId : string;
  alertSnapshot : AlertSnapshot;
  feedback : AlarmFeedbackType;
  feedbackTimestamp : Z
}.

(** [PatientSpecificSimData], field for field.  [heartSenseAIState] is
    optional in the interface but set at every construction site, so it is a
    plain field here. *)
Record PatientSpecificSimData := {
  metrics : CardiacMetrics;
  ecgData : list ECGDataPoint;
  spo2WaveData : list ECGDataPoint;
  respWaveData : list ECGDataPoint;
  heartRateTrend : list TrendDataPoint;
  alerts : list Alert;
  ecgPatternBuffer : list Q;
  ecgBufferIndex : nat;
  ecgCurrentTime : Z;
  wenckebachCycleBeat : Z;
  currentPRPoints : Z;
  mobitzBeatInCycle : Z;
  lastPWaveTime : Z;
  lastQRSWaveTime : Z;
  nextRRIntervalPoints : Num;
  pWaveCyclePosition : Z;
  acknowledgedAlertIds : gset string;
  loggedVitals : list LoggedVitalSign;
  timeSinceLastCardiacEventMs : Z;
  lastBeatTimestamp : Z;
  heartSenseAIState : HeartSenseAIState;
  alarmFeedbackLog : list AlarmFeedbackEntry;
  currentTargetHeartRate : Z;
  lastBPUpdate : Z;
  lastTempUpdate : Z;
  lastRRUpdate : Z;
  lastSpo2UpdateAttempt : Z;
  nonNsrRhythmStartTime : option Z;
  isLeadOff : bool;
  spo2PulsePatternBuffer : list Q;
  spo2PulseBufferIndex : nat;
  spo2NextPulseDue : bool;
  respirationCyclePosition : Q
}.

(** The state of the hook. *)
Record HookState := {
  patients : list Patient;
  selectedPatientId : option string;
  simulationDataMap : gmap string PatientSpecificSimData
}.

(** ** Object spread with one field replaced

    [{ ...s, field: v }] and the assignments [newSimData.field = v] on a
    fresh copy, one function per field that the hook writes. *)

Definition set_metrics (v : CardiacMetrics) (s : PatientSpecificSimData)
  : PatientSpecificSimData :=
  {| metrics := v; ecgData := ecgData s; spo2WaveData := spo2WaveData s;
     respWaveData := respWaveData s; heartRateTrend := heartRateTrend s; alerts := alerts s;
     ecgPatternBuffer := ecgPatternBuffer s; ecgBufferIndex := ecgBufferIndex s;
     ecgCurrentTime := ecgCurrentTime s; wenckebachCycleBeat := wenckebachCycleBeat s;
     currentPRPoints := currentPRPoints s; mobitzBeatInCycle := mobitzBeatInCycle s;
     lastPWaveTime := lastPWaveTime s; lastQRSWaveTime := lastQRSWaveTime s;
     nextRRIntervalPoints := nextRRIntervalPoints s;
     pWaveCyclePosition := pWaveCyclePosition s;
     acknowledgedAlertIds := acknowledgedAlertIds s; loggedVitals := loggedVitals s;
     timeSinceLastCardiacEventMs := timeSinceLastCardiacEventMs s;
     lastBeatTimestamp := lastBeatTimestamp s; heartSenseAIState := heartSenseAIState s;
     alarmFeedbackLog := alarmFeedbackLog s;
     currentTargetHeartRate := currentTargetHeartRate s; lastBPUpdate := lastBPUpdate s;
     lastTempUpdate := lastTempUpdate s; lastRRUpdate := lastRRUpdate s;
     lastSpo2UpdateAttempt := lastSpo2UpdateAttempt s;
     nonNsrRhythmStartTime := nonNsrRhythmStartTime s; isLeadOff := isLeadOff s;
     spo2PulsePatternBuffer := spo2PulsePatternBuffer s;
     spo2PulseBufferIndex := spo2PulseBufferIndex s; spo2NextPulseDue := spo2NextPulseDue s;
     respirationCyclePosition := respirationCyclePosition s |}.

Definition set_ecgData (v : list ECGDataPoint) (s : PatientSpecificSimData)
  : PatientSpecificSimData :=
  {| metrics := metrics s; ecgData := v; spo2WaveData := spo2WaveData s;
     respWaveData := respWaveData s; heartRateTrend := heartRateTrend s; alerts := alerts s;
     ecgPatternBuffer := ecgPatternBuffer s; ecgBufferIndex := ecgBufferIndex s;
     ecgCurrentTime := ecgCurrentTime s; wenckebachCycleBeat := wenckebachCycleBeat s;
     currentPRPoints := currentPRPoints s; mobitzBeatInCycle := mobitzBeatInCycle s;
     lastPWaveTime := lastPWaveTime s; lastQRSWaveTime := lastQRSWaveTime s;
     nextRRIntervalPoints := nextRRIntervalPoints s;
     pWaveCyclePosition := pWaveCyclePosition s;
     acknowledgedAlertIds := acknowledgedAlertIds s; loggedVitals := loggedVitals s;
     timeSinceLastCardiacEventMs := timeSinceLastCardiacEventMs s;
     lastBeatTimestamp := lastBeatTimestamp s; heartSenseAIState := heartSenseAIState s;
     alarmFeedbackLog := alarmFeedbackLog s;
     currentTargetHeartRate := currentTargetHeartRate s; lastBPUpdate := lastBPUpdate s;
     lastTempUpdate := lastTempUpdate s; lastRRUpdate := lastRRUpdate s;
     lastSpo2UpdateAttempt := lastSpo2UpdateAttempt s;
     nonNsrRhythmStartTime := nonNsrRhythmStartTime s; isLeadOff := isLeadOff s;
     spo2PulsePatternBuffer := spo2PulsePatternBuffer s;
     spo2PulseBufferIndex := spo2PulseBufferIndex s; spo2NextPulseDue := spo2NextPulseDue s;
     respirationCyclePosition := respirationCyclePosition s |}.

Definition set_spo2WaveData (v : list ECGDataPoint) (s : PatientSpecificSimData)
  : PatientSpecificSimData :=
  {| metrics := metrics s; ecgData := ecgData s; spo2WaveData := v;
     respWaveData := respWaveData s; heartRateTrend := heartRateTrend s; alerts := alerts s;
     ecgPatternBuffer := ecgPatternBuffer s; ecgBufferIndex := ecgBufferIndex s;
     ecgCurrentTime := ecgCurrentTime s; wenckebachCycleBeat := wenckebachCycleBeat s;
     currentPRPoints := currentPRPoints s; mobitzBeatInCycle := mobitzBeatInCycle s;
     lastPWaveTime := lastPWaveTime s; lastQRSWaveTime := lastQRSWaveTime s;
     nextRRIntervalPoints := nextRRIntervalPoints s;
     pWaveCyclePosition := pWaveCyclePosition s;
     acknowledgedAlertIds := acknowledgedAlertIds s; loggedVitals := loggedVitals s;
     timeSinceLastCardiacEventMs := timeSinceLastCardiacEventMs s;
     lastBeatTimestamp := lastBeatTimestamp s; heartSenseAIState := heartSenseAIState s;
     alarmFeedbackLog := alarmFeedbackLog s;
     currentTargetHeartRate := currentTargetHeartRate s; lastBPUpdate := lastBPUpdate s;
     lastTempUpdate := lastTempUpdate s; lastRRUpdate := lastRRUpdate s;
     lastSpo2UpdateAttempt := lastSpo2UpdateAttempt s;
     nonNsrRhythmStartTime := nonNsrRhythmStartTime s; isLeadOff := isLeadOff s;
     spo2PulsePatternBuffer := spo2PulsePatternBuffer s;
     spo2PulseBufferIndex := spo2PulseBufferIndex s; spo2NextPulseDue := spo2NextPulseDue s;
     respirationCyclePosition := respirationCyclePosition s |}.

Definition set_respWaveData (v : list ECGDataPoint) (s : PatientSpecificSimData)
  : PatientSpecificSimData :=
  {| metrics := metrics s; ecgData := ecgData s; spo2WaveData := spo2WaveData s;
     respWaveData := v; heartRateTrend := heartRateTrend s; alerts := alerts s;
     ecgPatternBuffer := ecgPatternBuffer s; ecgBufferIndex := ecgBufferIndex s;
     ecgCurrentTime := ecgCurrentTime s; wenckebachCycleBeat := wenckebachCycleBeat s;
     currentPRPoints := currentPRPoints s; mobitzBeatInCycle := mobitzBeatInCycle s;
     lastPWaveTime := lastPWaveTime s; lastQRSWaveTime := lastQRSWaveTime s;
     nextRRIntervalPoints := nextRRIntervalPoints s;
     pWaveCyclePosition := pWaveCyclePosition s;
     acknowledgedAlertIds := acknowledgedAlertIds s; loggedVitals := loggedVitals s;
     timeSinceLastCardiacEventMs := timeSinceLastCardiacEventMs s;
     lastBeatTimestamp := lastBeatTimestamp s; heartSenseAIState := heartSenseAIState s;
     alarmFeedbackLog := alarmFeedbackLog s;
     currentTargetHeartRate := currentTargetHeartRate s; lastBPUpdate := lastBPUpdate s;
     lastTempUpdate := lastTempUpdate s; lastRRUpdate := lastRRUpdate s;
     lastSpo2UpdateAttempt := lastSpo2UpdateAttempt s;
     nonNsrRhythmStartTime := nonNsrRhythmStartTime s; isLeadOff := isLeadOff s;
     spo2PulsePatternBuffer := spo2PulsePatternBuffer s;
     spo2PulseBufferIndex := spo2PulseBufferIndex s; spo2NextPulseDue := spo2NextPulseDue s;
     respirationCyclePosition := respirationCyclePosition s |}.

Definition set_alerts (v : list Alert) (s : PatientSpecificSimData)
  : PatientSpecificSimData :=
  {| metrics := metrics s; ecgData := ecgData s; spo2WaveData := spo2WaveData s;
     respWaveData := respWaveData s; heartRateTrend := heartRateTrend s; alerts := v;
     ecgPatternBuffer := ecgPatternBuffer s; ecgBufferIndex := ecgBufferIndex s;
     ecgCurrentTime := ecgCurrentTime s; wenckebachCycleBeat := wenckebachCycleBeat s;
     currentPRPoints := currentPRPoints s; mobitzBeatInCycle := mobitzBeatInCycle s;
     lastPWaveTime := lastPWaveTime s; lastQRSWaveTime := lastQRSWaveTime s;
     nextRRIntervalPoints := nextRRIntervalPoints s;
     pWaveCyclePosition := pWaveCyclePosition s;
     acknowledgedAlertIds := acknowledgedAlertIds s; loggedVitals := loggedVitals s;
     timeSinceLastCardiacEventMs := timeSinceLastCardiacEventMs s;
     lastBeatTimestamp := lastBeatTimestamp s; heartSenseAIState := heartSenseAIState s;
     alarmFeedbackLog := alarmFeedbackLog s;
     currentTargetHeartRate := currentTargetHeartRate s; lastBPUpdate := lastBPUpdate s;
     lastTempUpdate := lastTempUpdate s; lastRRUpdate := lastRRUpdate s;
     lastSpo2UpdateAttempt := lastSpo2UpdateAttempt s;
     nonNsrRhythmStartTime := nonNsrRhythmStartTime s; isLeadOff := isLeadOff s;
     spo2PulsePatternBuffer := spo2PulsePatternBuffer s;
     spo2PulseBufferIndex := spo2PulseBufferIndex s; spo2NextPulseDue := spo2NextPulseDue s;
     respirationCyclePosition := respirationCyclePosition s |}.

Definition set_ecgPatternBuffer (v : list Q) (s : PatientSpecificSimData)
  : PatientSpecificSimData :=
  {| metrics := metrics s; ecgData := ecgData s; spo2WaveData := spo2WaveData s;
     respWaveData := respWaveData s; heartRateTrend := heartRateTrend s; alerts := alerts s;
     ecgPatternBuffer := v; ecgBufferIndex := ecgBufferIndex s;
     ecgCurrentTime := ecgCurrentTime s; wenckebachCycleBeat := wenckebachCycleBeat s;
     currentPRPoints := currentPRPoints s; mobitzBeatInCycle := mobitzBeatInCycle s;
     lastPWaveTime := lastPWaveTime s; lastQRSWaveTime := lastQRSWaveTime s;
     nextRRIntervalPoints := nextRRIntervalPoints s;
     pWaveCyclePosition := pWaveCyclePosition s;
     acknowledgedAlertIds := acknowledgedAlertIds s; loggedVitals := loggedVitals s;
     timeSinceLastCardiacEventMs := timeSinceLastCardiacEventMs s;
     lastBeatTimestamp := lastBeatTimestamp s; heartSenseAIState := heartSenseAIState s;
     alarmFeedbackLog := alarmFeedbackLog s;
     currentTargetHeartRate := currentTargetHeartRate s; lastBPUpdate := lastBPUpdate s;
     lastTempUpdate := lastTempUpdate s; lastRRUpdate := lastRRUpdate s;
     lastSpo2UpdateAttempt := lastSpo2UpdateAttempt s;
     nonNsrRhythmStartTime := nonNsrRhythmStartTime s; isLeadOff := isLeadOff s;
     spo2PulsePatternBuffer := spo2PulsePatternBuffer s;
     spo2PulseBufferIndex := spo2PulseBufferIndex s; spo2NextPulseDue := spo2NextPulseDue s;
     respirationCyclePosition := respirationCyclePosition s |}.

Definition set_ecgBufferIndex (v : nat) (s : PatientSpecificSimData)
  : PatientSpecificSimData :=
  {| metrics := metrics s; ecgData := ecgData s; spo2WaveData := spo2WaveData s;
     respWaveData := respWaveData s; heartRateTrend := heartRateTrend s; alerts := alerts s;
     ecgPatternBuffer := ecgPatternBuffer s; ecgBufferIndex := v;
     ecgCurrentTime := ecgCurrentTime s; wenckebachCycleBeat := wenckebachCycleBeat s;
     currentPRPoints := currentPRPoints s; mobitzBeatInCycle := mobitzBeatInCycle s;
     lastPWaveTime := lastPWaveTime s; lastQRSWaveTime := lastQRSWaveTime s;
     nextRRIntervalPoints := nextRRIntervalPoints s;
     pWaveCyclePosition := pWaveCyclePosition s;
     acknowledgedAlertIds := acknowledgedAlertIds s; loggedVitals := loggedVitals s;
     timeSinceLastCardiacEventMs := timeSinceLastCardiacEventMs s;
     lastBeatTimestamp := lastBeatTimestamp s; heartSenseAIState := heartSenseAIState s;
     alarmFeedbackLog := alarmFeedbackLog s;
     currentTargetHeartRate := currentTargetHeartRate s; lastBPUpdate := lastBPUpdate s;
     lastTempUpdate := lastTempUpdate s; lastRRUpdate := lastRRUpdate s;
     lastSpo2UpdateAttempt := lastSpo2UpdateAttempt s;
     nonNsrRhythmStartTime := nonNsrRhythmStartTime s; isLeadOff := isLeadOff s;
     spo2PulsePatternBuffer := spo2PulsePatternBuffer s;
     spo2PulseBufferIndex := spo2PulseBufferIndex s; spo2NextPulseDue := spo2NextPulseDue s;
     respirationCyclePosition := respirationCyclePosition s |}.

Definition set_ecgCurrentTime (v : Z) (s : PatientSpecificSimData)
  : PatientSpecificSimData :=
  {| metrics := metrics s; ecgData := ecgData s; spo2WaveData := spo2WaveData s;
     respWaveData := respWaveData s; heartRateTrend := heartRateTrend s; alerts := alerts s;
     ecgPatternBuffer := ecgPatternBuffer s; ecgBufferIndex := ecgBufferIndex s;
     ecgCurrentTime := v; wenckebachCycleBeat := wenckebachCycleBeat s;
     currentPRPoints := currentPRPoints s; mobitzBeatInCycle := mobitzBeatInCycle s;
     lastPWaveTime := lastPWaveTime s; lastQRSWaveTime := lastQRSWaveTime s;
     nextRRIntervalPoints := nextRRIntervalPoints s;
     pWaveCyclePosition := pWaveCyclePosition s;
     acknowledgedAlertIds := acknowledgedAlertIds s; loggedVitals := loggedVitals s;
     timeSinceLastCardiacEventMs := timeSinceLastCardiacEventMs s;
     lastBeatTimestamp := lastBeatTimestamp s; heartSenseAIState := heartSenseAIState s;
     alarmFeedbackLog := alarmFeedbackLog s;
     currentTargetHeartRate := currentTargetHeartRate s; lastBPUpdate := lastBPUpdate s;
     lastTempUpdate := lastTempUpdate s; lastRRUpdate := lastRRUpdate s;
     lastSpo2UpdateAttempt := lastSpo2UpdateAttempt s;
     nonNsrRhythmStartTime := nonNsrRhythmStartTime s; isLeadOff := isLeadOff s;
     spo2PulsePatternBuffer := spo2PulsePatternBuffer s;
     spo2PulseBufferIndex := spo2PulseBufferIndex s; spo2NextPulseDue := spo2NextPulseDue s;
     respirationCyclePosition := respirationCyclePosition s |}.

Definition set_lastPWaveTime (v : Z) (s : PatientSpecificSimData)
  : PatientSpecificSimData :=
  {| metrics := metrics s; ecgData := ecgData s; spo2WaveData := spo2WaveData s;
     respWaveData := respWaveData s; heartRateTrend := heartRateTrend s; alerts := alerts s;
     ecgPatternBuffer := ecgPatternBuffer s; ecgBufferIndex := ecgBufferIndex s;
     ecgCurrentTime := ecgCurrentTime s; wenckebachCycleBeat := wenckebachCycleBeat s;
     currentPRPoints := currentPRPoints s; mobitzBeatInCycle := mobitzBeatInCycle s;
     lastPWaveTime := v; lastQRSWaveTime := lastQRSWaveTime s;
     nextRRIntervalPoints := nextRRIntervalPoints s;
     pWaveCyclePosition := pWaveCyclePosition s;
     acknowledgedAlertIds := acknowledgedAlertIds s; loggedVitals := loggedVitals s;
     timeSinceLastCardiacEventMs := timeSinceLastCardiacEventMs s;
     lastBeatTimestamp := lastBeatTimestamp s; heartSenseAIState := heartSenseAIState s;
     alarmFeedbackLog := alarmFeedbackLog s;
     currentTargetHeartRate := currentTargetHeartRate s; lastBPUpdate := lastBPUpdate s;
     lastTempUpdate := lastTempUpdate s; lastRRUpdate := lastRRUpdate s;
     lastSpo2UpdateAttempt := lastSpo2UpdateAttempt s;
     nonNsrRhythmStartTime := nonNsrRhythmStartTime s; isLeadOff := isLeadOff s;
     spo2PulsePatternBuffer := spo2PulsePatternBuffer s;
     spo2PulseBufferIndex := spo2PulseBufferIndex s; spo2NextPulseDue := spo2NextPulseDue s;
     respirationCyclePosition := respirationCyclePosition s |}.

Definition set_nextRRIntervalPoints (v : Num) (s : PatientSpecificSimData)
  : PatientSpecificSimData :=
  {| metrics := metrics s; ecgData := ecgData s; spo2WaveData := spo2WaveData s;
     respWaveData := respWaveData s; heartRateTrend := heartRateTrend s; alerts := alerts s;
     ecgPatternBuffer := ecgPatternBuffer s; ecgBufferIndex := ecgBufferIndex s;
     ecgCurrentTime := ecgCurrentTime s; wenckebachCycleBeat := wenckebachCycleBeat s;
     currentPRPoints := currentPRPoints s; mobitzBeatInCycle := mobitzBeatInCycle s;
     lastPWaveTime := lastPWaveTime s; lastQRSWaveTime := lastQRSWaveTime s;
     nextRRIntervalPoints := v; pWaveCyclePosition := pWaveCyclePosition s;
     acknowledgedAlertIds := acknowledgedAlertIds s; loggedVitals := loggedVitals s;
     timeSinceLastCardiacEventMs := timeSinceLastCardiacEventMs s;
     lastBeatTimestamp := lastBeatTimestamp s; heartSenseAIState := heartSenseAIState s;
     alarmFeedbackLog := alarmFeedbackLog s;
     currentTargetHeartRate := currentTargetHeartRate s; lastBPUpdate := lastBPUpdate s;
     lastTempUpdate := lastTempUpdate s; lastRRUpdate := lastRRUpdate s;
     lastSpo2UpdateAttempt := lastSpo2UpdateAttempt s;
     nonNsrRhythmStartTime := nonNsrRhythmStartTime s; isLeadOff := isLeadOff s;
     spo2PulsePatternBuffer := spo2PulsePatternBuffer s;
     spo2PulseBufferIndex := spo2PulseBufferIndex s; spo2NextPulseDue := spo2NextPulseDue s;
     respirationCyclePosition := respirationCyclePosition s |}.

Definition set_acknowledgedAlertIds (v : gset string) (s : PatientSpecificSimData)
  : PatientSpecificSimData :=
  {| metrics := metrics s; ecgData := ecgData s; spo2WaveData := spo2WaveData s;
     respWaveData := respWaveData s; heartRateTrend := heartRateTrend s; alerts := alerts s;
     ecgPatternBuffer := ecgPatternBuffer s; ecgBufferIndex := ecgBufferIndex s;
     ecgCurrentTime := ecgCurrentTime s; wenckebachCycleBeat := wenckebachCycleBeat s;
     currentPRPoints := currentPRPoints s; mobitzBeatInCycle := mobitzBeatInCycle s;
     lastPWaveTime := lastPWaveTime s; lastQRSWaveTime := lastQRSWaveTime s;
     nextRRIntervalPoints := nextRRIntervalPoints s;
     pWaveCyclePosition := pWaveCyclePosition s; acknowledgedAlertIds := v;
     loggedVitals := loggedVitals s;
     timeSinceLastCardiacEventMs := timeSinceLastCardiacEventMs s;
     lastBeatTimestamp := lastBeatTimestamp s; heartSenseAIState := heartSenseAIState s;
     alarmFeedbackLog := alarmFeedbackLog s;
     currentTargetHeartRate := currentTargetHeartRate s; lastBPUpdate := lastBPUpdate s;
     lastTempUpdate := lastTempUpdate s; lastRRUpdate := lastRRUpdate s;
     lastSpo2UpdateAttempt := lastSpo2UpdateAttempt s;
     nonNsrRhythmStartTime := nonNsrRhythmStartTime s; isLeadOff := isLeadOff s;
     spo2PulsePatternBuffer := spo2PulsePatternBuffer s;
     spo2PulseBufferIndex := spo2PulseBufferIndex s; spo2NextPulseDue := spo2NextPulseDue s;
     respirationCyclePosition := respirationCyclePosition s |}.

Definition set_loggedVitals (v : list LoggedVitalSign) (s : PatientSpecificSimData)
  : PatientSpecificSimData :=
  {| metrics := metrics s; ecgData := ecgData s; spo2WaveData := spo2WaveData s;
     respWaveData := respWaveData s; heartRateTrend := heartRateTrend s; alerts := alerts s;
     ecgPatternBuffer := ecgPatternBuffer s; ecgBufferIndex := ecgBufferIndex s;
     ecgCurrentTime := ecgCurrentTime s; wenckebachCycleBeat := wenckebachCycleBeat s;
     currentPRPoints := currentPRPoints s; mobitzBeatInCycle := mobitzBeatInCycle s;
     lastPWaveTime := lastPWaveTime s; lastQRSWaveTime := lastQRSWaveTime s;
     nextRRIntervalPoints := nextRRIntervalPoints s;
     pWaveCyclePosition := pWaveCyclePosition s;
     acknowledgedAlertIds := acknowledgedAlertIds s; loggedVitals := v;
     timeSinceLastCardiacEventMs := timeSinceLastCardiacEventMs s;
     lastBeatTimestamp := lastBeatTimestamp s; heartSenseAIState := heartSenseAIState s;
     alarmFeedbackLog := alarmFeedbackLog s;
     currentTargetHeartRate := currentTargetHeartRate s; lastBPUpdate := lastBPUpdate s;
     lastTempUpdate := lastTempUpdate s; lastRRUpdate := lastRRUpdate s;
     lastSpo2UpdateAttempt := lastSpo2UpdateAttempt s;
     nonNsrRhythmStartTime := nonNsrRhythmStartTime s; isLeadOff := isLeadOff s;
     spo2PulsePatternBuffer := spo2PulsePatternBuffer s;
     spo2PulseBufferIndex := spo2PulseBufferIndex s; spo2NextPulseDue := spo2NextPulseDue s;
     respirationCyclePosition := respirationCyclePosition s |}.

Definition set_lastBeatTimestamp (v : Z) (s : PatientSpecificSimData)
  : PatientSpecificSimData :=
  {| metrics := metrics s; ecgData := ecgData s; spo2WaveData := spo2WaveData s;
     respWaveData := respWaveData s; heartRateTrend := heartRateTrend s; alerts := alerts s;
     ecgPatternBuffer := ecgPatternBuffer s; ecgBufferIndex := ecgBufferIndex s;
     ecgCurrentTime := ecgCurrentTime s; wenckebachCycleBeat := wenckebachCycleBeat s;
     currentPRPoints := currentPRPoints s; mobitzBeatInCycle := mobitzBeatInCycle s;
     lastPWaveTime := lastPWaveTime s; lastQRSWaveTime := lastQRSWaveTime s;
     nextRRIntervalPoints := nextRRIntervalPoints s;
     pWaveCyclePosition := pWaveCyclePosition s;
     acknowledgedAlertIds := acknowledgedAlertIds s; loggedVitals := loggedVitals s;
     timeSinceLastCardiacEventMs := timeSinceLastCardiacEventMs s; lastBeatTimestamp := v;
     heartSenseAIState := heartSenseAIState s; alarmFeedbackLog := alarmFeedbackLog s;
     currentTargetHeartRate := currentTargetHeartRate s; lastBPUpdate := lastBPUpdate s;
     lastTempUpdate := lastTempUpdate s; lastRRUpdate := lastRRUpdate s;
     lastSpo2UpdateAttempt := lastSpo2UpdateAttempt s;
     nonNsrRhythmStartTime := nonNsrRhythmStartTime s; isLeadOff := isLeadOff s;
     spo2PulsePatternBuffer := spo2PulsePatternBuffer s;
     spo2PulseBufferIndex := spo2PulseBufferIndex s; spo2NextPulseDue := spo2NextPulseDue s;
     respirationCyclePosition := respirationCyclePosition s |}.

Definition set_heartSenseAIState (v : HeartSenseAIState) (s : PatientSpecificSimData)
  : PatientSpecificSimData :=
  {| metrics := metrics s; ecgData := ecgData s; spo2WaveData := spo2WaveData s;
     respWaveData := respWaveData s; heartRateTrend := heartRateTrend s; alerts := alerts s;
     ecgPatternBuffer := ecgPatternBuffer s; ecgBufferIndex := ecgBufferIndex s;
     ecgCurrentTime := ecgCurrentTime s; wenckebachCycleBeat := wenckebachCycleBeat s;
     currentPRPoints := currentPRPoints s; mobitzBeatInCycle := mobitzBeatInCycle s;
     lastPWaveTime := lastPWaveTime s; lastQRSWaveTime := lastQRSWaveTime s;
     nextRRIntervalPoints := nextRRIntervalPoints s;
     pWaveCyclePosition := pWaveCyclePosition s;
     acknowledgedAlertIds := acknowledgedAlertIds s; loggedVitals := loggedVitals s;
     timeSinceLastCardiacEventMs := timeSinceLastCardiacEventMs s;
     lastBeatTimestamp := lastBeatTimestamp s; heartSenseAIState := v;
     alarmFeedbackLog := alarmFeedbackLog s;
     currentTargetHeartRate := currentTargetHeartRate s; lastBPUpdate := lastBPUpdate s;
     lastTempUpdate := lastTempUpdate s; lastRRUpdate := lastRRUpdate s;
     lastSpo2UpdateAttempt := lastSpo2UpdateAttempt s;
     nonNsrRhythmStartTime := nonNsrRhythmStartTime s; isLeadOff := isLeadOff s;
     spo2PulsePatternBuffer := spo2PulsePatternBuffer s;
     spo2PulseBufferIndex := spo2PulseBufferIndex s; spo2NextPulseDue := spo2NextPulseDue s;
     respirationCyclePosition := respirationCyclePosition s |}.

Definition set_alarmFeedbackLog (v : list AlarmFeedbackEntry) (s : PatientSpecificSimData)
  : PatientSpecificSimData :=
  {| metrics := metrics s; ecgData := ecgData s; spo2WaveData := spo2WaveData s;
     respWaveData := respWaveData s; heartRateTrend := heartRateTrend s; alerts := alerts s;
     ecgPatternBuffer := ecgPatternBuffer s; ecgBufferIndex := ecgBufferIndex s;
     ecgCurrentTime := ecgCurrentTime s; wenckebachCycleBeat := wenckebachCycleBeat s;
     currentPRPoints := currentPRPoints s; mobitzBeatInCycle := mobitzBeatInCycle s;
     lastPWaveTime := lastPWaveTime s; lastQRSWaveTime := lastQRSWaveTime s;
     nextRRIntervalPoints := nextRRIntervalPoints s;
     pWaveCyclePosition := pWaveCyclePosition s;
     acknowledgedAlertIds := acknowledgedAlertIds s; loggedVitals := loggedVitals s;
     timeSinceLastCardiacEventMs := timeSinceLastCardiacEventMs s;
     lastBeatTimestamp := lastBeatTimestamp s; heartSenseAIState := heartSenseAIState s;
     alarmFeedbackLog := v; currentTargetHeartRate := currentTargetHeartRate s;
     lastBPUpdate := lastBPUpdate s; lastTempUpdate := lastTempUpdate s;
     lastRRUpdate := lastRRUpdate s; lastSpo2UpdateAttempt := lastSpo2UpdateAttempt s;
     nonNsrRhythmStartTime := nonNsrRhythmStartTime s; isLeadOff := isLeadOff s;
     spo2PulsePatternBuffer := spo2PulsePatternBuffer s;
     spo2PulseBufferIndex := spo2PulseBufferIndex s; spo2NextPulseDue := spo2NextPulseDue s;
     respirationCyclePosition := respirationCyclePosition s |}.

Definition set_currentTargetHeartRate (v : Z) (s : PatientSpecificSimData)
  : PatientSpecificSimData :=
  {| metrics := metrics s; ecgData := ecgData s; spo2WaveData := spo2WaveData s;
     respWaveData := respWaveData s; heartRateTrend := heartRateTrend s; alerts := alerts s;
     ecgPatternBuffer := ecgPatternBuffer s; ecgBufferIndex := ecgBufferIndex s;
     ecgCurrentTime := ecgCurrentTime s; wenckebachCycleBeat := wenckebachCycleBeat s;
     currentPRPoints := currentPRPoints s; mobitzBeatInCycle := mobitzBeatInCycle s;
     lastPWaveTime := lastPWaveTime s; lastQRSWaveTime := lastQRSWaveTime s;
     nextRRIntervalPoints := nextRRIntervalPoints s;
     pWaveCyclePosition := pWaveCyclePosition s;
     acknowledgedAlertIds := acknowledgedAlertIds s; loggedVitals := loggedVitals s;
     timeSinceLastCardiacEventMs := timeSinceLastCardiacEventMs s;
     lastBeatTimestamp := lastBeatTimestamp s; heartSenseAIState := heartSenseAIState s;
     alarmFeedbackLog := alarmFeedbackLog s; currentTargetHeartRate := v;
     lastBPUpdate := lastBPUpdate s; lastTempUpdate := lastTempUpdate s;
     lastRRUpdate := lastRRUpdate s; lastSpo2UpdateAttempt := lastSpo2UpdateAttempt s;
     nonNsrRhythmStartTime := nonNsrRhythmStartTime s; isLeadOff := isLeadOff s;
     spo2PulsePatternBuffer := spo2PulsePatternBuffer s;
     spo2PulseBufferIndex := spo2PulseBufferIndex s; spo2NextPulseDue := spo2NextPulseDue s;
     respirationCyclePosition := respirationCyclePosition s |}.

Definition set_lastBPUpdate (v : Z) (s : PatientSpecificSimData)
  : PatientSpecificSimData :=
  {| metrics := metrics s; ecgData := ecgData s; spo2WaveData := spo2WaveData s;
     respWaveData := respWaveData s; heartRateTrend := heartRateTrend s; alerts := alerts s;
     ecgPatternBuffer := ecgPatternBuffer s; ecgBufferIndex := ecgBufferIndex s;
     ecgCurrentTime := ecgCurrentTime s; wenckebachCycleBeat := wenckebachCycleBeat s;
     currentPRPoints := currentPRPoints s; mobitzBeatInCycle := mobitzBeatInCycle s;
     lastPWaveTime := lastPWaveTime s; lastQRSWaveTime := lastQRSWaveTime s;
     nextRRIntervalPoints := nextRRIntervalPoints s;
     pWaveCyclePosition := pWaveCyclePosition s;
     acknowledgedAlertIds := acknowledgedAlertIds s; loggedVitals := loggedVitals s;
     timeSinceLastCardiacEventMs := timeSinceLastCardiacEventMs s;
     lastBeatTimestamp := lastBeatTimestamp s; heartSenseAIState := heartSenseAIState s;
     alarmFeedbackLog := alarmFeedbackLog s;
     currentTargetHeartRate := currentTargetHeartRate s; lastBPUpdate := v;
     lastTempUpdate := lastTempUpdate s; lastRRUpdate := lastRRUpdate s;
     lastSpo2UpdateAttempt := lastSpo2UpdateAttempt s;
     nonNsrRhythmStartTime := nonNsrRhythmStartTime s; isLeadOff := isLeadOff s;
     spo2PulsePatternBuffer := spo2PulsePatternBuffer s;
     spo2PulseBufferIndex := spo2PulseBufferIndex s; spo2NextPulseDue := spo2NextPulseDue s;
     respirationCyclePosition := respirationCyclePosition s |}.

Definition set_lastTempUpdate (v : Z) (s : PatientSpecificSimData)
  : PatientSpecificSimData :=
  {| metrics := metrics s; ecgData := ecgData s; spo2WaveData := spo2WaveData s;
     respWaveData := respWaveData s; heartRateTrend := heartRateTrend s; alerts := alerts s;
     ecgPatternBuffer := ecgPatternBuffer s; ecgBufferIndex := ecgBufferIndex s;
     ecgCurrentTime := ecgCurrentTime s; wenckebachCycleBeat := wenckebachCycleBeat s;
     currentPRPoints := currentPRPoints s; mobitzBeatInCycle := mobitzBeatInCycle s;
     lastPWaveTime := lastPWaveTime s; lastQRSWaveTime := lastQRSWaveTime s;
     nextRRIntervalPoints := nextRRIntervalPoints s;
     pWaveCyclePosition := pWaveCyclePosition s;
     acknowledgedAlertIds := acknowledgedAlertIds s; loggedVitals := loggedVitals s;
     timeSinceLastCardiacEventMs := timeSinceLastCardiacEventMs s;
     lastBeatTimestamp := lastBeatTimestamp s; heartSenseAIState := heartSenseAIState s;
     alarmFeedbackLog := alarmFeedbackLog s;
     currentTargetHeartRate := currentTargetHeartRate s; lastBPUpdate := lastBPUpdate s;
     lastTempUpdate := v; lastRRUpdate := lastRRUpdate s;
     lastSpo2UpdateAttempt := lastSpo2UpdateAttempt s;
     nonNsrRhythmStartTime := nonNsrRhythmStartTime s; isLeadOff := isLeadOff s;
     spo2PulsePatternBuffer := spo2PulsePatternBuffer s;
     spo2PulseBufferIndex := spo2PulseBufferIndex s; spo2NextPulseDue := spo2NextPulseDue s;
     respirationCyclePosition := respirationCyclePosition s |}.

Definition set_lastRRUpdate (v : Z) (s : PatientSpecificSimData)
  : PatientSpecificSimData :=
  {| metrics := metrics s; ecgData := ecgData s; spo2WaveData := spo2WaveData s;
     respWaveData := respWaveData s; heartRateTrend := heartRateTrend s; alerts := alerts s;
     ecgPatternBuffer := ecgPatternBuffer s; ecgBufferIndex := ecgBufferIndex s;
     ecgCurrentTime := ecgCurrentTime s; wenckebachCycleBeat := wenckebachCycleBeat s;
     currentPRPoints := currentPRPoints s; mobitzBeatInCycle := mobitzBeatInCycle s;
     lastPWaveTime := lastPWaveTime s; lastQRSWaveTime := lastQRSWaveTime s;
     nextRRIntervalPoints := nextRRIntervalPoints s;
     pWaveCyclePosition := pWaveCyclePosition s;
     acknowledgedAlertIds := acknowledgedAlertIds s; loggedVitals := loggedVitals s;
     timeSinceLastCardiacEventMs := timeSinceLastCardiacEventMs s;
     lastBeatTimestamp := lastBeatTimestamp s; heartSenseAIState := heartSenseAIState s;
     alarmFeedbackLog := alarmFeedbackLog s;
     currentTargetHeartRate := currentTargetHeartRate s; lastBPUpdate := lastBPUpdate s;
     lastTempUpdate := lastTempUpdate s; lastRRUpdate := v;
     lastSpo2UpdateAttempt := lastSpo2UpdateAttempt s;
     nonNsrRhythmStartTime := nonNsrRhythmStartTime s; isLeadOff := isLeadOff s;
     spo2PulsePatternBuffer := spo2PulsePatternBuffer s;
     spo2PulseBufferIndex := spo2PulseBufferIndex s; spo2NextPulseDue := spo2NextPulseDue s;
     respirationCyclePosition := respirationCyclePosition s |}.

Definition set_isLeadOff (v : bool) (s : PatientSpecificSimData)
  : PatientSpecificSimData :=
  {| metrics := metrics s; ecgData := ecgData s; spo2WaveData := spo2WaveData s;
     respWaveData := respWaveData s; heartRateTrend := heartRateTrend s; alerts := alerts s;
     ecgPatternBuffer := ecgPatternBuffer s; ecgBufferIndex := ecgBufferIndex s;
     ecgCurrentTime := ecgCurrentTime s; wenckebachCycleBeat := wenckebachCycleBeat s;
     currentPRPoints := currentPRPoints s; mobitzBeatInCycle := mobitzBeatInCycle s;
     lastPWaveTime := lastPWaveTime s; lastQRSWaveTime := lastQRSWaveTime s;
     nextRRIntervalPoints := nextRRIntervalPoints s;
     pWaveCyclePosition := pWaveCyclePosition s;
     acknowledgedAlertIds := acknowledgedAlertIds s; loggedVitals := loggedVitals s;
     timeSinceLastCardiacEventMs := timeSinceLastCardiacEventMs s;
     lastBeatTimestamp := lastBeatTimestamp s; heartSenseAIState := heartSenseAIState s;
     alarmFeedbackLog := alarmFeedbackLog s;
     currentTargetHeartRate := currentTargetHeartRate s; lastBPUpdate := lastBPUpdate s;
     lastTempUpdate := lastTempUpdate s; lastRRUpdate := lastRRUpdate s;
     lastSpo2UpdateAttempt := lastSpo2UpdateAttempt s;
     nonNsrRhythmStartTime := nonNsrRhythmStartTime s; isLeadOff := v;
     spo2PulsePatternBuffer := spo2PulsePatternBuffer s;
     spo2PulseBufferIndex := spo2PulseBufferIndex s; spo2NextPulseDue := spo2NextPulseDue s;
     respirationCyclePosition := respirationCyclePosition s |}.

Definition set_spo2PulsePatternBuffer (v : list Q) (s : PatientSpecificSimData)
  : PatientSpecificSimData :=
  {| metrics := metrics s; ecgData := ecgData s; spo2WaveData := spo2WaveData s;
     respWaveData := respWaveData s; heartRateTrend := heartRateTrend s; alerts := alerts s;
     ecgPatternBuffer := ecgPatternBuffer s; ecgBufferIndex := ecgBufferIndex s;
     ecgCurrentTime := ecgCurrentTime s; wenckebachCycleBeat := wenckebachCycleBeat s;
     currentPRPoints := currentPRPoints s; mobitzBeatInCycle := mobitzBeatInCycle s;
     lastPWaveTime := lastPWaveTime s; lastQRSWaveTime := lastQRSWaveTime s;
     nextRRIntervalPoints := nextRRIntervalPoints s;
     pWaveCyclePosition := pWaveCyclePosition s;
     acknowledgedAlertIds := acknowledgedAlertIds s; loggedVitals := loggedVitals s;
     timeSinceLastCardiacEventMs := timeSinceLastCardiacEventMs s;
     lastBeatTimestamp := lastBeatTimestamp s; heartSenseAIState := heartSenseAIState s;
     alarmFeedbackLog := alarmFeedbackLog s;
     currentTargetHeartRate := currentTargetHeartRate s; lastBPUpdate := lastBPUpdate s;
     lastTempUpdate := lastTempUpdate s; lastRRUpdate := lastRRUpdate s;
     lastSpo2UpdateAttempt := lastSpo2UpdateAttempt s;
     nonNsrRhythmStartTime := nonNsrRhythmStartTime s; isLeadOff := isLeadOff s;
     spo2PulsePatternBuffer := v; spo2PulseBufferIndex := spo2PulseBufferIndex s;
     spo2NextPulseDue := spo2NextPulseDue s;
     respirationCyclePosition := respirationCyclePosition s |}.

Definition set_spo2PulseBufferIndex (v : nat) (s : PatientSpecificSimData)
  : PatientSpecificSimData :=
  {| metrics := metrics s; ecgData := ecgData s; spo2WaveData := spo2WaveData s;
     respWaveData := respWaveData s; heartRateTrend := heartRateTrend s; alerts := alerts s;
     ecgPatternBuffer := ecgPatternBuffer s; ecgBufferIndex := ecgBufferIndex s;
     ecgCurrentTime := ecgCurrentTime s; wenckebachCycleBeat := wenckebachCycleBeat s;
     currentPRPoints := currentPRPoints s; mobitzBeatInCycle := mobitzBeatInCycle s;
     lastPWaveTime := lastPWaveTime s; lastQRSWaveTime := lastQRSWaveTime s;
     nextRRIntervalPoints := nextRRIntervalPoints s;
     pWaveCyclePosition := pWaveCyclePosition s;
     acknowledgedAlertIds := acknowledgedAlertIds s; loggedVitals := loggedVitals s;
     timeSinceLastCardiacEventMs := timeSinceLastCardiacEventMs s;
     lastBeatTimestamp := lastBeatTimestamp s; heartSenseAIState := heartSenseAIState s;
     alarmFeedbackLog := alarmFeedbackLog s;
     currentTargetHeartRate := currentTargetHeartRate s; lastBPUpdate := lastBPUpdate s;
     lastTempUpdate := lastTempUpdate s; lastRRUpdate := lastRRUpdate s;
     lastSpo2UpdateAttempt := lastSpo2UpdateAttempt s;
     nonNsrRhythmStartTime := nonNsrRhythmStartTime s; isLeadOff := isLeadOff s;
     spo2PulsePatternBuffer := spo2PulsePatternBuffer s; spo2PulseBufferIndex := v;
     spo2NextPulseDue := spo2NextPulseDue s;
     respirationCyclePosition := respirationCyclePosition s |}.

Definition set_spo2NextPulseDue (v : bool) (s : PatientSpecificSimData)
  : PatientSpecificSimData :=
  {| metrics := metrics s; ecgData := ecgData s; spo2WaveData := spo2WaveData s;
     respWaveData := respWaveData s; heartRateTrend := heartRateTrend s; alerts := alerts s;
     ecgPatternBuffer := ecgPatternBuffer s; ecgBufferIndex := ecgBufferIndex s;
     ecgCurrentTime := ecgCurrentTime s; wenckebachCycleBeat := wenckebachCycleBeat s;
     currentPRPoints := currentPRPoints s; mobitzBeatInCycle := mobitzBeatInCycle s;
     lastPWaveTime := lastPWaveTime s; lastQRSWaveTime := lastQRSWaveTime s;
     nextRRIntervalPoints := nextRRIntervalPoints s;
     pWaveCyclePosition := pWaveCyclePosition s;
     acknowledgedAlertIds := acknowledgedAlertIds s; loggedVitals := loggedVitals s;
     timeSinceLastCardiacEventMs := timeSinceLastCardiacEventMs s;
     lastBeatTimestamp := lastBeatTimestamp s; heartSenseAIState := heartSenseAIState s;
     alarmFeedbackLog := alarmFeedbackLog s;
     currentTargetHeartRate := currentTargetHeartRate s; lastBPUpdate := lastBPUpdate s;
     lastTempUpdate := lastTempUpdate s; lastRRUpdate := lastRRUpdate s;
     lastSpo2UpdateAttempt := lastSpo2UpdateAttempt s;
     nonNsrRhythmStartTime := nonNsrRhythmStartTime s; isLeadOff := isLeadOff s;
     spo2PulsePatternBuffer := spo2PulsePatternBuffer s;
     spo2PulseBufferIndex := spo2PulseBufferIndex s; spo2NextPulseDue := v;
     respirationCyclePosition := respirationCyclePosition s |}.

Definition set_respirationCyclePosition (v : Q) (s : PatientSpecificSimData)
  : PatientSpecificSimData :=
  {| metrics := metrics s; ecgData := ecgData s; spo2WaveData := spo2WaveData s;
     respWaveData := respWaveData s; heartRateTrend := heartRateTrend s; alerts := alerts s;
     ecgPatternBuffer := ecgPatternBuffer s; ecgBufferIndex := ecgBufferIndex s;
     ecgCurrentTime := ecgCurrentTime s; wenckebachCycleBeat := wenckebachCycleBeat s;
     currentPRPoints := currentPRPoints s; mobitzBeatInCycle := mobitzBeatInCycle s;
     lastPWaveTime := lastPWaveTime s; lastQRSWaveTime := lastQRSWaveTime s;
     nextRRIntervalPoints := nextRRIntervalPoints s;
     pWaveCyclePosition := pWaveCyclePosition s;
     acknowledgedAlertIds := acknowledgedAlertIds s; loggedVitals := loggedVitals s;
     timeSinceLastCardiacEventMs := timeSinceLastCardiacEventMs s;
     lastBeatTimestamp := lastBeatTimestamp s; heartSenseAIState := heartSenseAIState s;
     alarmFeedbackLog := alarmFeedbackLog s;
     currentTargetHeartRate := currentTargetHeartRate s; lastBPUpdate := lastBPUpdate s;
     lastTempUpdate := lastTempUpdate s; lastRRUpdate := lastRRUpdate s;
     lastSpo2UpdateAttempt := lastSpo2UpdateAttempt s;
     nonNsrRhythmStartTime := nonNsrRhythmStartTime s; isLeadOff := isLeadOff s;
     spo2PulsePatternBuffer := spo2PulsePatternBuffer s;
     spo2PulseBufferIndex := spo2PulseBufferIndex s; spo2NextPulseDue := spo2NextPulseDue s;
     respirationCyclePosition := v |}.

Definition set_heartRate (v : Z) (m : CardiacMetrics) : CardiacMetrics :=
  {| heartRate := v; bloodPressure := bloodPressure m; spo2 := spo2 m;
     temperature := temperature m; respiratoryRate := respiratoryRate m |}.

Definition set_bloodPressure (v : BloodPressure) (m : CardiacMetrics) : CardiacMetrics :=
  {| heartRate := heartRate m; bloodPressure := v; spo2 := spo2 m;
     temperature := temperature m; respiratoryRate := respiratoryRate m |}.

Definition set_temperature (v : Q) (m : CardiacMetrics) : CardiacMetrics :=
  {| heartRate := heartRate m; bloodPressure := bloodPressure m; spo2 := spo2 m;
     temperature := v; respiratoryRate := respiratoryRate m |}.

Definition set_respiratoryRate (v : Z) (m : CardiacMetrics) : CardiacMetrics :=
  {| heartRate := heartRate m; bloodPressure := bloodPressure m; spo2 := spo2 m;
     temperature := temperature m; respiratoryRate := v |}.

Definition set_isLoading (v : bool) (a : HeartSenseAIState) : HeartSenseAIState :=
  {| riskScore := riskScore a; riskLevel := riskLevel a;
     predictionReasoning := predictionReasoning a; confidenceScore := confidenceScore a;
     lastAnalyzedTimestamp := lastAnalyzedTimestamp a; isLoading := v; error := error a |}.

Definition set_activeRhythm (v : CardiacRhythm) (p : Patient) : Patient :=
  {| p_id := p_id p; p_name := p_name p; p_age := p_age p; p_gender := p_gender p;
     p_room := p_room p; p_notes := p_notes p; p_diagnosis := p_diagnosis p;
     personalizedThresholds := personalizedThresholds p; activeRhythm := v;
     pacerSettings := pacerSettings p; noiseSignatures := noiseSignatures p;
     codeStatus := codeStatus p; p_source := p_source p |}.

Definition set_pacerSettings (v : option PacerSettings) (p : Patient) : Patient :=
  {| p_id := p_id p; p_name := p_name p; p_age := p_age p; p_gender := p_gender p;
     p_room := p_room p; p_notes := p_notes p; p_diagnosis := p_diagnosis p;
     personalizedThresholds := personalizedThresholds p; activeRhythm := activeRhythm p;
     pacerSettings := v; noiseSignatures := noiseSignatures p;
     codeStatus := codeStatus p; p_source := p_source p |}.

Definition set_noiseSignatures (v : option (list string)) (p : Patient) : Patient :=
  {| p_id := p_id p; p_name := p_name p; p_age := p_age p; p_gender := p_gender p;
     p_room := p_room p; p_notes := p_notes p; p_diagnosis := p_diagnosis p;
     personalizedThresholds := personalizedThresholds p; activeRhythm := activeRhythm p;
     pacerSettings := pacerSettings p; noiseSignatures := v;
     codeStatus := codeStatus p; p_source := p_source p |}.

(** ** Constants ([constants.ts]) *)

Definition SIMULATION_VITALS_INTERVAL_MS : Z := 1000.
Definition SIMULATION_ECG_INTERVAL_MS : Z := 25.
Definition BP_UPDATE_INTERVAL_MS : Z := 5 * 60 * 1000.
Definition TEMP_UPDATE_INTERVAL_MS : Z := 10 * 60 * 1000.
Definition RR_UPDATE_INTERVAL_MS : Z := 2 * 60 * 1000.
Definition AUTO_LOG_VITALS_INTERVAL_SECONDS : Z := 60.
Definition HEARTSENSE_AI_ANALYSIS_INTERVAL_MS : Z := 10 * 60 * 1000.

Definition ECG_TIME_WINDOW_SECONDS : Z := 10.

(** [Math.ceil(ECG_TIME_WINDOW_SECONDS * (1000 / SIMULATION_ECG_INTERVAL_MS))] *)
Definition MAX_ECG_DATA_POINTS : nat :=
  Z.to_nat (Qceiling (inject_Z ECG_TIME_WINDOW_SECONDS
                      * (1000 / inject_Z SIMULATION_ECG_INTERVAL_MS))).

Definition ECG_BASE_PATTERN : list Q :=
  [0;0;0.1;0.2;0.1;0;-0.1;0.5;1.5;-0.8;0.2;0;0.1;0.2;0.3;0.2;0.1;0;0;0]%Q.
Definition ECG_VT_PATTERN : list Q :=
  [0.5;1.0;0.5;0;-0.5;-1.0;-0.5;0;0.6;1.1;0.6;0;-0.6;-1.1;-0.6;0]%Q.
Definition ECG_SINUS_TACHY_PATTERN : list Q := ECG_BASE_PATTERN.
Definition ECG_SINUS_BRADY_PATTERN : list Q := ECG_BASE_PATTERN.
Definition ECG_VF_PATTERN : list Q :=
  [0.3;-0.2;0.5;-0.4;0.2;-0.1;0.4;-0.3;0.1;0;0.2;-0.2;0.3;-0.1;0.1;-0.3]%Q.
Definition ECG_TDP_PATTERN : list Q :=
  [0.5;1;-0.5;-1.2;0.3;0.8;-0.2;-0.9;0.1;0.5;-0.1;-0.5;0.6;1.1;-0.6;-1.3]%Q.
Definition ECG_FIRST_DEGREE_AV_BLOCK_PATTERN : list Q := ECG_BASE_PATTERN.
Definition ECG_SECOND_DEGREE_AV_BLOCK_TYPE_I_PATTERN : list Q := ECG_BASE_PATTERN.
Definition ECG_SECOND_DEGREE_AV_BLOCK_TYPE_II_PATTERN : list Q := ECG_BASE_PATTERN.
Definition ECG_THIRD_DEGREE_AV_BLOCK_PATTERN : list Q := [-0.1;0.5;1.5;-0.8;0.2;0]%Q.
Definition ECG_P_WAVE_PATTERN : list Q := [0;0;0.1;0.2;0.1;0;0;0]%Q.
Definition ECG_ASYSTOLE_PATTERN : list Q := [0;0;0;0;0;0;0;0;0;0]%Q.
Definition ECG_AFIB_QRS_PATTERN : list Q := [0;-0.1;0.5;1.5;-0.8;0.2;0;0.1;0.2;0.1;0]%Q.
Definition ECG_AFIB_FIBRILLATORY_WAVE : list Q :=
  [0;0.05;-0.05;0.03;-0.03;0.06;-0.04;0.02;-0.02]%Q.
Definition ECG_AFLUTTER_PATTERN : list Q :=
  [0.0; 0.2; 0.4; 0.2; 0.0; -0.2; -0.4; -0.2;
   0.0; 0.2; 0.4; 0.2; 0.0; -0.2; -0.4; -0.2;
   0.0; 0.1; 0.8; 1.5; -0.6; 0.1; 0.0;
   0.0; 0.0; 0.0; 0.0]%Q.
Definition ECG_SVT_PATTERN : list Q := [0;0;0.5;1.5;-0.8;0.2;0;0.1;0.1;0;0]%Q.

Definition ECG_PACER_SPIKE_PATTERN : list Q := [0; 2.8; 0]%Q.
Definition ECG_PACED_QRS_PATTERN : list Q := [0; 0.2; 0.6; 1.0; 0.4; -0.3; -0.5; -0.2; 0]%Q.

Definition ECG_SPO2_BASELINE_VALUE : Q := 0.2.
Definition ECG_SPO2_PULSE_PATTERN : list Q :=
  [0.0; 0.4; 0.8; 1.0; 0.7; 0.5; 0.3; 0.15; 0.0]%Q.
Definition SPO2_PULSE_POINTS_DURATION : Z := 18.

(** A row of [RHYTHM_PARAMS].  The generator [simulatedHR] is random in the
    source ([generateRandomInRange(min, max)], an integer of [[min, max]], or
    a constant); the row keeps its range and the functions that call the
    generator take the drawn rate as an argument. *)
Record RhythmParameter := {
  displayName : string;
  basePattern : list Q;
  simulatedHR : Z * Z;
  prPoints : option Z;
  wenckebachCycleLength : option Z;
  blockConductionRatio : option (Z * Z);
  atrialRate : option Z;
  isLethal : bool;
  isIrregular : bool;
  qrsPattern : option (list Q);
  generatesQRS : bool
}.

Definition rhythm (name : string) (pat : list Q) (hr : Z * Z) (lethal qrs : bool)
  : RhythmParameter :=
  {| displayName := name; basePattern := pat; simulatedHR := hr; prPoints := None;
     wenckebachCycleLength := None; blockConductionRatio := None; atrialRate := None;
     isLethal := lethal; isIrregular := false; qrsPattern := None; generatesQRS := qrs |}.

Definition RHYTHM_PARAMS (r : CardiacRhythm) : RhythmParameter :=
  match r with
  | NSR => rhythm "Normal Sinus Rhythm" ECG_BASE_PATTERN (60, 100) false true
  | VT => rhythm "Ventricular Tachycardia" ECG_VT_PATTERN (180, 180) true true
  | SINUS_TACHYCARDIA => rhythm "Sinus Tachycardia" ECG_SINUS_TACHY_PATTERN (101, 150) false true
  | SINUS_BRADYCARDIA => rhythm "Sinus Bradycardia" ECG_SINUS_BRADY_PATTERN (40, 59) false true
  | VENTRICULAR_FIBRILLATION =>
      rhythm "Ventricular Fibrillation" ECG_VF_PATTERN (300, 300) true false
  | TORSADES_DE_POINTES => rhythm "Torsades de Pointes" ECG_TDP_PATTERN (200, 250) true true
  | FIRST_DEGREE_AV_BLOCK =>
      {| displayName := "1st Degree AV Block"; basePattern := ECG_FIRST_DEGREE_AV_BLOCK_PATTERN;
         simulatedHR := (60, 100); prPoints := Some 5; wenckebachCycleLength := None;
         blockConductionRatio := None; atrialRate := None; isLethal := false;
         isIrregular := false; qrsPattern := None; generatesQRS := true |}
  | SECOND_DEGREE_AV_BLOCK_TYPE_I =>
      {| displayName := "2nd Deg AV Block Type I";
         basePattern := ECG_SECOND_DEGREE_AV_BLOCK_TYPE_I_PATTERN;
         simulatedHR := (50, 90); prPoints := None; wenckebachCycleLength := Some 5;
         blockConductionRatio := None; atrialRate := None; isLethal := false;
         isIrregular := false; qrsPattern := None; generatesQRS := true |}
  | SECOND_DEGREE_AV_BLOCK_TYPE_II =>
      {| displayName := "2nd Deg AV Block Type II";
         basePattern := ECG_SECOND_DEGREE_AV_BLOCK_TYPE_II_PATTERN;
         simulatedHR := (40, 70); prPoints := None; wenckebachCycleLength := None;
         blockConductionRatio := Some (3, 1); atrialRate := None; isLethal := false;
         isIrregular := false; qrsPattern := None; generatesQRS := true |}
  | THIRD_DEGREE_AV_BLOCK =>
      {| displayName := "3rd Degree AV Block"; basePattern := ECG_THIRD_DEGREE_AV_BLOCK_PATTERN;
         simulatedHR := (40, 40); prPoints := None; wenckebachCycleLength := None;
         blockConductionRatio := None; atrialRate := Some 70; isLethal := false;
         isIrregular := false; qrsPattern := None; generatesQRS := true |}
  | ATRIAL_FIBRILLATION =>
      {| displayName := "Atrial Fibrillation"; basePattern := ECG_AFIB_FIBRILLATORY_WAVE;
         simulatedHR := (70, 160); prPoints := None; wenckebachCycleLength := None;
         blockConductionRatio := None; atrialRate := None; isLethal := false;
         isIrregular := true; qrsPattern := Some ECG_AFIB_QRS_PATTERN; generatesQRS := true |}
  | ATRIAL_FLUTTER => rhythm "Atrial Flutter" ECG_AFLUTTER_PATTERN (150, 150) false true
  | SVT => rhythm "Supraventricular Tachycardia" ECG_SVT_PATTERN (150, 220) false true
  | ASYSTOLE => rhythm "Asystole" ECG_ASYSTOLE_PATTERN (0, 0) true false
  end.

(** [hr] is a value the call [RHYTHM_PARAMS[r].simulatedHR()] can return. *)
Definition simulatedHR_returns (r : CardiacRhythm) (hr : Z) : Prop :=
  fst (simulatedHR (RHYTHM_PARAMS r)) <= hr <= snd (simulatedHR (RHYTHM_PARAMS r)).

Record ThresholdTable := {
  LOW_CRITICAL : option Z;
  LOW_WARNING : option Z;
  HIGH_WARNING : option Z;
  HIGH_CRITICAL : option Z
}.

(** The two rows of [ALERT_THRESHOLDS] that the hook reads.  The SpO2 row
    has no high thresholds. *)
Definition ALERT_THRESHOLDS_HEART_RATE : ThresholdTable :=
  {| LOW_CRITICAL := Some 40; LOW_WARNING := Some 50;
     HIGH_WARNING := Some 110; HIGH_CRITICAL := Some 130 |}.

Definition ALERT_THRESHOLDS_SPO2 : ThresholdTable :=
  {| LOW_CRITICAL := Some 88; LOW_WARNING := Some 92;
     HIGH_WARNING := None; HIGH_CRITICAL := None |}.

Definition INITIAL_HEARTSENSE_AI_STATE : HeartSenseAIState :=
  {| riskScore := 0; riskLevel := PENDING;
     predictionReasoning := "Awaiting initial analysis."; confidenceScore := Some 0;
     lastAnalyzedTimestamp := 0; isLoading := false; error := None |}.

(** [hr || RHYTHM_PARAMS.NSR.simulatedHR()]: a rate of 0 is falsy.  [nsrHR]
    and [rr] are the two random draws. *)
Definition getDefaultMetrics (hr nsrHR rr : Z) : CardiacMetrics :=
  {| heartRate := if decide (hr = 0) then nsrHR else hr;
     bloodPressure := {| systolic := 120; diastolic := 80 |};
     spo2 := 98; temperature := 37.0; respiratoryRate := rr |}.

Definition getInitialEcgData : list ECGDataPoint :=
  (fun i => {| time := Z.of_nat i; value := Exact 0 |}) <$> seq 0 MAX_ECG_DATA_POINTS.

Definition getInitialSpo2Data : list ECGDataPoint :=
  (fun i => {| time := Z.of_nat i; value := Exact ECG_SPO2_BASELINE_VALUE |})
    <$> seq 0 MAX_ECG_DATA_POINTS.

Definition getInitialRespData : list ECGDataPoint :=
  (fun i => {| time := Z.of_nat i; value := Exact 0 |}) <$> seq 0 MAX_ECG_DATA_POINTS.

(** ** [createInitialPatientSimData]

    [initialHR] is the draw of the patient's rhythm generator, [nsrHR] and
    [rr] the draws inside [getDefaultMetrics], [now] is [Date.now()]. *)
Definition createInitialPatientSimData (patient : Patient) (initialHR nsrHR rr now : Z)
  : PatientSpecificSimData :=
  {| metrics := getDefaultMetrics initialHR nsrHR rr;
     ecgData := getInitialEcgData;
     spo2WaveData := getInitialSpo2Data;
     respWaveData := getInitialRespData;
     heartRateTrend := [];
     alerts := [];
     ecgPatternBuffer := [];
     ecgBufferIndex := 0;
     ecgCurrentTime := 0;
     wenckebachCycleBeat := 0;
     currentPRPoints := 0;
     mobitzBeatInCycle := 0;
     lastPWaveTime := 0;
     lastQRSWaveTime := 0;
     nextRRIntervalPoints := Finite 0;
     pWaveCyclePosition := 0;
     acknowledgedAlertIds := ∅;
     loggedVitals := [];
     timeSinceLastCardiacEventMs := 0;
     lastBeatTimestamp := 0;
     heartSenseAIState := INITIAL_HEARTSENSE_AI_STATE;
     alarmFeedbackLog := [];
     currentTargetHeartRate := initialHR;
     lastBPUpdate := 0;
     lastTempUpdate := 0;
     lastRRUpdate := 0;
     lastSpo2UpdateAttempt := 0;
     nonNsrRhythmStartTime := if decide (activeRhythm patient = NSR) then None else Some now;
     isLeadOff := false;
     spo2PulsePatternBuffer := [];
     spo2PulseBufferIndex := 0;
     spo2NextPulseDue := false;
     respirationCyclePosition := 0 |}.

(** ** JavaScript arithmetic used by the loops *)

(** [1000 / SIMULATION_ECG_INTERVAL_MS], the samples per second. *)
Definition pointsPerSecond : Q := (1000 / inject_Z SIMULATION_ECG_INTERVAL_MS)%Q.

(** [x <= 0] on a number that may be [Infinity]. *)
Definition num_le0 (n : Num) : bool :=
  match n with Finite q => Qle_bool q 0 | Infinity => false end.

(** [x--]; [Infinity - 1] is [Infinity]. *)
Definition num_pred (n : Num) : Num :=
  match n with Finite q => Finite (q - 1)%Q | Infinity => Infinity end.

(** [x * k] for a positive finite [k]. *)
Definition num_scale (n : Num) (k : Q) : Num :=
  match n with Finite q => Finite (q * k)%Q | Infinity => Infinity end.

Definition Qtrunc (q : Q) : Z :=
  if Qle_bool 0 q then Qfloor q else Qceiling q.

(** [a % b]: the remainder has the sign of the dividend, and
    [a % Infinity] is [a]. *)
Definition num_rem (a : Q) (b : Num) : Q :=
  match b with
  | Finite q => (a - q * inject_Z (Qtrunc (a / q)))%Q
  | Infinity => a
  end.

(** [a / b]; [a / Infinity] is 0. *)
Definition num_div (a : Q) (b : Num) : Q :=
  match b with Finite q => (a / q)%Q | Infinity => 0%Q end.

(** [Math.round]. *)
Definition Math_round (q : Q) : Z := Qfloor (q + (1 # 2))%Q.

(** [[...xs.slice(1), x]] *)
Definition shiftAppend {A} (xs : list A) (x : A) : list A := drop 1 xs ++ [x].

(** [pattern[i] || 0] *)
Definition patternAt (pattern : list Q) (i : nat) : Q := nth i pattern 0%Q.

(** [(60 / newRate) * pointsPerSecond] when [newRate > 0], else [Infinity]. *)
Definition rrIntervalFor (newRate : Z) : Num :=
  if 0 <? newRate then Finite ((60 / inject_Z newRate) * pointsPerSecond)%Q else Infinity.

(** ** High-frequency loop: one patient, one tick

    The loop body assigns to the fields of [newSimData] block after block;
    each block is a function here, and the two branches compose them in the
    order of the source. *)

(** [respCyclePoints]: [respCycleSeconds * pointsPerSecond], where
    [respCycleSeconds] is [1 / respRateHz] for a positive rate and
    [Infinity] otherwise. *)
Definition respCyclePoints (s : PatientSpecificSimData) : Num :=
  let respRateHz := (inject_Z (respiratoryRate (metrics s)) / 60)%Q in
  let respCycleSeconds :=
    if Qlt_le_dec 0 respRateHz then Finite (1 / respRateHz)%Q else Infinity in
  num_scale respCycleSeconds pointsPerSecond.

(** The respiration block (the same text in both branches): advance the
    phase counter and append the sample. *)
Definition respPhase (s : PatientSpecificSimData) : PatientSpecificSimData :=
  let pos := num_rem (respirationCyclePosition s + 1)%Q (respCyclePoints s) in
  let respValue := RespSine (num_div pos (respCyclePoints s)) in
  let s := set_respirationCyclePosition pos s in
  set_respWaveData
    (shiftAppend (respWaveData s) {| time := ecgCurrentTime s; value := respValue |}) s.

(** [spo2PulseBufferIndex < spo2PulsePatternBuffer.length] *)
Definition spo2Walking (s : PatientSpecificSimData) : bool :=
  (spo2PulseBufferIndex s <? length (spo2PulsePatternBuffer s))%nat.

(** The local [spo2Value] after the [if]/[else] that both branches share. *)
Definition spo2Value (s : PatientSpecificSimData) : Amplitude :=
  if spo2Walking s then
    let pulseProgress := (inject_Z (Z.of_nat (spo2PulseBufferIndex s))
                          / inject_Z SPO2_PULSE_POINTS_DURATION)%Q in
    Spo2Pulse (patternAt (spo2PulsePatternBuffer s) (spo2PulseBufferIndex s))
              pulseProgress (spo2 (metrics s))
  else Exact ECG_SPO2_BASELINE_VALUE.

(** The cursor fields after the same [if]/[else]. *)
Definition spo2Advance (s : PatientSpecificSimData) : PatientSpecificSimData :=
  if spo2Walking s then set_spo2PulseBufferIndex (S (spo2PulseBufferIndex s)) s
  else set_spo2NextPulseDue false
         (set_spo2PulsePatternBuffer [] (set_spo2PulseBufferIndex 0%nat s)).

(** The SpO2 block: walk the pulse pattern and append the sample. *)
Definition spo2Phase (s : PatientSpecificSimData) : PatientSpecificSimData :=
  let v := spo2Value s in
  let s := spo2Advance s in
  set_spo2WaveData
    (shiftAppend (spo2WaveData s) {| time := ecgCurrentTime s; value := v |}) s.

(** The line of the normal branch that loads the pulse pattern:
    [if (spo2NextPulseDue && spo2PulseBufferIndex === 0)]. *)
Definition loadPulse (s : PatientSpecificSimData) : PatientSpecificSimData :=
  if spo2NextPulseDue s && bool_decide (spo2PulseBufferIndex s = 0%nat)
  then set_spo2PulsePatternBuffer ECG_SPO2_PULSE_PATTERN s else s.

(** The branch taken when [newSimData.isLeadOff] holds. *)
Definition ecgTickLeadOff (s : PatientSpecificSimData) : PatientSpecificSimData :=
  let s := set_metrics (set_heartRate 0 (metrics s)) s in
  let s := set_ecgData
             (shiftAppend (ecgData s) {| time := ecgCurrentTime s; value := Exact 0 |}) s in
  let s := respPhase s in
  let s := spo2Phase s in
  set_ecgCurrentTime (ecgCurrentTime s + 1) s.

(** [patient.pacerSettings || { mode: 'Off', rate: 70 }] *)
Definition pacerSettingsOf (patient : Patient) : PacerSettings :=
  default {| mode := Some Off; rate := Some 70 |} (pacerSettings patient).

(** [newSimData.nextRRIntervalPoints <= 0] *)
Definition nextBeatDue (s : PatientSpecificSimData) : bool :=
  num_le0 (nextRRIntervalPoints s).

(** [pacerOn && heartRate < pacerSettings.rate]: the rate that captures the
    beat, if any.  A comparison with an absent rate is false. *)
Definition pacerCapture (patient : Patient) (s : PatientSpecificSimData) : option Z :=
  let pacerSettings := pacerSettingsOf patient in
  let pacerOn := bool_decide (mode pacerSettings ≠ Some Off) in
  match rate pacerSettings with
  | Some r => if pacerOn && (heartRate (metrics s) <? r) then Some r else None
  | None => None
  end.

(** The flag [isPacedBeat] after the scheduling block. *)
Definition isPacedBeat (patient : Patient) (s : PatientSpecificSimData) : bool :=
  nextBeatDue s && bool_decide (is_Some (pacerCapture patient s)).

(** The beat scheduler: [if (nextRRIntervalPoints <= 0) { ... }] and the
    decrement that follows.  [drawnHR] is the result of
    [rhythmParams.simulatedHR()], used only when the generator is called. *)
Definition scheduleBeat (patient : Patient) (drawnHR : Z) (s : PatientSpecificSimData)
  : PatientSpecificSimData :=
  let s' :=
    if nextBeatDue s then
      let newRate := default drawnHR (pacerCapture patient s) in
      set_nextRRIntervalPoints (rrIntervalFor newRate) (set_currentTargetHeartRate newRate s)
    else s in
  set_nextRRIntervalPoints (num_pred (nextRRIntervalPoints s')) s'.

(** [now - lastPWaveTime > 60000 / rhythmParams.atrialRate!] *)
Definition pWaveElapsed (r : RhythmParameter) (now : Z) (s : PatientSpecificSimData) : bool :=
  match atrialRate r with
  | Some a => negb (Qle_bool (inject_Z (now - lastPWaveTime s)) (60000 / inject_Z a)%Q)
  | None => false
  end.

(** The local [currentPattern] after the pattern selection.  [due] and
    [paced] are the flags [nextBeatDue] and [isPacedBeat] of the scheduling
    block. *)
Definition currentPatternOf (patient : Patient) (due paced : bool)
    (s : PatientSpecificSimData) : list Q :=
  if (0 <? ecgBufferIndex s)%nat then ecgPatternBuffer s
  else if due then
    if paced then ECG_PACER_SPIKE_PATTERN ++ ECG_PACED_QRS_PATTERN
    else basePattern (RHYTHM_PARAMS (activeRhythm patient))
  else [].

(** The state after the pattern selection. *)
Definition selectPattern (patient : Patient) (now : Z) (due paced : bool)
    (s : PatientSpecificSimData) : PatientSpecificSimData :=
  let rhythmParams := RHYTHM_PARAMS (activeRhythm patient) in
  if (0 <? ecgBufferIndex s)%nat then s
  else if due then
    let s' :=
      if decide (activeRhythm patient = THIRD_DEGREE_AV_BLOCK) then
        if pWaveElapsed rhythmParams now s
        then set_lastPWaveTime now (set_ecgPatternBuffer ECG_P_WAVE_PATTERN s)
        else s
      else s in
    let s' := set_ecgPatternBuffer (currentPatternOf patient due paced s) s' in
    let s' := set_lastBeatTimestamp now s' in
    set_spo2NextPulseDue (generatesQRS rhythmParams || paced) s'
  else s.

(** Sample emission: append [currentPattern[patternIndex] || 0], advance the
    sample counter and the cursor, clear the buffer when the cursor is back
    at 0. *)
Definition emitEcgSample (currentPattern : list Q) (patternIndex : nat)
    (s : PatientSpecificSimData) : PatientSpecificSimData :=
  let newValue := patternAt currentPattern patternIndex in
  let s := set_ecgData
             (shiftAppend (ecgData s) {| time := ecgCurrentTime s; value := Exact newValue |}) s in
  let s := set_ecgCurrentTime (ecgCurrentTime s + 1) s in
  let s := set_ecgBufferIndex
             (if Z.of_nat (length currentPattern) - 1 <=? Z.of_nat patternIndex
              then 0%nat else S patternIndex) s in
  if decide (ecgBufferIndex s = 0%nat) then set_ecgPatternBuffer [] s else s.

(** The rest of the loop body for a patient whose lead is on. *)
Definition ecgTickNormal (patient : Patient) (now drawnHR : Z) (s : PatientSpecificSimData)
  : PatientSpecificSimData :=
  let due := nextBeatDue s in
  let paced := isPacedBeat patient s in
  let s := scheduleBeat patient drawnHR s in
  let patternIndex := ecgBufferIndex s in
  let currentPattern := currentPatternOf patient due paced s in
  let s := selectPattern patient now due paced s in
  let s := emitEcgSample currentPattern patternIndex s in
  let s := loadPulse s in
  let s := spo2Phase s in
  respPhase s.

(** One iteration of the [for] loop over [prevMap.entries()] for an entry
    whose patient was found. *)
Definition ecgTickPatient (patient : Patient) (now drawnHR : Z) (s : PatientSpecificSimData)
  : PatientSpecificSimData :=
  if isLeadOff s then ecgTickLeadOff s else ecgTickNormal patient now drawnHR s.

(** [patients.find(p => p.id === patientId)] *)
Definition findPatient (ps : list Patient) (patientId : string) : option Patient :=
  List.find (fun p => bool_decide (p_id p = patientId)) ps.

(** The inputs of one high-frequency tick that come from outside the state:
    [Date.now()] and the rate generator's result, per patient id. *)
Record EcgInputs := { ecg_now : Z; ecg_drawnHR : Z }.

(** The updater of the high-frequency interval: a new map with an entry for
    every entry of [prevMap] whose patient exists ([continue] otherwise). *)
Definition ecgTick (ps : list Patient) (inp : string -> EcgInputs)
    (prevMap : gmap string PatientSpecificSimData) : gmap string PatientSpecificSimData :=
  map_imap (fun patientId currentSimData =>
              match findPatient ps patientId with
              | None => None
              | Some patient =>
                  Some (ecgTickPatient patient (ecg_now (inp patientId))
                          (ecg_drawnHR (inp patientId)) currentSimData)
              end) prevMap.

(** ** Low-frequency loop: one patient, one tick *)

(** The last parameter of [checkAlert], ['low' | 'high']. *)
Inductive AlertType := low | high.

(** [a ?? b] *)
Definition nullish {A} (a b : option A) : option A :=
  match a with Some v => Some v | None => b end.

(** The local [threshold] of [checkAlert]: [pt?.lowWarning ?? gt.LOW_WARNING]
    and its three siblings.  It is absent when neither the patient nor the
    table has the entry. *)
Definition alertThreshold (gt : ThresholdTable) (pt : option MetricThresholds)
    (sev : AlertSeverity) (type : AlertType) : option Z :=
  match type, sev with
  | low, WARNING => nullish (pt ≫= lowWarning) (LOW_WARNING gt)
  | low, CRITICAL => nullish (pt ≫= lowCritical) (LOW_CRITICAL gt)
  | high, WARNING => nullish (pt ≫= highWarning) (HIGH_WARNING gt)
  | high, CRITICAL => nullish (pt ≫= highCritical) (HIGH_CRITICAL gt)
  end.

(** [type === 'low' ? value < threshold : value > threshold]; a comparison
    with [undefined] is false. *)
Definition isTriggered (value : Z) (threshold : option Z) (type : AlertType) : bool :=
  match threshold with
  | Some t => match type with low => value <? t | high => t <? value end
  | None => false
  end.

(** The template string [`${metric} ${type === 'low' ? 'Low' : 'High'}: ${value}`]. *)
Definition alertMessage (metricName : string) (type : AlertType) (value : Z) : string :=
  metricName +:+ " " +:+ (match type with low => "Low" | high => "High" end)
    +:+ ": " +:+ pretty value.

(** [newAlerts.some(a => a.message === message && a.severity === severity)] *)
Definition hasAlert (msg : string) (sev : AlertSeverity) (newAlerts : list Alert) : bool :=
  existsb (fun a => bool_decide (message a = msg) && bool_decide (severity a = sev)) newAlerts.

(** [checkAlert]; the closure variable [newAlerts] is threaded through, [uid]
    is the result of [generateUniqueId()] and [date] of [new Date()]. *)
Definition checkAlert (uid : string) (date : Z) (metricName : string) (value : Z)
    (thresholds : ThresholdTable) (personalized : option MetricThresholds)
    (sev : AlertSeverity) (type : AlertType) (newAlerts : list Alert) : list Alert :=
  let threshold := alertThreshold thresholds personalized sev type in
  if isTriggered value threshold type then
    let msg := alertMessage metricName type value in
    if hasAlert msg sev newAlerts then newAlerts
    else newAlerts ++ [{| a_id := uid; message := msg; severity := sev;
                          timestamp := date; metric := metricName |}]
  else newAlerts.

(** What one low-frequency tick draws for one patient: the random deltas,
    the identifiers of the six [checkAlert] calls and their creation date. *)
Record VitalsInputs := {
  bpSystolicDelta : Z;
  bpDiastolicDelta : Z;
  tempDelta : Q;
  rrDelta : Z;
  alertIds : nat -> string;
  alertDate : Z
}.

(** [hr + Math.sign(hrDiff) * Math.min(Math.abs(hrDiff), 2)] *)
Definition convergeHeartRate (target hr : Z) : Z :=
  let hrDiff := target - hr in
  hr + Z.sgn hrDiff * Z.min (Z.abs hrDiff) 2.

(** The three gates [now - (lastXUpdate || 0) > X_UPDATE_INTERVAL_MS]. *)
Definition bpUpdateDue (now : Z) (s : PatientSpecificSimData) : bool :=
  BP_UPDATE_INTERVAL_MS <? now - lastBPUpdate s.
Definition tempUpdateDue (now : Z) (s : PatientSpecificSimData) : bool :=
  TEMP_UPDATE_INTERVAL_MS <? now - lastTempUpdate s.
Definition rrUpdateDue (now : Z) (s : PatientSpecificSimData) : bool :=
  RR_UPDATE_INTERVAL_MS <? now - lastRRUpdate s.

(** The local [newMetrics] when it is stored back: heart-rate convergence,
    the three gated drifts, the lethal override. *)
Definition evolveMetrics (patient : Patient) (now : Z) (inp : VitalsInputs)
    (s : PatientSpecificSimData) : CardiacMetrics :=
  let newMetrics := metrics s in
  let newMetrics :=
    set_heartRate (convergeHeartRate (currentTargetHeartRate s) (heartRate newMetrics))
      newMetrics in
  let newMetrics :=
    if bpUpdateDue now s then
      set_bloodPressure
        {| systolic := systolic (bloodPressure newMetrics) + bpSystolicDelta inp;
           diastolic := diastolic (bloodPressure newMetrics) + bpDiastolicDelta inp |}
        newMetrics
    else newMetrics in
  let newMetrics :=
    if tempUpdateDue now s
    then set_temperature (temperature newMetrics + tempDelta inp)%Q newMetrics
    else newMetrics in
  let newMetrics :=
    if rrUpdateDue now s then
      let newRR := respiratoryRate newMetrics + rrDelta inp in
      set_respiratoryRate (Z.max 8 (Z.min 35 newRR)) newMetrics
    else newMetrics in
  if isLethal (RHYTHM_PARAMS (activeRhythm patient)) then
    {| heartRate := heartRate newMetrics;
       bloodPressure := {| systolic := 0; diastolic := 0 |};
       spo2 := 0; temperature := temperature newMetrics;
       respiratoryRate := 0 |}
  else newMetrics.

(** The assignments [newSimData.lastXUpdate = now] of the gates that fired. *)
Definition stampUpdates (now : Z) (s : PatientSpecificSimData) : PatientSpecificSimData :=
  let s' := if bpUpdateDue now s then set_lastBPUpdate now s else s in
  let s' := if tempUpdateDue now s then set_lastTempUpdate now s' else s' in
  if rrUpdateDue now s then set_lastRRUpdate now s' else s'.

(** The six [checkAlert] calls on [newAlerts]. *)
Definition evaluateAlerts (patient : Patient) (inp : VitalsInputs)
    (newMetrics : CardiacMetrics) (newAlerts : list Alert) : list Alert :=
  let hrT := personalizedThresholds patient ≫= pt_heartRate in
  let spT := personalizedThresholds patient ≫= pt_spo2 in
  let hr := heartRate newMetrics in
  let date := alertDate inp in
  let newAlerts := checkAlert (alertIds inp 0%nat) date "Heart Rate" hr
                     ALERT_THRESHOLDS_HEART_RATE hrT CRITICAL low newAlerts in
  let newAlerts := checkAlert (alertIds inp 1%nat) date "Heart Rate" hr
                     ALERT_THRESHOLDS_HEART_RATE hrT WARNING low newAlerts in
  let newAlerts := checkAlert (alertIds inp 2%nat) date "Heart Rate" hr
                     ALERT_THRESHOLDS_HEART_RATE hrT CRITICAL high newAlerts in
  let newAlerts := checkAlert (alertIds inp 3%nat) date "Heart Rate" hr
                     ALERT_THRESHOLDS_HEART_RATE hrT WARNING high newAlerts in
  let newAlerts := checkAlert (alertIds inp 4%nat) date "SpO₂" (spo2 newMetrics)
                     ALERT_THRESHOLDS_SPO2 spT CRITICAL low newAlerts in
  checkAlert (alertIds inp 5%nat) date "SpO₂" (spo2 newMetrics)
    ALERT_THRESHOLDS_SPO2 spT WARNING low newAlerts.

(** The same six calls as data: metric name, value, table, overrides,
    severity and direction, in the order of the source. *)
Record AlertCheck := {
  c_metric : string;
  c_value : Z;
  c_thresholds : ThresholdTable;
  c_personalized : option MetricThresholds;
  c_severity : AlertSeverity;
  c_type : AlertType
}.

Definition alertChecks (patient : Patient) (newMetrics : CardiacMetrics) : list AlertCheck :=
  let hrT := personalizedThresholds patient ≫= pt_heartRate in
  let spT := personalizedThresholds patient ≫= pt_spo2 in
  let hr := heartRate newMetrics in
  let hrCheck := Build_AlertCheck "Heart Rate" hr ALERT_THRESHOLDS_HEART_RATE hrT in
  let spCheck := Build_AlertCheck "SpO₂" (spo2 newMetrics) ALERT_THRESHOLDS_SPO2 spT in
  [hrCheck CRITICAL low; hrCheck WARNING low; hrCheck CRITICAL high; hrCheck WARNING high;
   spCheck CRITICAL low; spCheck WARNING low].

Definition runCheck (uid : string) (date : Z) (c : AlertCheck) (newAlerts : list Alert)
  : list Alert :=
  checkAlert uid date (c_metric c) (c_value c) (c_thresholds c) (c_personalized c)
    (c_severity c) (c_type c) newAlerts.

(** Whether the check finds its threshold crossed. *)
Definition checkTriggered (c : AlertCheck) : bool :=
  isTriggered (c_value c)
    (alertThreshold (c_thresholds c) (c_personalized c) (c_severity c) (c_type c))
    (c_type c).

(** The message and severity under which the check raises its alert. *)
Definition checkKey (c : AlertCheck) : string * AlertSeverity :=
  (alertMessage (c_metric c) (c_type c) (c_value c), c_severity c).

(** The vitals log: append when empty or stale, keep at most 200 entries. *)
Definition logVitals (now : Z) (newMetrics : CardiacMetrics) (log : list LoggedVitalSign)
  : list LoggedVitalSign :=
  let stale :=
    match last log with
    | None => true
    | Some e => AUTO_LOG_VITALS_INTERVAL_SECONDS * 1000 <? now - lv_timestamp e
    end in
  if stale then
    let updatedVitals := log ++ [{| lv_timestamp := now; lv_metrics := newMetrics |}] in
    if (200 <? length updatedVitals)%nat then drop 1 updatedVitals else updatedVitals
  else log.

(** The body of the low-frequency loop for an entry whose patient was found. *)
Definition vitalsTickPatient (patient : Patient) (now : Z) (inp : VitalsInputs)
    (simData : PatientSpecificSimData) : PatientSpecificSimData :=
  let newMetrics := evolveMetrics patient now inp simData in
  let s := set_metrics newMetrics (stampUpdates now simData) in
  let s := set_alerts (evaluateAlerts patient inp newMetrics (alerts s)) s in
  set_loggedVitals (logVitals now newMetrics (loggedVitals s)) s.

(** [now - lastAnalyzedTimestamp > HEARTSENSE_AI_ANALYSIS_INTERVAL_MS]: the
    tick calls [runHeartSenseAIAnalysis(patient, newSimData)], whose state
    updaters are [analysisStarted], [analysisResolved] and
    [analysisRejected] below. *)
Definition analysisDue (now : Z) (s : PatientSpecificSimData) : bool :=
  HEARTSENSE_AI_ANALYSIS_INTERVAL_MS <? now - lastAnalyzedTimestamp (heartSenseAIState s).

(** The updater of the low-frequency interval: an entry whose patient is
    missing is copied as it is. *)
Definition vitalsTick (ps : list Patient) (now : Z) (inp : string -> VitalsInputs)
    (prevMap : gmap string PatientSpecificSimData) : gmap string PatientSpecificSimData :=
  map_imap (fun patientId simData =>
              match findPatient ps patientId with
              | None => Some simData
              | Some patient => Some (vitalsTickPatient patient now (inp patientId) simData)
              end) prevMap.

(** ** [runHeartSenseAIAnalysis]: its three state updaters *)

(** The first updater, queued unless [simData.heartSenseAIState.isLoading]:
    it stores the snapshot it was called with, marked as loading. *)
Definition analysisStarted (patient : Patient) (simData : PatientSpecificSimData)
    (prev : gmap string PatientSpecificSimData) : gmap string PatientSpecificSimData :=
  <[p_id patient := set_heartSenseAIState
                      (set_isLoading true (heartSenseAIState simData)) simData]> prev.

(** The updater run when the analysis resolves with [aiOutput]. *)
Definition analysisResolved (patient : Patient) (aiOutput : HeartSenseAIOutput) (now : Z)
    (prev : gmap string PatientSpecificSimData) : gmap string PatientSpecificSimData :=
  match prev !! p_id patient with
  | None => prev
  | Some currentSimData =>
      <[p_id patient :=
          set_heartSenseAIState
            {| riskScore := o_riskScore aiOutput; riskLevel := o_riskLevel aiOutput;
               predictionReasoning := o_predictionReasoning aiOutput;
               confidenceScore := o_confidenceScore aiOutput;
               lastAnalyzedTimestamp := now; isLoading := false; error := None |}
            currentSimData]> prev
  end.

(** The updater run in the [catch] block; [errMessage] is
    [(error as Error).message]. *)
Definition analysisRejected (patient : Patient) (errMessage : string) (now : Z)
    (prev : gmap string PatientSpecificSimData) : gmap string PatientSpecificSimData :=
  match prev !! p_id patient with
  | None => prev
  | Some currentSimData =>
      let errorMessage :=
        if decide (errMessage = "") then "Mock analysis failed." else errMessage in
      <[p_id patient :=
          set_heartSenseAIState
            {| riskScore := riskScore INITIAL_HEARTSENSE_AI_STATE;
               riskLevel := ERROR;
               predictionReasoning := "An error occurred during analysis.";
               confidenceScore := confidenceScore INITIAL_HEARTSENSE_AI_STATE;
               lastAnalyzedTimestamp := now; isLoading := false;
               error := Some errorMessage |}
            currentSimData]> prev
  end.

(** ** The operations returned by the hook *)

(** The fields a caller of [addPatient] supplies. *)
Record NewPatientData := {
  np_name : string;
  np_age : Z;
  np_gender : string;
  np_room : string;
  np_notes : option string;
  np_diagnosis : option string;
  np_codeStatus : option string
}.

(** [Partial<Patient>]: every field may be absent. *)
Record PatientPatch := {
  d_id : option string;
  d_name : option string;
  d_age : option Z;
  d_gender : option string;
  d_room : option string;
  d_notes : option string;
  d_diagnosis : option string;
  d_personalizedThresholds : option PersonalizedAlertThresholds;
  d_activeRhythm : option CardiacRhythm;
  d_pacerSettings : option PacerSettings;
  d_noiseSignatures : option (list string);
  d_codeStatus : option string;
  d_source : option string
}.

(** [{ ...p, ...details }] *)
Definition applyDetails (p : Patient) (details : PatientPatch) : Patient :=
  {| p_id := default (p_id p) (d_id details);
     p_name := default (p_name p) (d_name details);
     p_age := default (p_age p) (d_age details);
     p_gender := default (p_gender p) (d_gender details);
     p_room := default (p_room p) (d_room details);
     p_notes := nullish (d_notes details) (p_notes p);
     p_diagnosis := nullish (d_diagnosis details) (p_diagnosis p);
     personalizedThresholds :=
       nullish (d_personalizedThresholds details) (personalizedThresholds p);
     activeRhythm := default (activeRhythm p) (d_activeRhythm details);
     pacerSettings := nullish (d_pacerSettings details) (pacerSettings p);
     noiseSignatures := nullish (d_noiseSignatures details) (noiseSignatures p);
     codeStatus := nullish (d_codeStatus details) (codeStatus p);
     p_source := nullish (d_source details) (p_source p) |}.

(** [{ ...p.pacerSettings!, ...settings }] with [settings : Partial<PacerSettings>] *)
Definition mergePacerSettings (base : option PacerSettings) (settings : PacerSettings)
  : PacerSettings :=
  {| mode := nullish (mode settings) (base ≫= mode);
     rate := nullish (rate settings) (base ≫= rate) |}.

Definition set_patients (v : list Patient) (st : HookState) : HookState :=
  {| patients := v; selectedPatientId := selectedPatientId st;
     simulationDataMap := simulationDataMap st |}.

Definition set_selectedPatientId (v : option string) (st : HookState) : HookState :=
  {| patients := patients st; selectedPatientId := v;
     simulationDataMap := simulationDataMap st |}.

Definition set_simulationDataMap (v : gmap string PatientSpecificSimData) (st : HookState)
  : HookState :=
  {| patients := patients st; selectedPatientId := selectedPatientId st;
     simulationDataMap := v |}.

(** [prev.map(p => p.id === patientId ? f(p) : p)] *)
Definition updatePatient (patientId : string) (f : Patient -> Patient) (prev : list Patient)
  : list Patient :=
  (fun p => if decide (p_id p = patientId) then f p else p) <$> prev.

(** The shape shared by the updaters that read one entry of the map and
    write it back: [const simData = newMap.get(patientId); if (simData) { ...;
    newMap.set(patientId, newSimData) }]. *)
Definition updateSimData (patientId : string)
    (f : PatientSpecificSimData -> PatientSpecificSimData)
    (prev : gmap string PatientSpecificSimData) : gmap string PatientSpecificSimData :=
  match prev !! patientId with
  | Some simData => <[patientId := f simData]> prev
  | None => prev
  end.

(** [addPatient]; [now] is [Date.now()] in the id, the other numbers are the
    draws of [createInitialPatientSimData]. *)
Definition addPatient (newPatientData : NewPatientData) (source : string)
    (now initialHR nsrHR rr createdAt : Z) (st : HookState) : HookState :=
  let newPatient :=
    {| p_id := "PID" +:+ pretty now;
       p_name := np_name newPatientData; p_age := np_age newPatientData;
       p_gender := np_gender newPatientData; p_room := np_room newPatientData;
       p_notes := np_notes newPatientData; p_diagnosis := np_diagnosis newPatientData;
       personalizedThresholds := None;
       activeRhythm := NSR;
       pacerSettings := Some {| mode := Some Off; rate := Some 70 |};
       noiseSignatures := Some [];
       codeStatus := np_codeStatus newPatientData;
       p_source := Some source |} in
  let newSimData := createInitialPatientSimData newPatient initialHR nsrHR rr createdAt in
  {| patients := patients st ++ [newPatient];
     simulationDataMap := <[p_id newPatient := newSimData]> (simulationDataMap st);
     selectedPatientId := Some (p_id newPatient) |}.

(** [deletePatient]: the map updater, then the registry updater with the
    selection updater it queues. *)
Definition deletePatient (patientId : string) (st : HookState) : HookState :=
  let newMap := delete patientId (simulationDataMap st) in
  let newPatients := List.filter (fun p => negb (bool_decide (p_id p = patientId))) (patients st) in
  let newSelected :=
    if decide (selectedPatientId st = Some patientId) then
      match newPatients with
      | p :: _ => Some (p_id p)
      | [] => None
      end
    else selectedPatientId st in
  {| patients := newPatients; selectedPatientId := newSelected; simulationDataMap := newMap |}.

Definition selectPatient (patientId : string) (st : HookState) : HookState :=
  set_selectedPatientId (Some patientId) st.

Definition updatePatientDetails (patientId : string) (details : PatientPatch)
    (st : HookState) : HookState :=
  set_patients (updatePatient patientId (fun p => applyDetails p details) (patients st)) st.

(** [setPatientRhythm]; [drawnHR] is [RHYTHM_PARAMS[rhythm].simulatedHR()],
    called only when the entry exists. *)
Definition setPatientRhythm (patientId : string) (rhythm : CardiacRhythm) (drawnHR : Z)
    (st : HookState) : HookState :=
  {| patients := updatePatient patientId (set_activeRhythm rhythm) (patients st);
     selectedPatientId := selectedPatientId st;
     simulationDataMap :=
       updateSimData patientId (set_currentTargetHeartRate drawnHR) (simulationDataMap st) |}.

(** [!alertTypeToAcknowledge || alert.severity === alertTypeToAcknowledge] *)
Definition matchesSeverity (filter : option AlertSeverity) (a : Alert) : bool :=
  match filter with
  | None => true
  | Some sev => bool_decide (severity a = sev)
  end.

(** The body of [acknowledgePatientAlerts] on the entry it found. *)
Definition acknowledgeOn (alertTypeToAcknowledge : option AlertSeverity)
    (simData : PatientSpecificSimData) : PatientSpecificSimData :=
  let newAcknowledged :=
    foldl (fun acc alert =>
             if matchesSeverity alertTypeToAcknowledge alert
             then {[ a_id alert ]} ∪ acc else acc)
          (acknowledgedAlertIds simData) (alerts simData) in
  set_acknowledgedAlertIds newAcknowledged simData.

Definition acknowledgePatientAlerts (patientId : string)
    (alertTypeToAcknowledge : option AlertSeverity) (st : HookState) : HookState :=
  set_simulationDataMap
    (updateSimData patientId (acknowledgeOn alertTypeToAcknowledge) (simulationDataMap st)) st.

Definition updatePatientPacingSettings (patientId : string) (settings : PacerSettings)
    (st : HookState) : HookState :=
  set_patients
    (updatePatient patientId
       (fun p => set_pacerSettings (Some (mergePacerSettings (pacerSettings p) settings)) p)
       (patients st)) st.

Definition updatePatientNoiseSignatures (patientId : string) (signatures : list string)
    (st : HookState) : HookState :=
  set_patients
    (updatePatient patientId (set_noiseSignatures (Some signatures)) (patients st)) st.

Definition LEAD_OFF_MESSAGE : string := "ECG Lead Off".

(** [a.message === 'ECG Lead Off'] *)
Definition isLeadOffAlert (a : Alert) : bool := bool_decide (message a = LEAD_OFF_MESSAGE).

(** The alert [toggleEcgLeadOff] pushes; [uid] and [date] are
    [generateUniqueId()] and [new Date()]. *)
Definition leadOffAlert (uid : string) (date : Z) : Alert :=
  {| a_id := uid; message := LEAD_OFF_MESSAGE; severity := CRITICAL;
     timestamp := date; metric := "ECG" |}.

(** [alerts.filter(a => a.message !== 'ECG Lead Off')] *)
Definition withoutLeadOffAlert (l : list Alert) : list Alert :=
  List.filter (fun a => negb (isLeadOffAlert a)) l.

(** What [provideAlarmFeedback] draws for the [i]-th alert it handles. *)
Record FeedbackInputs := { fb_id : nat -> string; fb_now : nat -> Z }.

(** The alerts [provideAlarmFeedback] handles: those of the given severity
    that are not acknowledged yet. *)
Definition unacknowledgedOf (alertSeverity : AlertSeverity) (simData : PatientSpecificSimData)
  : list Alert :=
  List.filter (fun a => bool_decide (severity a = alertSeverity)
                        && negb (bool_decide (a_id a ∈ acknowledgedAlertIds simData)))
              (alerts simData).

(** The body of [provideAlarmFeedback] on the entry it found. *)
Definition provideAlarmFeedbackOn (patientId : string) (feedbackType : AlarmFeedbackType)
    (alertSeverity : AlertSeverity) (inp : FeedbackInputs)
    (simData : PatientSpecificSimData) : PatientSpecificSimData :=
  let unacknowledgedAlerts := unacknowledgedOf alertSeverity simData in
  let shouldReconnectLead := existsb isLeadOffAlert unacknowledgedAlerts in
  let newAlarmFeedbackLog :=
    alarmFeedbackLog simData ++
    imap (fun i alert =>
            {| f_id := fb_id inp i; f_patientId := patientId;
               alertSnapshot := {| as_message := message alert; as_severity := severity alert;
                                   as_metric := metric alert;
                                   originalTimestamp := timestamp alert |};
               feedback := feedbackType; feedbackTimestamp := fb_now inp i |})
         unacknowledgedAlerts in
  let newAcknowledgedAlertIds :=
    foldl (fun acc alert => {[ a_id alert ]} ∪ acc)
          (acknowledgedAlertIds simData) unacknowledgedAlerts in
  let newSimData :=
    set_acknowledgedAlertIds newAcknowledgedAlertIds
      (set_alarmFeedbackLog newAlarmFeedbackLog simData) in
  if shouldReconnectLead then
    set_alerts (withoutLeadOffAlert (alerts newSimData)) (set_isLeadOff false newSimData)
  else newSimData.

Definition provideAlarmFeedback (patientId : string) (feedbackType : AlarmFeedbackType)
    (alertSeverity : AlertSeverity) (inp : FeedbackInputs) (st : HookState) : HookState :=
  set_simulationDataMap
    (updateSimData patientId
       (provideAlarmFeedbackOn patientId feedbackType alertSeverity inp)
       (simulationDataMap st)) st.

(** The body of [toggleEcgLeadOff] on the entry it found. *)
Definition toggleEcgLeadOffOn (uid : string) (date : Z) (simData : PatientSpecificSimData)
  : PatientSpecificSimData :=
  let newIsLeadOff := negb (isLeadOff simData) in
  let newAlerts := alerts simData in
  let newAlerts :=
    if newIsLeadOff then
      if existsb isLeadOffAlert newAlerts
      then newAlerts
      else newAlerts ++ [leadOffAlert uid date]
    else withoutLeadOffAlert newAlerts in
  set_alerts newAlerts (set_isLeadOff newIsLeadOff simData).

Definition toggleEcgLeadOff (patientId : string) (uid : string) (date : Z)
    (st : HookState) : HookState :=
  set_simulationDataMap
    (updateSimData patientId (toggleEcgLeadOffOn uid date) (simulationDataMap st)) st.

(** ** Histories of one simulation entry

    Everything the hook does to the entry of one patient between its
    creation and its deletion, as a list of steps.

    The first updater of [runHeartSenseAIAnalysis] does not work on the
    current entry: it stores the snapshot the function was called with, the
    entry as the low-frequency tick that launched the analysis left it,
    marked as loading.  The updater is queued when that tick runs and is
    applied later, so whatever was done to the entry in between is undone by
    it.  A run of a history therefore carries, beside the current entry, the
    snapshots of the analyses that were launched and whose first updater has
    not run yet, oldest first (React applies queued updaters in the order in
    which they were queued). *)

Inductive EntryStep :=
| HighFrequencyTick (patient : Patient) (now drawnHR : Z)
| LowFrequencyTick (patient : Patient) (now : Z) (inp : VitalsInputs)
| RhythmSet (drawnHR : Z)
| Acknowledge (alertTypeToAcknowledge : option AlertSeverity)
| Feedback (patientId : string) (feedbackType : AlarmFeedbackType)
    (alertSeverity : AlertSeverity) (inp : FeedbackInputs)
| LeadToggle (uid : string) (date : Z)
| AnalysisWriteBack
| AnalysisDone (state : HeartSenseAIState).

(** [{ ...simData, heartSenseAIState: { ...simData.heartSenseAIState, isLoading: true } }] *)
Definition markLoading (simData : PatientSpecificSimData) : PatientSpecificSimData :=
  set_heartSenseAIState (set_isLoading true (heartSenseAIState simData)) simData.

(** What a step computes from the entry it is given.  For
    [AnalysisWriteBack] the entry given is the snapshot of the analysis, not
    the current entry: see [stepRun]. *)
Definition stepEntry (e : EntryStep) (s : PatientSpecificSimData) : PatientSpecificSimData :=
  match e with
  | HighFrequencyTick patient now drawnHR => ecgTickPatient patient now drawnHR s
  | LowFrequencyTick patient now inp => vitalsTickPatient patient now inp s
  | RhythmSet drawnHR => set_currentTargetHeartRate drawnHR s
  | Acknowledge filter => acknowledgeOn filter s
  | Feedback patientId feedbackType alertSeverity inp =>
      provideAlarmFeedbackOn patientId feedbackType alertSeverity inp s
  | LeadToggle uid date => toggleEcgLeadOffOn uid date s
  | AnalysisWriteBack => markLoading s
  | AnalysisDone state => set_heartSenseAIState state s
  end.

(** The entry of a patient in the course of a history, with the snapshots
    that wait to be written back. *)
Record EntryRun := {
  current : PatientSpecificSimData;
  launched : list PatientSpecificSimData
}.

(** [runHeartSenseAIAnalysis(patient, newSimData)] is called by the
    low-frequency tick when an analysis is due, and queues its first
    updater unless the snapshot is loading. *)
Definition launchesAnalysis (now : Z) (newSimData : PatientSpecificSimData) : bool :=
  analysisDue now newSimData && negb (isLoading (heartSenseAIState newSimData)).

(** One step of a run.  A low-frequency tick that launches an analysis adds
    the entry it produced to the snapshots.  [AnalysisWriteBack] is the first
    updater of the oldest analysis launched: the entry becomes its snapshot,
    marked as loading; without such an analysis there is no updater to
    run. *)
Definition stepRun (e : EntryStep) (r : EntryRun) : EntryRun :=
  match e with
  | LowFrequencyTick _ now _ =>
      let newSimData := stepEntry e (current r) in
      {| current := newSimData;
         launched := if launchesAnalysis now newSimData
                     then launched r ++ [newSimData] else launched r |}
  | AnalysisWriteBack =>
      match launched r with
      | simData :: rest => {| current := stepEntry e simData; launched := rest |}
      | [] => r
      end
  | _ => {| current := stepEntry e (current r); launched := launched r |}
  end.

(** The steps are applied from the head of the list, starting with no
    analysis launched. *)
Definition runEntry (history : list EntryStep) (s : PatientSpecificSimData)
  : PatientSpecificSimData :=
  current (foldl (fun r e => stepRun e r) {| current := s; launched := [] |} history).

(** The histories in which no snapshot is written back. *)
Definition isAnalysisWriteBack (e : EntryStep) : bool :=
  match e with AnalysisWriteBack => true | _ => false end.

Definition isHighFrequencyTick (e : EntryStep) : bool :=
  match e with HighFrequencyTick _ _ _ => true | _ => false end.

(** The number of high-frequency ticks of a history. *)
Definition tickCount (history : list EntryStep) : Z :=
  Z.of_nat (length (List.filter isHighFrequencyTick history)).

(** ** Vocabulary of the properties *)

(** Equality of numbers that may be [Infinity], up to the representation of
    the fraction. *)
Definition Num_eq (a b : Num) : Prop :=
  match a, b with
  | Finite x, Finite y => (x == y)%Q
  | Infinity, Infinity => True
  | _, _ => False
  end.

(** The de-duplication key of an alert. *)
Definition alertKey (a : Alert) : string * AlertSeverity := (message a, severity a).

(** How many alerts of a collection carry the key. *)
Definition countKey (k : string * AlertSeverity) (l : list Alert) : nat :=
  length (List.filter (fun a => bool_decide (alertKey a = k)) l).

(** The alerts of one (metric, severity, direction) condition, whatever the
    value in their message: those of that severity whose message starts
    with ["{metric} {Low|High}: "]. *)
Definition ofCondition (metricName : string) (sev : AlertSeverity) (type : AlertType)
    (a : Alert) : bool :=
  bool_decide (severity a = sev)
  && String.prefix (metricName +:+ " " +:+ (match type with low => "Low" | high => "High" end)
                      +:+ ": ") (message a).

(** The lead is off exactly when the lead-off alert is among the active
    alerts. *)
Definition leadOffConsistent (s : PatientSpecificSimData) : Prop :=
  isLeadOff s = existsb isLeadOffAlert (alerts s).

(** The index of the newest sample of a waveform buffer. *)
Definition newestTime (buffer : list ECGDataPoint) : option Z := time <$> last buffer.

(** The amplitude of the newest sample of a waveform buffer. *)
Definition newestValue (buffer : list ECGDataPoint) : option Amplitude := value <$> last buffer.

(** *** The rules as the specification words them *)

(** Selection after the selected patient is deleted, in the words of the
    specification: the patient now occupying the same list position, or the
    new last patient, or null if none remain. *)
Definition positionalSelection (patientId : string) (ps : list Patient) : option string :=
  let position :=
    match list_find (fun p => p_id p = patientId) ps with
    | Some (i, _) => i
    | None => 0%nat
    end in
  let remaining := List.filter (fun p => negb (bool_decide (p_id p = patientId))) ps in
  match remaining with
  | [] => None
  | _ => p_id <$> remaining !! Nat.min position (length remaining - 1)
  end.

(** The countdown in the words of the specification:
    [round((60 / targetRate) * samplesPerSecond)], or never for a rate of 0. *)
Definition roundedInterval (targetRate : Z) : Num :=
  if 0 <? targetRate
  then Finite (inject_Z (Math_round ((60 / inject_Z targetRate) * pointsPerSecond)%Q))
  else Infinity.

(** The threshold in the words of the specification: the personalized
    override for that severity and direction when present, otherwise the
    global default. *)
Definition effectiveThreshold (defaults : ThresholdTable) (overrides : option MetricThresholds)
    (sev : AlertSeverity) (type : AlertType) : option Z :=
  let override :=
    match overrides with
    | None => None
    | Some o =>
        match type, sev with
        | low, WARNING => lowWarning o
        | low, CRITICAL => lowCritical o
        | high, WARNING => highWarning o
        | high, CRITICAL => highCritical o
        end
    end in
  match override with
  | Some t => Some t
  | None =>
      match type, sev with
      | low, WARNING => LOW_WARNING defaults
      | low, CRITICAL => LOW_CRITICAL defaults
      | high, WARNING => HIGH_WARNING defaults
      | high, CRITICAL => HIGH_CRITICAL defaults
      end
  end.

(** ** Sample data

    Patients and histories on which the properties are evaluated. *)

Definition samplePatient (id : string) (r : CardiacRhythm) (pacer : PacerSettings)
    (thresholds : option PersonalizedAlertThresholds) : Patient :=
  {| p_id := id; p_name := "Sample " +:+ id; p_age := 68; p_gender := "Male";
     p_room := "ICU-305"; p_notes := None; p_diagnosis := None;
     personalizedThresholds := thresholds; activeRhythm := r;
     pacerSettings := Some pacer; noiseSignatures := Some []; codeStatus := None;
     p_source := None |}.

Definition pacerOff : PacerSettings := {| mode := Some Off; rate := Some 70 |}.
Definition pacerDemand (r : Z) : PacerSettings := {| mode := Some Demand; rate := Some r |}.

Definition patientA : Patient := samplePatient "PID00123" NSR pacerOff None.
Definition patientB : Patient := samplePatient "PID00124" NSR pacerOff None.
Definition patientC : Patient := samplePatient "PID00125" ATRIAL_FIBRILLATION (pacerDemand 60) None.

Definition sampleSimData (p : Patient) (hr : Z) : PatientSpecificSimData :=
  createInitialPatientSimData p hr 72 14 0.

(** Three patients, the second one selected. *)
Definition wardOfThree : HookState :=
  {| patients := [patientA; patientB; patientC];
     selectedPatientId := Some "PID00124";
     simulationDataMap :=
       <["PID00123" := sampleSimData patientA 72]>
         (<["PID00124" := sampleSimData patientB 80]>
            (<["PID00125" := sampleSimData patientC 90]> ∅)) |}.

Definition noDrift (now : Z) : VitalsInputs :=
  {| bpSystolicDelta := 0; bpDiastolicDelta := 0; tempDelta := 0; rrDelta := 0;
     alertIds := fun i => "alert-" +:+ pretty now +:+ "-" +:+ pretty i;
     alertDate := now |}.

(** Atrial flutter at its fixed rate of 150, pacer off: sixteen ticks after
    the entry is created the flutter pattern (27 samples) is still being
    walked when the countdown (16 samples) runs out. *)
Definition flutterPatient : Patient := samplePatient "PID00200" ATRIAL_FLUTTER pacerOff None.

Definition flutterMidBeat : PatientSpecificSimData :=
  runEntry (replicate 16 (HighFrequencyTick flutterPatient 0 150))
           (sampleSimData flutterPatient 150).

(** The same patient after the pacer has been set to demand mode at 160. *)
Definition flutterPaced : Patient := samplePatient "PID00200" ATRIAL_FLUTTER (pacerDemand 160) None.

(** Ventricular tachycardia, fixed rate 180. *)
Definition vtPatient : Patient := samplePatient "PID00300" VT pacerOff None.

(** Sinus bradycardia at 48 whose generator is asked again and answers 44. *)
Definition bradyPatient : Patient := samplePatient "PID00400" SINUS_BRADYCARDIA pacerOff None.

Definition bradySlowing : list EntryStep :=
  [RhythmSet 44;
   LowFrequencyTick bradyPatient 1000 (noDrift 1000);
   LowFrequencyTick bradyPatient 2000 (noDrift 2000)].

(** A tick of each loop, the second launching an analysis; one more
    high-frequency tick before the first updater of the analysis runs. *)
Definition writeBackHistory : list EntryStep :=
  [HighFrequencyTick patientA 25 72;
   LowFrequencyTick patientA 700000 (noDrift 700000);
   HighFrequencyTick patientA 700025 72;
   AnalysisWriteBack].

(** A monitored patient whose lead was taken off, then one tick of each loop. *)
Definition leadOffHistory : list EntryStep :=
  [LeadToggle "lead-1" 5;
   HighFrequencyTick patientA 25 72;
   LowFrequencyTick patientA 1000 (noDrift 1000)].

Definition leadOffState : PatientSpecificSimData :=
  runEntry leadOffHistory (sampleSimData patientA 72).

(** A patient with a personalized low-critical heart-rate threshold of 55. *)
Definition personalizedPatient : Patient :=
  samplePatient "PID00500" SINUS_BRADYCARDIA pacerOff
    (Some {| pt_heartRate := Some {| lowWarning := None; lowCritical := Some 55;
                                    highWarning := None; highCritical := None |};
             pt_bloodPressureSystolic := None; pt_bloodPressureDiastolic := None;
             pt_spo2 := None; pt_temperature := None; pt_respiratoryRate := None |}).

Definition noDrift_inputs (patientId : string) : VitalsInputs := noDrift 1000.

Definition sampleOutput : HeartSenseAIOutput :=
  {| o_riskScore := 12; o_riskLevel := STABLE;
     o_predictionReasoning := "Patient vitals are stable and within normal parameters.";
     o_confidenceScore := Some 90 |}.

(** * The rest of the hook and the components that read it

    The operations of the hook put together as sessions, the two effects
    that load and save its state, [mockRunHeartSenseAIAnalysis],
    [stretchPattern] of [constants.ts], and what [PatientRowDisplay.tsx] and
    [AlertAudioHandler.tsx] compute from an entry of the simulation map. *)

(** ** Sessions of the hook

    Everything that changes the state of the hook: the operations it
    returns, the updaters of the two intervals and the three updaters of an
    analysis.  The callbacks of the two intervals read the [patients] of the
    render that installed them: a tick carries that registry,
    [closurePatients].  It is the current one, or an older one when the
    callback fires after an operation has changed the registry and before
    the effect has installed the intervals of the new render. *)
Inductive HookOp :=
| OpAddPatient (newPatientData : NewPatientData) (source : string)
    (now initialHR nsrHR rr createdAt : Z)
| OpDeletePatient (patientId : string)
| OpSelectPatient (patientId : string)
| OpUpdatePatientDetails (patientId : string) (details : PatientPatch)
| OpSetPatientRhythm (patientId : string) (rhythm : CardiacRhythm) (drawnHR : Z)
| OpAcknowledgePatientAlerts (patientId : string) (alertTypeToAcknowledge : option AlertSeverity)
| OpUpdatePatientPacingSettings (patientId : string) (settings : PacerSettings)
| OpUpdatePatientNoiseSignatures (patientId : string) (signatures : list string)
| OpProvideAlarmFeedback (patientId : string) (feedbackType : AlarmFeedbackType)
    (alertSeverity : AlertSeverity) (inp : FeedbackInputs)
| OpToggleEcgLeadOff (patientId : string) (uid : string) (date : Z)
| OpEcgTick (closurePatients : list Patient) (inp : string -> EcgInputs)
| OpVitalsTick (closurePatients : list Patient) (now : Z) (inp : string -> VitalsInputs)
| OpAnalysisStarted (patient : Patient) (simData : PatientSpecificSimData)
| OpAnalysisResolved (patient : Patient) (aiOutput : HeartSenseAIOutput) (now : Z)
| OpAnalysisRejected (patient : Patient) (errMessage : string) (now : Z).

Definition applyOp (st : HookState) (op : HookOp) : HookState :=
  match op with
  | OpAddPatient newPatientData source now initialHR nsrHR rr createdAt =>
      addPatient newPatientData source now initialHR nsrHR rr createdAt st
  | OpDeletePatient patientId => deletePatient patientId st
  | OpSelectPatient patientId => selectPatient patientId st
  | OpUpdatePatientDetails patientId details => updatePatientDetails patientId details st
  | OpSetPatientRhythm patientId rhythm drawnHR => setPatientRhythm patientId rhythm drawnHR st
  | OpAcknowledgePatientAlerts patientId alertTypeToAcknowledge =>
      acknowledgePatientAlerts patientId alertTypeToAcknowledge st
  | OpUpdatePatientPacingSettings patientId settings =>
      updatePatientPacingSettings patientId settings st
  | OpUpdatePatientNoiseSignatures patientId signatures =>
      updatePatientNoiseSignatures patientId signatures st
  | OpProvideAlarmFeedback patientId feedbackType alertSeverity inp =>
      provideAlarmFeedback patientId feedbackType alertSeverity inp st
  | OpToggleEcgLeadOff patientId uid date => toggleEcgLeadOff patientId uid date st
  | OpEcgTick closurePatients inp =>
      set_simulationDataMap (ecgTick closurePatients inp (simulationDataMap st)) st
  | OpVitalsTick closurePatients now inp =>
      set_simulationDataMap (vitalsTick closurePatients now inp (simulationDataMap st)) st
  | OpAnalysisStarted patient simData =>
      set_simulationDataMap (analysisStarted patient simData (simulationDataMap st)) st
  | OpAnalysisResolved patient aiOutput now =>
      set_simulationDataMap (analysisResolved patient aiOutput now (simulationDataMap st)) st
  | OpAnalysisRejected patient errMessage now =>
      set_simulationDataMap (analysisRejected patient errMessage now (simulationDataMap st)) st
  end.

(** The operations are applied from the head of the list. *)
Definition runSession (ops : list HookOp) (st : HookState) : HookState :=
  foldl applyOp st ops.

(** The record [addPatient] builds from the caller's fields. *)
Definition newPatientOf (newPatientData : NewPatientData) (source : string) (now : Z) : Patient :=
  {| p_id := "PID" +:+ pretty now;
     p_name := np_name newPatientData; p_age := np_age newPatientData;
     p_gender := np_gender newPatientData; p_room := np_room newPatientData;
     p_notes := np_notes newPatientData; p_diagnosis := np_diagnosis newPatientData;
     personalizedThresholds := None;
     activeRhythm := NSR;
     pacerSettings := Some {| mode := Some Off; rate := Some 70 |};
     noiseSignatures := Some [];
     codeStatus := np_codeStatus newPatientData;
     p_source := Some source |}.

(** The record [updatePatientPacingSettings] puts in the place of [p]. *)
Definition withPacing (settings : PacerSettings) (p : Patient) : Patient :=
  set_pacerSettings (Some (mergePacerSettings (pacerSettings p) settings)) p.

(** ** Persistence

    The two effects that read and write [localStorage].  [JSON.stringify]
    followed by [JSON.parse] gives back the stored object: what the hook
    stores is made of strings, finite numbers, arrays and objects whose
    absent fields stay absent. *)

Definition INITIAL_PATIENTS : list Patient :=
  [ {| p_id := "PID00123"; p_name := "John Doe"; p_age := 68; p_gender := "Male";
       p_room := "ICU-305";
       p_notes := Some "Patient stable, slight arrhythmia observed overnight.";
       p_diagnosis := Some "Atrial Fibrillation (Mild)";
       personalizedThresholds := None; activeRhythm := NSR;
       pacerSettings := Some {| mode := Some Off; rate := Some 70 |};
       noiseSignatures := Some []; codeStatus := Some "FULL_CODE"; p_source := None |};
    {| p_id := "PID00124"; p_name := "Jane Smith"; p_age := 74; p_gender := "Female";
       p_room := "ICU-306";
       p_notes := Some "Post-op recovery, vitals within expected range. Monitor for pain.";
       p_diagnosis := Some "Post-Coronary Artery Bypass Graft";
       personalizedThresholds := None; activeRhythm := NSR;
       pacerSettings := Some {| mode := Some Off; rate := Some 70 |};
       noiseSignatures := Some []; codeStatus := Some "DNR"; p_source := None |};
    {| p_id := "PID00125"; p_name := "Robert Jones"; p_age := 82; p_gender := "Male";
       p_room := "ICU-307";
       p_notes := Some "CHF Exacerbation. Monitoring fluid status closely.";
       p_diagnosis := Some "Congestive Heart Failure";
       personalizedThresholds := None; activeRhythm := ATRIAL_FIBRILLATION;
       pacerSettings := Some {| mode := Some Demand; rate := Some 60 |};
       noiseSignatures := Some []; codeStatus := Some "DNI"; p_source := None |} ].

(** [PersistentPatientData] as it comes back from storage: any field may be
    missing. *)
Record PersistentPatientData := {
  pp_loggedVitals : option (list LoggedVitalSign);
  pp_alarmFeedbackLog : option (list AlarmFeedbackEntry);
  pp_heartSenseAIState : option HeartSenseAIState
}.

(** The object stored under [cardiacMonitorData_${organizationName}]. *)
Record StoredData := {
  sd_patients : option (list Patient);
  sd_persistentPatientData : option (gmap string PersistentPatientData)
}.

(** What reading the key gives: nothing ([null] or the empty string), a
    text on which the [try] block throws ([JSON.parse] rejects it), or an
    object. *)
Inductive StorageRead := NoItem | Unparsable | Parsed (data : StoredData).

(** The draws of one call of [createInitialPatientSimData]. *)
Record InitialDraws := { init_hr : Z; init_nsrHR : Z; init_rr : Z; init_now : Z }.

Definition createdWith (p : Patient) (d : InitialDraws) : PatientSpecificSimData :=
  createInitialPatientSimData p (init_hr d) (init_nsrHR d) (init_rr d) (init_now d).

(** The body of the loop over [loadedPatients]. *)
Definition restoreEntry (persistentPatientData : option (gmap string PersistentPatientData))
    (p : Patient) (d : InitialDraws) : PatientSpecificSimData :=
  let persistentData :=
    default {| pp_loggedVitals := Some []; pp_alarmFeedbackLog := Some [];
               pp_heartSenseAIState := None |}
            (persistentPatientData ≫= (fun all => all !! p_id p)) in
  let simData := createdWith p d in
  let simData := set_loggedVitals (default [] (pp_loggedVitals persistentData)) simData in
  let simData :=
    set_alarmFeedbackLog (default [] (pp_alarmFeedbackLog persistentData)) simData in
  match pp_heartSenseAIState persistentData with
  | Some a =>
      set_heartSenseAIState
        {| riskScore := riskScore a; riskLevel := riskLevel a;
           predictionReasoning := predictionReasoning a;
           confidenceScore := confidenceScore a;
           lastAnalyzedTimestamp := lastAnalyzedTimestamp a;
           isLoading := false; error := None |} simData
  | None => simData
  end.

(** [for (const p of ps) newSimMap.set(p.id, entry(p))] on a new map. *)
Definition entriesFor (entry : Patient -> PatientSpecificSimData) (ps : list Patient)
  : gmap string PatientSpecificSimData :=
  foldl (fun newSimMap p => <[p_id p := entry p]> newSimMap) ∅ ps.

(** The effect that loads the data of an organization; [draws] gives the
    draws of the entry created for each patient id. *)
Definition loadData (organizationName : option string) (read : StorageRead)
    (draws : string -> InitialDraws) (st : HookState) : HookState :=
  match organizationName with
  | None => st
  | Some name =>
      if decide (name = "") then st
      else
        match read with
        | Parsed data =>
            let loadedPatients := default INITIAL_PATIENTS (sd_patients data) in
            {| patients := loadedPatients;
               simulationDataMap :=
                 entriesFor (fun p => restoreEntry (sd_persistentPatientData data) p
                                        (draws (p_id p))) loadedPatients;
               selectedPatientId :=
                 match loadedPatients with
                 | first :: _ =>
                     if existsb (fun p => bool_decide (Some (p_id p) = selectedPatientId st))
                                loadedPatients
                     then selectedPatientId st else Some (p_id first)
                 | [] => None
                 end |}
        | NoItem =>
            {| patients := INITIAL_PATIENTS;
               simulationDataMap :=
                 entriesFor (fun p => createdWith p (draws (p_id p))) INITIAL_PATIENTS;
               selectedPatientId :=
                 match INITIAL_PATIENTS with
                 | first :: _ => Some (p_id first)
                 | [] => selectedPatientId st
                 end |}
        | Unparsable => set_patients INITIAL_PATIENTS st
        end
  end.

(** The object the saving effect writes. *)
Definition saveData (st : HookState) : StoredData :=
  {| sd_patients := Some (patients st);
     sd_persistentPatientData :=
       Some ((fun simData =>
                {| pp_loggedVitals := Some (loggedVitals simData);
                   pp_alarmFeedbackLog := Some (alarmFeedbackLog simData);
                   pp_heartSenseAIState := Some (heartSenseAIState simData) |})
             <$> simulationDataMap st) |}.

(** The state of the hook before its first effect: the arguments of the
    three [useState] calls. *)
Definition initialHookState : HookState :=
  {| patients := []; selectedPatientId := None; simulationDataMap := ∅ |}.

(** ** [mockRunHeartSenseAIAnalysis] *)

Definition HEARTSENSE_LOGGED_VITALS_COUNT : Z := 20.

(** [s.includes(sub)] *)
Fixpoint includes (sub s : string) : bool :=
  String.prefix sub s
  || match s with
     | EmptyString => false
     | String _ rest => includes sub rest
     end.

(** The alerts whose id is not acknowledged. *)
Definition unacknowledgedAlertsOf (simData : PatientSpecificSimData) : list Alert :=
  List.filter (fun a => negb (bool_decide (a_id a ∈ acknowledgedAlertIds simData)))
              (alerts simData).

Definition isCritical (a : Alert) : bool := bool_decide (severity a = CRITICAL).
Definition isWarning (a : Alert) : bool := bool_decide (severity a = WARNING).

(** The value the function resolves with, after its simulated delay.
    [draw min max] is the result of [generateRandomInRange(min, max)]; no
    path through the function asks twice for the same range.  The two
    [find(...)!] calls sit in branches guarded by the matching [some(...)],
    so they find an alert. *)
Definition mockRunHeartSenseAIAnalysis (draw : Z -> Z -> Z) (patient : Patient)
    (simData : PatientSpecificSimData) : HeartSenseAIOutput :=
  let rhythmParams := RHYTHM_PARAMS (activeRhythm patient) in
  let stable :=
    (draw 5 20, STABLE, "Patient vitals are stable and within normal parameters.") in
  let unacknowledgedAlerts := unacknowledgedAlertsOf simData in
  let hasCriticalAlerts := existsb isCritical unacknowledgedAlerts in
  let hasWarningAlerts := existsb isWarning unacknowledgedAlerts in
  let assessment :=
    if isLethal rhythmParams then
      (draw 90 98, RISK_CRITICAL,
       "Lethal rhythm (" +:+ displayName rhythmParams
         +:+ ") detected, immediate intervention required.")
    else if hasCriticalAlerts then
      (draw 75 90, HIGH,
       match List.find isCritical unacknowledgedAlerts with
       | Some criticalAlert =>
           if bool_decide (p_diagnosis patient = Some "Congestive Heart Failure")
              && includes "SpO" (metric criticalAlert)
           then "High risk due to critical alert for " +:+ message criticalAlert
                  +:+ ", indicating potential CHF decompensation."
           else "High risk due to critical alert for " +:+ metric criticalAlert +:+ ": "
                  +:+ message criticalAlert +:+ "."
       | None => stable.2
       end)
    else if negb (bool_decide (activeRhythm patient = NSR))
            && negb (bool_decide (activeRhythm patient
                                  ∈ [SINUS_TACHYCARDIA; SINUS_BRADYCARDIA;
                                     FIRST_DEGREE_AV_BLOCK])) then
      (draw 50 75, MODERATE,
       "Moderate risk due to sustained abnormal rhythm (" +:+ displayName rhythmParams +:+ ")"
         +:+ (match p_diagnosis patient with
              | Some (String c rest) => " in patient with " +:+ String c rest
              | _ => EmptyString
              end) +:+ ".")
    else if hasWarningAlerts then
      (draw 30 50, MODERATE,
       match List.find isWarning unacknowledgedAlerts with
       | Some warningAlert => "Moderate risk due to warning for " +:+ metric warningAlert +:+ "."
       | None => stable.2
       end)
    else if bool_decide (activeRhythm patient = SINUS_TACHYCARDIA)
            || (100 <? heartRate (metrics simData)) then
      (draw 20 40, LOW, "Low risk, monitoring for sustained tachycardia is advised.")
    else if bool_decide (activeRhythm patient = SINUS_BRADYCARDIA)
            || (heartRate (metrics simData) <? 60) then
      (draw 20 40, LOW, "Low risk, monitoring for symptomatic bradycardia.")
    else stable in
  let assessment :=
    (* [loggedVitals.length < HEARTSENSE_LOGGED_VITALS_COUNT / 2] *)
    if 2 * Z.of_nat (length (loggedVitals simData)) <? HEARTSENSE_LOGGED_VITALS_COUNT
    then (0, INSUFFICIENT_DATA, "Insufficient historical data for a comprehensive analysis.")
    else assessment in
  {| o_riskScore := assessment.1.1; o_riskLevel := assessment.1.2;
     o_predictionReasoning := assessment.2; o_confidenceScore := Some (draw 85 98) |}.

(** ** [PatientRowDisplay]: what a row shows of an entry *)

(** The keys [critical], [warning] and [normal] of [STATUS_COLORS] and
    [HEART_ICON_COLORS]. *)
Inductive StatusKey := StatusCritical | StatusWarning | StatusNormal.

#[global] Instance StatusKey_eq_dec : EqDecision StatusKey.
Proof. solve_decision. Defined.

Definition ALERT_THRESHOLDS_BLOOD_PRESSURE_SYSTOLIC : ThresholdTable :=
  {| LOW_CRITICAL := Some 80; LOW_WARNING := Some 90;
     HIGH_WARNING := Some 160; HIGH_CRITICAL := Some 180 |}.

Definition ALERT_THRESHOLDS_BLOOD_PRESSURE_DIASTOLIC : ThresholdTable :=
  {| LOW_CRITICAL := Some 50; LOW_WARNING := Some 60;
     HIGH_WARNING := Some 100; HIGH_CRITICAL := Some 110 |}.

Definition ALERT_THRESHOLDS_RESPIRATORY_RATE : ThresholdTable :=
  {| LOW_CRITICAL := Some 8; LOW_WARNING := Some 10;
     HIGH_WARNING := Some 24; HIGH_CRITICAL := Some 30 |}.

(** [getThresholdForStatus], on the integer vitals (the temperature row
    compares rationals the same way); [gt] is the row
    [ALERT_THRESHOLDS[metricType]] and [pt] the personalized thresholds of
    the metric.  The two tests are
    [(lc !== undefined && metricValue < lc) || (hc !== undefined && metricValue > hc)]
    and the same on [lw] and [hw]. *)
Definition getThresholdForStatus (metricValue : Z) (gt : ThresholdTable)
    (pt : option MetricThresholds) : StatusKey :=
  let lc := nullish (pt ≫= lowCritical) (LOW_CRITICAL gt) in
  let lw := nullish (pt ≫= lowWarning) (LOW_WARNING gt) in
  let hc := nullish (pt ≫= highCritical) (HIGH_CRITICAL gt) in
  let hw := nullish (pt ≫= highWarning) (HIGH_WARNING gt) in
  let isBelow (t : option Z) :=
    match t with Some t => metricValue <? t | None => false end in
  let isAbove (t : option Z) :=
    match t with Some t => metricValue >? t | None => false end in
  if isBelow lc || isAbove hc then StatusCritical
  else if isBelow lw || isAbove hw then StatusWarning
  else StatusNormal.

(** [unacknowledgedCriticalAlerts.length > 0] and its sibling. *)
Definition hasUnacknowledgedCriticalAlert (simData : PatientSpecificSimData) : bool :=
  (0 <? length (List.filter isCritical (unacknowledgedAlertsOf simData)))%nat.

Definition hasUnacknowledgedWarningAlert (simData : PatientSpecificSimData) : bool :=
  (0 <? length (List.filter isWarning (unacknowledgedAlertsOf simData)))%nat.

(** The key of [HEART_ICON_COLORS] behind [heartFillClass]. *)
Definition heartFillClass (patient : Patient) (simData : PatientSpecificSimData) : StatusKey :=
  let isLethalRhythmActive := isLethal (RHYTHM_PARAMS (activeRhythm patient)) in
  if isLethalRhythmActive || hasUnacknowledgedCriticalAlert simData then StatusCritical
  else if hasUnacknowledgedWarningAlert simData then StatusWarning
  else StatusNormal.

(** ** [AlertAudioHandler] *)

(** The two refs of the component. *)
Record AudioRefs := {
  previousCriticalAlertIds : gset string;
  previousLeadOffAlertIds : gset string
}.

(** The ids the effect collects from one entry: its critical alerts that are
    not acknowledged, those of the lead when [leadOff] holds and the others
    when it does not. *)
Definition audibleIdsOf (leadOff : bool) (simData : PatientSpecificSimData) : gset string :=
  list_to_set
    (a_id <$> List.filter
                (fun alert =>
                   bool_decide (severity alert = CRITICAL)
                   && negb (bool_decide (a_id alert ∈ acknowledgedAlertIds simData))
                   && bool_decide (isLeadOffAlert alert = leadOff))
                (alerts simData)).

(** The sets [currentLeadOffAlertIds] ([leadOff] true) and
    [currentCriticalAlertIds] after the loop over the map. *)
Definition audibleIds (leadOff : bool) (m : gmap string PatientSpecificSimData) : gset string :=
  ⋃ (audibleIdsOf leadOff <$> (map_to_list m).*2).

(** What one run of the effect plays. *)
Record Sounds := { leadOffSound : bool; criticalAlertSound : bool }.

(** The effect: [for (const id of current) if (!previous.has(id)) ...] finds
    an id exactly when [current] is not included in [previous]. *)
Definition alertAudioEffect (refs : AudioRefs) (m : gmap string PatientSpecificSimData)
  : Sounds * AudioRefs :=
  let currentCriticalAlertIds := audibleIds false m in
  let currentLeadOffAlertIds := audibleIds true m in
  let hasNewLeadOffAlert :=
    negb (bool_decide (currentLeadOffAlertIds ⊆ previousLeadOffAlertIds refs)) in
  let hasNewCriticalAlert :=
    negb (bool_decide (currentCriticalAlertIds ⊆ previousCriticalAlertIds refs)) in
  ({| leadOffSound := hasNewLeadOffAlert; criticalAlertSound := hasNewCriticalAlert |},
   {| previousCriticalAlertIds := currentCriticalAlertIds;
      previousLeadOffAlertIds := currentLeadOffAlertIds |}).

(** ** [stretchPattern]

    [targetLength] is an integer.  [Array(targetLength)] throws a
    [RangeError] for a negative length: the result is [None].

    The stretching branch computes with doubles, as the source does:
    [stretchFactor] is the double quotient and [Math.round] is taken of the
    double product, which for some lengths is not the rounding of the exact
    product (14 samples stretched to 61: the seventh mark is 30, the exact
    product 30.5 would give 31).  Doubles are the kernel's binary64 floats.
    The inner loop
    [for (j = 0; j < numRepeats && stretched.length < targetLength; j++)]
    pushes [min(numRepeats, targetLength - stretched.length)] copies, or none
    when that is not positive.

    In the compressing branch [i * pattern.length] and [targetLength] are
    integers, and for [pattern.length * targetLength <= 2^53] the double
    quotient has the floor of the exact one, which lies within the pattern:
    the index is the integer quotient and the default of [nth] is never
    used. *)





(** ** Vocabulary of the further properties *)

(** The ids of the registry. *)
Definition registeredIds (st : HookState) : gset string :=
  list_to_set (p_id <$> patients st).

(** The simulation map holds an entry for exactly the registered ids. *)
Definition entriesMatchRegistry (st : HookState) : Prop :=
  dom (simulationDataMap st) = registeredIds st.

(** The operations that keep the ids of the registry in step with the keys
    of the simulation map.  Two uses of the hook do not: a detail update
    whose [details] carry another id than [patientId] (the form of [App.tsx]
    passes the id of the record it edits), and the first updater of an
    analysis for a patient who is no longer registered. *)
Definition keepsIds (st : HookState) (op : HookOp) : bool :=
  match op with
  | OpUpdatePatientDetails patientId details =>
      bool_decide (d_id details = None ∨ d_id details = Some patientId)
  | OpAnalysisStarted patient _ => bool_decide (p_id patient ∈ registeredIds st)
  | _ => true
  end.

(** A high-frequency tick whose callback knows every registered patient:
    the callback of the current render, or an older one when no patient was
    added since.  (The high-frequency loop drops the entries of the patients
    its callback does not know; the low-frequency loop keeps them.) *)
Definition seesRegistry (st : HookState) (op : HookOp) : bool :=
  match op with
  | OpEcgTick closurePatients _ =>
      bool_decide (registeredIds st ⊆ list_to_set (p_id <$> closurePatients))
  | _ => true
  end.

(** Every operation of the session keeps the ids and the entries, each in
    the state it is applied to. *)
Fixpoint sessionKeepsEntries (ops : list HookOp) (st : HookState) : bool :=
  match ops with
  | [] => true
  | op :: rest =>
      keepsIds st op && seesRegistry st op && sessionKeepsEntries rest (applyOp st op)
  end.

(** The selection is empty or names a registered patient. *)
Definition selectionRegistered (st : HookState) : Prop :=
  match selectedPatientId st with
  | Some patientId => patientId ∈ registeredIds st
  | None => True
  end.

(** [keepsIds], and a selection made among the registered patients, as the
    rows of [App.tsx] make it. *)
Definition keepsSelection (st : HookState) (op : HookOp) : bool :=
  keepsIds st op
  && match op with
     | OpSelectPatient patientId => bool_decide (patientId ∈ registeredIds st)
     | _ => true
     end.

Fixpoint sessionKeepsSelection (ops : list HookOp) (st : HookState) : bool :=
  match ops with
  | [] => true
  | op :: rest => keepsSelection st op && sessionKeepsSelection rest (applyOp st op)
  end.

(** The alerts of an entry whose lead-off alerts are all critical. *)
Definition leadOffIsCritical (s : PatientSpecificSimData) : Prop :=
  ∀ a, a ∈ alerts s -> isLeadOffAlert a = true -> severity a = CRITICAL.

Definition isLowFrequencyTick (e : EntryStep) : bool :=
  match e with LowFrequencyTick _ _ _ => true | _ => false end.

(** Consecutive entries of a vitals log are more than the logging interval
    apart. *)
Definition logSpaced (log : list LoggedVitalSign) : Prop :=
  ∀ i a b, log !! i = Some a -> log !! S i = Some b ->
           lv_timestamp a + AUTO_LOG_VITALS_INTERVAL_SECONDS * 1000 < lv_timestamp b.

(** A run of low-frequency ticks, each with its patient record, clock and
    draws. *)
Definition vitalsTicks (ticks : list (Patient * Z * VitalsInputs)) : list EntryStep :=
  (fun t => LowFrequencyTick t.1.1 t.1.2 t.2) <$> ticks.

(** A run of high-frequency ticks, each with its patient record, clock and
    drawn rate. *)
Definition ecgTicks (ticks : list (Patient * Z * Z)) : list EntryStep :=
  (fun t => HighFrequencyTick t.1.1 t.1.2 t.2) <$> ticks.

(** A respiratory rate the simulator can show: 0 under a lethal rhythm,
    otherwise within the clamp of the low-frequency loop. *)
Definition respiratoryRateInRange (s : PatientSpecificSimData) : Prop :=
  respiratoryRate (metrics s) = 0 ∨ 8 <= respiratoryRate (metrics s) <= 35.

(** The pattern a beat starts when the cursor is idle: the pacer spike and
    the paced complex for a captured beat, the base pattern of the rhythm
    otherwise. *)
Definition beatPattern (patient : Patient) (s : PatientSpecificSimData) : list Q :=
  if isPacedBeat patient s then ECG_PACER_SPIKE_PATTERN ++ ECG_PACED_QRS_PATTERN
  else basePattern (RHYTHM_PARAMS (activeRhythm patient)).

(** The patterns the beat scheduler can store in the pattern buffer. *)
Definition storablePattern (pattern : list Q) : Prop :=
  pattern = [] ∨ pattern = ECG_PACER_SPIKE_PATTERN ++ ECG_PACED_QRS_PATTERN
  ∨ ∃ r, pattern = basePattern (RHYTHM_PARAMS r).

(** The respiration phase counter lies within the cycle. *)
Definition withinCycle (position : Q) (cycle : Num) : Prop :=
  (0 <= position)%Q
  ∧ match cycle with Finite c => (position < c)%Q | Infinity => True end.

(** An entry as a load leaves it: nothing raised, nothing acknowledged, the
    lead on, the waveform clock at 0, no analysis running and no error. *)
Definition cleanEntry (s : PatientSpecificSimData) : Prop :=
  alerts s = [] ∧ acknowledgedAlertIds s = ∅ ∧ isLeadOff s = false ∧ ecgCurrentTime s = 0
  ∧ isLoading (heartSenseAIState s) = false ∧ error (heartSenseAIState s) = None.

(** The analysis state a reload gives back: the stored one, not loading and
    without error. *)
Definition settled (a : HeartSenseAIState) : HeartSenseAIState :=
  {| riskScore := riskScore a; riskLevel := riskLevel a;
     predictionReasoning := predictionReasoning a; confidenceScore := confidenceScore a;
     lastAnalyzedTimestamp := lastAnalyzedTimestamp a; isLoading := false; error := None |}.

(** A generator whose results lie in the range asked for. *)
Definition drawsInRange (draw : Z -> Z -> Z) : Prop :=
  ∀ min max, min <= max -> min <= draw min max <= max.

(** The score band of each risk level the analysis can report. *)
Definition scoreBand (level : HeartSenseAIRiskLevel) : option (Z * Z) :=
  match level with
  | STABLE => Some (5, 20)
  | LOW => Some (20, 40)
  | MODERATE => Some (30, 75)
  | HIGH => Some (75, 90)
  | RISK_CRITICAL => Some (90, 98)
  | INSUFFICIENT_DATA => Some (0, 0)
  | PENDING | ERROR => None
  end.

(** The metrics for which the simulator raises alerts. *)
Definition alarmedMetrics : list string := ["Heart Rate"; "SpO₂"; "ECG"].

Definition silence : Sounds := {| leadOffSound := false; criticalAlertSound := false |}.


(** ** Further sample data *)

(** A session on the ward of three.  The tick after the deletion comes from
    the callback installed before it; the tick after the addition from the
    one installed after it. *)
Definition sampleSession : list HookOp :=
  let newcomer := {| np_name := "New"; np_age := 50; np_gender := "Female";
                     np_room := "ICU-1"; np_notes := None; np_diagnosis := None;
                     np_codeStatus := None |} in
  [OpToggleEcgLeadOff "PID00123" "lead-1" 5;
   OpEcgTick [patientA; patientB; patientC] (fun _ => {| ecg_now := 25; ecg_drawnHR := 72 |});
   OpDeletePatient "PID00124";
   OpVitalsTick [patientA; patientB; patientC] 1000 noDrift_inputs;
   OpEcgTick [patientA; patientB; patientC] (fun _ => {| ecg_now := 1025; ecg_drawnHR := 72 |});
   OpAddPatient newcomer "Manual Entry" 2000 70 70 14 2000;
   OpEcgTick [patientA; patientC; newPatientOf newcomer "Manual Entry" 2000]
     (fun _ => {| ecg_now := 2025; ecg_drawnHR := 72 |})].


Definition sampleNewPatient : NewPatientData :=
  {| np_name := "Maria Silva"; np_age := 50; np_gender := "Female"; np_room := "ICU-308";
     np_notes := None; np_diagnosis := None; np_codeStatus := None |}.

Definition sampleDraws (patientId : string) : InitialDraws :=
  {| init_hr := 72; init_nsrHR := 72; init_rr := 14; init_now := 0 |}.

Definition lowestDraw (min max : Z) : Z := min.

(** * Properties *)

(** ** Lookups in the registry and in the simulation map *)

Lemma findPatient_None (ps : list Patient) (patientId : string) :
  findPatient ps patientId = None <-> Forall (fun p => p_id p ≠ patientId) ps.
Proof.
  unfold findPatient. induction ps as [|p ps IH]; simpl.
  - split; [constructor | reflexivity].
  - case_bool_decide as Hid.
    + split; [discriminate | intros H; inversion H; contradiction].
    + rewrite IH. split.
      * intros H. constructor; assumption.
      * intros H. inversion H; assumption.
Qed.

Lemma findPatient_Some (ps : list Patient) (patientId : string) (p : Patient) :
  findPatient ps patientId = Some p -> p ∈ ps ∧ p_id p = patientId.
Proof.
  unfold findPatient. intros H. apply find_some in H as [Hin Hid].
  split; [by apply list_elem_of_In | by apply bool_decide_eq_true in Hid].
Qed.

Lemma updatePatient_absent (patientId : string) (f : Patient -> Patient) (ps : list Patient) :
  findPatient ps patientId = None -> updatePatient patientId f ps = ps.
Proof.
  rewrite findPatient_None. unfold updatePatient.
  induction 1 as [|p ps Hp _ IH]; [reflexivity|].
  rewrite fmap_cons, IH. by rewrite decide_False.
Qed.

Lemma updateSimData_absent (patientId : string)
    (f : PatientSpecificSimData -> PatientSpecificSimData)
    (m : gmap string PatientSpecificSimData) :
  m !! patientId = None -> updateSimData patientId f m = m.
Proof. intros H. unfold updateSimData. by rewrite H. Qed.

Lemma updateSimData_lookup (patientId : string)
    (f : PatientSpecificSimData -> PatientSpecificSimData)
    (m : gmap string PatientSpecificSimData) :
  updateSimData patientId f m !! patientId = f <$> m !! patientId.
Proof.
  unfold updateSimData. destruct (m !! patientId) as [s|] eqn:E; simpl.
  - by rewrite lookup_insert_eq.
  - by rewrite E.
Qed.

Lemma updateSimData_lookup_ne (patientId other : string)
    (f : PatientSpecificSimData -> PatientSpecificSimData)
    (m : gmap string PatientSpecificSimData) :
  patientId ≠ other -> updateSimData patientId f m !! other = m !! other.
Proof.
  intros Hne. unfold updateSimData. destruct (m !! patientId); [|reflexivity].
  by rewrite lookup_insert_ne.
Qed.

(** The operations on one patient act on that patient's entry as the
    corresponding step of its history and leave the other entries alone. *)
Lemma operations_act_on_the_entry (patientId : string) (st : HookState) :
  (∀ uid date,
     simulationDataMap (toggleEcgLeadOff patientId uid date st) !! patientId
     = stepEntry (LeadToggle uid date) <$> simulationDataMap st !! patientId)
  ∧ (∀ severityFilter,
       simulationDataMap (acknowledgePatientAlerts patientId severityFilter st) !! patientId
       = stepEntry (Acknowledge severityFilter) <$> simulationDataMap st !! patientId)
  ∧ (∀ feedbackType sev inp,
       simulationDataMap (provideAlarmFeedback patientId feedbackType sev inp st) !! patientId
       = stepEntry (Feedback patientId feedbackType sev inp)
           <$> simulationDataMap st !! patientId)
  ∧ (∀ rhythm drawnHR,
       simulationDataMap (setPatientRhythm patientId rhythm drawnHR st) !! patientId
       = stepEntry (RhythmSet drawnHR) <$> simulationDataMap st !! patientId).
Proof.
  split; [|split; [|split]]; intros; simpl; apply updateSimData_lookup.
Qed.

Lemma operations_leave_other_entries (patientId other : string) (st : HookState) :
  patientId ≠ other ->
  (∀ uid date,
     simulationDataMap (toggleEcgLeadOff patientId uid date st) !! other
     = simulationDataMap st !! other)
  ∧ (∀ severityFilter,
       simulationDataMap (acknowledgePatientAlerts patientId severityFilter st) !! other
       = simulationDataMap st !! other)
  ∧ (∀ feedbackType sev inp,
       simulationDataMap (provideAlarmFeedback patientId feedbackType sev inp st) !! other
       = simulationDataMap st !! other)
  ∧ (∀ rhythm drawnHR,
       simulationDataMap (setPatientRhythm patientId rhythm drawnHR st) !! other
       = simulationDataMap st !! other).
Proof.
  intros Hne. split; [|split; [|split]]; intros; simpl; by apply updateSimData_lookup_ne.
Qed.

Lemma analysisStarted_lookup (patient : Patient) (snapshot : PatientSpecificSimData)
    (m : gmap string PatientSpecificSimData) :
  analysisStarted patient snapshot m !! p_id patient = Some (markLoading snapshot).
Proof. apply lookup_insert_eq. Qed.

Lemma ecgTick_lookup (ps : list Patient) (inp : string -> EcgInputs)
    (m : gmap string PatientSpecificSimData) (patientId : string) :
  ecgTick ps inp m !! patientId =
  match m !! patientId, findPatient ps patientId with
  | Some s, Some patient =>
      Some (ecgTickPatient patient (ecg_now (inp patientId)) (ecg_drawnHR (inp patientId)) s)
  | _, _ => None
  end.
Proof.
  unfold ecgTick. rewrite map_lookup_imap.
  destruct (m !! patientId); simpl; [|reflexivity].
  by destruct (findPatient ps patientId).
Qed.

Lemma vitalsTick_lookup (ps : list Patient) (now : Z) (inp : string -> VitalsInputs)
    (m : gmap string PatientSpecificSimData) (patientId : string) :
  vitalsTick ps now inp m !! patientId =
  match m !! patientId with
  | Some s =>
      match findPatient ps patientId with
      | Some patient => Some (vitalsTickPatient patient now (inp patientId) s)
      | None => Some s
      end
  | None => None
  end.
Proof.
  unfold vitalsTick. rewrite map_lookup_imap.
  destruct (m !! patientId); simpl; [|reflexivity].
  by destruct (findPatient ps patientId).
Qed.

Lemma hookState_eq (st : HookState) ps sel m :
  ps = patients st -> sel = selectedPatientId st -> m = simulationDataMap st ->
  {| patients := ps; selectedPatientId := sel; simulationDataMap := m |} = st.
Proof. intros -> -> ->. by destruct st. Qed.

(** ** Deleting a patient *)

Lemma deletePatient_patients (patientId : string) (st : HookState) :
  patients (deletePatient patientId st)
  = List.filter (fun p => negb (bool_decide (p_id p = patientId))) (patients st).
Proof. reflexivity. Qed.

Lemma deletePatient_lookup (patientId : string) (st : HookState) :
  simulationDataMap (deletePatient patientId st) !! patientId = None.
Proof. simpl. apply lookup_delete_eq. Qed.

Lemma deletePatient_not_found (patientId : string) (st : HookState) :
  findPatient (patients (deletePatient patientId st)) patientId = None.
Proof.
  apply findPatient_None. rewrite deletePatient_patients.
  apply Forall_forall. intros p Hin. apply list_elem_of_In, filter_In in Hin as [_ Hp].
  apply negb_true_iff, bool_decide_eq_false in Hp. exact Hp.
Qed.

(** C1, as the code has it: when the deleted patient was the selected one,
    the selection afterwards is the first patient of the registry that
    remains, whatever the position of the deleted one, and null when no
    patient remains.  The registry that remains is the old one without the
    deleted id, in the old order. *)
Theorem C1_delete_selects_first_remaining (patientId : string) (st : HookState)
    (Hselected : selectedPatientId st = Some patientId) :
  selectedPatientId (deletePatient patientId st)
  = p_id <$> head (patients (deletePatient patientId st))
  ∧ patients (deletePatient patientId st)
    = List.filter (fun p => negb (bool_decide (p_id p = patientId))) (patients st).
Proof.
  split; [|reflexivity].
  unfold deletePatient; simpl. rewrite decide_True by exact Hselected.
  by destruct (List.filter _ _).
Qed.

(** On a ward of three with the second patient selected, deleting that
    patient selects the first. *)
Lemma C1_delete_selects_first_remaining_witness :
  selectedPatientId wardOfThree = Some "PID00124"
  ∧ selectedPatientId (deletePatient "PID00124" wardOfThree) = Some "PID00123".
Proof.
  split; [reflexivity|].
  exact (eq_trans
           (proj1 (C1_delete_selects_first_remaining "PID00124" wardOfThree eq_refl))
           eq_refl).
Defined.

(** C1, as the specification words it, fails: deleting the selected second
    patient of three selects the first patient, where the positional rule
    asks for the patient that moved into the second position. *)
Lemma C1_positional_selection_counterexample :
  selectedPatientId wardOfThree = Some "PID00124"
  ∧ selectedPatientId (deletePatient "PID00124" wardOfThree) = Some "PID00123"
  ∧ positionalSelection "PID00124" (patients wardOfThree) = Some "PID00125"
  ∧ selectedPatientId (deletePatient "PID00124" wardOfThree)
    ≠ positionalSelection "PID00124" (patients wardOfThree).
Proof. repeat split; try reflexivity. vm_compute. discriminate. Qed.

(** The two rules agree when the deleted patient heads the registry. *)
Lemma positionalSelection_head (p : Patient) (ps : list Patient) :
  positionalSelection (p_id p) (p :: ps)
  = p_id <$> head (List.filter (fun q => negb (bool_decide (p_id q = p_id p))) (p :: ps)).
Proof.
  unfold positionalSelection. simpl list_find.
  rewrite decide_True by reflexivity. simpl.
  rewrite bool_decide_eq_true_2 by reflexivity. simpl.
  destruct (List.filter _ ps) as [|q qs]; reflexivity.
Qed.

(** ** Late results of an analysis *)

Lemma analysisResolved_absent (patient : Patient) (aiOutput : HeartSenseAIOutput) (now : Z)
    (m : gmap string PatientSpecificSimData) :
  m !! p_id patient = None -> analysisResolved patient aiOutput now m = m.
Proof. intros H. unfold analysisResolved. by rewrite H. Qed.

Lemma analysisRejected_absent (patient : Patient) (errMessage : string) (now : Z)
    (m : gmap string PatientSpecificSimData) :
  m !! p_id patient = None -> analysisRejected patient errMessage now m = m.
Proof. intros H. unfold analysisRejected. by rewrite H. Qed.

(** Neither loop creates an entry. *)
Lemma ecgTick_absent (ps : list Patient) (inp : string -> EcgInputs)
    (m : gmap string PatientSpecificSimData) (patientId : string) :
  m !! patientId = None -> ecgTick ps inp m !! patientId = None.
Proof. intros H. by rewrite ecgTick_lookup, H. Qed.

Lemma vitalsTick_absent (ps : list Patient) (now : Z) (inp : string -> VitalsInputs)
    (m : gmap string PatientSpecificSimData) (patientId : string) :
  m !! patientId = None -> vitalsTick ps now inp m !! patientId = None.
Proof. intros H. by rewrite vitalsTick_lookup, H. Qed.

(** C8: once [deletePatient] has removed a patient, the completion updater
    of an analysis that was in flight for that patient, whether it resolved
    or was rejected, returns the simulation map it was given: no entry is
    created for the deleted id.  The updaters are total functions, so
    nothing is thrown.  The same holds for every map without an entry for
    the patient, in particular after any ticks of the two loops that ran
    between the deletion and the completion. *)
Theorem C8_late_analysis_is_discarded (patient : Patient) (st : HookState)
    (aiOutput : HeartSenseAIOutput) (errMessage : string) (now : Z) :
  let m := simulationDataMap (deletePatient (p_id patient) st) in
  m !! p_id patient = None
  ∧ analysisResolved patient aiOutput now m = m
  ∧ analysisRejected patient errMessage now m = m
  ∧ (∀ ps inp, let m' := ecgTick ps inp m in
               analysisResolved patient aiOutput now m' = m'
               ∧ analysisRejected patient errMessage now m' = m')
  ∧ (∀ ps t inp, let m' := vitalsTick ps t inp m in
                 analysisResolved patient aiOutput now m' = m'
                 ∧ analysisRejected patient errMessage now m' = m').
Proof.
  intros m.
  assert (Hm : m !! p_id patient = None) by apply deletePatient_lookup.
  split; [exact Hm|].
  split; [by apply analysisResolved_absent|].
  split; [by apply analysisRejected_absent|].
  split.
  - intros ps inp m'. split.
    + by apply analysisResolved_absent, ecgTick_absent.
    + by apply analysisRejected_absent, ecgTick_absent.
  - intros ps t inp m'. split.
    + by apply analysisResolved_absent, vitalsTick_absent.
    + by apply analysisRejected_absent, vitalsTick_absent.
Qed.

(** ** Operations on an unknown patient id *)

(** C9: an operation called with an id that is neither in the registry nor
    in the simulation map leaves every registry entry and every simulation
    entry as it was.  For seven of the eight operations the whole state of
    the hook is unchanged; [selectPatient] stores the id it was given as the
    selection and changes nothing else.  The operations are total
    functions: none of them throws. *)
Theorem C9_unknown_id_changes_nothing (patientId : string) (st : HookState)
    (Hregistry : findPatient (patients st) patientId = None)
    (Hsimulation : simulationDataMap st !! patientId = None) :
  (patients (selectPatient patientId st) = patients st
   ∧ simulationDataMap (selectPatient patientId st) = simulationDataMap st)
  ∧ (∀ details, updatePatientDetails patientId details st = st)
  ∧ (∀ rhythm drawnHR, setPatientRhythm patientId rhythm drawnHR st = st)
  ∧ (∀ severityFilter, acknowledgePatientAlerts patientId severityFilter st = st)
  ∧ (∀ settings, updatePatientPacingSettings patientId settings st = st)
  ∧ (∀ signatures, updatePatientNoiseSignatures patientId signatures st = st)
  ∧ (∀ feedbackType sev inp, provideAlarmFeedback patientId feedbackType sev inp st = st)
  ∧ (∀ uid date, toggleEcgLeadOff patientId uid date st = st).
Proof.
  repeat split; try reflexivity; intros;
    unfold updatePatientDetails, setPatientRhythm, acknowledgePatientAlerts,
      updatePatientPacingSettings, updatePatientNoiseSignatures, provideAlarmFeedback,
      toggleEcgLeadOff, set_patients, set_simulationDataMap;
    apply hookState_eq; try reflexivity;
    solve [ by apply updatePatient_absent | by apply updateSimData_absent ].
Qed.

(** An id that the ward of three does not know. *)
Lemma C9_unknown_id_changes_nothing_witness :
  findPatient (patients wardOfThree) "PID99999" = None
  ∧ simulationDataMap wardOfThree !! "PID99999" = None
  ∧ toggleEcgLeadOff "PID99999" "lead-1" 5 wardOfThree = wardOfThree
  ∧ setPatientRhythm "PID99999" ASYSTOLE 0 wardOfThree = wardOfThree.
Proof.
  pose proof (C9_unknown_id_changes_nothing "PID99999" wardOfThree eq_refl eq_refl)
    as (_ & _ & Hrhythm & _ & _ & _ & _ & Htoggle).
  split; [reflexivity|]. split; [reflexivity|].
  split; [apply Htoggle | apply Hrhythm].
Defined.

(** ** Orphaned entries *)

(** C10: an entry of the simulation map whose id matches no patient of the
    registry is dropped by a tick of the high-frequency loop and is carried
    over unchanged by a tick of the low-frequency loop. *)
Theorem C10_orphan_dropped_by_ecg_kept_by_vitals (ps : list Patient)
    (m : gmap string PatientSpecificSimData) (patientId : string)
    (s : PatientSpecificSimData)
    (Hentry : m !! patientId = Some s)
    (Horphan : findPatient ps patientId = None) :
  (∀ inp, ecgTick ps inp m !! patientId = None)
  ∧ (∀ now inp, vitalsTick ps now inp m !! patientId = Some s).
Proof.
  split.
  - intros inp. by rewrite ecgTick_lookup, Hentry, Horphan.
  - intros now inp. by rewrite vitalsTick_lookup, Hentry, Horphan.
Qed.

(** The entry of the second patient once the registry has lost that
    patient. *)
Lemma C10_orphan_dropped_by_ecg_kept_by_vitals_witness :
  let m := simulationDataMap wardOfThree in
  let ps := [patientA; patientC] in
  m !! "PID00124" = Some (sampleSimData patientB 80)
  ∧ findPatient ps "PID00124" = None
  ∧ ecgTick ps (fun _ => {| ecg_now := 25; ecg_drawnHR := 72 |}) m !! "PID00124" = None
  ∧ vitalsTick ps 1000 noDrift_inputs m !! "PID00124" = Some (sampleSimData patientB 80).
Proof.
  pose proof (C10_orphan_dropped_by_ecg_kept_by_vitals [patientA; patientC]
                (simulationDataMap wardOfThree) "PID00124" (sampleSimData patientB 80)
                eq_refl eq_refl) as [Hecg Hvitals].
  split; [reflexivity|]. split; [reflexivity|].
  split; [apply Hecg | apply Hvitals].
Defined.

(** ** What each block of the high-frequency loop writes

    A block leaves most fields alone.  [frame] proves such an equation by
    unfolding the block and deciding its tests; [skip_block] uses it to
    remove, in the goal, the outermost block under a projection that the
    block does not write. *)

Ltac decide_tests :=
  repeat match goal with
         | |- context [if ?c then _ else _] => destruct c
         | |- context [match ?c with Some _ => _ | None => _ end] => destruct c
         end.

Ltac frame :=
  unfold respPhase, spo2Phase, spo2Advance, loadPulse, emitEcgSample, selectPattern,
    scheduleBeat, ecgTickLeadOff;
  decide_tests; reflexivity.

Ltac is_field f :=
  is_const f;
  lazymatch type of f with
  | PatientSpecificSimData -> PatientSpecificSimData => fail
  | PatientSpecificSimData -> _ => idtac
  end.

Ltac is_setter g :=
  is_const g;
  lazymatch type of g with
  | _ -> PatientSpecificSimData -> PatientSpecificSimData => idtac
  end.

Ltac skip_block :=
  let H := fresh "Hframe" in
  match goal with
  | |- context [?f (?g ?v ?s)] =>
      is_field f; is_setter g;
      first [ assert (H : forall a x, f (g a x) = f x) by reflexivity
            | assert (H : forall a x, f (g a x) = a) by reflexivity ];
      rewrite (H v s); clear H
  | |- context [?f (respPhase ?s)] =>
      is_field f;
      assert (H : forall x, f (respPhase x) = f x) by (intros; frame);
      rewrite (H s); clear H
  | |- context [?f (spo2Phase ?s)] =>
      is_field f;
      assert (H : forall x, f (spo2Phase x) = f x) by (intros; frame);
      rewrite (H s); clear H
  | |- context [?f (spo2Advance ?s)] =>
      is_field f;
      assert (H : forall x, f (spo2Advance x) = f x) by (intros; frame);
      rewrite (H s); clear H
  | |- context [?f (loadPulse ?s)] =>
      is_field f;
      assert (H : forall x, f (loadPulse x) = f x) by (intros; frame);
      rewrite (H s); clear H
  | |- context [?f (emitEcgSample ?p ?i ?s)] =>
      is_field f;
      assert (H : forall a b x, f (emitEcgSample a b x) = f x) by (intros; frame);
      rewrite (H p i s); clear H
  | |- context [?f (selectPattern ?p ?n ?d ?c ?s)] =>
      is_field f;
      assert (H : forall a b c' d' x, f (selectPattern a b c' d' x) = f x) by (intros; frame);
      rewrite (H p n d c s); clear H
  | |- context [?f (scheduleBeat ?p ?d ?s)] =>
      is_field f;
      assert (H : forall a b x, f (scheduleBeat a b x) = f x) by (intros; frame);
      rewrite (H p d s); clear H
  end.

Lemma emitEcgSample_ecgCurrentTime (pat : list Q) (i : nat) (s : PatientSpecificSimData) :
  ecgCurrentTime (emitEcgSample pat i s) = ecgCurrentTime s + 1.
Proof. frame. Qed.

Lemma emitEcgSample_ecgData (pat : list Q) (i : nat) (s : PatientSpecificSimData) :
  ecgData (emitEcgSample pat i s)
  = shiftAppend (ecgData s) {| time := ecgCurrentTime s; value := Exact (patternAt pat i) |}.
Proof. frame. Qed.

Lemma emitEcgSample_ecgBufferIndex (pat : list Q) (i : nat) (s : PatientSpecificSimData) :
  ecgBufferIndex (emitEcgSample pat i s)
  = if Z.of_nat (length pat) - 1 <=? Z.of_nat i then 0%nat else S i.
Proof. frame. Qed.

Lemma emitEcgSample_ecgPatternBuffer (pat : list Q) (i : nat) (s : PatientSpecificSimData) :
  ecgPatternBuffer (emitEcgSample pat i s)
  = if Z.of_nat (length pat) - 1 <=? Z.of_nat i then [] else ecgPatternBuffer s.
Proof.
  unfold emitEcgSample. cbv zeta.
  destruct (_ <=? _); reflexivity.
Qed.

Lemma spo2Phase_spo2WaveData (s : PatientSpecificSimData) :
  spo2WaveData (spo2Phase s)
  = shiftAppend (spo2WaveData s) {| time := ecgCurrentTime s; value := spo2Value s |}.
Proof. unfold spo2Phase, spo2Advance. destruct (spo2Walking s); reflexivity. Qed.

Lemma respPhase_respWaveData (s : PatientSpecificSimData) :
  respWaveData (respPhase s)
  = shiftAppend (respWaveData s)
      {| time := ecgCurrentTime s;
         value := RespSine (num_div (num_rem (respirationCyclePosition s + 1)%Q
                                             (respCyclePoints s))
                                    (respCyclePoints s)) |}.
Proof. reflexivity. Qed.

Lemma scheduleBeat_nextRRIntervalPoints (patient : Patient) (drawnHR : Z)
    (s : PatientSpecificSimData) :
  nextRRIntervalPoints (scheduleBeat patient drawnHR s)
  = num_pred (if nextBeatDue s
              then rrIntervalFor (default drawnHR (pacerCapture patient s))
              else nextRRIntervalPoints s).
Proof. unfold scheduleBeat. destruct (nextBeatDue s); reflexivity. Qed.

Lemma scheduleBeat_currentTargetHeartRate (patient : Patient) (drawnHR : Z)
    (s : PatientSpecificSimData) :
  currentTargetHeartRate (scheduleBeat patient drawnHR s)
  = if nextBeatDue s then default drawnHR (pacerCapture patient s)
    else currentTargetHeartRate s.
Proof. unfold scheduleBeat. destruct (nextBeatDue s); reflexivity. Qed.

Lemma selectPattern_ecgPatternBuffer (patient : Patient) (now : Z) (due paced : bool)
    (s : PatientSpecificSimData) :
  ecgPatternBuffer (selectPattern patient now due paced s)
  = if (0 <? ecgBufferIndex s)%nat then ecgPatternBuffer s
    else if due then currentPatternOf patient due paced s else ecgPatternBuffer s.
Proof.
  unfold selectPattern. destruct (0 <? ecgBufferIndex s)%nat; [reflexivity|].
  destruct due; reflexivity.
Qed.

(** *** The whole tick, field by field *)

Lemma ecgTickNormal_ecgCurrentTime (patient : Patient) (now drawnHR : Z)
    (s : PatientSpecificSimData) :
  ecgCurrentTime (ecgTickNormal patient now drawnHR s) = ecgCurrentTime s + 1.
Proof.
  unfold ecgTickNormal. cbv zeta. repeat skip_block.
  rewrite emitEcgSample_ecgCurrentTime. by repeat skip_block.
Qed.

Lemma ecgTickLeadOff_ecgCurrentTime (s : PatientSpecificSimData) :
  ecgCurrentTime (ecgTickLeadOff s) = ecgCurrentTime s + 1.
Proof.
  unfold ecgTickLeadOff. cbv zeta. by repeat skip_block.
Qed.

Lemma ecgTickPatient_ecgCurrentTime (patient : Patient) (now drawnHR : Z)
    (s : PatientSpecificSimData) :
  ecgCurrentTime (ecgTickPatient patient now drawnHR s) = ecgCurrentTime s + 1.
Proof.
  unfold ecgTickPatient. destruct (isLeadOff s).
  - apply ecgTickLeadOff_ecgCurrentTime.
  - apply ecgTickNormal_ecgCurrentTime.
Qed.

Lemma ecgTickPatient_ecgData (patient : Patient) (now drawnHR : Z)
    (s : PatientSpecificSimData) :
  ∃ v, ecgData (ecgTickPatient patient now drawnHR s)
       = shiftAppend (ecgData s) {| time := ecgCurrentTime s; value := Exact v |}.
Proof.
  unfold ecgTickPatient. destruct (isLeadOff s).
  - exists 0%Q. unfold ecgTickLeadOff. cbv zeta. by repeat skip_block.
  - unfold ecgTickNormal. cbv zeta. repeat skip_block.
    rewrite emitEcgSample_ecgData. repeat skip_block. by eexists.
Qed.

Lemma ecgTickPatient_spo2WaveData (patient : Patient) (now drawnHR : Z)
    (s : PatientSpecificSimData) :
  ∃ v, spo2WaveData (ecgTickPatient patient now drawnHR s)
       = shiftAppend (spo2WaveData s)
           {| time := ecgCurrentTime s + (if isLeadOff s then 0 else 1); value := v |}.
Proof.
  unfold ecgTickPatient. destruct (isLeadOff s).
  - unfold ecgTickLeadOff. cbv zeta. repeat skip_block.
    rewrite spo2Phase_spo2WaveData. repeat skip_block.
    rewrite Z.add_0_r. by eexists.
  - unfold ecgTickNormal. cbv zeta. repeat skip_block.
    rewrite spo2Phase_spo2WaveData. repeat skip_block.
    rewrite emitEcgSample_ecgCurrentTime. repeat skip_block. by eexists.
Qed.

Lemma ecgTickPatient_respWaveData (patient : Patient) (now drawnHR : Z)
    (s : PatientSpecificSimData) :
  ∃ v, respWaveData (ecgTickPatient patient now drawnHR s)
       = shiftAppend (respWaveData s)
           {| time := ecgCurrentTime s + (if isLeadOff s then 0 else 1); value := v |}.
Proof.
  unfold ecgTickPatient. destruct (isLeadOff s).
  - unfold ecgTickLeadOff. cbv zeta. repeat skip_block.
    rewrite respPhase_respWaveData. repeat skip_block. rewrite Z.add_0_r. by eexists.
  - unfold ecgTickNormal. cbv zeta.
    rewrite respPhase_respWaveData. repeat skip_block.
    rewrite emitEcgSample_ecgCurrentTime. repeat skip_block. by eexists.
Qed.

(** ** Waveform buffers and the sample counter *)

Lemma shiftAppend_length {A} (xs : list A) (x : A) :
  (0 < length xs)%nat -> length (shiftAppend xs x) = length xs.
Proof.
  intros Hpos. unfold shiftAppend. rewrite length_app, length_drop. simpl. lia.
Qed.

Lemma shiftAppend_last {A} (xs : list A) (x : A) : last (shiftAppend xs x) = Some x.
Proof. unfold shiftAppend. apply last_snoc. Qed.

(** The steps other than a high-frequency tick leave the three buffers and
    the sample counter alone. *)
Lemma stepEntry_waveforms (e : EntryStep) (s : PatientSpecificSimData) :
  isHighFrequencyTick e = false ->
  ecgData (stepEntry e s) = ecgData s
  ∧ spo2WaveData (stepEntry e s) = spo2WaveData s
  ∧ respWaveData (stepEntry e s) = respWaveData s
  ∧ ecgCurrentTime (stepEntry e s) = ecgCurrentTime s.
Proof.
  destruct e; simpl; [discriminate| | | | | | |]; intros _;
    unfold vitalsTickPatient, stampUpdates, acknowledgeOn, provideAlarmFeedbackOn,
      toggleEcgLeadOffOn;
    (split; [|split; [|split]]); decide_tests; reflexivity.
Qed.

(** A buffer that holds a sample keeps its length over a step; the counter
    moves with the high-frequency ticks only. *)
Lemma stepEntry_lengths (e : EntryStep) (s : PatientSpecificSimData) :
  let s' := stepEntry e s in
  ((0 < length (ecgData s))%nat -> length (ecgData s') = length (ecgData s))
  ∧ ((0 < length (spo2WaveData s))%nat ->
     length (spo2WaveData s') = length (spo2WaveData s))
  ∧ ((0 < length (respWaveData s))%nat ->
     length (respWaveData s') = length (respWaveData s))
  ∧ ecgCurrentTime s' = ecgCurrentTime s + (if isHighFrequencyTick e then 1 else 0).
Proof.
  intros s'. subst s'. destruct (isHighFrequencyTick e) eqn:Hhf.
  - destruct e; try discriminate. simpl.
    destruct (ecgTickPatient_ecgData patient now drawnHR s) as [v1 ->].
    destruct (ecgTickPatient_spo2WaveData patient now drawnHR s) as [v2 ->].
    destruct (ecgTickPatient_respWaveData patient now drawnHR s) as [v3 ->].
    rewrite ecgTickPatient_ecgCurrentTime.
    split; [|split; [|split]]; auto using @shiftAppend_length.
  - destruct (stepEntry_waveforms e s Hhf) as (-> & -> & -> & ->).
    rewrite Z.add_0_r. split; [|split; [|split]]; auto.
Qed.

Lemma tickCount_cons (e : EntryStep) (history : list EntryStep) :
  tickCount (e :: history) = (if isHighFrequencyTick e then 1 else 0) + tickCount history.
Proof.
  unfold tickCount. simpl. destruct (isHighFrequencyTick e); simpl length; lia.
Qed.

(** *** Induction over the runs of a history

    A property of the entry, which may depend on the steps run so far, holds
    at the end of a history when it holds at the start, every step carries
    it from the entry the step is given to the entry it computes, and it
    stays true of an entry while further steps are run: the entry a
    write-back is given is an older one. *)
Lemma runEntry_ind (P : list EntryStep -> PatientSpecificSimData -> Prop)
    (s0 : PatientSpecificSimData) :
  P [] s0 ->
  (∀ pre e s, P pre s -> P (pre ++ [e]) (stepEntry e s)) ->
  (∀ pre e s, P pre s -> P (pre ++ [e]) s) ->
  ∀ history, P history (runEntry history s0).
Proof.
  intros H0 Hstep Hkeep history. unfold runEntry.
  assert (Hgen : ∀ h pre r,
            P pre (current r) -> Forall (P pre) (launched r) ->
            P (pre ++ h) (current (foldl (fun r e => stepRun e r) r h))).
  { induction h as [|e h IH]; intros pre r Hc Hl.
    - by rewrite app_nil_r.
    - cbn [foldl]. rewrite (cons_middle e pre h), app_assoc.
      assert (Hl' : Forall (P (pre ++ [e])) (launched r)).
      { eapply Forall_impl; [exact Hl|]. intros x Hx. by apply Hkeep. }
      apply IH.
      + destruct e; cbn [stepRun current]; try (by apply Hstep).
        destruct r as [c [|simData rest]]; cbn [launched current] in *.
        * by apply Hkeep.
        * apply Hstep. by apply Forall_cons in Hl as [Hx _].
      + destruct e; cbn [stepRun launched]; try exact Hl'.
        * destruct (launchesAnalysis _ _); [|exact Hl'].
          apply Forall_app. split; [exact Hl'|]. apply Forall_singleton. by apply Hstep.
        * destruct r as [c [|simData rest]]; cbn [launched] in *; [constructor|].
          by apply Forall_cons in Hl' as [_ Hrest]. }
  apply (Hgen history [] {| current := s0; launched := [] |}); [exact H0 | constructor].
Qed.

(** A property that every step preserves holds at the end of every history. *)
Lemma runEntry_invariant (P : PatientSpecificSimData -> Prop) :
  (∀ e s, P s -> P (stepEntry e s)) ->
  ∀ history s, P s -> P (runEntry history s).
Proof.
  intros Hstep history s Hs.
  apply (runEntry_ind (fun _ => P) s); [exact Hs | intros; by apply Hstep | auto].
Qed.

(** Without a write-back, a history is the composition of its steps. *)
Lemma runEntry_plain (history : list EntryStep) (s : PatientSpecificSimData) :
  forallb (fun e => negb (isAnalysisWriteBack e)) history = true ->
  runEntry history s = foldl (fun acc e => stepEntry e acc) s history.
Proof.
  unfold runEntry. generalize (@nil PatientSpecificSimData) as l.
  revert s. induction history as [|e history IH]; intros s l Hfree; [reflexivity|].
  cbn [forallb] in Hfree. apply andb_true_iff in Hfree as [He Hfree].
  cbn [foldl]. destruct e; try discriminate He; cbn [stepRun]; by rewrite IH.
Qed.

Lemma runEntry_nil (s : PatientSpecificSimData) : runEntry [] s = s.
Proof. reflexivity. Qed.

Lemma runEntry_cons (e : EntryStep) (history : list EntryStep) (s : PatientSpecificSimData) :
  forallb (fun e => negb (isAnalysisWriteBack e)) (e :: history) = true ->
  runEntry (e :: history) s = runEntry history (stepEntry e s).
Proof.
  intros Hfree. rewrite runEntry_plain by exact Hfree.
  cbn [forallb] in Hfree. apply andb_true_iff in Hfree as [_ Hfree].
  by rewrite runEntry_plain.
Qed.

Lemma tickCount_snoc (history : list EntryStep) (e : EntryStep) :
  tickCount (history ++ [e]) = tickCount history + (if isHighFrequencyTick e then 1 else 0).
Proof.
  unfold tickCount. rewrite List.filter_app, length_app. simpl.
  destruct (isHighFrequencyTick e); simpl length; lia.
Qed.

(** Over a history the buffers keep their length, and the counter lies
    between its value at the start and that value plus the number of
    high-frequency ticks. *)
Lemma runEntry_lengths (history : list EntryStep) (s : PatientSpecificSimData) :
  let s' := runEntry history s in
  ((0 < length (ecgData s))%nat -> length (ecgData s') = length (ecgData s))
  ∧ ((0 < length (spo2WaveData s))%nat ->
     length (spo2WaveData s') = length (spo2WaveData s))
  ∧ ((0 < length (respWaveData s))%nat ->
     length (respWaveData s') = length (respWaveData s))
  ∧ ecgCurrentTime s <= ecgCurrentTime s' <= ecgCurrentTime s + tickCount history.
Proof.
  cbv zeta.
  apply (runEntry_ind
           (fun pre x =>
              ((0 < length (ecgData s))%nat -> length (ecgData x) = length (ecgData s))
              ∧ ((0 < length (spo2WaveData s))%nat ->
                 length (spo2WaveData x) = length (spo2WaveData s))
              ∧ ((0 < length (respWaveData s))%nat ->
                 length (respWaveData x) = length (respWaveData s))
              ∧ ecgCurrentTime s <= ecgCurrentTime x <= ecgCurrentTime s + tickCount pre) s).
  - unfold tickCount. simpl. split; [|split; [|split]]; auto with lia.
  - intros pre e x (He & Hs & Hr & Ht).
    destruct (stepEntry_lengths e x) as (He' & Hs' & Hr' & Ht').
    rewrite tickCount_snoc. split; [|split; [|split]].
    + intros H. rewrite He' by (rewrite He; assumption). by apply He.
    + intros H. rewrite Hs' by (rewrite Hs; assumption). by apply Hs.
    + intros H. rewrite Hr' by (rewrite Hr; assumption). by apply Hr.
    + rewrite Ht'. destruct (isHighFrequencyTick e); lia.
  - intros pre e x (He & Hs & Hr & Ht). rewrite tickCount_snoc.
    split; [|split; [|split]]; auto. destruct (isHighFrequencyTick e); lia.
Qed.

(** Without a write-back the counter is the number of high-frequency ticks. *)
Lemma runEntry_counter (history : list EntryStep) (s : PatientSpecificSimData) :
  forallb (fun e => negb (isAnalysisWriteBack e)) history = true ->
  ecgCurrentTime (runEntry history s) = ecgCurrentTime s + tickCount history.
Proof.
  intros Hfree. rewrite runEntry_plain by exact Hfree. clear Hfree.
  revert s. induction history as [|e history IH]; intros s.
  - unfold tickCount. simpl. lia.
  - cbn [foldl]. rewrite IH, tickCount_cons.
    destruct (stepEntry_lengths e s) as (_ & _ & _ & ->). lia.
Qed.

Lemma initial_buffers (p : Patient) (hr nsr rr now : Z) :
  let s := createInitialPatientSimData p hr nsr rr now in
  length (ecgData s) = MAX_ECG_DATA_POINTS
  ∧ length (spo2WaveData s) = MAX_ECG_DATA_POINTS
  ∧ length (respWaveData s) = MAX_ECG_DATA_POINTS
  ∧ ecgCurrentTime s = 0.
Proof.
  cbv zeta. unfold createInitialPatientSimData.
  cbn [ecgData spo2WaveData respWaveData ecgCurrentTime].
  unfold getInitialEcgData, getInitialSpo2Data, getInitialRespData.
  rewrite !length_fmap, !length_seq. split; [|split; [|split]]; reflexivity.
Qed.

Lemma MAX_ECG_DATA_POINTS_value : MAX_ECG_DATA_POINTS = 400%nat.
Proof. reflexivity. Qed.

(** One tick: the counter grows by one; the ECG sample carries the value the
    counter had before the tick, the SpO2 and respiration samples that value
    in a lead-off tick and that value plus one in any other tick. *)
Lemma ecgTickPatient_stamps (patient : Patient) (now drawnHR : Z)
    (s : PatientSpecificSimData) :
  let s1 := ecgTickPatient patient now drawnHR s in
  let skew := if isLeadOff s then 0 else 1 in
  ecgCurrentTime s1 = ecgCurrentTime s + 1
  ∧ newestTime (ecgData s1) = Some (ecgCurrentTime s)
  ∧ newestTime (spo2WaveData s1) = Some (ecgCurrentTime s + skew)
  ∧ newestTime (respWaveData s1) = Some (ecgCurrentTime s + skew).
Proof.
  cbv zeta. unfold newestTime.
  destruct (ecgTickPatient_ecgData patient now drawnHR s) as [v1 ->].
  destruct (ecgTickPatient_spo2WaveData patient now drawnHR s) as [v2 ->].
  destruct (ecgTickPatient_respWaveData patient now drawnHR s) as [v3 ->].
  rewrite !shiftAppend_last. split; [apply ecgTickPatient_ecgCurrentTime|].
  split; [|split]; reflexivity.
Qed.

(** The snapshots launched before a run of steps without write-back are
    still the first ones after it. *)
Lemma launched_prefix (history : list EntryStep) (r : EntryRun) :
  forallb (fun e => negb (isAnalysisWriteBack e)) history = true ->
  ∃ later, launched (foldl (fun r e => stepRun e r) r history) = launched r ++ later.
Proof.
  revert r. induction history as [|e history IH]; intros r Hfree.
  - exists []. by rewrite app_nil_r.
  - cbn [forallb] in Hfree. apply andb_true_iff in Hfree as [He Hfree]. cbn [foldl].
    destruct (IH (stepRun e r) Hfree) as [later ->].
    destruct e; try discriminate He; cbn [stepRun launched]; try by exists later.
    destruct (launchesAnalysis _ _); [|by exists later].
    eexists. by rewrite <- app_assoc.
Qed.

(** The write-back of an analysis undoes what was done to the entry since
    the low-frequency tick that launched it. *)
Lemma runEntry_write_back (patient : Patient) (now : Z) (inp : VitalsInputs)
    (between : list EntryStep) (s : PatientSpecificSimData) :
  launchesAnalysis now (vitalsTickPatient patient now inp s) = true ->
  forallb (fun e => negb (isAnalysisWriteBack e)) between = true ->
  runEntry (LowFrequencyTick patient now inp :: between ++ [AnalysisWriteBack]) s
  = markLoading (vitalsTickPatient patient now inp s).
Proof.
  intros Hlaunch Hfree. unfold runEntry. cbn [foldl stepRun stepEntry current launched].
  rewrite Hlaunch, foldl_app. cbn [foldl app].
  destruct (launched_prefix between
              {| current := vitalsTickPatient patient now inp s;
                 launched := [vitalsTickPatient patient now inp s] |} Hfree) as [later Hl].
  cbn [launched app] in Hl. unfold stepRun at 1. by rewrite Hl.
Qed.

(** X29: whatever the hook does to the entry of a patient after creating
    it, each of the three waveform buffers keeps the length
    [MAX_ECG_DATA_POINTS] = 400, and the sample counter is at least 0 and at
    most the number of high-frequency ticks so far; while no analysis
    snapshot is written back it is that number.  A tick adds one to the
    counter and stamps its ECG sample with the value the counter had before
    the tick.  The first updater of an analysis puts the entry back to what
    the low-frequency tick that launched the analysis made of it, marked as
    loading: the ticks and operations run in between are undone. *)
Theorem buffers_keep_their_length_and_the_counter_follows_the_ticks
    (p : Patient) (hr nsr rr created : Z) (history : list EntryStep) :
  let s := runEntry history (createInitialPatientSimData p hr nsr rr created) in
  (length (ecgData s) = MAX_ECG_DATA_POINTS
   ∧ length (spo2WaveData s) = MAX_ECG_DATA_POINTS
   ∧ length (respWaveData s) = MAX_ECG_DATA_POINTS)
  ∧ 0 <= ecgCurrentTime s <= tickCount history
  ∧ (forallb (fun e => negb (isAnalysisWriteBack e)) history = true ->
     ecgCurrentTime s = tickCount history)
  ∧ (∀ patient now drawnHR,
       let s1 := ecgTickPatient patient now drawnHR s in
       ecgCurrentTime s1 = ecgCurrentTime s + 1
       ∧ newestTime (ecgData s1) = Some (ecgCurrentTime s))
  ∧ (∀ patient now inp between,
       launchesAnalysis now (vitalsTickPatient patient now inp s) = true ->
       forallb (fun e => negb (isAnalysisWriteBack e)) between = true ->
       runEntry (LowFrequencyTick patient now inp :: between ++ [AnalysisWriteBack]) s
       = markLoading (vitalsTickPatient patient now inp s)).
Proof.
  intros s.
  destruct (initial_buffers p hr nsr rr created) as (He & Hs & Hr & Ht).
  destruct (runEntry_lengths history (createInitialPatientSimData p hr nsr rr created))
    as (He' & Hs' & Hr' & Ht').
  assert (Hpos : (0 < MAX_ECG_DATA_POINTS)%nat)
    by (rewrite MAX_ECG_DATA_POINTS_value; lia).
  split; [|split; [|split; [|split]]].
  - subst s. split; [|split].
    + rewrite He' by (rewrite He; exact Hpos). exact He.
    + rewrite Hs' by (rewrite Hs; exact Hpos). exact Hs.
    + rewrite Hr' by (rewrite Hr; exact Hpos). exact Hr.
  - subst s. rewrite Ht in Ht'. lia.
  - intros Hfree. subst s. rewrite runEntry_counter by exact Hfree. rewrite Ht. lia.
  - intros patient now drawnHR s1.
    destruct (ecgTickPatient_stamps patient now drawnHR s) as (H1 & H2 & _). by split.
  - intros patient now inp between. apply runEntry_write_back.
Qed.

(** C5: the code departs from the claim in three places.  On the first tick
    of a new entry the newest ECG index goes from 399 back to 0: the buffers
    are created holding the indices 0 to 399 and the counter starts at 0.
    When the lead is taken off between two ticks the newest SpO2 and
    respiration index does not move: the lead-off branch stamps all three
    samples before it increments the counter, the other branch stamps the
    SpO2 and respiration samples after the increment.  And the first
    updater of an analysis writes back the entry of the low-frequency tick
    that launched it: the tick run in between is undone, the counter goes
    from 2 back to 1 and the next tick stamps its ECG sample with 1 a second
    time. *)
Theorem C5_newest_index_repeats_and_goes_back :
  let s0 := sampleSimData patientA 72 in
  let s1 := ecgTickPatient patientA 25 72 s0 in
  let s2 := ecgTickPatient patientA 50 72 (toggleEcgLeadOffOn "lead-1" 30 s1) in
  let launch := runEntry (take 2 writeBackHistory) s0 in
  let ticked := runEntry (take 3 writeBackHistory) s0 in
  let written := runEntry writeBackHistory s0 in
  let next := ecgTickPatient patientA 700050 72 written in
  (newestTime (ecgData s0) = Some 399
   ∧ newestTime (ecgData s1) = Some 0)
  ∧ (newestTime (spo2WaveData s1) = Some 1
     ∧ newestTime (spo2WaveData s2) = Some 1
     ∧ newestTime (respWaveData s1) = Some 1
     ∧ newestTime (respWaveData s2) = Some 1)
  ∧ (launchesAnalysis 700000 launch = true
     ∧ ecgCurrentTime ticked = 2
     ∧ newestTime (ecgData ticked) = Some 1
     ∧ written = markLoading launch
     ∧ ecgCurrentTime written = 1
     ∧ newestTime (ecgData written) = Some 0
     ∧ newestTime (ecgData next) = Some 1).
Proof.
  cbv zeta. split; [|split].
  - vm_compute. split; reflexivity.
  - vm_compute. repeat split.
  - split; [vm_compute; reflexivity|]. split; [vm_compute; reflexivity|].
    split; [vm_compute; reflexivity|].
    assert (Hwritten : runEntry writeBackHistory (sampleSimData patientA 72)
                       = markLoading (runEntry (take 2 writeBackHistory)
                                        (sampleSimData patientA 72)))
      by (vm_compute; reflexivity).
    split; [exact Hwritten|]. rewrite Hwritten.
    split; [vm_compute; reflexivity|]. split; vm_compute; reflexivity.
Qed.

(** ** Beat scheduling and pacing *)

Lemma ecgTickNormal_nextRRIntervalPoints (patient : Patient) (now drawnHR : Z)
    (s : PatientSpecificSimData) :
  nextRRIntervalPoints (ecgTickNormal patient now drawnHR s)
  = num_pred (if nextBeatDue s
              then rrIntervalFor (default drawnHR (pacerCapture patient s))
              else nextRRIntervalPoints s).
Proof.
  unfold ecgTickNormal. cbv zeta. repeat skip_block.
  apply scheduleBeat_nextRRIntervalPoints.
Qed.

Lemma ecgTickNormal_currentTargetHeartRate (patient : Patient) (now drawnHR : Z)
    (s : PatientSpecificSimData) :
  currentTargetHeartRate (ecgTickNormal patient now drawnHR s)
  = if nextBeatDue s then default drawnHR (pacerCapture patient s)
    else currentTargetHeartRate s.
Proof.
  unfold ecgTickNormal. cbv zeta. repeat skip_block.
  apply scheduleBeat_currentTargetHeartRate.
Qed.

Lemma ecgTickLeadOff_nextRRIntervalPoints (s : PatientSpecificSimData) :
  nextRRIntervalPoints (ecgTickLeadOff s) = nextRRIntervalPoints s.
Proof. unfold ecgTickLeadOff. cbv zeta. by repeat skip_block. Qed.

Lemma ecgTickLeadOff_metrics (s : PatientSpecificSimData) :
  metrics (ecgTickLeadOff s) = set_heartRate 0 (metrics s).
Proof. unfold ecgTickLeadOff. cbv zeta. by repeat skip_block. Qed.

Lemma ecgTickLeadOff_ecgData (s : PatientSpecificSimData) :
  ecgData (ecgTickLeadOff s)
  = shiftAppend (ecgData s) {| time := ecgCurrentTime s; value := Exact 0 |}.
Proof. unfold ecgTickLeadOff. cbv zeta. by repeat skip_block. Qed.

Lemma currentPatternOf_scheduleBeat (patient : Patient) (due paced : bool) (drawnHR : Z)
    (s : PatientSpecificSimData) :
  currentPatternOf patient due paced (scheduleBeat patient drawnHR s)
  = currentPatternOf patient due paced s.
Proof. unfold currentPatternOf. by repeat skip_block. Qed.

Lemma ecgTickNormal_ecgData (patient : Patient) (now drawnHR : Z)
    (s : PatientSpecificSimData) :
  ecgData (ecgTickNormal patient now drawnHR s)
  = shiftAppend (ecgData s)
      {| time := ecgCurrentTime s;
         value := Exact (patternAt (currentPatternOf patient (nextBeatDue s)
                                      (isPacedBeat patient s) s)
                                   (ecgBufferIndex s)) |}.
Proof.
  unfold ecgTickNormal. cbv zeta. repeat skip_block.
  rewrite emitEcgSample_ecgData. repeat skip_block.
  by rewrite currentPatternOf_scheduleBeat.
Qed.

Lemma ecgTickNormal_ecgBufferIndex (patient : Patient) (now drawnHR : Z)
    (s : PatientSpecificSimData) :
  ecgBufferIndex (ecgTickNormal patient now drawnHR s)
  = let pat := currentPatternOf patient (nextBeatDue s) (isPacedBeat patient s) s in
    if Z.of_nat (length pat) - 1 <=? Z.of_nat (ecgBufferIndex s)
    then 0%nat else S (ecgBufferIndex s).
Proof.
  unfold ecgTickNormal. cbv zeta. repeat skip_block.
  rewrite emitEcgSample_ecgBufferIndex. repeat skip_block.
  by rewrite currentPatternOf_scheduleBeat.
Qed.

Lemma ecgTickNormal_ecgPatternBuffer (patient : Patient) (now drawnHR : Z)
    (s : PatientSpecificSimData) :
  ecgPatternBuffer (ecgTickNormal patient now drawnHR s)
  = let pat := currentPatternOf patient (nextBeatDue s) (isPacedBeat patient s) s in
    if Z.of_nat (length pat) - 1 <=? Z.of_nat (ecgBufferIndex s) then []
    else if (0 <? ecgBufferIndex s)%nat then ecgPatternBuffer s
         else if nextBeatDue s then pat else ecgPatternBuffer s.
Proof.
  unfold ecgTickNormal. cbv zeta. repeat skip_block.
  rewrite emitEcgSample_ecgPatternBuffer, selectPattern_ecgPatternBuffer.
  repeat skip_block. by rewrite currentPatternOf_scheduleBeat.
Qed.

Lemma pointsPerSecond_value : (pointsPerSecond == 40)%Q.
Proof. reflexivity. Qed.

Lemma rrIntervalFor_positive (newRate : Z) :
  0 < newRate -> rrIntervalFor newRate = Finite ((60 / inject_Z newRate) * pointsPerSecond)%Q.
Proof. intros H. unfold rrIntervalFor. apply Z.ltb_lt in H. by rewrite H. Qed.

Lemma rrIntervalFor_never (newRate : Z) : newRate <= 0 -> rrIntervalFor newRate = Infinity.
Proof. intros H. unfold rrIntervalFor. apply Z.ltb_ge in H. by rewrite H. Qed.

(** Once the countdown is [Infinity] no step of the entry makes it finite. *)
Lemma stepEntry_never (e : EntryStep) (s : PatientSpecificSimData) :
  nextRRIntervalPoints s = Infinity -> nextRRIntervalPoints (stepEntry e s) = Infinity.
Proof.
  intros Hinf. destruct e; simpl;
    try (unfold vitalsTickPatient, stampUpdates, acknowledgeOn, provideAlarmFeedbackOn,
           toggleEcgLeadOffOn; decide_tests; exact Hinf).
  unfold ecgTickPatient. destruct (isLeadOff s).
  - by rewrite ecgTickLeadOff_nextRRIntervalPoints.
  - rewrite ecgTickNormal_nextRRIntervalPoints. unfold nextBeatDue. by rewrite Hinf.
Qed.

Lemma runEntry_never (history : list EntryStep) (s : PatientSpecificSimData) :
  nextRRIntervalPoints s = Infinity -> nextRRIntervalPoints (runEntry history s) = Infinity.
Proof.
  apply (runEntry_invariant (fun x => nextRRIntervalPoints x = Infinity)).
  intros e x. apply stepEntry_never.
Qed.

(** C3, as the code has it.  In a tick with the lead on, the countdown after
    the tick is the countdown before it, or when a beat was due the new
    interval [(60 / targetRate) * samplesPerSecond] (not rounded; 40 samples
    per second) for the target rate the tick has just chosen, less one: the
    decrement happens whether or not a beat fired.  For a target rate of 0
    the interval is [Infinity], and from then on no step of the entry ever
    finds a beat due.  A lead-off tick leaves the countdown as it is. *)
Theorem C3_countdown_is_unrounded_interval_less_one
    (patient : Patient) (now drawnHR : Z) (s : PatientSpecificSimData) :
  let s' := ecgTickPatient patient now drawnHR s in
  (isLeadOff s = false ->
   nextRRIntervalPoints s'
   = num_pred (if nextBeatDue s then rrIntervalFor (currentTargetHeartRate s')
               else nextRRIntervalPoints s))
  ∧ (∀ targetRate, 0 < targetRate ->
       rrIntervalFor targetRate = Finite ((60 / inject_Z targetRate) * pointsPerSecond)%Q)
  ∧ (pointsPerSecond == 40)%Q
  ∧ (∀ targetRate, targetRate <= 0 -> rrIntervalFor targetRate = Infinity)
  ∧ (nextRRIntervalPoints s = Infinity ->
     ∀ history, nextRRIntervalPoints (runEntry history s) = Infinity
                ∧ nextBeatDue (runEntry history s) = false)
  ∧ (isLeadOff s = true -> nextRRIntervalPoints s' = nextRRIntervalPoints s).
Proof.
  intros s'. subst s'. unfold ecgTickPatient.
  split; [|split; [|split; [|split; [|split]]]].
  - intros ->. rewrite ecgTickNormal_nextRRIntervalPoints,
      ecgTickNormal_currentTargetHeartRate.
    by destruct (nextBeatDue s).
  - apply rrIntervalFor_positive.
  - apply pointsPerSecond_value.
  - apply rrIntervalFor_never.
  - intros Hinf history. pose proof (runEntry_never history s Hinf) as H.
    split; [exact H|]. unfold nextBeatDue. by rewrite H.
  - intros ->. apply ecgTickLeadOff_nextRRIntervalPoints.
Qed.

(** Ventricular tachycardia at 180: the first tick leaves the interval of
    180 less one; once the rhythm is asystole the next beat that falls due
    sets the countdown to [Infinity], and no tick finds a beat due after
    that, whatever the rhythm then is. *)
Lemma C3_countdown_is_unrounded_interval_less_one_witness :
  let s0 := sampleSimData vtPatient 180 in
  let s1 := ecgTickPatient vtPatient 25 180 s0 in
  let asystole := samplePatient "PID00300" ASYSTOLE pacerOff None in
  let s2 := ecgTickPatient asystole 50 0 (set_nextRRIntervalPoints (Finite 0) s1) in
  (isLeadOff s0 = false
   ∧ nextRRIntervalPoints s1 = num_pred (rrIntervalFor 180)
   ∧ rrIntervalFor 180 = Finite ((60 / inject_Z 180) * pointsPerSecond)%Q)
  ∧ (nextRRIntervalPoints s2 = Infinity
     ∧ nextBeatDue (runEntry (replicate 3 (HighFrequencyTick vtPatient 75 180)) s2) = false).
Proof.
  pose proof (C3_countdown_is_unrounded_interval_less_one vtPatient 25 180
                (sampleSimData vtPatient 180)) as (Hset & Hpos & _ & _ & _ & _).
  pose proof (C3_countdown_is_unrounded_interval_less_one vtPatient 75 180
                (ecgTickPatient (samplePatient "PID00300" ASYSTOLE pacerOff None) 50 0
                   (set_nextRRIntervalPoints (Finite 0)
                      (ecgTickPatient vtPatient 25 180 (sampleSimData vtPatient 180)))))
    as (_ & _ & _ & _ & Hnever & _).
  split.
  - split; [reflexivity|]. split; [exact (Hset eq_refl) | exact (Hpos 180 eq_refl)].
  - split; [reflexivity|].
    exact (proj2 (Hnever eq_refl (replicate 3 (HighFrequencyTick vtPatient 75 180)))).
Defined.

(** C3, as the specification words it, fails.  For ventricular tachycardia
    (rate 180) the first tick sets the countdown to 40/3 and decrements it
    to 37/3, where the rounded interval is 13 and one less is 12.  And a
    tick taken with the lead off does not decrement the countdown. *)
Lemma C3_rounded_countdown_counterexample :
  let s0 := sampleSimData vtPatient 180 in
  let s1 := ecgTickPatient vtPatient 25 180 s0 in
  let s2 := ecgTickPatient vtPatient 50 180 (toggleEcgLeadOffOn "lead-1" 30 s1) in
  isLeadOff s0 = false
  ∧ nextBeatDue s0 = true
  ∧ currentTargetHeartRate s1 = 180
  ∧ Num_eq (nextRRIntervalPoints s1) (Finite (37 # 3))
  ∧ Num_eq (num_pred (roundedInterval 180)) (Finite 12)
  ∧ ¬ Num_eq (nextRRIntervalPoints s1) (num_pred (roundedInterval 180))
  ∧ nextRRIntervalPoints s2 = nextRRIntervalPoints s1.
Proof.
  cbv zeta.
  split; [reflexivity|]. split; [reflexivity|]. split; [reflexivity|].
  split; [vm_compute; reflexivity|]. split; [vm_compute; reflexivity|].
  split; [vm_compute; discriminate|]. vm_compute. reflexivity.
Qed.

(** C2, as the code has it.  In a tick with the lead on in which a beat is
    due, the pacer is in demand mode at rate R and the displayed heart rate
    (the rate the source compares) is below R: the beat is flagged as paced,
    the target rate becomes R and the countdown is the interval of R less
    one, whatever the rhythm generator would have answered.  When no pattern
    is being walked (cursor 0) the pattern loaded is the pacer spike followed
    by the paced QRS, its first sample is emitted and the cursor moves to 1;
    when a pattern is still being walked the tick continues it. *)
Theorem C2_demand_pacing_captures_the_beat
    (patient : Patient) (now drawnHR R : Z) (s : PatientSpecificSimData)
    (Hlead : isLeadOff s = false)
    (Hdue : nextBeatDue s = true)
    (Hpacer : pacerSettings patient = Some {| mode := Some Demand; rate := Some R |})
    (Hbelow : heartRate (metrics s) < R) :
  let s' := ecgTickPatient patient now drawnHR s in
  isPacedBeat patient s = true
  ∧ currentTargetHeartRate s' = R
  ∧ nextRRIntervalPoints s' = num_pred (rrIntervalFor R)
  ∧ (ecgBufferIndex s = 0%nat ->
     ecgPatternBuffer s' = ECG_PACER_SPIKE_PATTERN ++ ECG_PACED_QRS_PATTERN
     ∧ ecgBufferIndex s' = 1%nat
     ∧ newestValue (ecgData s') = Some (Exact 0))
  ∧ ((0 < ecgBufferIndex s)%nat ->
     newestValue (ecgData s')
     = Some (Exact (patternAt (ecgPatternBuffer s) (ecgBufferIndex s)))).
Proof.
  intros s'. subst s'.
  assert (Hcapture : pacerCapture patient s = Some R).
  { unfold pacerCapture, pacerSettingsOf. rewrite Hpacer. simpl.
    apply Z.ltb_lt in Hbelow. by rewrite Hbelow. }
  assert (Hpaced : isPacedBeat patient s = true).
  { unfold isPacedBeat. rewrite Hdue, Hcapture. reflexivity. }
  unfold ecgTickPatient. rewrite Hlead.
  split; [exact Hpaced|].
  split; [by rewrite ecgTickNormal_currentTargetHeartRate, Hdue, Hcapture|].
  split; [by rewrite ecgTickNormal_nextRRIntervalPoints, Hdue, Hcapture|].
  split.
  - intros Hidle.
    assert (Hpat : currentPatternOf patient true true s
                   = ECG_PACER_SPIKE_PATTERN ++ ECG_PACED_QRS_PATTERN).
    { unfold currentPatternOf. by rewrite Hidle. }
    rewrite ecgTickNormal_ecgPatternBuffer, ecgTickNormal_ecgBufferIndex,
      ecgTickNormal_ecgData.
    cbv zeta. rewrite Hdue, Hpaced, Hpat, Hidle.
    unfold newestValue. rewrite shiftAppend_last. by split.
  - intros Hwalking. rewrite ecgTickNormal_ecgData.
    unfold newestValue. rewrite shiftAppend_last. simpl.
    unfold currentPatternOf. apply Nat.ltb_lt in Hwalking. by rewrite Hwalking.
Qed.

(** Sinus bradycardia at 50 with the pacer in demand mode at 70: the first
    tick retargets to 70 and loads the paced pattern. *)
Lemma C2_demand_pacing_captures_the_beat_witness :
  let patient := samplePatient "PID00600" SINUS_BRADYCARDIA (pacerDemand 70) None in
  let s := sampleSimData patient 50 in
  let s' := ecgTickPatient patient 25 45 s in
  currentTargetHeartRate s' = 70
  ∧ ecgPatternBuffer s' = ECG_PACER_SPIKE_PATTERN ++ ECG_PACED_QRS_PATTERN.
Proof.
  pose proof (C2_demand_pacing_captures_the_beat
                (samplePatient "PID00600" SINUS_BRADYCARDIA (pacerDemand 70) None)
                25 45 70
                (sampleSimData (samplePatient "PID00600" SINUS_BRADYCARDIA
                                  (pacerDemand 70) None) 50)
                eq_refl eq_refl eq_refl eq_refl) as (_ & Htarget & _ & Hidle & _).
  split; [exact Htarget | exact (proj1 (Hidle eq_refl))].
Defined.

(** C2, as the specification words it, fails.  Atrial flutter walks a
    pattern of 27 samples while its countdown is 16 samples, so the next
    beat falls due at cursor 16.  With the pacer switched to demand mode at
    160 by then (displayed and intrinsic rate 150), the tick flags the beat
    as paced and retargets to 160, but goes on walking the flutter pattern:
    the pattern is not the spike followed by the paced QRS. *)
Lemma C2_paced_pattern_counterexample :
  let s' := ecgTickPatient flutterPaced 400 150 flutterMidBeat in
  isLeadOff flutterMidBeat = false
  ∧ nextBeatDue flutterMidBeat = true
  ∧ pacerSettings flutterPaced = Some {| mode := Some Demand; rate := Some 160 |}
  ∧ heartRate (metrics flutterMidBeat) = 150
  ∧ currentTargetHeartRate flutterMidBeat = 150
  ∧ isPacedBeat flutterPaced flutterMidBeat = true
  ∧ ecgBufferIndex flutterMidBeat = 16%nat
  ∧ ecgPatternBuffer s' = ECG_AFLUTTER_PATTERN
  ∧ ecgPatternBuffer s' ≠ ECG_PACER_SPIKE_PATTERN ++ ECG_PACED_QRS_PATTERN
  ∧ ecgBufferIndex s' = 17%nat.
Proof.
  vm_compute. repeat (split; [reflexivity|]). split; [discriminate | reflexivity].
Qed.

(** ** The lead-off toggle *)

Lemma toggle_isLeadOff (uid : string) (date : Z) (s : PatientSpecificSimData) :
  isLeadOff (toggleEcgLeadOffOn uid date s) = negb (isLeadOff s).
Proof. reflexivity. Qed.

Lemma toggle_alerts (uid : string) (date : Z) (s : PatientSpecificSimData) :
  alerts (toggleEcgLeadOffOn uid date s)
  = if negb (isLeadOff s) then
      if existsb isLeadOffAlert (alerts s) then alerts s
      else alerts s ++ [leadOffAlert uid date]
    else withoutLeadOffAlert (alerts s).
Proof. reflexivity. Qed.

Lemma withoutLeadOffAlert_app (l1 l2 : list Alert) :
  withoutLeadOffAlert (l1 ++ l2) = withoutLeadOffAlert l1 ++ withoutLeadOffAlert l2.
Proof. unfold withoutLeadOffAlert. apply List.filter_app. Qed.

Lemma withoutLeadOffAlert_idemp (l : list Alert) :
  withoutLeadOffAlert (withoutLeadOffAlert l) = withoutLeadOffAlert l.
Proof.
  unfold withoutLeadOffAlert. induction l as [|a l IH]; simpl; [reflexivity|].
  destruct (isLeadOffAlert a) eqn:Ha; simpl; [exact IH|]. by rewrite Ha, IH.
Qed.

Lemma withoutLeadOffAlert_none (l : list Alert) :
  existsb isLeadOffAlert l = false -> withoutLeadOffAlert l = l.
Proof.
  unfold withoutLeadOffAlert. induction l as [|a l IH]; simpl; [reflexivity|].
  intros H. apply orb_false_iff in H as [Ha Hl]. by rewrite Ha, IH.
Qed.

Lemma existsb_withoutLeadOffAlert (l : list Alert) :
  existsb isLeadOffAlert (withoutLeadOffAlert l) = false.
Proof.
  unfold withoutLeadOffAlert. induction l as [|a l IH]; simpl; [reflexivity|].
  destruct (isLeadOffAlert a) eqn:Ha; simpl; [exact IH|]. by rewrite Ha, IH.
Qed.

(** Two toggles restore the flag and every alert other than the lead-off
    alert, in order. *)
Lemma withoutLeadOffAlert_snoc (l : list Alert) (uid : string) (date : Z) :
  withoutLeadOffAlert (l ++ [leadOffAlert uid date]) = withoutLeadOffAlert l.
Proof. rewrite withoutLeadOffAlert_app. apply app_nil_r. Qed.

Lemma double_toggle (uid1 uid2 : string) (date1 date2 : Z) (s : PatientSpecificSimData) :
  let s2 := toggleEcgLeadOffOn uid2 date2 (toggleEcgLeadOffOn uid1 date1 s) in
  isLeadOff s2 = isLeadOff s
  ∧ withoutLeadOffAlert (alerts s2) = withoutLeadOffAlert (alerts s)
  ∧ (isLeadOff s = false -> existsb isLeadOffAlert (alerts s) = false ->
     alerts s2 = alerts s).
Proof.
  cbv zeta. rewrite !toggle_isLeadOff, !toggle_alerts, !toggle_isLeadOff.
  destruct (isLeadOff s); cbn [negb].
  - split; [reflexivity|]. split; [|discriminate].
    rewrite existsb_withoutLeadOffAlert. cbv iota.
    by rewrite withoutLeadOffAlert_snoc, withoutLeadOffAlert_idemp.
  - split; [reflexivity|]. split.
    + destruct (existsb isLeadOffAlert (alerts s)).
      * apply withoutLeadOffAlert_idemp.
      * by rewrite withoutLeadOffAlert_snoc, withoutLeadOffAlert_idemp.
    + intros _ Hnone. rewrite Hnone, withoutLeadOffAlert_snoc.
      by apply withoutLeadOffAlert_none.
Qed.

(** *** The flag and the lead-off alert go together *)

Lemma alertMessage_not_leadOff (c : AlertCheck) (patient : Patient) (m : CardiacMetrics) :
  c ∈ alertChecks patient m -> alertMessage (c_metric c) (c_type c) (c_value c) ≠ LEAD_OFF_MESSAGE.
Proof.
  unfold alertChecks. cbv zeta. rewrite !elem_of_cons, elem_of_nil.
  intros [->|[->|[->|[->|[->|[->|[]]]]]]]; discriminate.
Qed.

Lemma existsb_isLeadOffAlert_app (l : list Alert) (a : Alert) :
  existsb isLeadOffAlert (l ++ [a]) = existsb isLeadOffAlert l || isLeadOffAlert a.
Proof. rewrite existsb_app. simpl. by rewrite orb_false_r. Qed.

Lemma runCheck_leadOff (uid : string) (date : Z) (c : AlertCheck) (l : list Alert) :
  alertMessage (c_metric c) (c_type c) (c_value c) ≠ LEAD_OFF_MESSAGE ->
  existsb isLeadOffAlert (runCheck uid date c l) = existsb isLeadOffAlert l.
Proof.
  intros Hne. unfold runCheck, checkAlert.
  destruct (isTriggered _ _ _); [|reflexivity].
  destruct (hasAlert _ _ _); [reflexivity|].
  rewrite existsb_isLeadOffAlert_app. unfold isLeadOffAlert at 2. simpl.
  rewrite bool_decide_eq_false_2 by exact Hne. apply orb_false_r.
Qed.

Lemma evaluateAlerts_checks (patient : Patient) (inp : VitalsInputs) (m : CardiacMetrics)
    (l : list Alert) :
  evaluateAlerts patient inp m l
  = foldl (fun acc ic => runCheck (alertIds inp ic.1) (alertDate inp) ic.2 acc) l
          (imap pair (alertChecks patient m)).
Proof. reflexivity. Qed.

Lemma evaluateAlerts_leadOff (patient : Patient) (inp : VitalsInputs) (m : CardiacMetrics)
    (l : list Alert) :
  existsb isLeadOffAlert (evaluateAlerts patient inp m l) = existsb isLeadOffAlert l.
Proof.
  rewrite evaluateAlerts_checks.
  assert (Hall : Forall (fun ic : nat * AlertCheck => ic.2 ∈ alertChecks patient m)
                        (imap pair (alertChecks patient m))).
  { apply Forall_forall. intros [i c] Hin. apply elem_of_lookup_imap in Hin
      as (j & c' & Heq & Hlook). inversion Heq; subst. simpl.
    by eapply list_elem_of_lookup_2. }
  revert l. induction Hall as [|[i c] rest Hc _ IH]; intros l; [reflexivity|].
  simpl. rewrite IH. apply runCheck_leadOff. by eapply alertMessage_not_leadOff.
Qed.

Lemma vitalsTickPatient_alerts (patient : Patient) (now : Z) (inp : VitalsInputs)
    (s : PatientSpecificSimData) :
  alerts (vitalsTickPatient patient now inp s)
  = evaluateAlerts patient inp (evolveMetrics patient now inp s) (alerts s).
Proof.
  unfold vitalsTickPatient, stampUpdates. cbv zeta. decide_tests; reflexivity.
Qed.

Lemma vitalsTickPatient_metrics (patient : Patient) (now : Z) (inp : VitalsInputs)
    (s : PatientSpecificSimData) :
  metrics (vitalsTickPatient patient now inp s) = evolveMetrics patient now inp s.
Proof. reflexivity. Qed.

Lemma vitalsTickPatient_isLeadOff (patient : Patient) (now : Z) (inp : VitalsInputs)
    (s : PatientSpecificSimData) :
  isLeadOff (vitalsTickPatient patient now inp s) = isLeadOff s.
Proof.
  unfold vitalsTickPatient, stampUpdates. cbv zeta. decide_tests; reflexivity.
Qed.

Lemma ecgTickPatient_alerts (patient : Patient) (now drawnHR : Z)
    (s : PatientSpecificSimData) :
  alerts (ecgTickPatient patient now drawnHR s) = alerts s.
Proof.
  unfold ecgTickPatient, ecgTickLeadOff, ecgTickNormal.
  destruct (isLeadOff s); cbv zeta; by repeat skip_block.
Qed.

Lemma ecgTickPatient_isLeadOff (patient : Patient) (now drawnHR : Z)
    (s : PatientSpecificSimData) :
  isLeadOff (ecgTickPatient patient now drawnHR s) = isLeadOff s.
Proof.
  unfold ecgTickPatient, ecgTickLeadOff, ecgTickNormal.
  destruct (isLeadOff s) eqn:E; cbv zeta; repeat skip_block; by rewrite ?E.
Qed.

Lemma feedback_isLeadOff (patientId : string) (feedbackType : AlarmFeedbackType)
    (alertSeverity : AlertSeverity) (inp : FeedbackInputs) (s : PatientSpecificSimData) :
  isLeadOff (provideAlarmFeedbackOn patientId feedbackType alertSeverity inp s)
  = if existsb isLeadOffAlert (unacknowledgedOf alertSeverity s) then false else isLeadOff s.
Proof.
  unfold provideAlarmFeedbackOn. cbv zeta.
  destruct (existsb isLeadOffAlert (unacknowledgedOf alertSeverity s)); reflexivity.
Qed.

Lemma feedback_alerts (patientId : string) (feedbackType : AlarmFeedbackType)
    (alertSeverity : AlertSeverity) (inp : FeedbackInputs) (s : PatientSpecificSimData) :
  alerts (provideAlarmFeedbackOn patientId feedbackType alertSeverity inp s)
  = if existsb isLeadOffAlert (unacknowledgedOf alertSeverity s)
    then withoutLeadOffAlert (alerts s) else alerts s.
Proof.
  unfold provideAlarmFeedbackOn. cbv zeta.
  destruct (existsb isLeadOffAlert (unacknowledgedOf alertSeverity s)); reflexivity.
Qed.

(** In every state of an entry, the lead is off exactly when the lead-off
    alert is among the active alerts. *)
Lemma stepEntry_leadOffConsistent (e : EntryStep) (s : PatientSpecificSimData) :
  leadOffConsistent s -> leadOffConsistent (stepEntry e s).
Proof.
  unfold leadOffConsistent. intros Hinv. destruct e; cbn [stepEntry].
  - by rewrite ecgTickPatient_isLeadOff, ecgTickPatient_alerts.
  - by rewrite vitalsTickPatient_isLeadOff, vitalsTickPatient_alerts, evaluateAlerts_leadOff.
  - exact Hinv.
  - exact Hinv.
  - rewrite feedback_isLeadOff, feedback_alerts.
    destruct (existsb isLeadOffAlert (unacknowledgedOf alertSeverity s)); [|exact Hinv].
    symmetry. apply existsb_withoutLeadOffAlert.
  - rewrite toggle_isLeadOff, toggle_alerts.
    destruct (isLeadOff s); cbn [negb].
    + symmetry. apply existsb_withoutLeadOffAlert.
    + destruct (existsb isLeadOffAlert (alerts s)) eqn:E; [by rewrite E|].
      rewrite existsb_isLeadOffAlert_app, E. reflexivity.
  - exact Hinv.
  - exact Hinv.
Qed.

Lemma runEntry_leadOffConsistent (history : list EntryStep) (s : PatientSpecificSimData) :
  leadOffConsistent s -> leadOffConsistent (runEntry history s).
Proof.
  apply (runEntry_invariant leadOffConsistent). intros e x. apply stepEntry_leadOffConsistent.
Qed.

Lemma convergeHeartRate_step (target hr : Z) :
  Z.abs (convergeHeartRate target hr - hr) <= 2.
Proof.
  unfold convergeHeartRate.
  destruct (Z.sgn_spec (target - hr)) as [[_ ->]|[[_ ->]|[_ ->]]]; lia.
Qed.

Lemma evolveMetrics_heartRate (patient : Patient) (now : Z) (inp : VitalsInputs)
    (s : PatientSpecificSimData) :
  heartRate (evolveMetrics patient now inp s)
  = convergeHeartRate (currentTargetHeartRate s) (heartRate (metrics s)).
Proof. unfold evolveMetrics. cbv zeta. decide_tests; reflexivity. Qed.

(** C7, as the code has it.  Two consecutive toggles restore the lead-off
    flag and leave every alert other than the lead-off alert in place and
    in order; a lead-off alert is active afterwards exactly when the lead
    was off before.  When the lead was on before the two calls, which in
    every state of an entry means that no lead-off alert was active, the
    alert collection is restored exactly.  While the lead is off, a
    high-frequency tick emits the ECG sample 0 and sets the heart rate to 0,
    whatever the patient's rhythm and pacer; a low-frequency tick, lead off
    or on, moves the heart rate by at most 2 toward the target rate.  Two
    calls of [toggleEcgLeadOff] for the same patient do this to that
    patient's entry and change nothing else in the state of the hook.  When
    the lead was off before the two calls, the alerts afterwards are the
    alerts other than the lead-off alert followed by a lead-off alert made
    by the second call, with the id and the date drawn by that call. *)
Theorem C7_double_toggle_and_lead_off_tick
    (uid1 uid2 : string) (date1 date2 : Z) (s : PatientSpecificSimData) :
  let twice x := toggleEcgLeadOffOn uid2 date2 (toggleEcgLeadOffOn uid1 date1 x) in
  isLeadOff (twice s) = isLeadOff s
  ∧ withoutLeadOffAlert (alerts (twice s)) = withoutLeadOffAlert (alerts s)
  ∧ existsb isLeadOffAlert (alerts (twice s)) = isLeadOff s
  ∧ (isLeadOff s = false -> existsb isLeadOffAlert (alerts s) = false ->
     alerts (twice s) = alerts s)
  ∧ (∀ p hr nsr rr created history,
       let x := runEntry history (createInitialPatientSimData p hr nsr rr created) in
       isLeadOff x = false -> alerts (twice x) = alerts x)
  ∧ (isLeadOff s = true ->
     ∀ patient now drawnHR,
       let s' := ecgTickPatient patient now drawnHR s in
       heartRate (metrics s') = 0 ∧ newestValue (ecgData s') = Some (Exact 0))
  ∧ (∀ patient now inp,
       let s' := vitalsTickPatient patient now inp s in
       heartRate (metrics s')
       = convergeHeartRate (currentTargetHeartRate s) (heartRate (metrics s))
       ∧ Z.abs (heartRate (metrics s') - heartRate (metrics s)) <= 2)
  ∧ (∀ patientId st,
       let st2 := toggleEcgLeadOff patientId uid2 date2
                    (toggleEcgLeadOff patientId uid1 date1 st) in
       simulationDataMap st2 !! patientId = twice <$> simulationDataMap st !! patientId
       ∧ (∀ other, patientId ≠ other ->
                   simulationDataMap st2 !! other = simulationDataMap st !! other)
       ∧ patients st2 = patients st
       ∧ selectedPatientId st2 = selectedPatientId st)
  ∧ (isLeadOff s = true ->
     alerts (twice s) = withoutLeadOffAlert (alerts s) ++ [leadOffAlert uid2 date2]
     ∧ a_id (leadOffAlert uid2 date2) = uid2
     ∧ timestamp (leadOffAlert uid2 date2) = date2).
Proof.
  intros twice.
  destruct (double_toggle uid1 uid2 date1 date2 s) as (Hflag & Hkeep & Hexact).
  split; [exact Hflag|]. split; [exact Hkeep|].
  split.
  { subst twice. cbv beta. rewrite !toggle_alerts, !toggle_isLeadOff.
    destruct (isLeadOff s); cbn [negb].
    - rewrite existsb_withoutLeadOffAlert. cbv iota.
      by rewrite existsb_isLeadOffAlert_app, existsb_withoutLeadOffAlert.
    - destruct (existsb isLeadOffAlert (alerts s)); apply existsb_withoutLeadOffAlert. }
  split; [exact Hexact|].
  split.
  { intros p hr nsr rr created history x Hon.
    destruct (double_toggle uid1 uid2 date1 date2 x) as (_ & _ & Hx).
    apply Hx; [exact Hon|].
    assert (Hinv : leadOffConsistent x)
      by (apply runEntry_leadOffConsistent; reflexivity).
    unfold leadOffConsistent in Hinv. congruence. }
  split.
  { intros Hoff patient now drawnHR s'. subst s'.
    unfold ecgTickPatient. rewrite Hoff.
    rewrite ecgTickLeadOff_metrics, ecgTickLeadOff_ecgData.
    unfold newestValue. rewrite shiftAppend_last. by split. }
  split.
  { intros patient now inp s'. subst s'.
    rewrite vitalsTickPatient_metrics, evolveMetrics_heartRate.
    split; [reflexivity | apply convergeHeartRate_step]. }
  split.
  - intros patientId st st2. subst st2 twice. cbn [toggleEcgLeadOff set_simulationDataMap
      simulationDataMap patients selectedPatientId].
    split; [|split; [|split]]; try reflexivity.
    + rewrite !updateSimData_lookup. by destruct (simulationDataMap st !! patientId).
    + intros other Hne. by rewrite !updateSimData_lookup_ne.
  - intros Hoff. split; [|split; reflexivity].
    subst twice. cbv beta. rewrite !toggle_alerts, !toggle_isLeadOff, Hoff.
    cbn [negb]. by rewrite existsb_withoutLeadOffAlert.
Qed.

(** A bradycardic patient with one active warning and the lead on: two
    toggles give back the same alerts; after one toggle a tick emits 0 and
    shows a heart rate of 0. *)
Lemma C7_double_toggle_and_lead_off_tick_witness :
  let s := runEntry [LowFrequencyTick bradyPatient 1000 (noDrift 1000)]
             (sampleSimData bradyPatient 48) in
  let twice x := toggleEcgLeadOffOn "lead-2" 1500 (toggleEcgLeadOffOn "lead-1" 1200 x) in
  let off := toggleEcgLeadOffOn "lead-1" 1200 s in
  (isLeadOff s = false ∧ alerts (twice s) = alerts s)
  ∧ (isLeadOff off = true
     ∧ heartRate (metrics (ecgTickPatient bradyPatient 1225 48 off)) = 0
     ∧ newestValue (ecgData (ecgTickPatient bradyPatient 1225 48 off)) = Some (Exact 0)).
Proof.
  pose proof (C7_double_toggle_and_lead_off_tick "lead-1" "lead-2" 1200 1500
                (runEntry [LowFrequencyTick bradyPatient 1000 (noDrift 1000)]
                   (sampleSimData bradyPatient 48)))
    as (_ & _ & _ & Hexact & _ & _ & _ & _).
  pose proof (C7_double_toggle_and_lead_off_tick "lead-1" "lead-2" 1200 1500
                (toggleEcgLeadOffOn "lead-1" 1200
                   (runEntry [LowFrequencyTick bradyPatient 1000 (noDrift 1000)]
                      (sampleSimData bradyPatient 48))))
    as (_ & _ & _ & _ & _ & Htick & _ & _).
  split.
  - split; [reflexivity | exact (Hexact eq_refl eq_refl)].
  - split; [reflexivity | exact (Htick eq_refl bradyPatient 1225 48)].
Defined.

(** C7, as the specification words it, fails when the two toggles start
    with the lead off: the lead-off alert that comes back is a new alert (a
    new id and date, no acknowledgement) at the end of the collection.  In
    the same state the lead is off and the heart rate is 2, not 0: the
    low-frequency tick has moved it toward the target since the last
    high-frequency tick. *)
Lemma C7_double_toggle_counterexample :
  let s2 := toggleEcgLeadOffOn "lead-3" 1500 (toggleEcgLeadOffOn "lead-2" 1200 leadOffState) in
  isLeadOff leadOffState = true
  ∧ a_id <$> alerts leadOffState = ["lead-1"; "alert-1000-0"; "alert-1000-1"]
  ∧ a_id <$> alerts s2 = ["alert-1000-0"; "alert-1000-1"; "lead-3"]
  ∧ alerts s2 ≠ alerts leadOffState
  ∧ heartRate (metrics leadOffState) = 2.
Proof.
  vm_compute. split; [reflexivity|]. split; [reflexivity|]. split; [reflexivity|].
  split; [discriminate | reflexivity].
Qed.

(** ** Raising alerts *)

Lemma hasAlert_key (msg : string) (sev : AlertSeverity) (l : list Alert) :
  hasAlert msg sev l = true <-> (msg, sev) ∈ alertKey <$> l.
Proof.
  unfold hasAlert. rewrite existsb_exists, list_elem_of_fmap. split.
  - intros (a & Hin & Ha). apply andb_true_iff in Ha as [Hm Hs].
    apply bool_decide_eq_true in Hm, Hs. exists a.
    split; [unfold alertKey; congruence | by apply list_elem_of_In].
  - intros (a & Hk & Hin). exists a. split; [by apply list_elem_of_In|].
    unfold alertKey in Hk. inversion Hk; subst.
    by rewrite !bool_decide_eq_true_2.
Qed.

Lemma hasAlert_app (msg : string) (sev : AlertSeverity) (l1 l2 : list Alert) :
  hasAlert msg sev (l1 ++ l2) = hasAlert msg sev l1 || hasAlert msg sev l2.
Proof. unfold hasAlert. apply existsb_app. Qed.

Lemma runCheck_alerts (uid : string) (date : Z) (c : AlertCheck) (l : list Alert) :
  runCheck uid date c l
  = if checkTriggered c && negb (hasAlert (checkKey c).1 (checkKey c).2 l)
    then l ++ [{| a_id := uid; message := (checkKey c).1; severity := (checkKey c).2;
                  timestamp := date; metric := c_metric c |}]
    else l.
Proof.
  unfold runCheck, checkAlert, checkTriggered, checkKey. simpl.
  destruct (isTriggered _ _ _); [|reflexivity]. simpl.
  by destruct (hasAlert _ _ _).
Qed.

(** A check never changes the collection while an alert with its message
    and severity is there. *)
Lemma runCheck_present (uid : string) (date : Z) (c : AlertCheck) (l : list Alert) :
  hasAlert (checkKey c).1 (checkKey c).2 l = true -> runCheck uid date c l = l.
Proof. intros H. rewrite runCheck_alerts, H. by rewrite andb_false_r. Qed.

Lemma runCheck_quiet (uid : string) (date : Z) (c : AlertCheck) (l : list Alert) :
  checkTriggered c = false -> runCheck uid date c l = l.
Proof. intros H. by rewrite runCheck_alerts, H. Qed.

Lemma runCheck_raised (uid : string) (date : Z) (c : AlertCheck) (l : list Alert) :
  checkTriggered c = true -> hasAlert (checkKey c).1 (checkKey c).2 (runCheck uid date c l) = true.
Proof.
  intros H. rewrite runCheck_alerts, H. simpl.
  destruct (hasAlert _ _ l) eqn:E; simpl; [exact E|].
  rewrite hasAlert_app. unfold hasAlert at 2. simpl.
  rewrite !bool_decide_eq_true_2 by reflexivity. apply orb_true_r.
Qed.

Lemma runCheck_keeps (uid : string) (date : Z) (c : AlertCheck) (l : list Alert)
    (msg : string) (sev : AlertSeverity) :
  hasAlert msg sev l = true -> hasAlert msg sev (runCheck uid date c l) = true.
Proof.
  intros H. rewrite runCheck_alerts.
  destruct (_ && _); [|exact H]. by rewrite hasAlert_app, H.
Qed.

Lemma runCheck_NoDup (uid : string) (date : Z) (c : AlertCheck) (l : list Alert) :
  NoDup (alertKey <$> l) -> NoDup (alertKey <$> runCheck uid date c l).
Proof.
  intros Hnd. rewrite runCheck_alerts.
  destruct (checkTriggered c); simpl; [|exact Hnd].
  destruct (hasAlert _ _ l) eqn:E; simpl; [exact Hnd|].
  rewrite fmap_app. simpl. apply NoDup_app. split; [exact Hnd|]. split.
  - intros k Hk Hin. apply list_elem_of_singleton in Hin. subst k.
    unfold alertKey in Hk. simpl in Hk.
    apply (proj2 (hasAlert_key _ _ l)) in Hk. congruence.
  - apply NoDup_singleton.
Qed.

Lemma checks_fold (inp : VitalsInputs) (checks : list (nat * AlertCheck)) (l : list Alert) :
  let run := foldl (fun acc (ic : nat * AlertCheck) =>
                      runCheck (alertIds inp ic.1) (alertDate inp) ic.2 acc) in
  (NoDup (alertKey <$> l) -> NoDup (alertKey <$> run l checks))
  ∧ (∀ msg sev, hasAlert msg sev l = true -> hasAlert msg sev (run l checks) = true)
  ∧ (∀ ic, ic ∈ checks -> checkTriggered ic.2 = true ->
       hasAlert (checkKey ic.2).1 (checkKey ic.2).2 (run l checks) = true).
Proof.
  cbv zeta. revert l. induction checks as [|[i c] checks IH]; intros l.
  - split; [auto|]. split; [auto|]. intros ic Hin. by apply elem_of_nil in Hin.
  - simpl. destruct (IH (runCheck (alertIds inp i) (alertDate inp) c l)) as (Hnd & Hkeep & Hnew).
    split; [|split].
    + intros H. by apply Hnd, runCheck_NoDup.
    + intros msg sev H. by apply Hkeep, runCheck_keeps.
    + intros ic Hin Htrig. apply elem_of_cons in Hin as [->|Hin].
      * simpl in *. by apply Hkeep, runCheck_raised.
      * by apply Hnew.
Qed.

Lemma withoutLeadOffAlert_NoDup (l : list Alert) :
  NoDup (alertKey <$> l) -> NoDup (alertKey <$> withoutLeadOffAlert l).
Proof.
  unfold withoutLeadOffAlert. induction l as [|a l IH]; [auto|].
  rewrite fmap_cons. intros Hnd. apply NoDup_cons in Hnd as [Hnotin Hnd].
  cbn [List.filter]. destruct (isLeadOffAlert a); cbn [negb]; [by apply IH|].
  rewrite fmap_cons. apply NoDup_cons. split; [|by apply IH].
  intros Hin. apply Hnotin. apply list_elem_of_fmap in Hin as (b & Hb & Hin).
  apply list_elem_of_fmap. exists b. split; [exact Hb|].
  apply list_elem_of_In. apply list_elem_of_In, filter_In in Hin. tauto.
Qed.

Lemma isLeadOffAlert_key (l : list Alert) (sev : AlertSeverity) :
  existsb isLeadOffAlert l = false -> (LEAD_OFF_MESSAGE, sev) ∉ alertKey <$> l.
Proof.
  intros Hnone Hin. apply list_elem_of_fmap in Hin as (a & Hk & Hin).
  assert (existsb isLeadOffAlert l = true); [|congruence].
  apply existsb_exists. exists a. split; [by apply list_elem_of_In|].
  unfold isLeadOffAlert. apply bool_decide_eq_true. unfold alertKey in Hk. congruence.
Qed.

(** No step of an entry gives two active alerts the same message and
    severity. *)
Lemma stepEntry_NoDup (e : EntryStep) (s : PatientSpecificSimData) :
  NoDup (alertKey <$> alerts s) -> NoDup (alertKey <$> alerts (stepEntry e s)).
Proof.
  intros Hnd. destruct e; cbn [stepEntry]; try exact Hnd.
  - by rewrite ecgTickPatient_alerts.
  - rewrite vitalsTickPatient_alerts, evaluateAlerts_checks.
    by apply (checks_fold inp).
  - rewrite feedback_alerts. destruct (existsb _ _); [|exact Hnd].
    by apply withoutLeadOffAlert_NoDup.
  - rewrite toggle_alerts. destruct (negb (isLeadOff s)).
    + destruct (existsb isLeadOffAlert (alerts s)) eqn:E; [exact Hnd|].
      rewrite fmap_app. apply NoDup_app. split; [exact Hnd|]. split.
      * intros k Hk Hin. apply list_elem_of_singleton in Hin. subst k.
        by apply (isLeadOffAlert_key _ CRITICAL E).
      * apply NoDup_singleton.
    + by apply withoutLeadOffAlert_NoDup.
Qed.

Lemma runEntry_NoDup (history : list EntryStep) (s : PatientSpecificSimData) :
  NoDup (alertKey <$> alerts s) -> NoDup (alertKey <$> alerts (runEntry history s)).
Proof.
  apply (runEntry_invariant (fun x => NoDup (alertKey <$> alerts x))).
  intros e x. apply stepEntry_NoDup.
Qed.

Lemma countKey_NoDup (k : string * AlertSeverity) (l : list Alert) :
  NoDup (alertKey <$> l) -> (countKey k l <= 1)%nat.
Proof.
  unfold countKey. induction l as [|a l IH]; [simpl; lia|].
  rewrite fmap_cons. intros Hnd. apply NoDup_cons in Hnd as [Hnotin Hnd].
  cbn [List.filter]. case_bool_decide as Hk; [|by apply IH].
  assert (Hzero : List.filter (fun b => bool_decide (alertKey b = k)) l = []).
  { destruct (List.filter _ l) as [|b rest] eqn:E; [reflexivity|]. exfalso.
    assert (Hb : In b (List.filter (fun b => bool_decide (alertKey b = k)) l))
      by (rewrite E; left; reflexivity).
    apply filter_In in Hb as [Hin Hbk]. apply bool_decide_eq_true in Hbk.
    apply Hnotin, list_elem_of_fmap. exists b.
    split; [congruence | by apply list_elem_of_In]. }
  rewrite Hzero. simpl. lia.
Qed.

Lemma countKey_present (msg : string) (sev : AlertSeverity) (l : list Alert) :
  hasAlert msg sev l = true -> (1 <= countKey (msg, sev) l)%nat.
Proof.
  intros H. apply hasAlert_key, list_elem_of_fmap in H as (a & Hk & Hin).
  unfold countKey.
  assert (Ha : In a (List.filter (fun b => bool_decide (alertKey b = (msg, sev))) l)).
  { apply filter_In. split; [by apply list_elem_of_In | by apply bool_decide_eq_true]. }
  destruct (List.filter _ l); [destruct Ha | simpl; lia].
Qed.

Lemma runCheck_grows (uid : string) (date : Z) (c : AlertCheck) (l : list Alert) :
  ∃ new, runCheck uid date c l = l ++ new.
Proof.
  rewrite runCheck_alerts. destruct (_ && _); [by eexists|].
  exists []. by rewrite app_nil_r.
Qed.

Lemma evaluateAlerts_grows (patient : Patient) (inp : VitalsInputs) (m : CardiacMetrics)
    (l : list Alert) :
  ∃ new, evaluateAlerts patient inp m l = l ++ new.
Proof.
  rewrite evaluateAlerts_checks. generalize (imap pair (alertChecks patient m)).
  intros checks. revert l. induction checks as [|ic checks IH]; intros l.
  - exists []. by rewrite app_nil_r.
  - simpl. destruct (runCheck_grows (alertIds inp ic.1) (alertDate inp) ic.2 l) as [new1 ->].
    destruct (IH (l ++ new1)) as [new2 ->]. exists (new1 ++ new2). by rewrite app_assoc.
Qed.

Lemma countKey_app (k : string * AlertSeverity) (l1 l2 : list Alert) :
  countKey k (l1 ++ l2) = (countKey k l1 + countKey k l2)%nat.
Proof. unfold countKey. by rewrite List.filter_app, length_app. Qed.

Lemma countKey_absent (msg : string) (sev : AlertSeverity) (l : list Alert) :
  hasAlert msg sev l = false -> countKey (msg, sev) l = 0%nat.
Proof.
  intros H. unfold countKey.
  destruct (List.filter _ l) as [|a rest] eqn:E; [reflexivity|]. exfalso.
  assert (Ha : In a (List.filter (fun b => bool_decide (alertKey b = (msg, sev))) l))
    by (rewrite E; by left).
  apply filter_In in Ha as [Hin Hk]. apply bool_decide_eq_true in Hk.
  apply not_true_iff_false in H. apply H, hasAlert_key, list_elem_of_fmap.
  exists a. split; [done | by apply list_elem_of_In].
Qed.

(** C4, as the code has it.  At every point of the life of an entry no two
    active alerts have the same message and severity, and a check whose
    message and severity are already among the active alerts inserts
    nothing.  After a low-frequency tick, each of its six checks that found
    its threshold crossed has exactly one active alert with its message
    ["{metric} {Low|High}: {value}"] and its severity.  The tick only
    appends alerts: for a check that found its threshold crossed it appends
    none when an alert with the message and severity of the check was
    active before the tick, and exactly one otherwise.  The message
    contains the value: over consecutive ticks a condition keeps one alert
    while the value stays the same, and gets a further alert at each value
    for which none is active yet. *)
Theorem C4_one_alert_per_message_and_severity
    (p : Patient) (hr nsr rr created : Z) (history : list EntryStep) :
  let s := runEntry history (createInitialPatientSimData p hr nsr rr created) in
  NoDup (alertKey <$> alerts s)
  ∧ (∀ k, (countKey k (alerts s) <= 1)%nat)
  ∧ (∀ uid date c,
       hasAlert (checkKey c).1 (checkKey c).2 (alerts s) = true ->
       runCheck uid date c (alerts s) = alerts s)
  ∧ (∀ patient now inp c,
       let s' := vitalsTickPatient patient now inp s in
       c ∈ alertChecks patient (metrics s') ->
       checkTriggered c = true ->
       countKey (checkKey c) (alerts s') = 1%nat)
  ∧ (∀ patient now inp,
       let s' := vitalsTickPatient patient now inp s in
       ∃ new,
         alerts s' = alerts s ++ new
         ∧ ∀ c, c ∈ alertChecks patient (metrics s') ->
                checkTriggered c = true ->
                countKey (checkKey c) new
                = if hasAlert (checkKey c).1 (checkKey c).2 (alerts s) then 0%nat else 1%nat).
Proof.
  intros s.
  assert (Hnd : NoDup (alertKey <$> alerts s)).
  { subst s. apply runEntry_NoDup. simpl. apply NoDup_nil_2. }
  assert (Hone : ∀ patient now inp c,
            c ∈ alertChecks patient (metrics (vitalsTickPatient patient now inp s)) ->
            checkTriggered c = true ->
            countKey (checkKey c) (alerts (vitalsTickPatient patient now inp s)) = 1%nat);
    [|split; [exact Hnd|]; split; [intros k; by apply countKey_NoDup|];
      split; [intros uid date c; apply runCheck_present|]; split; [exact Hone|]].
  2:{ intros patient now inp s'. subst s'.
      destruct (evaluateAlerts_grows patient inp (evolveMetrics patient now inp s) (alerts s))
        as [new Hnew].
      exists new. split; [by rewrite vitalsTickPatient_alerts|].
      intros c Hin Htrig. specialize (Hone patient now inp c Hin Htrig).
      rewrite vitalsTickPatient_alerts, Hnew, countKey_app in Hone.
      pose proof (countKey_NoDup (checkKey c) _ Hnd) as Hle.
      destruct (hasAlert _ _ (alerts s)) eqn:Hhas.
      - apply countKey_present in Hhas. rewrite <- surjective_pairing in Hhas. lia.
      - apply countKey_absent in Hhas. rewrite <- surjective_pairing in Hhas. lia. }
  intros patient now inp c Hin Htrig.
  rewrite vitalsTickPatient_metrics in Hin.
  rewrite vitalsTickPatient_alerts, evaluateAlerts_checks.
  destruct (checks_fold inp (imap pair (alertChecks patient (evolveMetrics patient now inp s)))
              (alerts s)) as (Hnd' & _ & Hnew).
  apply list_elem_of_lookup in Hin as [i Hi].
  assert (Hic : (i, c) ∈ imap pair (alertChecks patient (evolveMetrics patient now inp s))).
  { apply elem_of_lookup_imap. eauto. }
  specialize (Hnew (i, c) Hic Htrig). cbn [fst snd] in Hnew.
  apply countKey_present in Hnew. rewrite <- surjective_pairing in Hnew.
  pose proof (countKey_NoDup (checkKey c) _ (Hnd' Hnd)) as Hle.
  cbv zeta in Hle, Hnew. lia.
Qed.

(** The personalized threshold of 55 with a heart rate of 50: after a
    second tick there is still one critical alert ["Heart Rate Low: 50"],
    and a third check would insert nothing. *)
Lemma C4_one_alert_per_message_and_severity_witness :
  let history := [LowFrequencyTick personalizedPatient 1000 (noDrift 1000)] in
  let s := runEntry history (sampleSimData personalizedPatient 50) in
  let s' := vitalsTickPatient personalizedPatient 2000 (noDrift 2000) s in
  let c := {| c_metric := "Heart Rate"; c_value := 50;
              c_thresholds := ALERT_THRESHOLDS_HEART_RATE;
              c_personalized := personalizedThresholds personalizedPatient ≫= pt_heartRate;
              c_severity := CRITICAL; c_type := low |} in
  checkTriggered c = true
  ∧ checkKey c = ("Heart Rate Low: 50", CRITICAL)
  ∧ countKey (checkKey c) (alerts s') = 1%nat
  ∧ runCheck "alert-3000-0" 3000 c (alerts s) = alerts s.
Proof.
  pose proof (C4_one_alert_per_message_and_severity personalizedPatient 50 72 14 0
                [LowFrequencyTick personalizedPatient 1000 (noDrift 1000)])
    as (_ & _ & Hpresent & Hone & _).
  split; [reflexivity|]. split; [reflexivity|]. split.
  - apply (Hone personalizedPatient 2000 (noDrift 2000)); [|reflexivity].
    apply list_elem_of_here.
  - apply Hpresent. reflexivity.
Defined.

(** C4, as the specification words it, fails.  A bradycardic patient at 48
    whose target drops to 44 stays below the low warning threshold of 50 on
    two consecutive ticks, at 46 and then at 44: the two ticks leave two
    active warnings for the one condition (heart rate, warning, low). *)
Lemma C4_one_alert_per_condition_counterexample :
  let s0 := sampleSimData bradyPatient 48 in
  let s1 := runEntry (take 2 bradySlowing) s0 in
  let s2 := runEntry bradySlowing s0 in
  heartRate (metrics s1) = 46
  ∧ heartRate (metrics s2) = 44
  ∧ alertThreshold ALERT_THRESHOLDS_HEART_RATE None WARNING low = Some 50
  ∧ message <$> alerts s1 = ["Heart Rate Low: 46"]
  ∧ message <$> alerts s2 = ["Heart Rate Low: 46"; "Heart Rate Low: 44"]
  ∧ length (List.filter (ofCondition "Heart Rate" WARNING low) (alerts s2)) = 2%nat.
Proof. vm_compute. repeat (split; [reflexivity|]). reflexivity. Qed.

(** The scenario of the specification: with a personalized low critical
    threshold of 55 and a heart rate of 50, one tick raises the critical
    alert ["Heart Rate Low: 50"], and the next tick does not raise it again. *)
Example personalized_threshold_scenario :
  let s0 := sampleSimData personalizedPatient 50 in
  let s1 := vitalsTickPatient personalizedPatient 1000 (noDrift 1000) s0 in
  let s2 := vitalsTickPatient personalizedPatient 2000 (noDrift 2000) s1 in
  alertKey <$> alerts s1 = [("Heart Rate Low: 50", CRITICAL)]
  ∧ alerts s2 = alerts s1.
Proof. vm_compute. split; reflexivity. Qed.

(** C6: a check is triggered exactly when the value is below (direction
    low) or above (direction high) its threshold, and the threshold is the
    patient's personalized override for that severity and direction when
    there is one and the global default otherwise.  A check that is not
    triggered leaves the alerts as they are; one that is triggered leaves
    an alert with its message and severity among them. *)
Theorem C6_triggered_iff_beyond_effective_threshold
    (uid : string) (date : Z) (metricName : string) (value : Z)
    (defaults : ThresholdTable) (overrides : option MetricThresholds)
    (sev : AlertSeverity) (l : list Alert) :
  (∀ type, alertThreshold defaults overrides sev type
           = effectiveThreshold defaults overrides sev type)
  ∧ (isTriggered value (alertThreshold defaults overrides sev low) low = true
     <-> ∃ t, effectiveThreshold defaults overrides sev low = Some t ∧ value < t)
  ∧ (isTriggered value (alertThreshold defaults overrides sev high) high = true
     <-> ∃ t, effectiveThreshold defaults overrides sev high = Some t ∧ t < value)
  ∧ (∀ type,
       let triggered := isTriggered value (alertThreshold defaults overrides sev type) type in
       let l' := checkAlert uid date metricName value defaults overrides sev type l in
       (triggered = false -> l' = l)
       ∧ (triggered = true -> hasAlert (alertMessage metricName type value) sev l' = true)).
Proof.
  assert (Heq : ∀ type, alertThreshold defaults overrides sev type
                        = effectiveThreshold defaults overrides sev type).
  { intros type. unfold alertThreshold, effectiveThreshold, nullish.
    destruct overrides as [o|], type, sev; simpl; reflexivity. }
  split; [exact Heq|]. split; [|split].
  - rewrite Heq. unfold isTriggered.
    destruct (effectiveThreshold defaults overrides sev low) as [t|].
    + rewrite Z.ltb_lt. split; [eauto|]. by intros (t' & [= <-] & H).
    + split; [discriminate|]. by intros (t' & [=] & _).
  - rewrite Heq. unfold isTriggered.
    destruct (effectiveThreshold defaults overrides sev high) as [t|].
    + rewrite Z.ltb_lt. split; [eauto|]. by intros (t' & [= <-] & H).
    + split; [discriminate|]. by intros (t' & [=] & _).
  - intros type triggered l'. subst triggered l'.
    pose (c := {| c_metric := metricName; c_value := value; c_thresholds := defaults;
                  c_personalized := overrides; c_severity := sev; c_type := type |}).
    split.
    + intros H. exact (runCheck_quiet uid date c l H).
    + intros H. exact (runCheck_raised uid date c l H).
Qed.

(** A low critical override of 55 and no low warning override, at a heart
    rate of 50: the critical check is triggered by the override, the warning
    check is not triggered by the default of 50. *)
Lemma C6_triggered_iff_beyond_effective_threshold_witness :
  let overrides := personalizedThresholds personalizedPatient ≫= pt_heartRate in
  effectiveThreshold ALERT_THRESHOLDS_HEART_RATE overrides CRITICAL low = Some 55
  ∧ isTriggered 50 (alertThreshold ALERT_THRESHOLDS_HEART_RATE overrides CRITICAL low) low = true
  ∧ effectiveThreshold ALERT_THRESHOLDS_HEART_RATE overrides WARNING low = Some 50
  ∧ checkAlert "alert-1" 1000 "Heart Rate" 50 ALERT_THRESHOLDS_HEART_RATE overrides
      WARNING low [] = [].
Proof.
  pose proof (C6_triggered_iff_beyond_effective_threshold "alert-1" 1000 "Heart Rate" 50
                ALERT_THRESHOLDS_HEART_RATE
                (personalizedThresholds personalizedPatient ≫= pt_heartRate) CRITICAL [])
    as (_ & Hlow & _ & _).
  pose proof (C6_triggered_iff_beyond_effective_threshold "alert-1" 1000 "Heart Rate" 50
                ALERT_THRESHOLDS_HEART_RATE
                (personalizedThresholds personalizedPatient ≫= pt_heartRate) WARNING [])
    as (_ & _ & _ & Hquiet).
  split; [reflexivity|]. split.
  - apply Hlow. exists 55. split; [reflexivity | lia].
  - split; [reflexivity|]. exact (proj1 (Hquiet low) eq_refl).
Defined.

(** The defaults of the source for the two metrics that are checked. *)
Example default_thresholds :
  alertThreshold ALERT_THRESHOLDS_HEART_RATE None CRITICAL low = Some 40
  ∧ alertThreshold ALERT_THRESHOLDS_HEART_RATE None WARNING low = Some 50
  ∧ alertThreshold ALERT_THRESHOLDS_HEART_RATE None WARNING high = Some 110
  ∧ alertThreshold ALERT_THRESHOLDS_HEART_RATE None CRITICAL high = Some 130
  ∧ alertThreshold ALERT_THRESHOLDS_SPO2 None CRITICAL low = Some 88
  ∧ alertThreshold ALERT_THRESHOLDS_SPO2 None WARNING low = Some 92.
Proof. repeat split. Qed.

(** * Properties of the rest of the hook and of its callers *)

(** ** Acknowledging alerts *)

Lemma acknowledged_fold (filter : option AlertSeverity) (l : list Alert) (acc : gset string)
    (id : string) :
  id ∈ foldl (fun acc alert =>
                if matchesSeverity filter alert then {[ a_id alert ]} ∪ acc else acc) acc l
  <-> id ∈ acc ∨ ∃ a, a ∈ l ∧ matchesSeverity filter a = true ∧ a_id a = id.
Proof.
  revert acc. induction l as [|a l IH]; intros acc; simpl.
  - split; [by left | intros [H | (a & Ha & _)]; [done | by apply elem_of_nil in Ha]].
  - rewrite IH. clear IH. split.
    + intros [H | (b & Hb & Hm & Hid)].
      * destruct (matchesSeverity filter a) eqn:E.
        -- apply elem_of_union in H as [H | H]; [|by left].
           apply elem_of_singleton in H. right. exists a. split; [left|done].
        -- by left.
      * right. exists b. split; [by right | done].
    + intros [H | (b & Hb & Hm & Hid)].
      * left. destruct (matchesSeverity filter a); [apply elem_of_union; by right | done].
      * apply elem_of_cons in Hb as [-> | Hb].
        -- left. rewrite Hm. apply elem_of_union. left. by apply elem_of_singleton.
        -- right. by exists b.
Qed.

Lemma acknowledgeOn_acknowledged (filter : option AlertSeverity) (s : PatientSpecificSimData)
    (id : string) :
  id ∈ acknowledgedAlertIds (acknowledgeOn filter s)
  <-> id ∈ acknowledgedAlertIds s
      ∨ ∃ a, a ∈ alerts s ∧ matchesSeverity filter a = true ∧ a_id a = id.
Proof. apply acknowledged_fold. Qed.

Lemma filter_none {A} (f : A -> bool) (l : list A) :
  (∀ x, x ∈ l -> f x = false) -> List.filter f l = [].
Proof.
  induction l as [|x l IH]; intros H; simpl; [done|].
  rewrite (H x) by left. apply IH. intros y Hy. apply H. by right.
Qed.

Lemma unacknowledgedOf_elem (sev : AlertSeverity) (s : PatientSpecificSimData) (a : Alert) :
  a ∈ unacknowledgedOf sev s
  <-> a ∈ alerts s ∧ severity a = sev ∧ a_id a ∉ acknowledgedAlertIds s.
Proof.
  unfold unacknowledgedOf. rewrite list_elem_of_In, List.filter_In, <- list_elem_of_In.
  rewrite andb_true_iff, negb_true_iff, bool_decide_eq_true, bool_decide_eq_false. tauto.
Qed.

(** X1: [acknowledgePatientAlerts] on the entry it finds.  The alerts stay
    as they are.  An id is acknowledged afterwards exactly when it was
    before or is the id of an alert that passes the severity filter (every
    alert when no severity is given).  No alert of a filtered severity is
    left unacknowledged, and acknowledging a second time with the same
    filter changes nothing. *)
Theorem acknowledge_settles_the_matching_alerts
    (filter : option AlertSeverity) (s : PatientSpecificSimData) :
  let s' := acknowledgeOn filter s in
  alerts s' = alerts s
  ∧ (∀ id, id ∈ acknowledgedAlertIds s'
           <-> id ∈ acknowledgedAlertIds s
               ∨ ∃ a, a ∈ alerts s ∧ matchesSeverity filter a = true ∧ a_id a = id)
  ∧ (∀ sev, (filter = None ∨ filter = Some sev) -> unacknowledgedOf sev s' = [])
  ∧ acknowledgeOn filter s' = s'.
Proof.
  intros s'. split; [reflexivity|]. split; [apply acknowledgeOn_acknowledged|]. split.
  - intros sev Hf. apply filter_none. intros a Ha.
    apply andb_false_iff. destruct (decide (severity a = sev)) as [Hs|Hs].
    + right. apply negb_false_iff, bool_decide_eq_true.
      apply acknowledgeOn_acknowledged. right. exists a. split; [done|]. split; [|done].
      destruct Hf as [-> | ->]; [done|]. by apply bool_decide_eq_true.
    + left. by apply bool_decide_eq_false.
  - subst s'. unfold acknowledgeOn at 1.
    change (alerts (acknowledgeOn filter s)) with (alerts s).
    assert (Htwice : ∀ a b x,
               set_acknowledgedAlertIds a (set_acknowledgedAlertIds b x)
               = set_acknowledgedAlertIds a x) by reflexivity.
    unfold acknowledgeOn at 2 3. rewrite Htwice. f_equal.
    apply set_eq. intros id. rewrite acknowledged_fold.
    change (foldl _ (acknowledgedAlertIds s) (alerts s))
      with (acknowledgedAlertIds (acknowledgeOn filter s)).
    rewrite !acknowledgeOn_acknowledged. tauto.
Qed.

(** ** Alarm feedback *)

Lemma feedback_fold (l : list Alert) (acc : gset string) (id : string) :
  id ∈ foldl (fun acc alert => {[ a_id alert ]} ∪ acc) acc l
  <-> id ∈ acc ∨ ∃ a, a ∈ l ∧ a_id a = id.
Proof.
  revert acc. induction l as [|a l IH]; intros acc; simpl.
  - split; [by left | intros [H | (a & Ha & _)]; [done | by apply elem_of_nil in Ha]].
  - rewrite IH. clear IH. rewrite elem_of_union, elem_of_singleton. split.
    + intros [[-> | H] | (b & Hb & Hid)].
      * right. exists a. split; [left|done].
      * by left.
      * right. exists b. split; [by right|done].
    + intros [H | (b & Hb & Hid)]; [left; by right|].
      apply elem_of_cons in Hb as [-> | Hb]; [left; by left|].
      right. by exists b.
Qed.

Lemma feedback_acknowledged (patientId : string) (feedbackType : AlarmFeedbackType)
    (alertSeverity : AlertSeverity) (inp : FeedbackInputs) (s : PatientSpecificSimData)
    (id : string) :
  id ∈ acknowledgedAlertIds (provideAlarmFeedbackOn patientId feedbackType alertSeverity inp s)
  <-> id ∈ acknowledgedAlertIds s ∨ ∃ a, a ∈ unacknowledgedOf alertSeverity s ∧ a_id a = id.
Proof.
  rewrite <- feedback_fold. unfold provideAlarmFeedbackOn. cbv zeta.
  by destruct (existsb isLeadOffAlert (unacknowledgedOf alertSeverity s)).
Qed.

Lemma feedback_alarmFeedbackLog (patientId : string) (feedbackType : AlarmFeedbackType)
    (alertSeverity : AlertSeverity) (inp : FeedbackInputs) (s : PatientSpecificSimData) :
  alarmFeedbackLog (provideAlarmFeedbackOn patientId feedbackType alertSeverity inp s)
  = alarmFeedbackLog s ++
    imap (fun i alert =>
            {| f_id := fb_id inp i; f_patientId := patientId;
               alertSnapshot := {| as_message := message alert; as_severity := severity alert;
                                   as_metric := metric alert;
                                   originalTimestamp := timestamp alert |};
               feedback := feedbackType; feedbackTimestamp := fb_now inp i |})
         (unacknowledgedOf alertSeverity s).
Proof.
  unfold provideAlarmFeedbackOn. cbv zeta.
  by destruct (existsb isLeadOffAlert (unacknowledgedOf alertSeverity s)).
Qed.

Lemma feedback_alerts_subset (patientId : string) (feedbackType : AlarmFeedbackType)
    (alertSeverity : AlertSeverity) (inp : FeedbackInputs) (s : PatientSpecificSimData)
    (a : Alert) :
  a ∈ alerts (provideAlarmFeedbackOn patientId feedbackType alertSeverity inp s) -> a ∈ alerts s.
Proof.
  rewrite feedback_alerts.
  destruct (existsb isLeadOffAlert (unacknowledgedOf alertSeverity s)); [|done].
  unfold withoutLeadOffAlert. rewrite list_elem_of_In, List.filter_In, <- list_elem_of_In. tauto.
Qed.

Lemma feedback_nothing_to_handle (patientId : string) (feedbackType : AlarmFeedbackType)
    (alertSeverity : AlertSeverity) (inp : FeedbackInputs) (s : PatientSpecificSimData) :
  unacknowledgedOf alertSeverity s = [] ->
  provideAlarmFeedbackOn patientId feedbackType alertSeverity inp s = s.
Proof.
  intros H. unfold provideAlarmFeedbackOn. rewrite H. cbn [existsb imap foldl].
  rewrite app_nil_r. by destruct s.
Qed.

(** X2: [provideAlarmFeedback] on the entry it finds.  The feedback log
    grows by one entry per unacknowledged alert of the given severity, in
    the order of the alerts, each with the message and severity of its
    alert, the verdict and the patient id given.  These alerts are
    acknowledged, none of that severity is left unacknowledged, and so a
    second feedback on the same severity changes nothing, whatever its
    verdict: a verdict once given cannot be revised. *)
Theorem feedback_is_logged_once_per_alert
    (patientId : string) (feedbackType : AlarmFeedbackType) (alertSeverity : AlertSeverity)
    (inp : FeedbackInputs) (s : PatientSpecificSimData) :
  let handled := unacknowledgedOf alertSeverity s in
  let s' := provideAlarmFeedbackOn patientId feedbackType alertSeverity inp s in
  (∃ entries,
     alarmFeedbackLog s' = alarmFeedbackLog s ++ entries
     ∧ (fun e => (as_message (alertSnapshot e), as_severity (alertSnapshot e))) <$> entries
       = alertKey <$> handled
     ∧ Forall (fun e => feedback e = feedbackType ∧ f_patientId e = patientId) entries)
  ∧ (∀ a, a ∈ handled -> a_id a ∈ acknowledgedAlertIds s')
  ∧ unacknowledgedOf alertSeverity s' = []
  ∧ (∀ patientId' feedbackType' inp',
       provideAlarmFeedbackOn patientId' feedbackType' alertSeverity inp' s' = s').
Proof.
  intros handled s'.
  assert (Hnone : unacknowledgedOf alertSeverity s' = []).
  { apply filter_none. intros a Ha.
    apply andb_false_iff. destruct (decide (severity a = alertSeverity)) as [Hs|Hs].
    - right. apply negb_false_iff, bool_decide_eq_true. apply feedback_acknowledged.
      destruct (decide (a_id a ∈ acknowledgedAlertIds s)) as [Hin|Hout]; [by left|].
      right. exists a. split; [|done]. apply unacknowledgedOf_elem.
      split; [by eapply feedback_alerts_subset|done].
    - left. by apply bool_decide_eq_false. }
  split; [|split; [|split]].
  - eexists. split; [apply feedback_alarmFeedbackLog|]. fold handled. split.
    + generalize (fb_id inp) (fb_now inp). induction handled as [|a l IH]; intros g h; [done|].
      cbn [imap fmap list_fmap]. f_equal. apply (IH (g ∘ S) (h ∘ S)).
    + generalize (fb_id inp) (fb_now inp). induction handled as [|a l IH]; intros g h.
      * constructor.
      * cbn [imap]. constructor; [done|]. apply (IH (g ∘ S) (h ∘ S)).
  - intros a Ha. apply feedback_acknowledged. right. by exists a.
  - exact Hnone.
  - intros. by apply feedback_nothing_to_handle.
Qed.

(** ** Feedback and the lead *)

Lemma evaluateAlerts_elem (patient : Patient) (inp : VitalsInputs) (m : CardiacMetrics)
    (l : list Alert) (a : Alert) :
  a ∈ evaluateAlerts patient inp m l ->
  a ∈ l ∨ ∃ c, c ∈ alertChecks patient m ∧ checkTriggered c = true
               ∧ alertKey a = checkKey c ∧ metric a = c_metric c.
Proof.
  rewrite evaluateAlerts_checks.
  assert (Hall : Forall (fun ic : nat * AlertCheck => ic.2 ∈ alertChecks patient m)
                        (imap pair (alertChecks patient m))).
  { apply Forall_forall. intros [i c] Hin. apply elem_of_lookup_imap in Hin
      as (j & c' & Heq & Hlook). inversion Heq; subst. simpl.
    by eapply list_elem_of_lookup_2. }
  revert l. induction Hall as [|[i c] rest Hc _ IH]; intros l; [by left|].
  simpl. intros Ha. apply IH in Ha as [Ha | Ha]; [|by right].
  rewrite runCheck_alerts in Ha.
  destruct (checkTriggered c) eqn:Etr; cbn [andb] in Ha; [|by left].
  destruct (negb _); [|by left].
  apply elem_of_app in Ha as [Ha | Ha]; [by left|].
  apply list_elem_of_singleton in Ha. subst a. right. exists c.
  split; [done|]. split; [done|]. split; [|done].
  unfold alertKey. cbn [message severity]. by destruct (checkKey c).
Qed.

Lemma stepEntry_leadOffIsCritical (e : EntryStep) (s : PatientSpecificSimData) :
  leadOffIsCritical s -> leadOffIsCritical (stepEntry e s).
Proof.
  unfold leadOffIsCritical. intros Hinv. destruct e; cbn [stepEntry].
  - by rewrite ecgTickPatient_alerts.
  - rewrite vitalsTickPatient_alerts. intros a Ha Hoff.
    apply evaluateAlerts_elem in Ha as [Ha | (c & Hc & _ & Hkey & _)]; [by apply Hinv|].
    exfalso. eapply alertMessage_not_leadOff; [exact Hc|].
    unfold isLeadOffAlert in Hoff. apply bool_decide_eq_true in Hoff.
    rewrite <- Hoff. unfold alertKey, checkKey in Hkey. by inversion Hkey.
  - exact Hinv.
  - exact Hinv.
  - intros a Ha. apply Hinv. by eapply feedback_alerts_subset.
  - rewrite toggle_alerts. intros a Ha.
    destruct (negb (isLeadOff s)).
    + destruct (existsb isLeadOffAlert (alerts s)); [by apply Hinv|].
      apply elem_of_app in Ha as [Ha | Ha]; [by apply Hinv|].
      apply list_elem_of_singleton in Ha. by subst a.
    + apply Hinv. unfold withoutLeadOffAlert in Ha.
      rewrite list_elem_of_In, List.filter_In, <- list_elem_of_In in Ha. tauto.
  - exact Hinv.
  - exact Hinv.
Qed.

Lemma runEntry_leadOffIsCritical (history : list EntryStep) (s : PatientSpecificSimData) :
  leadOffIsCritical s -> leadOffIsCritical (runEntry history s).
Proof.
  apply (runEntry_invariant leadOffIsCritical). intros e x. apply stepEntry_leadOffIsCritical.
Qed.

Lemma existsb_elem {A} (f : A -> bool) (l : list A) :
  existsb f l = true <-> ∃ x, x ∈ l ∧ f x = true.
Proof.
  rewrite existsb_exists. split; intros (x & Hx & Hf); exists x; split; try done;
    by apply list_elem_of_In.
Qed.

(** X3: In every state an entry reaches from its creation, feedback on the
    warnings leaves the lead and the alerts alone.  After feedback on the
    critical alerts the lead is on exactly when it was on before or the
    lead-off alert was unacknowledged: a lead-off alert acknowledged before
    the feedback keeps the lead off, and then the alerts stay as they are.
    Either way the lead-off alert is present exactly when the lead is
    off. *)
Theorem feedback_reconnects_the_lead_only_through_its_critical_alert
    (p : Patient) (hr nsr rr created : Z) (history : list EntryStep)
    (patientId : string) (feedbackType : AlarmFeedbackType) (inp : FeedbackInputs) :
  let s := runEntry history (createInitialPatientSimData p hr nsr rr created) in
  let warned := provideAlarmFeedbackOn patientId feedbackType WARNING inp s in
  let judged := provideAlarmFeedbackOn patientId feedbackType CRITICAL inp s in
  (isLeadOff warned = isLeadOff s ∧ alerts warned = alerts s)
  ∧ (isLeadOff judged = false
     <-> isLeadOff s = false
         ∨ ∃ a, a ∈ alerts s ∧ isLeadOffAlert a = true ∧ a_id a ∉ acknowledgedAlertIds s)
  ∧ (isLeadOff judged = true -> alerts judged = alerts s)
  ∧ existsb isLeadOffAlert (alerts judged) = isLeadOff judged.
Proof.
  intros s warned judged.
  assert (Hcrit : leadOffIsCritical s) by (apply runEntry_leadOffIsCritical; intros a Ha; by apply elem_of_nil in Ha).
  assert (Hcons : leadOffConsistent s) by by apply runEntry_leadOffConsistent.
  split; [|split; [|split]].
  - assert (Hno : existsb isLeadOffAlert (unacknowledgedOf WARNING s) = false).
    { apply not_true_is_false. rewrite existsb_elem. intros (a & Ha & Hoff).
      apply unacknowledgedOf_elem in Ha as (Ha & Hsev & _).
      specialize (Hcrit a Ha Hoff). congruence. }
    subst warned. by rewrite feedback_isLeadOff, feedback_alerts, Hno.
  - subst judged. rewrite feedback_isLeadOff.
    destruct (existsb isLeadOffAlert (unacknowledgedOf CRITICAL s)) eqn:E.
    + split; [intros _|done]. right. apply existsb_elem in E as (a & Ha & Hoff).
      apply unacknowledgedOf_elem in Ha as (Ha & _ & Hid). by exists a.
    + split; [by left|]. intros [H | (a & Ha & Hoff & Hid)]; [done|].
      exfalso. apply not_true_iff_false in E. apply E, existsb_elem. exists a.
      split; [|done]. apply unacknowledgedOf_elem. split; [done|]. split; [by apply Hcrit|done].
  - subst judged. rewrite feedback_isLeadOff, feedback_alerts.
    by destruct (existsb isLeadOffAlert (unacknowledgedOf CRITICAL s)).
  - symmetry. by apply (stepEntry_leadOffConsistent (Feedback patientId feedbackType CRITICAL inp)).
Qed.

(** ** The registry and the simulation map along a session *)

Lemma findPatient_registered (ps : list Patient) (patientId : string) :
  is_Some (findPatient ps patientId) <-> patientId ∈ p_id <$> ps.
Proof.
  rewrite <- not_eq_None_Some, findPatient_None, list_elem_of_fmap. split.
  - intros H. apply not_Forall_Exists in H; [|intros x; apply _].
    apply Exists_exists in H as (p & Hp & Hid).
    exists p. split; [|done]. by destruct (decide (p_id p = patientId)) as [->|].
  - intros (p & -> & Hp) H. rewrite Forall_forall in H. by apply (H p).
Qed.

Lemma updatePatient_ids (patientId : string) (f : Patient -> Patient) (ps : list Patient) :
  (∀ p, p_id p = patientId -> p_id (f p) = patientId) ->
  p_id <$> updatePatient patientId f ps = p_id <$> ps.
Proof.
  intros Hf. unfold updatePatient. rewrite <- list_fmap_compose.
  apply list_fmap_ext. intros _ p _. simpl. case_decide as Hid; [|done].
  by rewrite Hf.
Qed.

Lemma filter_ids (patientId : string) (ps : list Patient) :
  list_to_set (C := gset string)
    (p_id <$> List.filter (fun p => negb (bool_decide (p_id p = patientId))) ps)
  = list_to_set (p_id <$> ps) ∖ {[ patientId ]}.
Proof.
  apply set_eq. intros id.
  rewrite elem_of_difference, !elem_of_list_to_set, !list_elem_of_fmap, elem_of_singleton.
  split.
  - intros (p & -> & Hp). rewrite list_elem_of_In, List.filter_In, <- list_elem_of_In in Hp.
    destruct Hp as [Hp Hne]. apply negb_true_iff, bool_decide_eq_false in Hne.
    split; [by exists p|done].
  - intros [(p & -> & Hp) Hne]. exists p. split; [done|].
    rewrite list_elem_of_In, List.filter_In, <- list_elem_of_In.
    split; [done|]. by apply negb_true_iff, bool_decide_eq_false.
Qed.

Lemma updateSimData_dom (patientId : string)
    (f : PatientSpecificSimData -> PatientSpecificSimData)
    (m : gmap string PatientSpecificSimData) :
  dom (updateSimData patientId f m) = dom m.
Proof.
  unfold updateSimData. destruct (m !! patientId) eqn:E; [|done].
  apply dom_insert_lookup_L. by rewrite E.
Qed.

Lemma ecgTick_dom (ps : list Patient) (inp : string -> EcgInputs)
    (m : gmap string PatientSpecificSimData) :
  dom (ecgTick ps inp m) = dom m ∩ list_to_set (p_id <$> ps).
Proof.
  apply set_eq. intros id.
  rewrite elem_of_intersection, !elem_of_dom, elem_of_list_to_set, <- findPatient_registered.
  rewrite ecgTick_lookup.
  destruct (m !! id), (findPatient ps id); split;
    try (intros [? ?]); try (intros [[? ?] [? ?]]); try done; try (by eexists).
Qed.

Lemma vitalsTick_dom (ps : list Patient) (now : Z) (inp : string -> VitalsInputs)
    (m : gmap string PatientSpecificSimData) :
  dom (vitalsTick ps now inp m) = dom m.
Proof.
  apply set_eq. intros id. rewrite !elem_of_dom, vitalsTick_lookup.
  destruct (m !! id); [|done]. destruct (findPatient ps id); split; by eexists.
Qed.

Lemma analysisResolved_dom (patient : Patient) (aiOutput : HeartSenseAIOutput) (now : Z)
    (m : gmap string PatientSpecificSimData) :
  dom (analysisResolved patient aiOutput now m) = dom m.
Proof.
  unfold analysisResolved. destruct (m !! p_id patient) eqn:E; [|done].
  apply dom_insert_lookup_L. by rewrite E.
Qed.

Lemma analysisRejected_dom (patient : Patient) (errMessage : string) (now : Z)
    (m : gmap string PatientSpecificSimData) :
  dom (analysisRejected patient errMessage now m) = dom m.
Proof.
  unfold analysisRejected. destruct (m !! p_id patient) eqn:E; [|done].
  apply dom_insert_lookup_L. by rewrite E.
Qed.

Lemma applyOp_entriesMatchRegistry (st : HookState) (op : HookOp) :
  keepsIds st op = true -> seesRegistry st op = true ->
  entriesMatchRegistry st -> entriesMatchRegistry (applyOp st op).
Proof.
  unfold entriesMatchRegistry, registeredIds. intros Hkeeps Hsees Hinv.
  destruct op; cbn [applyOp keepsIds seesRegistry] in *.
  - unfold addPatient. cbn [patients simulationDataMap p_id].
    rewrite dom_insert_L, fmap_app, list_to_set_app_L, Hinv. cbn [fmap list_fmap p_id].
    rewrite list_to_set_cons, list_to_set_nil, (right_id_L ∅ (∪)). apply (comm_L _).
  - unfold deletePatient. cbn [patients simulationDataMap].
    by rewrite dom_delete_L, filter_ids, Hinv.
  - exact Hinv.
  - unfold updatePatientDetails. cbn [patients simulationDataMap set_patients].
    rewrite updatePatient_ids; [done|].
    intros p Hp. apply bool_decide_eq_true in Hkeeps. unfold applyDetails. cbn [p_id].
    by destruct Hkeeps as [-> | ->].
  - unfold setPatientRhythm. cbn [patients simulationDataMap].
    by rewrite updateSimData_dom, updatePatient_ids.
  - unfold acknowledgePatientAlerts. cbn [patients simulationDataMap set_simulationDataMap].
    by rewrite updateSimData_dom.
  - unfold updatePatientPacingSettings. cbn [patients simulationDataMap set_patients].
    by rewrite updatePatient_ids.
  - unfold updatePatientNoiseSignatures. cbn [patients simulationDataMap set_patients].
    by rewrite updatePatient_ids.
  - unfold provideAlarmFeedback. cbn [patients simulationDataMap set_simulationDataMap].
    by rewrite updateSimData_dom.
  - unfold toggleEcgLeadOff. cbn [patients simulationDataMap set_simulationDataMap].
    by rewrite updateSimData_dom.
  - cbn [patients simulationDataMap set_simulationDataMap].
    apply bool_decide_eq_true in Hsees. unfold registeredIds in Hsees.
    rewrite ecgTick_dom, Hinv. by apply subseteq_intersection_1_L.
  - cbn [patients simulationDataMap set_simulationDataMap].
    by rewrite vitalsTick_dom.
  - cbn [patients simulationDataMap set_simulationDataMap].
    unfold analysisStarted. rewrite dom_insert_L, Hinv.
    apply bool_decide_eq_true in Hkeeps.
    by apply subseteq_union_1_L, singleton_subseteq_l.
  - cbn [patients simulationDataMap set_simulationDataMap].
    by rewrite analysisResolved_dom.
  - cbn [patients simulationDataMap set_simulationDataMap].
    by rewrite analysisRejected_dom.
Qed.

Lemma runSession_cons (op : HookOp) (ops : list HookOp) (st : HookState) :
  runSession (op :: ops) st = runSession ops (applyOp st op).
Proof. reflexivity. Qed.

Lemma addPatient_patients (newPatientData : NewPatientData) (source : string)
    (now initialHR nsrHR rr createdAt : Z) (st : HookState) :
  patients (addPatient newPatientData source now initialHR nsrHR rr createdAt st)
  = patients st ++ [newPatientOf newPatientData source now].
Proof. reflexivity. Qed.

Lemma addPatient_simulationDataMap (newPatientData : NewPatientData) (source : string)
    (now initialHR nsrHR rr createdAt : Z) (st : HookState) :
  simulationDataMap (addPatient newPatientData source now initialHR nsrHR rr createdAt st)
  = <["PID" +:+ pretty now :=
        createInitialPatientSimData (newPatientOf newPatientData source now)
          initialHR nsrHR rr createdAt]> (simulationDataMap st).
Proof. reflexivity. Qed.

(** X4: Start from a state whose simulation map has an entry for exactly
    the registered ids, and apply any operations of the hook, ticks of its
    two loops and updaters of analyses, such that no operation renames a
    patient, no analysis is started for a patient who is not registered,
    and every high-frequency tick comes from a callback that knows every
    registered patient.  Then the simulation map still has an entry for
    exactly the registered ids: a patient is found in the registry if and
    only if the patient has an entry, and a high-frequency tick of the
    current render keeps every entry.  A high-frequency tick of the callback
    installed before a patient was added does not: it drops the entry of the
    new patient, who stays registered without an entry. *)
Theorem every_registered_patient_has_exactly_one_entry
    (ops : list HookOp) (st : HookState)
    (Hstart : entriesMatchRegistry st)
    (Hsession : sessionKeepsEntries ops st = true) :
  let st' := runSession ops st in
  entriesMatchRegistry st'
  ∧ (∀ patientId, is_Some (simulationDataMap st' !! patientId)
                  <-> is_Some (findPatient (patients st') patientId))
  ∧ (∀ inp, dom (ecgTick (patients st') inp (simulationDataMap st'))
            = dom (simulationDataMap st'))
  ∧ (∀ newPatientData source now initialHR nsrHR rr createdAt inp,
       findPatient (patients st') ("PID" +:+ pretty now) = None ->
       let added := addPatient newPatientData source now initialHR nsrHR rr createdAt st' in
       let stale := applyOp added (OpEcgTick (patients st') inp) in
       entriesMatchRegistry added
       ∧ is_Some (simulationDataMap added !! ("PID" +:+ pretty now))
       ∧ simulationDataMap stale !! ("PID" +:+ pretty now) = None
       ∧ is_Some (findPatient (patients stale) ("PID" +:+ pretty now))
       ∧ ¬ entriesMatchRegistry stale).
Proof.
  intros st'.
  assert (Hinv : entriesMatchRegistry st').
  { subst st'. revert st Hstart Hsession.
    induction ops as [|op ops IH]; intros st Hstart Hsession; [exact Hstart|].
    cbn [sessionKeepsEntries] in Hsession.
    apply andb_true_iff in Hsession as [Hop Hrest]. apply andb_true_iff in Hop as [Hop Hsees].
    rewrite runSession_cons. apply IH; [|exact Hrest].
    by apply applyOp_entriesMatchRegistry. }
  split; [exact Hinv|]. split; [|split].
  - unfold entriesMatchRegistry, registeredIds in Hinv.
    intros id. by rewrite findPatient_registered, <- elem_of_dom, Hinv, elem_of_list_to_set.
  - unfold entriesMatchRegistry, registeredIds in Hinv.
    intros inp. rewrite ecgTick_dom, Hinv. apply (idemp_L _).
  - intros newPatientData source now initialHR nsrHR rr createdAt inp Hnew added stale.
    assert (Hadded : entriesMatchRegistry added)
      by (apply (applyOp_entriesMatchRegistry st' (OpAddPatient _ _ _ _ _ _ _)); done).
    assert (Hentry : is_Some (simulationDataMap added !! ("PID" +:+ pretty now))).
    { subst added. rewrite addPatient_simulationDataMap, lookup_insert_eq. by eexists. }
    assert (Hdropped : simulationDataMap stale !! ("PID" +:+ pretty now) = None).
    { subst stale. cbn [applyOp set_simulationDataMap simulationDataMap].
      rewrite ecgTick_lookup, Hnew. by destruct (simulationDataMap added !! _). }
    assert (Hregistered : is_Some (findPatient (patients stale) ("PID" +:+ pretty now))).
    { subst stale. cbn [applyOp set_simulationDataMap patients].
      apply findPatient_registered. subst added. rewrite addPatient_patients, fmap_app.
      apply elem_of_app. right. cbn [fmap list_fmap p_id]. apply list_elem_of_here. }
    split; [exact Hadded|]. split; [exact Hentry|]. split; [exact Hdropped|].
    split; [exact Hregistered|].
    intros Hmatch. unfold entriesMatchRegistry, registeredIds in Hmatch.
    apply findPatient_registered in Hregistered.
    apply (elem_of_list_to_set (C := gset string)) in Hregistered.
    rewrite <- Hmatch in Hregistered. apply elem_of_dom in Hregistered as [x Hx]. congruence.
Qed.

(** The ward of three patients through a session that toggles a lead,
    deletes a patient, adds one and runs both loops; the high-frequency
    tick after the deletion still comes from the callback that knew the
    deleted patient. *)
Lemma every_registered_patient_has_exactly_one_entry_witness :
  entriesMatchRegistry wardOfThree
  ∧ sessionKeepsEntries sampleSession wardOfThree = true
  ∧ entriesMatchRegistry (runSession sampleSession wardOfThree).
Proof.
  assert (Hstart : entriesMatchRegistry wardOfThree) by (vm_compute; reflexivity).
  assert (Hsession : sessionKeepsEntries sampleSession wardOfThree = true)
    by (vm_compute; reflexivity).
  split; [exact Hstart|]. split; [exact Hsession|].
  exact (proj1 (every_registered_patient_has_exactly_one_entry
                  sampleSession wardOfThree Hstart Hsession)).
Defined.

(** ** Adding patients *)

Lemma filter_registry_absent (patientId : string) (ps : list Patient) :
  findPatient ps patientId = None ->
  List.filter (fun p => negb (bool_decide (p_id p = patientId))) ps = ps.
Proof.
  rewrite findPatient_None. induction 1 as [|p ps Hp _ IH]; [done|].
  simpl. rewrite bool_decide_eq_false_2 by done. simpl. by rewrite IH.
Qed.

(** X6: When the id [addPatient] computes from the clock is new to the
    registry and to the simulation map, adding a patient selects the new
    patient, and deleting that patient again gives back the registry and
    the simulation map as they were.  The selection is not given back: it
    is the first patient of the registry, whoever was selected before. *)
Theorem add_then_delete_restores_all_but_the_selection
    (newPatientData : NewPatientData) (source : string)
    (now initialHR nsrHR rr createdAt : Z) (st : HookState)
    (Hregistry : findPatient (patients st) ("PID" +:+ pretty now) = None)
    (Hsimulation : simulationDataMap st !! ("PID" +:+ pretty now) = None) :
  let added := addPatient newPatientData source now initialHR nsrHR rr createdAt st in
  let st' := deletePatient ("PID" +:+ pretty now) added in
  selectedPatientId added = Some ("PID" +:+ pretty now)
  ∧ patients st' = patients st
  ∧ simulationDataMap st' = simulationDataMap st
  ∧ selectedPatientId st' = p_id <$> head (patients st).
Proof.
  intros added st'. split; [reflexivity|].
  assert (Hps : patients st' = patients st).
  { subst st'. rewrite deletePatient_patients. subst added. rewrite addPatient_patients.
    rewrite List.filter_app, filter_registry_absent by done.
    cbn [List.filter newPatientOf p_id]. rewrite bool_decide_eq_true_2 by done.
    apply app_nil_r. }
  split; [exact Hps|]. split.
  - subst st' added. unfold deletePatient. cbn [simulationDataMap].
    rewrite addPatient_simulationDataMap. by apply delete_insert_id.
  - rewrite <- Hps. subst st'. unfold deletePatient.
    cbn [selectedPatientId patients].
    rewrite decide_True by reflexivity.
    by destruct (List.filter _ (patients added)).
Qed.

(** A fourth patient added to the ward of three and deleted again: the
    selection moves from the second patient to the first. *)
Lemma add_then_delete_restores_all_but_the_selection_witness :
  let added := addPatient sampleNewPatient "Manual Entry" 1700000000000 72 72 14 1700000000000
                 wardOfThree in
  let st' := deletePatient "PID1700000000000" added in
  selectedPatientId wardOfThree = Some "PID00124"
  ∧ patients st' = patients wardOfThree
  ∧ simulationDataMap st' = simulationDataMap wardOfThree
  ∧ selectedPatientId st' = Some "PID00123".
Proof.
  intros added st'. split; [reflexivity|].
  assert (Hregistry : findPatient (patients wardOfThree) ("PID" +:+ pretty 1700000000000) = None)
    by reflexivity.
  assert (Hsimulation : simulationDataMap wardOfThree !! ("PID" +:+ pretty 1700000000000) = None)
    by reflexivity.
  destruct (add_then_delete_restores_all_but_the_selection sampleNewPatient "Manual Entry"
              1700000000000 72 72 14 1700000000000 wardOfThree Hregistry Hsimulation)
    as (_ & Hps & Hmap & Hsel).
  split; [exact Hps|]. split; [exact Hmap|]. exact Hsel.
Defined.

(** X7: Two patients added one after the other are appended to the registry
    in that order, and the second has a new entry.  Their ids differ
    exactly when the two calls read different clock values.  If they do,
    the first keeps the entry it was created with.  If they do not, the
    registry holds two patients under one id with one entry between them,
    which is the one of the second: deleting by that id removes both
    patients. *)
Theorem patients_are_told_apart_by_the_millisecond_of_their_creation
    (data1 data2 : NewPatientData) (source1 source2 : string)
    (now1 now2 hr1 hr2 nsr1 nsr2 rr1 rr2 created1 created2 : Z) (st : HookState) :
  let first := newPatientOf data1 source1 now1 in
  let second := newPatientOf data2 source2 now2 in
  let st2 := addPatient data2 source2 now2 hr2 nsr2 rr2 created2
               (addPatient data1 source1 now1 hr1 nsr1 rr1 created1 st) in
  patients st2 = patients st ++ [first; second]
  ∧ simulationDataMap st2 !! p_id second
    = Some (createInitialPatientSimData second hr2 nsr2 rr2 created2)
  ∧ (p_id first = p_id second <-> now1 = now2)
  ∧ (now1 ≠ now2 ->
     simulationDataMap st2 !! p_id first
     = Some (createInitialPatientSimData first hr1 nsr1 rr1 created1))
  ∧ (now1 = now2 ->
     patients (deletePatient (p_id second) st2)
     = List.filter (fun p => negb (bool_decide (p_id p = p_id second))) (patients st)
     ∧ simulationDataMap (deletePatient (p_id first) st2) !! p_id second = None).
Proof.
  intros first second st2.
  assert (Hids : p_id first = p_id second <-> now1 = now2).
  { cbn [first second newPatientOf p_id]. split; [|by intros ->].
    intros H. simpl in H. injection H as H. by apply (inj pretty). }
  split; [|split; [|split; [|split]]].
  - subst st2. rewrite !addPatient_patients, <- app_assoc. reflexivity.
  - subst st2. rewrite addPatient_simulationDataMap. apply lookup_insert_eq.
  - exact Hids.
  - intros Hne. subst st2. rewrite !addPatient_simulationDataMap.
    rewrite lookup_insert_ne; [apply lookup_insert_eq|].
    intros H. apply Hne, Hids. by symmetry.
  - intros Heq. apply Hids in Heq. split.
    + rewrite deletePatient_patients. subst st2.
      rewrite !addPatient_patients, <- app_assoc, List.filter_app.
      fold first second. cbn [app List.filter]. rewrite Heq.
      rewrite bool_decide_eq_true_2 by done. cbn [negb]. apply app_nil_r.
    + rewrite Heq. apply deletePatient_lookup.
Qed.

(** ** The vitals log *)

Lemma ecgTickPatient_loggedVitals (patient : Patient) (now drawnHR : Z)
    (s : PatientSpecificSimData) :
  loggedVitals (ecgTickPatient patient now drawnHR s) = loggedVitals s.
Proof.
  unfold ecgTickPatient, ecgTickLeadOff, ecgTickNormal.
  destruct (isLeadOff s); cbv zeta; by repeat skip_block.
Qed.

Lemma vitalsTickPatient_loggedVitals (patient : Patient) (now : Z) (inp : VitalsInputs)
    (s : PatientSpecificSimData) :
  loggedVitals (vitalsTickPatient patient now inp s)
  = logVitals now (evolveMetrics patient now inp s) (loggedVitals s).
Proof.
  unfold vitalsTickPatient, stampUpdates. cbv zeta. decide_tests; reflexivity.
Qed.

Lemma stepEntry_loggedVitals (e : EntryStep) (s : PatientSpecificSimData) :
  isLowFrequencyTick e = false -> loggedVitals (stepEntry e s) = loggedVitals s.
Proof.
  destruct e; cbn [stepEntry isLowFrequencyTick]; intros H.
  - apply ecgTickPatient_loggedVitals.
  - discriminate.
  - reflexivity.
  - reflexivity.
  - unfold provideAlarmFeedbackOn. cbv zeta.
    by destruct (existsb isLeadOffAlert (unacknowledgedOf alertSeverity s)).
  - reflexivity.
  - reflexivity.
  - reflexivity.
Qed.

Lemma logVitals_cases (now : Z) (m : CardiacMetrics) (log : list LoggedVitalSign) :
  let e := {| lv_timestamp := now; lv_metrics := m |} in
  logVitals now m log = log
  ∨ ((∀ l, last log = Some l ->
           lv_timestamp l + AUTO_LOG_VITALS_INTERVAL_SECONDS * 1000 < now)
     ∧ (logVitals now m log = log ++ [e] ∧ (length log < 200)%nat
        ∨ logVitals now m log = drop 1 (log ++ [e]) ∧ (200 <= length log)%nat)).
Proof.
  intros e. unfold logVitals.
  destruct (last log) as [l|] eqn:El.
  - destruct (_ <? _) eqn:E; [|by left]. right. apply Z.ltb_lt in E.
    split; [intros ? [= <-]; lia|]. fold e. rewrite length_app. simpl.
    destruct (200 <? _)%nat eqn:E2.
    + right. apply Nat.ltb_lt in E2. split; [done|lia].
    + left. apply Nat.ltb_ge in E2. split; [done|lia].
  - right. split; [intros ? [=]|]. fold e. rewrite length_app. simpl.
    destruct (200 <? _)%nat eqn:E2.
    + right. apply Nat.ltb_lt in E2. split; [done|lia].
    + left. apply Nat.ltb_ge in E2. split; [done|lia].
Qed.

Lemma logSpaced_snoc (log : list LoggedVitalSign) (e : LoggedVitalSign) :
  logSpaced log ->
  (∀ l, last log = Some l ->
        lv_timestamp l + AUTO_LOG_VITALS_INTERVAL_SECONDS * 1000 < lv_timestamp e) ->
  logSpaced (log ++ [e]).
Proof.
  intros Hlog Hlast i a b Ha Hb.
  apply lookup_app_Some in Hb as [Hb | [Hlen Hb]].
  - apply (Hlog i a b); [|done].
    rewrite lookup_app_l in Ha; [done|]. apply lookup_lt_Some in Hb. lia.
  - apply list_lookup_singleton_Some in Hb as [Hi <-].
    assert (Hi' : S i = length log) by lia.
    rewrite lookup_app_l in Ha by lia.
    apply Hlast. rewrite last_lookup. rewrite <- Hi'. exact Ha.
Qed.

Lemma logSpaced_drop (n : nat) (log : list LoggedVitalSign) :
  logSpaced log -> logSpaced (drop n log).
Proof.
  intros Hlog i a b Ha Hb. rewrite lookup_drop in Ha, Hb.
  apply (Hlog (n + i)%nat a b); [done|]. by rewrite <- Nat.add_succ_r.
Qed.

Lemma logVitals_spaced (now : Z) (m : CardiacMetrics) (log : list LoggedVitalSign) :
  logSpaced log -> logSpaced (logVitals now m log).
Proof.
  intros Hlog. destruct (logVitals_cases now m log) as [-> | [Hlast [[-> _] | [-> _]]]].
  - done.
  - by apply logSpaced_snoc.
  - by apply logSpaced_drop, logSpaced_snoc.
Qed.

Lemma logVitals_length (now : Z) (m : CardiacMetrics) (log : list LoggedVitalSign) :
  (length (logVitals now m log) <= Nat.max 200 (length log))%nat
  ∧ (length (logVitals now m log) <= S (length log))%nat.
Proof.
  destruct (logVitals_cases now m log) as [-> | [_ [[-> H] | [-> H]]]].
  - lia.
  - rewrite length_app. simpl. lia.
  - rewrite length_drop, length_app. simpl. lia.
Qed.

(** Over a history the log stays spaced, grows by at most one entry per
    low-frequency tick and stays within 200 entries. *)
Lemma runEntry_log (history : list EntryStep) (s : PatientSpecificSimData) :
  logSpaced (loggedVitals s) ->
  let s' := runEntry history s in
  logSpaced (loggedVitals s')
  ∧ (length (loggedVitals s') <= Nat.max 200 (length (loggedVitals s)))%nat
  ∧ (length (loggedVitals s')
     <= length (loggedVitals s) + length (List.filter isLowFrequencyTick history))%nat.
Proof.
  intros Hs. cbv zeta.
  apply (runEntry_ind
           (fun pre x =>
              logSpaced (loggedVitals x)
              ∧ (length (loggedVitals x) <= Nat.max 200 (length (loggedVitals s)))%nat
              ∧ (length (loggedVitals x)
                 <= length (loggedVitals s) + length (List.filter isLowFrequencyTick pre))%nat)
           s).
  - simpl. split; [done|]. lia.
  - intros pre e x (H1 & H2 & H3). rewrite List.filter_app, length_app.
    destruct (isLowFrequencyTick e) eqn:E.
    + destruct e; try discriminate. cbn [stepEntry List.filter isLowFrequencyTick].
      pose proof (logVitals_length now (evolveMetrics patient now inp x) (loggedVitals x))
        as [Hmax Hsucc].
      pose proof (logVitals_spaced now (evolveMetrics patient now inp x) _ H1) as Hsp.
      rewrite <- vitalsTickPatient_loggedVitals in Hmax, Hsucc, Hsp.
      split; [done|]. cbn [length]. split; lia.
    + rewrite (stepEntry_loggedVitals e x E). split; [done|]. split; [done|]. lia.
  - intros pre e x (H1 & H2 & H3). rewrite List.filter_app, length_app.
    split; [done|]. split; [done|]. lia.
Qed.

(** X9: In every state an entry reaches from its creation the vitals log
    has at most 200 entries, at most one per low-frequency tick, and
    consecutive entries are more than the logging interval apart.  One more
    low-frequency tick leaves the log as it is or logs, as its last entry,
    the clock of the tick with the metrics the tick computed, more than the
    logging interval after the previous last entry. *)
Theorem vitals_log_is_capped_and_spaced
    (p : Patient) (hr nsr rr created : Z) (history : list EntryStep) :
  let s := runEntry history (createInitialPatientSimData p hr nsr rr created) in
  (length (loggedVitals s) <= 200)%nat
  ∧ (length (loggedVitals s) <= length (List.filter isLowFrequencyTick history))%nat
  ∧ logSpaced (loggedVitals s)
  ∧ (∀ patient now inp,
       let s' := vitalsTickPatient patient now inp s in
       let entry := {| lv_timestamp := now; lv_metrics := metrics s' |} in
       loggedVitals s' = loggedVitals s
       ∨ (last (loggedVitals s') = Some entry
          ∧ ∀ l, last (loggedVitals s) = Some l ->
                 lv_timestamp l + AUTO_LOG_VITALS_INTERVAL_SECONDS * 1000 < now)).
Proof.
  intros s.
  destruct (runEntry_log history (createInitialPatientSimData p hr nsr rr created))
    as (Hsp & Hmax & Hticks).
  { intros i a b Ha. done. }
  fold s in Hsp, Hmax, Hticks. cbn [loggedVitals createInitialPatientSimData length] in Hmax, Hticks.
  split; [lia|]. split; [lia|]. split; [done|].
  intros patient now inp s' entry. subst s'. 
  rewrite vitalsTickPatient_loggedVitals.
  change (metrics (vitalsTickPatient patient now inp s)) with (evolveMetrics patient now inp s)
    in entry.
  destruct (logVitals_cases now (evolveMetrics patient now inp s) (loggedVitals s))
    as [-> | [Hlast [[-> _] | [-> Hlen]]]]; [by left| |]; right; (split; [|exact Hlast]).
  - by rewrite last_snoc.
  - rewrite drop_app_le by lia. by rewrite last_snoc.
Qed.

(** ** Alerts are never cleared *)

Lemma stepEntry_alerts_grow (e : EntryStep) (s : PatientSpecificSimData) :
  ∃ new, withoutLeadOffAlert (alerts (stepEntry e s)) = withoutLeadOffAlert (alerts s) ++ new.
Proof.
  assert (Hsame : ∃ new : list Alert,
             withoutLeadOffAlert (alerts s) = withoutLeadOffAlert (alerts s) ++ new)
    by (exists []; by rewrite app_nil_r).
  destruct e; cbn [stepEntry].
  - by rewrite ecgTickPatient_alerts.
  - rewrite vitalsTickPatient_alerts.
    destruct (evaluateAlerts_grows patient inp (evolveMetrics patient now inp s) (alerts s))
      as [new ->].
    rewrite withoutLeadOffAlert_app. by eexists.
  - exact Hsame.
  - exact Hsame.
  - rewrite feedback_alerts. destruct (existsb _ _); [|exact Hsame].
    by rewrite withoutLeadOffAlert_idemp.
  - rewrite toggle_alerts. destruct (negb _).
    + destruct (existsb _ _); [exact Hsame|]. by rewrite withoutLeadOffAlert_snoc.
    + by rewrite withoutLeadOffAlert_idemp.
  - exact Hsame.
  - exact Hsame.
Qed.

Lemma runEntry_alerts_grow (history : list EntryStep) (s : PatientSpecificSimData) :
  ∃ new, withoutLeadOffAlert (alerts (runEntry history s)) = withoutLeadOffAlert (alerts s) ++ new.
Proof.
  apply (runEntry_invariant
           (fun x => ∃ new, withoutLeadOffAlert (alerts x)
                            = withoutLeadOffAlert (alerts s) ++ new)).
  - intros e x [new1 Hx]. destruct (stepEntry_alerts_grow e x) as [new2 ->].
    rewrite Hx. exists (new1 ++ new2). by rewrite app_assoc.
  - exists []. by rewrite app_nil_r.
Qed.

Lemma hasAlert_withoutLeadOffAlert (msg : string) (sev : AlertSeverity) (l : list Alert) :
  msg ≠ LEAD_OFF_MESSAGE ->
  hasAlert msg sev (withoutLeadOffAlert l) = hasAlert msg sev l.
Proof.
  intros Hmsg. unfold hasAlert, withoutLeadOffAlert.
  induction l as [|a l IH]; [done|]. simpl.
  unfold isLeadOffAlert at 1. case_bool_decide as Hoff; simpl.
  - rewrite IH. rewrite (bool_decide_eq_false_2 (message a = msg)); [done|congruence].
  - by rewrite IH.
Qed.

(** X10: take an entry at a point where no analysis snapshot waits to be
    written back.  Whatever is done to it from there, the alerts other than
    the lead-off alert that it holds are still there afterwards, in their
    order and before any alert raised since: no tick and no operation
    removes one.  Acknowledging does not clear one either: after
    acknowledging everything, a check with the message and severity of one
    of these alerts still finds it and raises nothing. *)
Theorem clinical_alerts_are_never_cleared
    (history : list EntryStep) (s : PatientSpecificSimData) :
  let s' := runEntry history s in
  (∃ new, withoutLeadOffAlert (alerts s') = withoutLeadOffAlert (alerts s) ++ new)
  ∧ (∀ msg sev, msg ≠ LEAD_OFF_MESSAGE ->
                hasAlert msg sev (alerts s) = true -> hasAlert msg sev (alerts s') = true)
  ∧ (∀ patient m c uid date,
       c ∈ alertChecks patient m ->
       hasAlert (checkKey c).1 (checkKey c).2 (alerts s) = true ->
       runCheck uid date c (alerts (acknowledgeOn None s')) = alerts s').
Proof.
  intros s'.
  assert (Hkeeps : ∀ msg sev, msg ≠ LEAD_OFF_MESSAGE ->
             hasAlert msg sev (alerts s) = true -> hasAlert msg sev (alerts s') = true).
  { intros msg sev Hmsg Hhas.
    destruct (runEntry_alerts_grow history s) as [new Hnew]. fold s' in Hnew.
    rewrite <- (hasAlert_withoutLeadOffAlert msg sev (alerts s')) by done.
    rewrite Hnew, hasAlert_app, hasAlert_withoutLeadOffAlert by done.
    by rewrite Hhas. }
  split; [apply runEntry_alerts_grow|]. split; [exact Hkeeps|].
  intros patient m c uid date Hc Hhas.
  change (alerts (acknowledgeOn None s')) with (alerts s').
  apply runCheck_present, Hkeeps; [|done].
  by eapply alertMessage_not_leadOff.
Qed.

(** ** The vitals of the low-frequency loop *)

Lemma ecgTickPatient_metrics (patient : Patient) (now drawnHR : Z)
    (s : PatientSpecificSimData) :
  metrics (ecgTickPatient patient now drawnHR s)
  = if isLeadOff s then set_heartRate 0 (metrics s) else metrics s.
Proof.
  unfold ecgTickPatient. destruct (isLeadOff s); [apply ecgTickLeadOff_metrics|].
  unfold ecgTickNormal. cbv zeta. by repeat skip_block.
Qed.

Lemma evolveMetrics_vitals (patient : Patient) (now : Z) (inp : VitalsInputs)
    (s : PatientSpecificSimData) :
  let m := evolveMetrics patient now inp s in
  spo2 m = (if isLethal (RHYTHM_PARAMS (activeRhythm patient)) then 0 else spo2 (metrics s))
  ∧ respiratoryRate m
    = (if isLethal (RHYTHM_PARAMS (activeRhythm patient)) then 0
       else if rrUpdateDue now s
            then Z.max 8 (Z.min 35 (respiratoryRate (metrics s) + rrDelta inp))
            else respiratoryRate (metrics s))
  ∧ bloodPressure m
    = (if isLethal (RHYTHM_PARAMS (activeRhythm patient))
       then {| systolic := 0; diastolic := 0 |}
       else if bpUpdateDue now s
            then {| systolic := systolic (bloodPressure (metrics s)) + bpSystolicDelta inp;
                    diastolic := diastolic (bloodPressure (metrics s)) + bpDiastolicDelta inp |}
            else bloodPressure (metrics s)).
Proof.
  unfold evolveMetrics. cbv zeta.
  destruct (isLethal _), (bpUpdateDue now s), (tempUpdateDue now s), (rrUpdateDue now s);
    repeat split.
Qed.

Lemma stepEntry_metrics (e : EntryStep) (s : PatientSpecificSimData) :
  isLowFrequencyTick e = false ->
  metrics (stepEntry e s) = metrics s ∨ metrics (stepEntry e s) = set_heartRate 0 (metrics s).
Proof.
  destruct e; cbn [stepEntry isLowFrequencyTick]; intros H.
  - rewrite ecgTickPatient_metrics. destruct (isLeadOff s); [by right|by left].
  - discriminate.
  - by left.
  - by left.
  - left. unfold provideAlarmFeedbackOn. cbv zeta.
    by destruct (existsb isLeadOffAlert (unacknowledgedOf alertSeverity s)).
  - by left.
  - by left.
  - by left.
Qed.

Lemma stepEntry_spo2 (e : EntryStep) (s : PatientSpecificSimData) :
  spo2 (metrics (stepEntry e s)) = spo2 (metrics s) ∨ spo2 (metrics (stepEntry e s)) = 0.
Proof.
  destruct (isLowFrequencyTick e) eqn:E.
  - destruct e; try discriminate. cbn [stepEntry]. rewrite vitalsTickPatient_metrics.
    destruct (evolveMetrics_vitals patient now inp s) as (-> & _).
    destruct (isLethal _); [by right|by left].
  - destruct (stepEntry_metrics e s E) as [-> | ->]; by left.
Qed.

Lemma runEntry_spo2 (history : list EntryStep) (s : PatientSpecificSimData) :
  spo2 (metrics (runEntry history s)) = spo2 (metrics s)
  ∨ spo2 (metrics (runEntry history s)) = 0.
Proof.
  apply (runEntry_invariant
           (fun x => spo2 (metrics x) = spo2 (metrics s) ∨ spo2 (metrics x) = 0));
    [|by left].
  intros e x [Hx | Hx]; destruct (stepEntry_spo2 e x) as [-> | ->]; auto.
Qed.

Lemma checks_raise (patient : Patient) (inp : VitalsInputs) (m : CardiacMetrics)
    (l : list Alert) (c : AlertCheck) :
  c ∈ alertChecks patient m -> checkTriggered c = true ->
  hasAlert (checkKey c).1 (checkKey c).2 (evaluateAlerts patient inp m l) = true.
Proof.
  intros Hc Htr. rewrite evaluateAlerts_checks.
  apply list_elem_of_lookup in Hc as [i Hi].
  apply (proj2 (proj2 (checks_fold inp (imap pair (alertChecks patient m)) l)) (i, c)); [|done].
  apply elem_of_lookup_imap. by exists i, c.
Qed.

(** X12: A low-frequency tick under a lethal rhythm sets blood pressure,
    SpO2 and respiratory rate to 0, and with the default SpO2 thresholds it
    leaves both the critical and the warning alert [SpO₂ Low: 0] raised.
    Nothing that is done to the entry afterwards, a change of rhythm
    included, moves SpO2 away from 0 (the steps after the tick, with no
    snapshot older than the tick waiting to be written back). *)
Theorem lethal_rhythm_zeroes_the_vitals_and_spo2_never_recovers
    (patient : Patient) (now : Z) (inp : VitalsInputs) (s : PatientSpecificSimData)
    (Hlethal : isLethal (RHYTHM_PARAMS (activeRhythm patient)) = true) :
  let s' := vitalsTickPatient patient now inp s in
  bloodPressure (metrics s') = {| systolic := 0; diastolic := 0 |}
  ∧ spo2 (metrics s') = 0
  ∧ respiratoryRate (metrics s') = 0
  ∧ (personalizedThresholds patient ≫= pt_spo2 = None ->
     hasAlert "SpO₂ Low: 0" CRITICAL (alerts s') = true
     ∧ hasAlert "SpO₂ Low: 0" WARNING (alerts s') = true)
  ∧ (∀ later, spo2 (metrics (runEntry later s')) = 0).
Proof.
  intros s'.
  destruct (evolveMetrics_vitals patient now inp s) as (Hspo2 & Hrr & Hbp).
  rewrite Hlethal in Hspo2, Hrr, Hbp.
  change (evolveMetrics patient now inp s) with (metrics s') in Hspo2, Hrr, Hbp.
  split; [done|]. split; [done|]. split; [done|]. split.
  - intros Hdefault. subst s'. rewrite vitalsTickPatient_alerts.
    change (evolveMetrics patient now inp s)
      with (metrics (vitalsTickPatient patient now inp s)).
    set (m := metrics (vitalsTickPatient patient now inp s)) in *.
    set (spCheck := Build_AlertCheck "SpO₂" (spo2 m) ALERT_THRESHOLDS_SPO2
                      (personalizedThresholds patient ≫= pt_spo2)).
    assert (Hin : ∀ sev, spCheck sev low ∈ alertChecks patient m).
    { intros sev. unfold alertChecks. cbv zeta. fold spCheck.
      destruct sev; set_unfold; tauto. }
    assert (Htr : ∀ sev, checkTriggered (spCheck sev low) = true).
    { intros sev. unfold checkTriggered, spCheck. cbn [c_value c_thresholds c_personalized
        c_severity c_type]. rewrite Hdefault, Hspo2. by destruct sev. }
    assert (Hkey : ∀ sev, checkKey (spCheck sev low) = ("SpO₂ Low: 0", sev)).
    { intros sev. unfold checkKey, spCheck. cbn [c_value c_metric c_type c_severity].
      by rewrite Hspo2. }
    split.
    + pose proof (checks_raise patient inp m (alerts s) _ (Hin CRITICAL) (Htr CRITICAL)) as H.
      by rewrite Hkey in H.
    + pose proof (checks_raise patient inp m (alerts s) _ (Hin WARNING) (Htr WARNING)) as H.
      by rewrite Hkey in H.
  - intros later. destruct (runEntry_spo2 later s') as [-> | ->]; done.
Qed.

(** Ventricular tachycardia for one tick, then back to sinus rhythm: SpO2
    stays at 0. *)
Lemma lethal_rhythm_zeroes_the_vitals_and_spo2_never_recovers_witness :
  let s := sampleSimData vtPatient 180 in
  let s' := vitalsTickPatient vtPatient 1000 (noDrift 1000) s in
  let recovered := samplePatient "PID00300" NSR pacerOff None in
  isLethal (RHYTHM_PARAMS (activeRhythm vtPatient)) = true
  ∧ spo2 (metrics s) = 98
  ∧ spo2 (metrics s') = 0
  ∧ spo2 (metrics (runEntry [RhythmSet 72; LowFrequencyTick recovered 2000 (noDrift 2000)] s')) = 0.
Proof.
  intros s s' recovered.
  assert (Hlethal : isLethal (RHYTHM_PARAMS (activeRhythm vtPatient)) = true) by reflexivity.
  destruct (lethal_rhythm_zeroes_the_vitals_and_spo2_never_recovers
              vtPatient 1000 (noDrift 1000) s Hlethal) as (_ & Hspo2 & _ & _ & Hlater).
  split; [exact Hlethal|]. split; [reflexivity|]. split; [exact Hspo2|].
  exact (Hlater [RhythmSet 72; LowFrequencyTick recovered 2000 (noDrift 2000)]).
Defined.

(** ** Heart rate, respiratory rate and SpO2 *)

Lemma convergeHeartRate_distance (target hr : Z) :
  Z.abs (target - convergeHeartRate target hr) = Z.max 0 (Z.abs (target - hr) - 2).
Proof.
  unfold convergeHeartRate.
  destruct (Z.lt_trichotomy (target - hr) 0) as [H | [H | H]].
  - rewrite Z.sgn_neg by done. lia.
  - rewrite H. simpl. lia.
  - rewrite Z.sgn_pos by done. lia.
Qed.

Lemma vitalsTickPatient_currentTargetHeartRate (patient : Patient) (now : Z)
    (inp : VitalsInputs) (s : PatientSpecificSimData) :
  currentTargetHeartRate (vitalsTickPatient patient now inp s) = currentTargetHeartRate s.
Proof.
  unfold vitalsTickPatient, stampUpdates. cbv zeta. decide_tests; reflexivity.
Qed.

Lemma vitalsTicks_cons (patient : Patient) (now : Z) (inp : VitalsInputs)
    (ticks : list (Patient * Z * VitalsInputs)) (s : PatientSpecificSimData) :
  runEntry (vitalsTicks ((patient, now, inp) :: ticks)) s
  = runEntry (vitalsTicks ticks) (vitalsTickPatient patient now inp s).
Proof.
  apply (runEntry_cons (LowFrequencyTick patient now inp)).
  cbn [forallb isAnalysisWriteBack negb andb]. unfold vitalsTicks.
  induction ticks as [|t ticks IH]; [reflexivity|exact IH].
Qed.

(** X13: Low-frequency ticks do not move the target heart rate.  Over a
    run of [n] such ticks the distance of the heart rate from the target
    falls by 2 per tick until it is 0: it is the distance before, less
    [2 * n], or 0; once [2 * n] covers the distance, the heart rate is the
    target. *)
Theorem heart_rate_closes_in_on_its_target_by_two_per_tick
    (ticks : list (Patient * Z * VitalsInputs)) (s : PatientSpecificSimData) :
  let s' := runEntry (vitalsTicks ticks) s in
  let remaining x := Z.abs (currentTargetHeartRate x - heartRate (metrics x)) in
  currentTargetHeartRate s' = currentTargetHeartRate s
  ∧ remaining s' = Z.max 0 (remaining s - 2 * Z.of_nat (length ticks))
  ∧ (remaining s <= 2 * Z.of_nat (length ticks) ->
     heartRate (metrics s') = currentTargetHeartRate s).
Proof.
  intros s' remaining.
  assert (H : currentTargetHeartRate s' = currentTargetHeartRate s
              ∧ remaining s' = Z.max 0 (remaining s - 2 * Z.of_nat (length ticks))).
  { subst s'. revert s. induction ticks as [|[[patient now] inp] ticks IH]; intros s.
    - cbn [vitalsTicks fmap list_fmap length]. rewrite runEntry_nil.
      split; [done|]. unfold remaining. lia.
    - rewrite vitalsTicks_cons.
      destruct (IH (vitalsTickPatient patient now inp s)) as [-> ->].
      rewrite vitalsTickPatient_currentTargetHeartRate. split; [done|].
      unfold remaining at 1. rewrite vitalsTickPatient_currentTargetHeartRate.
      rewrite vitalsTickPatient_metrics, evolveMetrics_heartRate, convergeHeartRate_distance.
      fold (remaining s). simpl length. lia. }
  destruct H as [Htarget Hrem]. split; [done|]. split; [done|].
  intros Henough. unfold remaining in Hrem at 1. rewrite Htarget in Hrem. lia.
Qed.

Lemma stepEntry_respiratoryRateInRange (e : EntryStep) (s : PatientSpecificSimData) :
  respiratoryRateInRange s -> respiratoryRateInRange (stepEntry e s).
Proof.
  unfold respiratoryRateInRange. intros Hs.
  destruct (isLowFrequencyTick e) eqn:E.
  - destruct e; try discriminate. cbn [stepEntry]. rewrite vitalsTickPatient_metrics.
    destruct (evolveMetrics_vitals patient now inp s) as (_ & -> & _).
    destruct (isLethal _); [by left|]. destruct (rrUpdateDue now s); [right; lia|done].
  - by destruct (stepEntry_metrics e s E) as [-> | ->].
Qed.

(** X14: For an entry created with a respiratory rate drawn between 12 and
    18, in every state the entry reaches the respiratory rate is 0 or lies
    between 8 and 35, and SpO2 is 98 or 0.  A low-frequency tick under a
    rhythm that is not lethal keeps SpO2, keeps the respiratory rate unless
    its update is due, and then leaves it between 8 and 35. *)
Theorem respiratory_rate_and_spo2_take_few_values
    (p : Patient) (hr nsr rr created : Z) (history : list EntryStep)
    (Hdraw : 12 <= rr <= 18) :
  let s := runEntry history (createInitialPatientSimData p hr nsr rr created) in
  (respiratoryRate (metrics s) = 0 ∨ 8 <= respiratoryRate (metrics s) <= 35)
  ∧ (spo2 (metrics s) = 98 ∨ spo2 (metrics s) = 0)
  ∧ (∀ patient now inp,
       let s' := vitalsTickPatient patient now inp s in
       isLethal (RHYTHM_PARAMS (activeRhythm patient)) = false ->
       spo2 (metrics s') = spo2 (metrics s)
       ∧ (rrUpdateDue now s = false -> respiratoryRate (metrics s') = respiratoryRate (metrics s))
       ∧ (rrUpdateDue now s = true -> 8 <= respiratoryRate (metrics s') <= 35)).
Proof.
  assert (Hrun : ∀ h s0, respiratoryRateInRange s0 -> respiratoryRateInRange (runEntry h s0)).
  { intros h s0. apply (runEntry_invariant respiratoryRateInRange).
    intros e x. apply stepEntry_respiratoryRateInRange. }
  intros s. split; [|split].
  - apply Hrun. right. cbn [createInitialPatientSimData metrics getDefaultMetrics respiratoryRate].
    lia.
  - destruct (runEntry_spo2 history (createInitialPatientSimData p hr nsr rr created))
      as [H | H]; [left | right]; exact H.
  - intros patient now inp s' Hlethal. subst s'. rewrite vitalsTickPatient_metrics.
    destruct (evolveMetrics_vitals patient now inp s) as (-> & -> & _).
    rewrite Hlethal. split; [done|]. split; intros ->; [done|lia].
Qed.

(** A lethal tick followed, two minutes later, by a tick in sinus rhythm:
    the respiratory rate comes back at the lower clamp. *)
Lemma respiratory_rate_and_spo2_take_few_values_witness :
  let s := runEntry [LowFrequencyTick vtPatient 1000 (noDrift 1000);
                     LowFrequencyTick patientA 130000 (noDrift 130000)]
             (sampleSimData vtPatient 180) in
  12 <= 14 <= 18
  ∧ (respiratoryRate (metrics s) = 0 ∨ 8 <= respiratoryRate (metrics s) <= 35)
  ∧ respiratoryRate (metrics s) = 8
  ∧ (spo2 (metrics s) = 98 ∨ spo2 (metrics s) = 0)
  ∧ spo2 (metrics s) = 0.
Proof.
  intros s.
  assert (Hdraw : 12 <= 14 <= 18) by lia.
  destruct (respiratory_rate_and_spo2_take_few_values vtPatient 180 72 14 0
              [LowFrequencyTick vtPatient 1000 (noDrift 1000);
               LowFrequencyTick patientA 130000 (noDrift 130000)] Hdraw) as (Hrr & Hspo2 & _).
  split; [exact Hdraw|]. split; [exact Hrr|]. split; [reflexivity|].
  split; [exact Hspo2|reflexivity].
Defined.

(** ** Drawing a beat *)

Lemma ecgTickPatient_walking (patient : Patient) (now drawnHR : Z)
    (s : PatientSpecificSimData) :
  isLeadOff s = false -> (0 < ecgBufferIndex s)%nat ->
  let s' := ecgTickPatient patient now drawnHR s in
  let last := bool_decide (length (ecgPatternBuffer s) <= S (ecgBufferIndex s))%nat in
  newestValue (ecgData s')
  = Some (Exact (patternAt (ecgPatternBuffer s) (ecgBufferIndex s)))
  ∧ ecgBufferIndex s' = (if last then 0%nat else S (ecgBufferIndex s))
  ∧ ecgPatternBuffer s' = (if last then [] else ecgPatternBuffer s)
  ∧ isLeadOff s' = false.
Proof.
  intros Hlead Hpos s' last.
  assert (Hlead' : isLeadOff s' = false) by (subst s'; by rewrite ecgTickPatient_isLeadOff).
  subst s'. unfold ecgTickPatient in *. rewrite Hlead in *.
  assert (Hpat : currentPatternOf patient (nextBeatDue s) (isPacedBeat patient s) s
                 = ecgPatternBuffer s).
  { unfold currentPatternOf. by rewrite (proj2 (Nat.ltb_lt _ _) Hpos). }
  rewrite ecgTickNormal_ecgData, ecgTickNormal_ecgBufferIndex, ecgTickNormal_ecgPatternBuffer.
  cbv zeta. rewrite Hpat. unfold newestValue. rewrite shiftAppend_last. cbn [fmap option_fmap option_map value].
  rewrite (proj2 (Nat.ltb_lt _ _) Hpos).
  subst last. destruct (_ <=? _) eqn:E.
  - apply Z.leb_le in E. rewrite bool_decide_eq_true_2 by lia. done.
  - apply Z.leb_gt in E. rewrite bool_decide_eq_false_2 by lia. done.
Qed.

Lemma ecgTickPatient_idle (patient : Patient) (now drawnHR : Z)
    (s : PatientSpecificSimData) :
  isLeadOff s = false -> ecgBufferIndex s = 0%nat ->
  let s' := ecgTickPatient patient now drawnHR s in
  let pattern := if nextBeatDue s then beatPattern patient s else [] in
  let last := bool_decide (length pattern <= 1)%nat in
  newestValue (ecgData s') = Some (Exact (patternAt pattern 0))
  ∧ ecgBufferIndex s' = (if last then 0%nat else 1%nat)
  ∧ ecgPatternBuffer s' = (if last then [] else pattern)
  ∧ isLeadOff s' = false.
Proof.
  intros Hlead Hidle s' pattern last.
  assert (Hlead' : isLeadOff s' = false) by (subst s'; by rewrite ecgTickPatient_isLeadOff).
  subst s'. unfold ecgTickPatient in *. rewrite Hlead in *.
  assert (Hpat : currentPatternOf patient (nextBeatDue s) (isPacedBeat patient s) s = pattern).
  { unfold currentPatternOf. rewrite Hidle. cbn [Nat.ltb Nat.leb]. subst pattern.
    unfold beatPattern. by destruct (nextBeatDue s). }
  rewrite ecgTickNormal_ecgData, ecgTickNormal_ecgBufferIndex, ecgTickNormal_ecgPatternBuffer.
  cbv zeta. rewrite Hpat, Hidle. unfold newestValue. rewrite shiftAppend_last.
  cbn [fmap option_fmap option_map value Nat.ltb Nat.leb].
  subst last. destruct (_ <=? _) eqn:E.
  - apply Z.leb_le in E. rewrite bool_decide_eq_true_2 by lia. done.
  - apply Z.leb_gt in E. rewrite bool_decide_eq_false_2 by lia.
    split; [done|]. split; [done|]. split; [|done].
    subst pattern. destruct (nextBeatDue s); [done|]. simpl in E. lia.
Qed.

Lemma ecgTicks_cons (patient : Patient) (now drawnHR : Z) (ticks : list (Patient * Z * Z))
    (s : PatientSpecificSimData) :
  runEntry (ecgTicks ((patient, now, drawnHR) :: ticks)) s
  = runEntry (ecgTicks ticks) (ecgTickPatient patient now drawnHR s).
Proof.
  apply (runEntry_cons (HighFrequencyTick patient now drawnHR)).
  cbn [forallb isAnalysisWriteBack negb andb]. unfold ecgTicks.
  induction ticks as [|t ticks IH]; [reflexivity|exact IH].
Qed.

Lemma runEntry_walking (tick : Patient * Z * Z) (ticks : list (Patient * Z * Z))
    (s : PatientSpecificSimData) :
  isLeadOff s = false -> (0 < ecgBufferIndex s)%nat ->
  (ecgBufferIndex s + length ticks < length (ecgPatternBuffer s))%nat ->
  let s' := runEntry (ecgTicks (tick :: ticks)) s in
  let position := (ecgBufferIndex s + length ticks)%nat in
  let last := bool_decide (S position = length (ecgPatternBuffer s)) in
  newestValue (ecgData s') = Some (Exact (patternAt (ecgPatternBuffer s) position))
  ∧ ecgBufferIndex s' = (if last then 0%nat else S position)
  ∧ ecgPatternBuffer s' = (if last then [] else ecgPatternBuffer s)
  ∧ isLeadOff s' = false.
Proof.
  revert tick s. induction ticks as [|next ticks IH]; intros [[patient now] drawnHR] s
    Hlead Hpos Hfits.
  - rewrite ecgTicks_cons. cbn [ecgTicks fmap list_fmap]. rewrite runEntry_nil.
    cbn [length] in *. cbv zeta. rewrite Nat.add_0_r in *.
    destruct (ecgTickPatient_walking patient now drawnHR s Hlead Hpos) as (H1 & H2 & H3 & H4).
    rewrite H1, H2, H3, H4. split; [done|].
    case_bool_decide; case_bool_decide; try lia; done.
  - rewrite ecgTicks_cons. cbn [length] in *.
    destruct (ecgTickPatient_walking patient now drawnHR s Hlead Hpos) as (_ & H2 & H3 & H4).
    rewrite bool_decide_eq_false_2 in H2, H3 by lia.
    specialize (IH next (ecgTickPatient patient now drawnHR s) H4).
    rewrite H2, H3 in IH. cbv zeta in IH.
    destruct IH as (I1 & I2 & I3 & I4); [lia|lia|].
    cbv zeta. replace (ecgBufferIndex s + S (length ticks))%nat
      with (S (ecgBufferIndex s) + length ticks)%nat by lia.
    done.
Qed.

(** X15: With the lead on, the pattern cursor idle and a beat due, the tick
    that starts the beat and the [k] ticks after it, [k] less than the
    length of the pattern of the beat, leave sample [k] of that pattern as
    the newest ECG value, whatever patient record, clock and rate the later
    ticks are given.  The cursor is then at [k + 1] with the pattern still
    in the buffer, or, after the last sample, back at 0 with the buffer
    empty. *)
Theorem a_beat_is_drawn_sample_by_sample
    (patient : Patient) (now drawnHR : Z) (ticks : list (Patient * Z * Z))
    (s : PatientSpecificSimData)
    (Hlead : isLeadOff s = false)
    (Hidle : ecgBufferIndex s = 0%nat)
    (Hdue : nextBeatDue s = true)
    (Hfits : (length ticks < length (beatPattern patient s))%nat) :
  let s' := runEntry (ecgTicks ((patient, now, drawnHR) :: ticks)) s in
  let last := bool_decide (S (length ticks) = length (beatPattern patient s)) in
  newestValue (ecgData s') = Some (Exact (patternAt (beatPattern patient s) (length ticks)))
  ∧ ecgBufferIndex s' = (if last then 0%nat else S (length ticks))
  ∧ ecgPatternBuffer s' = (if last then [] else beatPattern patient s)
  ∧ isLeadOff s' = false.
Proof.
  intros s' last. subst s'. rewrite ecgTicks_cons.
  destruct (ecgTickPatient_idle patient now drawnHR s Hlead Hidle) as (H1 & H2 & H3 & H4).
  rewrite Hdue in H1, H2, H3.
  destruct ticks as [|tick ticks].
  - cbn [ecgTicks fmap list_fmap length] in *. rewrite runEntry_nil.
    rewrite H1, H2, H3, H4. subst last.
    split; [done|]. case_bool_decide; case_bool_decide; try lia; done.
  - cbn [length] in *. rewrite bool_decide_eq_false_2 in H2, H3 by lia.
    pose proof (runEntry_walking tick ticks (ecgTickPatient patient now drawnHR s) H4) as Hwalk.
    rewrite H2, H3 in Hwalk. cbv zeta in Hwalk.
    destruct Hwalk as (W1 & W2 & W3 & W4); [lia|lia|].
    change (1 + length ticks)%nat with (S (length ticks)) in *. done.
Qed.

(** Three ticks into a beat of ventricular tachycardia. *)
Lemma a_beat_is_drawn_sample_by_sample_witness :
  let s := sampleSimData vtPatient 180 in
  let ticks := replicate 2 (vtPatient, 50, 180) in
  let s' := runEntry (ecgTicks ((vtPatient, 25, 180) :: ticks)) s in
  isLeadOff s = false
  ∧ ecgBufferIndex s = 0%nat
  ∧ nextBeatDue s = true
  ∧ (length ticks < length (beatPattern vtPatient s))%nat
  ∧ newestValue (ecgData s') = Some (Exact (patternAt ECG_VT_PATTERN 2))
  ∧ ecgBufferIndex s' = 3%nat.
Proof.
  intros s ticks s'.
  assert (Hlead : isLeadOff s = false) by reflexivity.
  assert (Hidle : ecgBufferIndex s = 0%nat) by reflexivity.
  assert (Hdue : nextBeatDue s = true) by reflexivity.
  assert (Hfits : (length ticks < length (beatPattern vtPatient s))%nat) by (vm_compute; lia).
  destruct (a_beat_is_drawn_sample_by_sample vtPatient 25 180 ticks s Hlead Hidle Hdue Hfits)
    as (Hvalue & Hindex & _).
  split; [exact Hlead|]. split; [exact Hidle|]. split; [exact Hdue|]. split; [exact Hfits|].
  split; [exact Hvalue | exact Hindex].
Defined.

Lemma ecgTickLeadOff_ecgPatternBuffer (s : PatientSpecificSimData) :
  ecgPatternBuffer (ecgTickLeadOff s) = ecgPatternBuffer s.
Proof. unfold ecgTickLeadOff. cbv zeta. by repeat skip_block. Qed.

Lemma stepEntry_storablePattern (e : EntryStep) (s : PatientSpecificSimData) :
  storablePattern (ecgPatternBuffer s) -> storablePattern (ecgPatternBuffer (stepEntry e s)).
Proof.
  intros Hs. destruct e; cbn [stepEntry].
  - unfold ecgTickPatient. destruct (isLeadOff s).
    + by rewrite ecgTickLeadOff_ecgPatternBuffer.
    + rewrite ecgTickNormal_ecgPatternBuffer. cbv zeta.
      destruct (_ <=? _); [by left|]. destruct (0 <? _)%nat eqn:E; [done|].
      destruct (nextBeatDue s); [|done].
      unfold currentPatternOf. rewrite E.
      destruct (isPacedBeat patient s); [right; by left|right; right; by eexists].
  - unfold vitalsTickPatient, stampUpdates. cbv zeta. by decide_tests.
  - done.
  - done.
  - unfold provideAlarmFeedbackOn. cbv zeta.
    by destruct (existsb isLeadOffAlert (unacknowledgedOf alertSeverity s)).
  - done.
  - done.
  - done.
Qed.

Lemma storablePattern_not_p_wave (pattern : list Q) :
  storablePattern pattern ->
  pattern ≠ ECG_P_WAVE_PATTERN ∧ pattern ≠ ECG_AFIB_QRS_PATTERN.
Proof.
  intros [-> | [-> | [r ->]]]; [split; discriminate | split; discriminate |].
  destruct r; split; discriminate.
Qed.

(** X16: In every state an entry reaches from its creation the pattern
    buffer is empty, the pacer spike followed by the paced complex, or the
    base pattern of a rhythm.  It is never the separate P wave pattern nor
    the QRS pattern of atrial fibrillation.  For third-degree AV block the
    tick that starts a beat advances the P wave clock when its interval has
    elapsed, and still draws the first sample of the beat pattern: no P wave
    is drawn. *)
Theorem pattern_buffer_holds_a_base_pattern_or_the_paced_one
    (p : Patient) (hr nsr rr created : Z) (history : list EntryStep) :
  let s := runEntry history (createInitialPatientSimData p hr nsr rr created) in
  storablePattern (ecgPatternBuffer s)
  ∧ ecgPatternBuffer s ≠ ECG_P_WAVE_PATTERN
  ∧ ecgPatternBuffer s ≠ ECG_AFIB_QRS_PATTERN
  ∧ (∀ patient now drawnHR,
       activeRhythm patient = THIRD_DEGREE_AV_BLOCK ->
       isLeadOff s = false -> ecgBufferIndex s = 0%nat -> nextBeatDue s = true ->
       let s' := ecgTickPatient patient now drawnHR s in
       lastPWaveTime s'
       = (if pWaveElapsed (RHYTHM_PARAMS THIRD_DEGREE_AV_BLOCK) now s
          then now else lastPWaveTime s)
       ∧ newestValue (ecgData s') = Some (Exact (patternAt (beatPattern patient s) 0))
       ∧ ecgPatternBuffer s' = beatPattern patient s).
Proof.
  intros s.
  assert (Hrun : ∀ h s0, storablePattern (ecgPatternBuffer s0) ->
                         storablePattern (ecgPatternBuffer (runEntry h s0))).
  { intros h s0. apply (runEntry_invariant (fun x => storablePattern (ecgPatternBuffer x))).
    intros e x. apply stepEntry_storablePattern. }
  assert (Hs : storablePattern (ecgPatternBuffer s)) by (apply Hrun; by left).
  split; [exact Hs|]. split; [by apply storablePattern_not_p_wave|].
  split; [by apply storablePattern_not_p_wave|].
  intros patient now drawnHR Hrhythm Hlead Hidle Hdue s'. subst s'.
  destruct (ecgTickPatient_idle patient now drawnHR s Hlead Hidle) as (H1 & _ & H3 & _).
  rewrite Hdue in H1, H3. split; [|split; [exact H1|]].
  - unfold ecgTickPatient. rewrite Hlead. unfold ecgTickNormal. cbv zeta.
    repeat skip_block.
    unfold selectPattern. 
    assert (Hidle' : ecgBufferIndex (scheduleBeat patient drawnHR s) = 0%nat)
      by (rewrite <- Hidle; frame).
    rewrite Hidle'. cbn [Nat.ltb Nat.leb]. rewrite Hdue, Hrhythm. cbv zeta.
    rewrite decide_True by done.
    assert (Hp : ∀ r n x, pWaveElapsed r n (scheduleBeat patient drawnHR x) = pWaveElapsed r n x).
    { intros. unfold pWaveElapsed. destruct (atrialRate r); [|done].
      assert (Hl : lastPWaveTime (scheduleBeat patient drawnHR x) = lastPWaveTime x) by frame.
      by rewrite Hl. }
    rewrite Hp. destruct (pWaveElapsed _ now s); repeat skip_block; [done|].
    frame.
  - rewrite H3. rewrite bool_decide_eq_false_2; [done|].
    unfold beatPattern. rewrite Hrhythm. destruct (isPacedBeat patient s); simpl; lia.
Qed.

(** ** Loading and saving *)

Lemma entriesFor_snoc (entry : Patient -> PatientSpecificSimData) (ps : list Patient)
    (p : Patient) :
  entriesFor entry (ps ++ [p]) = <[p_id p := entry p]> (entriesFor entry ps).
Proof. unfold entriesFor. by rewrite foldl_app. Qed.

Lemma entriesFor_lookup (entry : Patient -> PatientSpecificSimData) (ps : list Patient)
    (patientId : string) :
  match entriesFor entry ps !! patientId with
  | Some s => ∃ p, p ∈ ps ∧ p_id p = patientId ∧ s = entry p
  | None => patientId ∉ p_id <$> ps
  end.
Proof.
  induction ps as [|p ps IH] using rev_ind.
  - unfold entriesFor. simpl. rewrite lookup_empty. apply not_elem_of_nil.
  - rewrite entriesFor_snoc. destruct (decide (p_id p = patientId)) as [Heq|Hne].
    + rewrite <- Heq, lookup_insert_eq. exists p. split; [|done].
      apply elem_of_app. right. by left.
    + rewrite lookup_insert_ne by done.
      destruct (entriesFor entry ps !! patientId) as [s|].
      * destruct IH as (q & Hq & Hid & Hs). exists q. split; [|done].
        apply elem_of_app. by left.
      * rewrite fmap_app, not_elem_of_app. split; [done|].
        cbn [fmap list_fmap]. apply not_elem_of_cons.
        split; [congruence | apply not_elem_of_nil].
Qed.

Lemma entriesFor_dom (entry : Patient -> PatientSpecificSimData) (ps : list Patient) :
  dom (entriesFor entry ps) = list_to_set (p_id <$> ps).
Proof.
  apply set_eq. intros id. rewrite elem_of_dom, elem_of_list_to_set.
  pose proof (entriesFor_lookup entry ps id) as H.
  destruct (entriesFor entry ps !! id) as [s|].
  - destruct H as (p & Hp & <- & _). split; [intros _|by eexists].
    apply list_elem_of_fmap. by exists p.
  - split; [by intros [? ?]|]. intros Hin. by apply H in Hin.
Qed.

Lemma restoreEntry_clean (persistentPatientData : option (gmap string PersistentPatientData))
    (p : Patient) (d : InitialDraws) :
  cleanEntry (restoreEntry persistentPatientData p d).
Proof.
  unfold restoreEntry. cbv zeta. by destruct (pp_heartSenseAIState _).
Qed.

(** X19: Loading the data of a named organization, from storage that is
    empty or holds a readable object, gives a simulation map with an entry
    for exactly the loaded patients.  Every entry is clean: no alerts,
    nothing acknowledged, the lead on, the waveform clock at 0, no analysis
    loading and no analysis error.  The selection is empty when no patient
    was loaded; otherwise it names a loaded patient, the one selected before
    or the first. *)
Theorem loading_gives_every_patient_one_clean_entry
    (name : string) (read : StorageRead) (draws : string -> InitialDraws) (st : HookState)
    (Hname : name ≠ "")
    (Hread : read ≠ Unparsable) :
  let st' := loadData (Some name) read draws st in
  entriesMatchRegistry st'
  ∧ (∀ patientId s, simulationDataMap st' !! patientId = Some s -> cleanEntry s)
  ∧ (patients st' = [] -> selectedPatientId st' = None)
  ∧ (∀ first rest, patients st' = first :: rest ->
       ∃ patientId, selectedPatientId st' = Some patientId
                    ∧ patientId ∈ registeredIds st'
                    ∧ (selectedPatientId st = Some patientId ∨ patientId = p_id first)).
Proof.
  intros st'. subst st'. unfold loadData. rewrite decide_False by done.
  destruct read as [| |data]; [|done|].
  - split; [apply entriesFor_dom|]. split; [|split; [done|]].
    + intros id s Hs.
      pose proof (entriesFor_lookup (fun p => createdWith p (draws (p_id p)))
                    INITIAL_PATIENTS id) as H.
      cbn [simulationDataMap] in Hs. rewrite Hs in H. destruct H as (p & _ & _ & ->).
      by repeat split.
    + intros first rest [= <- <-]. exists "PID00123". split; [done|]. split; [|by right].
      unfold registeredIds. apply elem_of_list_to_set. cbn [patients].
      unfold INITIAL_PATIENTS. cbn [fmap list_fmap p_id]. by left.
  - cbv zeta. generalize (default INITIAL_PATIENTS (sd_patients data)). intros loadedPatients.
    split; [apply entriesFor_dom|]. split; [|split].
    + intros id s Hs.
      pose proof (entriesFor_lookup
                    (fun p => restoreEntry (sd_persistentPatientData data) p (draws (p_id p)))
                    loadedPatients id) as H.
      cbn [simulationDataMap] in Hs. rewrite Hs in H. destruct H as (p & _ & _ & ->).
      apply restoreEntry_clean.
    + cbn [patients selectedPatientId]. by intros ->.
    + cbn [patients selectedPatientId]. intros first rest Hps. rewrite Hps.
      unfold registeredIds. cbn [patients].
      destruct (existsb _ _) eqn:E.
      * apply existsb_elem in E as (p & Hp & Hsel). apply bool_decide_eq_true in Hsel.
        exists (p_id p). split; [done|]. split; [|by left].
        apply elem_of_list_to_set, list_elem_of_fmap. by exists p.
      * exists (p_id first). split; [done|]. split; [|by right].
        apply elem_of_list_to_set, list_elem_of_fmap. exists first. split; [done|by left].
Qed.

(** The first load of an organization that has stored nothing. *)
Lemma loading_gives_every_patient_one_clean_entry_witness :
  let st' := loadData (Some "St. Mary") NoItem sampleDraws initialHookState in
  "St. Mary" ≠ ""
  ∧ NoItem ≠ Unparsable
  ∧ entriesMatchRegistry st'
  ∧ selectedPatientId st' = Some "PID00123".
Proof.
  intros st'.
  assert (Hname : "St. Mary" ≠ "") by discriminate.
  assert (Hread : NoItem ≠ Unparsable) by discriminate.
  split; [exact Hname|]. split; [exact Hread|]. split; [|reflexivity].
  exact (proj1 (loading_gives_every_patient_one_clean_entry
                  "St. Mary" NoItem sampleDraws initialHookState Hname Hread)).
Defined.

Lemma restoreEntry_saved (all : gmap string PersistentPatientData) (p : Patient)
    (d : InitialDraws) (vitals : list LoggedVitalSign) (log : list AlarmFeedbackEntry)
    (a : HeartSenseAIState) :
  all !! p_id p = Some {| pp_loggedVitals := Some vitals; pp_alarmFeedbackLog := Some log;
                          pp_heartSenseAIState := Some a |} ->
  restoreEntry (Some all) p d
  = set_heartSenseAIState (settled a)
      (set_alarmFeedbackLog log (set_loggedVitals vitals (createdWith p d))).
Proof. intros H. unfold restoreEntry. cbn [mbind option_bind]. by rewrite H. Qed.

Lemma restoreEntry_unsaved (all : gmap string PersistentPatientData) (p : Patient)
    (d : InitialDraws) :
  all !! p_id p = None -> restoreEntry (Some all) p d = createdWith p d.
Proof. intros H. unfold restoreEntry. cbn [mbind option_bind]. by rewrite H. Qed.

(** X20: Loading what the saving effect wrote for a state gives back its
    registry.  Every registered patient with an entry gets an entry with
    the same vitals log, the same feedback log and the same analysis state
    apart from [isLoading] and [error], which are reset; the entry is
    otherwise clean: alerts, acknowledgements and the lead-off flag are not
    restored.  A registered patient without an entry gets a new one,
    entries of ids that are not registered are dropped, and with no
    selection before the load the first patient is selected. *)
Theorem reload_restores_logs_and_analysis_but_not_alerts
    (name : string) (draws : string -> InitialDraws) (st before : HookState)
    (Hname : name ≠ "") :
  let st' := loadData (Some name) (Parsed (saveData st)) draws before in
  patients st' = patients st
  ∧ (∀ patientId s,
       patientId ∈ registeredIds st -> simulationDataMap st !! patientId = Some s ->
       ∃ s', simulationDataMap st' !! patientId = Some s'
             ∧ loggedVitals s' = loggedVitals s
             ∧ alarmFeedbackLog s' = alarmFeedbackLog s
             ∧ heartSenseAIState s' = settled (heartSenseAIState s)
             ∧ cleanEntry s')
  ∧ (∀ patientId,
       patientId ∈ registeredIds st -> simulationDataMap st !! patientId = None ->
       ∃ p, p ∈ patients st ∧ p_id p = patientId
            ∧ simulationDataMap st' !! patientId = Some (createdWith p (draws patientId)))
  ∧ (∀ patientId, patientId ∉ registeredIds st -> simulationDataMap st' !! patientId = None)
  ∧ (selectedPatientId before = None -> selectedPatientId st' = p_id <$> head (patients st)).
Proof.
  intros st'. subst st'. unfold loadData. rewrite decide_False by done.
  cbv zeta. cbn [saveData sd_patients sd_persistentPatientData default id patients
                 simulationDataMap selectedPatientId].
  set (stored := _ <$> simulationDataMap st).
  set (entry := fun p => restoreEntry (Some stored) p (draws (p_id p))).
  assert (Hfound : ∀ id, id ∈ registeredIds st ->
             ∃ p, p ∈ patients st ∧ p_id p = id
                  ∧ entriesFor entry (patients st) !! id = Some (entry p)).
  { intros id Hid. pose proof (entriesFor_lookup entry (patients st) id) as H.
    destruct (entriesFor entry (patients st) !! id) as [s|].
    - destruct H as (p & Hp & Hpid & ->). by exists p.
    - exfalso. apply H. by apply elem_of_list_to_set in Hid. }
  split; [done|]. split; [|split; [|split]].
  - intros id s Hid Hs. destruct (Hfound id Hid) as (p & Hp & <- & Hentry).
    exists (entry p). split; [done|]. subst entry. cbv beta.
    erewrite restoreEntry_saved; [|subst stored; by rewrite lookup_fmap, Hs].
    by repeat split.
  - intros id Hid Hs. destruct (Hfound id Hid) as (p & Hp & <- & Hentry).
    exists p. split; [done|]. split; [done|]. rewrite Hentry. f_equal. subst entry. cbv beta.
    apply restoreEntry_unsaved. subst stored. by rewrite lookup_fmap, Hs.
  - intros id Hid. pose proof (entriesFor_lookup entry (patients st) id) as H.
    destruct (entriesFor entry (patients st) !! id) as [s|]; [|done].
    destruct H as (p & Hp & <- & _). exfalso. apply Hid.
    apply elem_of_list_to_set, list_elem_of_fmap. by exists p.
  - intros ->. destruct (patients st) as [|first rest]; [done|].
    destruct (existsb _ (first :: rest)) eqn:E; [|done].
    apply existsb_elem in E as (p & _ & Hp). by apply bool_decide_eq_true in Hp.
Qed.

(** The ward after the sample session, saved and loaded into a new hook. *)
Lemma reload_restores_logs_and_analysis_but_not_alerts_witness :
  let worked := runSession sampleSession wardOfThree in
  let st' := loadData (Some "St. Mary") (Parsed (saveData worked)) sampleDraws initialHookState in
  "St. Mary" ≠ ""
  ∧ patients st' = patients worked
  ∧ selectedPatientId worked = Some "PID2000"
  ∧ selectedPatientId st' = Some "PID00123".
Proof.
  intros worked st'.
  assert (Hname : "St. Mary" ≠ "") by discriminate.
  destruct (reload_restores_logs_and_analysis_but_not_alerts
              "St. Mary" sampleDraws worked initialHookState Hname) as (Hps & _ & _ & _ & Hsel).
  split; [exact Hname|]. split; [exact Hps|]. split; [vm_compute; reflexivity|].
  exact (Hsel eq_refl).
Defined.

(** X21: Without an organization name the loading effect does nothing.
    With one, when reading the stored text throws, the registry becomes the
    three default patients while the simulation map and the selection stay
    as they were.  From the initial state of the hook this leaves three
    registered patients without any entry: both loops produce an empty map
    and the lead-off toggle does nothing. *)
Theorem failed_load_leaves_the_default_patients_without_entries
    (name : string) (draws : string -> InitialDraws) (st : HookState) :
  let st' := loadData (Some name) Unparsable draws st in
  loadData None Unparsable draws st = st
  ∧ loadData (Some "") Unparsable draws st = st
  ∧ (name ≠ "" ->
     patients st' = INITIAL_PATIENTS
     ∧ simulationDataMap st' = simulationDataMap st
     ∧ selectedPatientId st' = selectedPatientId st
     ∧ (st = initialHookState ->
        ¬ entriesMatchRegistry st'
        ∧ (∀ inp, ecgTick (patients st') inp (simulationDataMap st') = ∅)
        ∧ (∀ now inp, vitalsTick (patients st') now inp (simulationDataMap st') = ∅)
        ∧ (∀ patientId uid date, toggleEcgLeadOff patientId uid date st' = st'))).
Proof.
  intros st'. split; [reflexivity|]. split; [reflexivity|]. intros Hname.
  subst st'. unfold loadData. rewrite decide_False by done.
  split; [reflexivity|]. split; [reflexivity|]. split; [reflexivity|].
  intros ->. split; [|split; [|split]].
  - unfold entriesMatchRegistry, registeredIds.
    cbn [set_patients simulationDataMap patients initialHookState]. rewrite dom_empty_L.
    intros H. assert (Hin : "PID00123" ∈ (∅ : gset string)); [|by apply not_elem_of_empty in Hin].
    rewrite H. apply elem_of_list_to_set. unfold INITIAL_PATIENTS. cbn [fmap list_fmap p_id].
    by left.
  - intros inp. apply map_eq. intros id. by rewrite ecgTick_lookup, lookup_empty.
  - intros now inp. apply map_eq. intros id. by rewrite vitalsTick_lookup, lookup_empty.
  - intros patientId uid date. unfold toggleEcgLeadOff.
    by rewrite updateSimData_absent by apply lookup_empty.
Qed.

(** ** The analysis *)

(** X22: For an entry that has seen fewer than 10 low-frequency ticks since
    its creation, [mockRunHeartSenseAIAnalysis] reports insufficient data
    with score 0 whatever the rhythm and the alerts are, a lethal rhythm
    included, and the updater that stores the result records exactly that,
    not loading and without error. *)
Theorem analysis_of_a_young_entry_reports_insufficient_data
    (draw : Z -> Z -> Z) (patient p : Patient) (hr nsr rr created : Z)
    (history : list EntryStep)
    (Hyoung : (length (List.filter isLowFrequencyTick history) < 10)%nat) :
  let s := runEntry history (createInitialPatientSimData p hr nsr rr created) in
  let aiOutput := mockRunHeartSenseAIAnalysis draw patient s in
  o_riskLevel aiOutput = INSUFFICIENT_DATA
  ∧ o_riskScore aiOutput = 0
  ∧ o_predictionReasoning aiOutput
    = "Insufficient historical data for a comprehensive analysis."
  ∧ (∀ now m current,
       m !! p_id patient = Some current ->
       (heartSenseAIState <$> analysisResolved patient aiOutput now m !! p_id patient)
       = Some {| riskScore := 0; riskLevel := INSUFFICIENT_DATA;
                 predictionReasoning
                 := "Insufficient historical data for a comprehensive analysis.";
                 confidenceScore := Some (draw 85 98);
                 lastAnalyzedTimestamp := now; isLoading := false; error := None |}).
Proof.
  intros s aiOutput.
  destruct (runEntry_log history (createInitialPatientSimData p hr nsr rr created))
    as (_ & _ & Hlen); [by intros i a b Ha|].
  fold s in Hlen. cbn [loggedVitals createInitialPatientSimData length] in Hlen.
  assert (Hout : aiOutput
                 = {| o_riskScore := 0; o_riskLevel := INSUFFICIENT_DATA;
                      o_predictionReasoning
                      := "Insufficient historical data for a comprehensive analysis.";
                      o_confidenceScore := Some (draw 85 98) |}).
  { subst aiOutput. unfold mockRunHeartSenseAIAnalysis. cbv zeta.
    rewrite (proj2 (Z.ltb_lt _ _)); [done|]. unfold HEARTSENSE_LOGGED_VITALS_COUNT. lia. }
  rewrite Hout. split; [done|]. split; [done|]. split; [done|].
  intros now m current Hcur. unfold analysisResolved. rewrite Hcur, lookup_insert_eq. done.
Qed.

(** The first analysis of a patient in ventricular tachycardia, due at the
    first low-frequency tick. *)
Lemma analysis_of_a_young_entry_reports_insufficient_data_witness :
  let history := [LowFrequencyTick vtPatient 700000 (noDrift 700000)] in
  let s := runEntry history (sampleSimData vtPatient 180) in
  (length (List.filter isLowFrequencyTick history) < 10)%nat
  ∧ isLethal (RHYTHM_PARAMS (activeRhythm vtPatient)) = true
  ∧ analysisDue 700000 s = true
  ∧ o_riskLevel (mockRunHeartSenseAIAnalysis lowestDraw vtPatient s) = INSUFFICIENT_DATA.
Proof.
  intros history s.
  assert (Hyoung : (length (List.filter isLowFrequencyTick history) < 10)%nat)
    by (vm_compute; lia).
  split; [exact Hyoung|]. split; [reflexivity|]. split; [reflexivity|].
  exact (proj1 (analysis_of_a_young_entry_reports_insufficient_data
                  lowestDraw vtPatient vtPatient 180 72 14 0 history Hyoung)).
Defined.

Lemma find_existsb {A} (f : A -> bool) (l : list A) :
  existsb f l = true -> ∃ x, List.find f l = Some x ∧ f x = true.
Proof.
  induction l as [|x l IH]; simpl; [done|].
  destruct (f x) eqn:E; [by exists x|]. exact IH.
Qed.

(** X23: With a generator that answers within the range it is asked for,
    the score [mockRunHeartSenseAIAnalysis] reports lies in the band of the
    level it reports and the confidence lies between 85 and 98.  The level
    is insufficient data exactly when fewer than 10 vitals are logged;
    critical exactly when there are enough and the rhythm is lethal; high
    exactly when there are enough, the rhythm is not lethal and a critical
    alert is unacknowledged.  Stable is reported only for normal sinus
    rhythm or first-degree AV block, a heart rate from 60 to 100 and no
    unacknowledged alert. *)
Theorem risk_score_lies_in_the_band_of_its_level
    (draw : Z -> Z -> Z) (patient : Patient) (simData : PatientSpecificSimData)
    (Hdraw : drawsInRange draw) :
  let aiOutput := mockRunHeartSenseAIAnalysis draw patient simData in
  let enough := (10 <= length (loggedVitals simData))%nat in
  (∃ band, scoreBand (o_riskLevel aiOutput) = Some band
           ∧ band.1 <= o_riskScore aiOutput <= band.2)
  ∧ (∃ confidence, o_confidenceScore aiOutput = Some confidence ∧ 85 <= confidence <= 98)
  ∧ (o_riskLevel aiOutput = INSUFFICIENT_DATA <-> ¬ enough)
  ∧ (o_riskLevel aiOutput = RISK_CRITICAL
     <-> enough ∧ isLethal (RHYTHM_PARAMS (activeRhythm patient)) = true)
  ∧ (o_riskLevel aiOutput = HIGH
     <-> enough ∧ isLethal (RHYTHM_PARAMS (activeRhythm patient)) = false
         ∧ ∃ a, a ∈ alerts simData ∧ severity a = CRITICAL
                ∧ a_id a ∉ acknowledgedAlertIds simData)
  ∧ (o_riskLevel aiOutput = STABLE ->
     activeRhythm patient ∈ [NSR; FIRST_DEGREE_AV_BLOCK]
     ∧ 60 <= heartRate (metrics simData) <= 100
     ∧ unacknowledgedAlertsOf simData = []).
Proof.
  intros aiOutput enough.
  assert (Hcrit : existsb isCritical (unacknowledgedAlertsOf simData) = true
                  <-> ∃ a, a ∈ alerts simData ∧ severity a = CRITICAL
                           ∧ a_id a ∉ acknowledgedAlertIds simData).
  { rewrite existsb_elem. unfold unacknowledgedAlertsOf, isCritical. split.
    - intros (a & Ha & Hsev). exists a.
      rewrite list_elem_of_In, List.filter_In, <- list_elem_of_In in Ha.
      destruct Ha as [Ha Hack]. apply negb_true_iff, bool_decide_eq_false in Hack.
      by apply bool_decide_eq_true in Hsev.
    - intros (a & Ha & Hsev & Hack). exists a. split; [|by apply bool_decide_eq_true].
      rewrite list_elem_of_In, List.filter_In, <- list_elem_of_In.
      split; [done|]. by apply negb_true_iff, bool_decide_eq_false. }
  assert (Hnone : existsb isCritical (unacknowledgedAlertsOf simData) = false ->
                  existsb isWarning (unacknowledgedAlertsOf simData) = false ->
                  unacknowledgedAlertsOf simData = []).
  { intros Hc Hw. destruct (unacknowledgedAlertsOf simData) as [|a l]; [done|].
    simpl in Hc, Hw. unfold isCritical, isWarning in *. destruct (severity a); simpl in *;
      discriminate. }
  rewrite <- Hcrit. clear Hcrit.
  subst aiOutput. unfold mockRunHeartSenseAIAnalysis. cbv zeta.
  pose proof (Hdraw 5 20) as D1. pose proof (Hdraw 90 98) as D2. pose proof (Hdraw 75 90) as D3.
  pose proof (Hdraw 50 75) as D4. pose proof (Hdraw 30 50) as D5. pose proof (Hdraw 20 40) as D6.
  pose proof (Hdraw 85 98) as D7.
  assert (Henough : (2 * Z.of_nat (length (loggedVitals simData))
                     <? HEARTSENSE_LOGGED_VITALS_COUNT) = false <-> enough).
  { unfold HEARTSENSE_LOGGED_VITALS_COUNT, enough. rewrite Z.ltb_ge. lia. }
  destruct (_ <? HEARTSENSE_LOGGED_VITALS_COUNT).
  { assert (Hnot : ¬ enough) by (intros H; by apply Henough in H).
    cbn [fst snd o_riskLevel o_riskScore o_confidenceScore].
    split; [exists (0, 0); split; [done|simpl; lia]|].
    split; [eexists; split; [done|lia]|].
    split; [done|]. split; [split; [done|tauto]|]. split; [split; [done|tauto]|]. done. }
  assert (Hyes : enough) by by apply Henough.
  destruct (isLethal _) eqn:Elethal.
  { cbn [fst snd o_riskLevel o_riskScore o_confidenceScore].
    split; [eexists; split; [done|simpl; lia]|].
    split; [eexists; split; [done|lia]|].
    split; [split; [done|tauto]|]. split; [done|]. split; [split; [done|]|done].
    by intros (_ & ? & _). }
  destruct (existsb isCritical _) eqn:Ecrit.
  { cbn [fst snd o_riskLevel o_riskScore o_confidenceScore].
    split; [eexists; split; [done|simpl; lia]|].
    split; [eexists; split; [done|lia]|].
    split; [split; [done|tauto]|]. split; [split; [done|]|]; [by intros [_ ?]|]. done. }
  destruct (negb (bool_decide (activeRhythm patient = NSR)) && _) eqn:Erhythm.
  { cbn [fst snd o_riskLevel o_riskScore o_confidenceScore].
    split; [eexists; split; [done|simpl; lia]|].
    split; [eexists; split; [done|lia]|].
    split; [split; [done|tauto]|]. split; [split; [done|]|]; [by intros [_ ?]|].
    split; [split; [done|]|done]. by intros (_ & _ & ?). }
  assert (Hnormal : activeRhythm patient ∈ [NSR; SINUS_TACHYCARDIA; SINUS_BRADYCARDIA;
                                            FIRST_DEGREE_AV_BLOCK]).
  { apply andb_false_iff in Erhythm as [E | E]; apply negb_false_iff, bool_decide_eq_true in E.
    - rewrite E. by left.
    - by right. }
  destruct (existsb isWarning _) eqn:Ewarn.
  { cbn [fst snd o_riskLevel o_riskScore o_confidenceScore].
    split; [eexists; split; [done|simpl; lia]|].
    split; [eexists; split; [done|lia]|].
    split; [split; [done|tauto]|]. split; [split; [done|]|]; [by intros [_ ?]|].
    split; [split; [done|]|done]. by intros (_ & _ & ?). }
  destruct (bool_decide (activeRhythm patient = SINUS_TACHYCARDIA) || _) eqn:Etachy.
  { cbn [fst snd o_riskLevel o_riskScore o_confidenceScore].
    split; [eexists; split; [done|simpl; lia]|].
    split; [eexists; split; [done|lia]|].
    split; [split; [done|tauto]|]. split; [split; [done|]|]; [by intros [_ ?]|].
    split; [split; [done|]|done]. by intros (_ & _ & ?). }
  destruct (bool_decide (activeRhythm patient = SINUS_BRADYCARDIA) || _) eqn:Ebrady.
  { cbn [fst snd o_riskLevel o_riskScore o_confidenceScore].
    split; [eexists; split; [done|simpl; lia]|].
    split; [eexists; split; [done|lia]|].
    split; [split; [done|tauto]|]. split; [split; [done|]|]; [by intros [_ ?]|].
    split; [split; [done|]|done]. by intros (_ & _ & ?). }
  cbn [fst snd o_riskLevel o_riskScore o_confidenceScore].
  split; [eexists; split; [done|simpl; lia]|].
  split; [eexists; split; [done|lia]|].
  split; [split; [done|tauto]|]. split; [split; [done|]|]; [by intros [_ ?]|].
  split; [split; [done|]|]; [by intros (_ & _ & ?)|].
  intros _. apply orb_false_iff in Etachy as [Et1 Et2], Ebrady as [Eb1 Eb2].
  apply bool_decide_eq_false in Et1, Eb1. apply Z.ltb_ge in Et2, Eb2.
  split; [|split; [lia|by apply Hnone]].
  set_unfold. tauto.
Qed.

(** The same patient with ten logged vitals and the generator that answers
    with the lower bound. *)
Lemma risk_score_lies_in_the_band_of_its_level_witness :
  let vitals := {| lv_timestamp := 0; lv_metrics := getDefaultMetrics 180 72 14 |} in
  let s := set_loggedVitals (replicate 10 vitals) (sampleSimData vtPatient 180) in
  drawsInRange lowestDraw
  ∧ o_riskLevel (mockRunHeartSenseAIAnalysis lowestDraw vtPatient s) = RISK_CRITICAL
  ∧ o_riskScore (mockRunHeartSenseAIAnalysis lowestDraw vtPatient s) = 90.
Proof.
  intros vitals s.
  assert (Hdraw : drawsInRange lowestDraw) by (intros min max H; unfold lowestDraw; lia).
  destruct (risk_score_lies_in_the_band_of_its_level lowestDraw vtPatient s Hdraw)
    as (_ & _ & _ & Hcritical & _).
  split; [exact Hdraw|]. split; [|reflexivity].
  apply Hcritical. split; [vm_compute; lia | reflexivity].
Defined.

(** ** The colours of a row *)

Lemma stepEntry_alarmedMetrics (e : EntryStep) (s : PatientSpecificSimData) :
  Forall (fun a => metric a ∈ alarmedMetrics) (alerts s) ->
  Forall (fun a => metric a ∈ alarmedMetrics) (alerts (stepEntry e s)).
Proof.
  rewrite !Forall_forall. intros Hs. destruct e; cbn [stepEntry].
  - by rewrite ecgTickPatient_alerts.
  - rewrite vitalsTickPatient_alerts. intros a Ha.
    apply evaluateAlerts_elem in Ha as [Ha | (c & Hc & _ & _ & ->)]; [by apply Hs|].
    unfold alertChecks in Hc. cbv zeta in Hc. unfold alarmedMetrics.
    repeat (apply elem_of_cons in Hc as [-> | Hc]; [cbn [c_metric]; set_unfold; tauto|]).
    by apply elem_of_nil in Hc.
  - exact Hs.
  - exact Hs.
  - intros a Ha. apply Hs. by eapply feedback_alerts_subset.
  - rewrite toggle_alerts. intros a Ha. destruct (negb _).
    + destruct (existsb _ _); [by apply Hs|].
      apply elem_of_app in Ha as [Ha | Ha]; [by apply Hs|].
      apply list_elem_of_singleton in Ha. subst a. unfold alarmedMetrics. cbn [leadOffAlert metric].
      set_unfold. tauto.
    + apply Hs. unfold withoutLeadOffAlert in Ha.
      rewrite list_elem_of_In, List.filter_In, <- list_elem_of_In in Ha. tauto.
  - exact Hs.
  - exact Hs.
Qed.

(** X11: In every state an entry reaches from its creation each alert
    concerns the heart rate, SpO2 or the ECG lead.  Under a lethal rhythm,
    for a patient without personalized thresholds, the row shows the
    systolic pressure and the respiratory rate of the tick in the critical
    colour, and still no alert concerns them. *)
Theorem alerts_are_raised_for_heart_rate_spo2_and_the_lead_only
    (p : Patient) (hr nsr rr created : Z) (history : list EntryStep) :
  let s := runEntry history (createInitialPatientSimData p hr nsr rr created) in
  Forall (fun a => metric a ∈ alarmedMetrics) (alerts s)
  ∧ (∀ patient now inp,
       isLethal (RHYTHM_PARAMS (activeRhythm patient)) = true ->
       personalizedThresholds patient = None ->
       let s' := vitalsTickPatient patient now inp s in
       getThresholdForStatus (systolic (bloodPressure (metrics s')))
         ALERT_THRESHOLDS_BLOOD_PRESSURE_SYSTOLIC None = StatusCritical
       ∧ getThresholdForStatus (respiratoryRate (metrics s'))
           ALERT_THRESHOLDS_RESPIRATORY_RATE None = StatusCritical
       ∧ Forall (fun a => metric a ∈ alarmedMetrics) (alerts s')).
Proof.
  assert (Hrun : ∀ h s0, Forall (fun a => metric a ∈ alarmedMetrics) (alerts s0) ->
                         Forall (fun a => metric a ∈ alarmedMetrics) (alerts (runEntry h s0))).
  { intros h s0.
    apply (runEntry_invariant (fun x => Forall (fun a => metric a ∈ alarmedMetrics) (alerts x))).
    intros e x. apply stepEntry_alarmedMetrics. }
  intros s.
  assert (Hs : Forall (fun a => metric a ∈ alarmedMetrics) (alerts s))
    by (apply Hrun; constructor).
  split; [exact Hs|].
  intros patient now inp Hlethal Hnone s'.
  destruct (evolveMetrics_vitals patient now inp s) as (_ & Hrr & Hbp).
  rewrite Hlethal in Hrr, Hbp.
  subst s'. rewrite vitalsTickPatient_metrics, Hrr, Hbp.
  split; [done|]. split; [done|].
  by apply (stepEntry_alarmedMetrics (LowFrequencyTick patient now inp)).
Qed.

Lemma getThresholdForStatus_cases (metricValue : Z) (gt : ThresholdTable)
    (pt : option MetricThresholds) :
  let triggered sev type := isTriggered metricValue (alertThreshold gt pt sev type) type in
  getThresholdForStatus metricValue gt pt
  = if triggered CRITICAL low || triggered CRITICAL high then StatusCritical
    else if triggered WARNING low || triggered WARNING high then StatusWarning
    else StatusNormal.
Proof.
  cbv zeta. unfold getThresholdForStatus, isTriggered, alertThreshold.
  destruct (nullish (pt ≫= lowCritical) (LOW_CRITICAL gt)) as [lc|],
    (nullish (pt ≫= highCritical) (HIGH_CRITICAL gt)) as [hc|],
    (nullish (pt ≫= lowWarning) (LOW_WARNING gt)) as [lw|],
    (nullish (pt ≫= highWarning) (HIGH_WARNING gt)) as [hw|];
    rewrite ?Z.gtb_ltb; reflexivity.
Qed.

(** X24: for an integer vital, the colour [getThresholdForStatus] computes
    in the row and the triggers [checkAlert] computes in the low-frequency
    loop agree: the colour is critical exactly when [checkAlert] finds a
    critical threshold crossed, warning exactly when it finds a warning
    threshold crossed and no critical one, normal exactly when it finds none
    crossed.  For SpO2, unless the patient has a personalized high critical
    threshold, a value shown in the critical colour after a low-frequency
    tick has its critical low alert raised. *)
Theorem status_colour_agrees_with_the_alert_checks
    (metricValue : Z) (gt : ThresholdTable) (pt : option MetricThresholds) :
  let triggered sev type := isTriggered metricValue (alertThreshold gt pt sev type) type in
  let colour := getThresholdForStatus metricValue gt pt in
  (colour = StatusCritical
   <-> triggered CRITICAL low = true ∨ triggered CRITICAL high = true)
  ∧ (colour = StatusWarning
     <-> triggered CRITICAL low = false ∧ triggered CRITICAL high = false
         ∧ (triggered WARNING low = true ∨ triggered WARNING high = true))
  ∧ (colour = StatusNormal
     <-> ∀ sev type, triggered sev type = false)
  ∧ (∀ patient now inp s,
       let s' := vitalsTickPatient patient now inp s in
       let shown := getThresholdForStatus (spo2 (metrics s')) ALERT_THRESHOLDS_SPO2
                      (personalizedThresholds patient ≫= pt_spo2) in
       (personalizedThresholds patient ≫= pt_spo2) ≫= highCritical = None ->
       shown = StatusCritical ->
       hasAlert (alertMessage "SpO₂" low (spo2 (metrics s'))) CRITICAL (alerts s') = true).
Proof.
  intros triggered colour. subst colour. rewrite getThresholdForStatus_cases. cbv zeta.
  fold (triggered CRITICAL low) (triggered CRITICAL high)
       (triggered WARNING low) (triggered WARNING high).
  split; [|split; [|split]].
  - destruct (triggered CRITICAL low), (triggered CRITICAL high),
      (triggered WARNING low), (triggered WARNING high); simpl; split; intros; try done;
      try tauto; intuition discriminate.
  - destruct (triggered CRITICAL low), (triggered CRITICAL high),
      (triggered WARNING low), (triggered WARNING high); simpl; split; intros; try done;
      try tauto; intuition discriminate.
  - split.
    + intros H sev type.
      destruct (triggered CRITICAL low) eqn:E1, (triggered CRITICAL high) eqn:E2,
        (triggered WARNING low) eqn:E3, (triggered WARNING high) eqn:E4;
        simpl in H; try discriminate.
      by destruct sev, type.
    + intros H. by rewrite !H.
  - intros patient now inp s Hhigh Hshown.
    change (metrics (vitalsTickPatient patient now inp s))
      with (evolveMetrics patient now inp s) in *.
    set (m := evolveMetrics patient now inp s) in *.
    set (pts := personalizedThresholds patient ≫= pt_spo2) in *.
    rewrite getThresholdForStatus_cases in Hshown. cbv zeta in Hshown.
    assert (Hnohigh : isTriggered (spo2 m) (alertThreshold ALERT_THRESHOLDS_SPO2 pts
                                              CRITICAL high) high = false).
    { unfold alertThreshold. by rewrite Hhigh. }
    rewrite Hnohigh, orb_false_r in Hshown.
    destruct (isTriggered (spo2 m) _ low) eqn:Elow; [|by destruct (_ || _)].
    rewrite vitalsTickPatient_alerts. fold m.
    pose proof (checks_raise patient inp m (alerts s)
                  (Build_AlertCheck "SpO₂" (spo2 m) ALERT_THRESHOLDS_SPO2 pts CRITICAL low)) as H.
    apply H; [|exact Elow].
    unfold alertChecks. cbv zeta. fold pts. set_unfold. tauto.
Qed.

Lemma unacknowledged_critical (simData : PatientSpecificSimData) :
  List.filter isCritical (unacknowledgedAlertsOf simData) = unacknowledgedOf CRITICAL simData.
Proof.
  unfold unacknowledgedAlertsOf, unacknowledgedOf, isCritical.
  induction (alerts simData) as [|a l IH]; [done|]. simpl.
  destruct (bool_decide (a_id a ∈ _)), (bool_decide (severity a = CRITICAL)) eqn:E;
    simpl; rewrite ?E; by rewrite IH.
Qed.

Lemma unacknowledged_warning (simData : PatientSpecificSimData) :
  List.filter isWarning (unacknowledgedAlertsOf simData) = unacknowledgedOf WARNING simData.
Proof.
  unfold unacknowledgedAlertsOf, unacknowledgedOf, isWarning.
  induction (alerts simData) as [|a l IH]; [done|]. simpl.
  destruct (bool_decide (a_id a ∈ _)), (bool_decide (severity a = WARNING)) eqn:E;
    simpl; rewrite ?E; by rewrite IH.
Qed.

Lemma heartFillClass_unacknowledged (patient : Patient) (simData : PatientSpecificSimData) :
  heartFillClass patient simData
  = if isLethal (RHYTHM_PARAMS (activeRhythm patient))
       || (0 <? length (unacknowledgedOf CRITICAL simData))%nat then StatusCritical
    else if (0 <? length (unacknowledgedOf WARNING simData))%nat then StatusWarning
    else StatusNormal.
Proof.
  unfold heartFillClass, hasUnacknowledgedCriticalAlert, hasUnacknowledgedWarningAlert.
  by rewrite unacknowledged_critical, unacknowledged_warning.
Qed.

Lemma acknowledgeOn_unacknowledgedOf (filter : option AlertSeverity) (sev : AlertSeverity)
    (s : PatientSpecificSimData) :
  filter = None ∨ filter = Some sev -> unacknowledgedOf sev (acknowledgeOn filter s) = [].
Proof.
  intros Hf. apply filter_none. intros a Ha.
  apply andb_false_iff. destruct (decide (severity a = sev)) as [Hs|Hs].
  - right. apply negb_false_iff, bool_decide_eq_true.
    apply acknowledgeOn_acknowledged. right. exists a. split; [done|]. split; [|done].
    destruct Hf as [-> | ->]; [done|]. by apply bool_decide_eq_true.
  - left. by apply bool_decide_eq_false.
Qed.

Lemma feedback_unacknowledgedOf (patientId : string) (feedbackType : AlarmFeedbackType)
    (alertSeverity : AlertSeverity) (inp : FeedbackInputs) (s : PatientSpecificSimData) :
  unacknowledgedOf alertSeverity
    (provideAlarmFeedbackOn patientId feedbackType alertSeverity inp s) = [].
Proof.
  apply filter_none. intros a Ha.
  apply andb_false_iff. destruct (decide (severity a = alertSeverity)) as [Hs|Hs].
  - right. apply negb_false_iff, bool_decide_eq_true. apply feedback_acknowledged.
    destruct (decide (a_id a ∈ acknowledgedAlertIds s)) as [Hin|Hout]; [by left|].
    right. exists a. split; [|done]. apply unacknowledgedOf_elem.
    split; [by eapply feedback_alerts_subset|done].
  - left. by apply bool_decide_eq_false.
Qed.

(** X25: The heart icon of a row is in the critical colour exactly when the
    rhythm is lethal or a critical alert is unacknowledged.  After
    acknowledging everything it is critical under a lethal rhythm and
    normal otherwise; after acknowledging the warnings it is not in the
    warning colour; after feedback on the critical alerts no critical alert
    is left unacknowledged and the icon is critical only under a lethal
    rhythm. *)
Theorem heart_icon_follows_the_unacknowledged_alerts
    (patient : Patient) (s : PatientSpecificSimData) :
  let lethal := isLethal (RHYTHM_PARAMS (activeRhythm patient)) in
  (heartFillClass patient s = StatusCritical
   <-> lethal = true
       ∨ ∃ a, a ∈ alerts s ∧ severity a = CRITICAL ∧ a_id a ∉ acknowledgedAlertIds s)
  ∧ heartFillClass patient (acknowledgeOn None s)
    = (if lethal then StatusCritical else StatusNormal)
  ∧ heartFillClass patient (acknowledgeOn (Some WARNING) s) ≠ StatusWarning
  ∧ (∀ patientId feedbackType inp,
       let s' := provideAlarmFeedbackOn patientId feedbackType CRITICAL inp s in
       hasUnacknowledgedCriticalAlert s' = false
       ∧ (heartFillClass patient s' = StatusCritical <-> lethal = true)).
Proof.
  intros lethal. split; [|split; [|split]].
  - rewrite heartFillClass_unacknowledged. fold lethal.
    assert (Hlen : (0 <? length (unacknowledgedOf CRITICAL s))%nat = true
                   <-> ∃ a, a ∈ alerts s ∧ severity a = CRITICAL
                            ∧ a_id a ∉ acknowledgedAlertIds s).
    { rewrite Nat.ltb_lt. split.
      - destruct (unacknowledgedOf CRITICAL s) as [|a l] eqn:E; [simpl; lia|]. intros _.
        exists a. apply unacknowledgedOf_elem. rewrite E. by left.
      - intros (a & Ha). apply unacknowledgedOf_elem in Ha.
        destruct (unacknowledgedOf CRITICAL s); [by apply elem_of_nil in Ha|simpl; lia]. }
    rewrite <- Hlen.
    destruct lethal, (0 <? length (unacknowledgedOf CRITICAL s))%nat; simpl;
      [tauto|tauto|tauto|].
    destruct (0 <? _)%nat; split; try done; by intros [|].
  - rewrite heartFillClass_unacknowledged, !acknowledgeOn_unacknowledgedOf by by left.
    fold lethal. by destruct lethal.
  - rewrite heartFillClass_unacknowledged, (acknowledgeOn_unacknowledgedOf (Some WARNING) WARNING)
      by by right.
    by destruct (_ || _).
  - intros patientId feedbackType inp s'. subst s'.
    unfold hasUnacknowledgedCriticalAlert.
    rewrite heartFillClass_unacknowledged, unacknowledged_critical, feedback_unacknowledgedOf.
    fold lethal. split; [done|]. simpl. rewrite orb_false_r.
    destruct lethal; [done|]. by destruct (0 <? _)%nat.
Qed.

(** ** The audio handler *)

Lemma audibleIdsOf_elem (leadOff : bool) (s : PatientSpecificSimData) (id : string) :
  id ∈ audibleIdsOf leadOff s
  <-> ∃ a, a ∈ alerts s ∧ a_id a = id ∧ severity a = CRITICAL
           ∧ (a_id a ∉ acknowledgedAlertIds s) ∧ isLeadOffAlert a = leadOff.
Proof.
  unfold audibleIdsOf. rewrite elem_of_list_to_set, list_elem_of_fmap. split.
  - intros (a & -> & Ha). exists a.
    rewrite list_elem_of_In, List.filter_In, <- list_elem_of_In in Ha.
    destruct Ha as [Ha Hf]. apply andb_true_iff in Hf as [Hf H3].
    apply andb_true_iff in Hf as [H1 H2].
    apply bool_decide_eq_true in H1, H3. apply negb_true_iff, bool_decide_eq_false in H2.
    done.
  - intros (a & Ha & <- & H1 & H2 & H3). exists a. split; [done|].
    rewrite list_elem_of_In, List.filter_In, <- list_elem_of_In. split; [done|].
    rewrite !andb_true_iff, negb_true_iff, !bool_decide_eq_true, bool_decide_eq_false. done.
Qed.

Lemma audibleIds_elem (leadOff : bool) (m : gmap string PatientSpecificSimData) (id : string) :
  id ∈ audibleIds leadOff m
  <-> ∃ patientId s, m !! patientId = Some s ∧ id ∈ audibleIdsOf leadOff s.
Proof.
  unfold audibleIds. rewrite elem_of_union_list. split.
  - intros (X & HX & Hid). apply list_elem_of_fmap in HX as (s & -> & Hs).
    apply list_elem_of_fmap in Hs as ([patientId s'] & -> & Hs).
    apply elem_of_map_to_list in Hs. by exists patientId, s'.
  - intros (patientId & s & Hs & Hid). exists (audibleIdsOf leadOff s). split; [|done].
    apply list_elem_of_fmap. exists s. split; [done|].
    apply list_elem_of_fmap. exists (patientId, s). split; [done|].
    by apply elem_of_map_to_list.
Qed.

(** An update of the map that raises no alert and withdraws no
    acknowledgement: every entry it leaves comes from an entry of the same
    patient whose audible alerts include its own. *)
Lemma audibleIds_mono (leadOff : bool) (m m' : gmap string PatientSpecificSimData) :
  (∀ patientId s', m' !! patientId = Some s' ->
     ∃ s, m !! patientId = Some s ∧ audibleIdsOf leadOff s' ⊆ audibleIdsOf leadOff s) ->
  audibleIds leadOff m' ⊆ audibleIds leadOff m.
Proof.
  intros H id. rewrite !audibleIds_elem. intros (patientId & s' & Hs' & Hid).
  destruct (H patientId s' Hs') as (s & Hs & Hsub). exists patientId, s.
  split; [done|]. by apply Hsub.
Qed.

Lemma audibleIdsOf_quieter (leadOff : bool) (s s' : PatientSpecificSimData) :
  (∀ a, a ∈ alerts s' -> a ∈ alerts s) ->
  acknowledgedAlertIds s ⊆ acknowledgedAlertIds s' ->
  audibleIdsOf leadOff s' ⊆ audibleIdsOf leadOff s.
Proof.
  intros Halerts Hack id. rewrite !audibleIdsOf_elem.
  intros (a & Ha & Hid & H1 & H2 & H3). exists a. split; [by apply Halerts|].
  split; [done|]. split; [done|]. split; [|done]. intros Hin. by apply H2, Hack.
Qed.

Lemma silent_when_included (refs : AudioRefs) (m : gmap string PatientSpecificSimData) :
  audibleIds true m ⊆ previousLeadOffAlertIds refs ->
  audibleIds false m ⊆ previousCriticalAlertIds refs ->
  (alertAudioEffect refs m).1 = silence.
Proof.
  intros H1 H2. unfold alertAudioEffect. cbv zeta. cbn [fst].
  by rewrite !bool_decide_eq_true_2.
Qed.

Lemma updateSimData_quieter (leadOff : bool) (patientId : string)
    (f : PatientSpecificSimData -> PatientSpecificSimData)
    (m : gmap string PatientSpecificSimData) :
  (∀ s, audibleIdsOf leadOff (f s) ⊆ audibleIdsOf leadOff s) ->
  audibleIds leadOff (updateSimData patientId f m) ⊆ audibleIds leadOff m.
Proof.
  intros Hf. apply audibleIds_mono. intros id s' Hs'.
  destruct (decide (patientId = id)) as [<- | Hne].
  - rewrite updateSimData_lookup in Hs'. destruct (m !! patientId) as [s|]; [|done].
    injection Hs' as <-. by exists s.
  - rewrite updateSimData_lookup_ne in Hs' by done. by exists s'.
Qed.

Lemma ecgTickPatient_acknowledgedAlertIds (patient : Patient) (now drawnHR : Z)
    (s : PatientSpecificSimData) :
  acknowledgedAlertIds (ecgTickPatient patient now drawnHR s) = acknowledgedAlertIds s.
Proof.
  unfold ecgTickPatient, ecgTickLeadOff, ecgTickNormal.
  destruct (isLeadOff s); cbv zeta; by repeat skip_block.
Qed.

(** X26: One run of the effect of [AlertAudioHandler] plays the lead-off
    sound exactly when some entry has an unacknowledged critical lead-off
    alert whose id the previous run did not collect, and the critical sound
    exactly when some entry has another unacknowledged critical alert whose
    id the previous run did not collect; warnings never sound.  After a run
    nothing sounds on the same map, after a high-frequency tick, after an
    acknowledgement or after feedback. *)
Theorem alarm_sounds_only_for_new_unacknowledged_critical_alerts
    (refs : AudioRefs) (m : gmap string PatientSpecificSimData) :
  let played := (alertAudioEffect refs m).1 in
  let refs' := (alertAudioEffect refs m).2 in
  (leadOffSound played = true
   <-> ∃ patientId s a,
         m !! patientId = Some s ∧ a ∈ alerts s ∧ severity a = CRITICAL
         ∧ isLeadOffAlert a = true ∧ (a_id a ∉ acknowledgedAlertIds s)
         ∧ (a_id a ∉ previousLeadOffAlertIds refs))
  ∧ (criticalAlertSound played = true
     <-> ∃ patientId s a,
           m !! patientId = Some s ∧ a ∈ alerts s ∧ severity a = CRITICAL
           ∧ isLeadOffAlert a = false ∧ (a_id a ∉ acknowledgedAlertIds s)
           ∧ (a_id a ∉ previousCriticalAlertIds refs))
  ∧ (alertAudioEffect refs' m).1 = silence
  ∧ (∀ ps inp, (alertAudioEffect refs' (ecgTick ps inp m)).1 = silence)
  ∧ (∀ patientId filter,
       (alertAudioEffect refs' (updateSimData patientId (acknowledgeOn filter) m)).1 = silence)
  ∧ (∀ patientId feedbackType alertSeverity inp,
       (alertAudioEffect refs'
          (updateSimData patientId
             (provideAlarmFeedbackOn patientId feedbackType alertSeverity inp) m)).1 = silence).
Proof.
  intros played refs'.
  assert (Hnew : ∀ leadOff (previous : gset string),
             negb (bool_decide (audibleIds leadOff m ⊆ previous)) = true
             <-> ∃ patientId s a,
                   m !! patientId = Some s ∧ a ∈ alerts s ∧ severity a = CRITICAL
                   ∧ isLeadOffAlert a = leadOff ∧ (a_id a ∉ acknowledgedAlertIds s)
                   ∧ (a_id a ∉ previous)).
  { intros leadOff previous. rewrite negb_true_iff, bool_decide_eq_false. split.
    - intros Hnot. apply (not_set_Forall_Exists (fun id => id ∈ previous)) in Hnot.
      destruct Hnot as (id & Hid & Hout).
      apply audibleIds_elem in Hid as (patientId & s & Hs & Hid).
      apply audibleIdsOf_elem in Hid as (a & Ha & <- & H1 & H2 & H3).
      by exists patientId, s, a.
    - intros (patientId & s & a & Hs & Ha & H1 & H3 & H2 & Hout) Hsub.
      apply Hout, Hsub, audibleIds_elem. exists patientId, s. split; [done|].
      apply audibleIdsOf_elem. by exists a. }
  split; [apply (Hnew true)|]. split; [apply (Hnew false)|].
  split; [by apply silent_when_included|]. split; [|split].
  - intros ps inp. apply silent_when_included; apply audibleIds_mono; intros id s' Hs';
      rewrite ecgTick_lookup in Hs'; destruct (m !! id) as [s|]; try done;
      destruct (findPatient ps id); try done; injection Hs' as <-; exists s;
      (split; [done|]); apply audibleIdsOf_quieter;
      rewrite ?ecgTickPatient_alerts, ?ecgTickPatient_acknowledgedAlertIds; done.
  - intros patientId filter.
    apply silent_when_included; apply updateSimData_quieter; intros s;
      apply audibleIdsOf_quieter; try done;
      intros id Hid; apply acknowledgeOn_acknowledged; by left.
  - intros patientId feedbackType alertSeverity inp.
    apply silent_when_included; apply updateSimData_quieter; intros s;
      apply audibleIdsOf_quieter;
      try (intros a; apply feedback_alerts_subset);
      intros id Hid; apply feedback_acknowledged; by left.
Qed.

(** ** Stretching a pattern *)


Lemma inject_Z_nonzero (b : Z) : 0 < b -> ¬ (inject_Z b == 0)%Q.
Proof. intros Hb H. unfold Qeq in H. simpl in H. lia. Qed.





(** ** The respiration phase and the pleth pulse *)

Lemma Qtrunc_nonneg (q : Q) : (0 <= q)%Q -> Qtrunc q = Qfloor q.
Proof.
  intros H. unfold Qtrunc. by rewrite (proj2 (Qle_bool_iff 0 q) H).
Qed.

Lemma num_rem_bounds (a c : Q) :
  (0 <= a)%Q -> (0 < c)%Q ->
  (0 <= num_rem a (Finite c))%Q ∧ (num_rem a (Finite c) < c)%Q.
Proof.
  intros Ha Hc. unfold num_rem.
  assert (Hq : (0 <= a / c)%Q).
  { apply Qle_shift_div_l; [done|]. lra. }
  rewrite Qtrunc_nonneg by done.
  pose proof (Qfloor_le (a / c)) as Hlow. pose proof (Qlt_floor (a / c)) as Hhigh.
  rewrite inject_Z_plus in Hhigh.
  set (z := inject_Z (Qfloor (a / c))) in *.
  assert (Ha' : (a == (a / c) * c)%Q) by (field; lra).
  split.
  - assert ((z * c <= (a / c) * c)%Q) by (apply Qmult_le_compat_r; [done|lra]). lra.
  - assert (((a / c) * c < (z + 1) * c)%Q) by (apply Qmult_lt_compat_r; done). lra.
Qed.

Lemma respCyclePoints_cases (s : PatientSpecificSimData) :
  (respiratoryRate (metrics s) <= 0 ∧ respCyclePoints s = Infinity)
  ∨ (0 < respiratoryRate (metrics s)
     ∧ ∃ c, respCyclePoints s = Finite c ∧ (0 < c)%Q
            ∧ (c * inject_Z (respiratoryRate (metrics s)) == 2400)%Q).
Proof.
  unfold respCyclePoints. cbv zeta.
  set (rate := respiratoryRate (metrics s)).
  destruct (Qlt_le_dec 0 (inject_Z rate / 60)) as [Hpos | Hneg].
  - right.
    assert (Hrate : (0 < inject_Z rate)%Q).
    { destruct (Qlt_le_dec 0 (inject_Z rate)) as [H|H]; [done|]. exfalso.
      assert ((inject_Z rate / 60 <= 0)%Q) by (apply Qle_shift_div_r; lra). lra. }
    split; [by rewrite Zlt_Qlt|].
    eexists. split; [reflexivity|]. unfold pointsPerSecond, SIMULATION_ECG_INTERVAL_MS.
    split.
    + apply Qmult_lt_0_compat; [|reflexivity].
      apply Qlt_shift_div_l; [done|]. lra.
    + field. lra.
  - left. split; [|done]. rewrite Zle_Qle.
    destruct (Qlt_le_dec 0 (inject_Z rate)) as [H|H]; [|done]. exfalso.
    assert ((0 < inject_Z rate / 60)%Q) by (apply Qlt_shift_div_l; lra). lra.
Qed.

Lemma ecgTickPatient_respirationCyclePosition (patient : Patient) (now drawnHR : Z)
    (s : PatientSpecificSimData) :
  respirationCyclePosition (ecgTickPatient patient now drawnHR s)
  = num_rem (respirationCyclePosition s + 1)%Q (respCyclePoints s).
Proof.
  assert (Hresp : ∀ x, respirationCyclePosition (respPhase x)
                       = num_rem (respirationCyclePosition x + 1)%Q (respCyclePoints x))
    by reflexivity.
  assert (Hcyc : ∀ x y, respiratoryRate (metrics x) = respiratoryRate (metrics y) ->
                        respCyclePoints x = respCyclePoints y).
  { intros x y H. unfold respCyclePoints. by rewrite H. }
  unfold ecgTickPatient. destruct (isLeadOff s).
  - unfold ecgTickLeadOff. cbv zeta. repeat skip_block. rewrite Hresp.
    repeat skip_block.
    match goal with
    | |- num_rem _ (respCyclePoints ?x) = _ => rewrite (Hcyc x s); [reflexivity|]
    end.
    by repeat skip_block.
  - unfold ecgTickNormal. cbv zeta. rewrite Hresp. by repeat skip_block.
Qed.

Lemma ecgTickPatient_respSample (patient : Patient) (now drawnHR : Z)
    (s : PatientSpecificSimData) :
  newestValue (respWaveData (ecgTickPatient patient now drawnHR s))
  = Some (RespSine (num_div (num_rem (respirationCyclePosition s + 1)%Q (respCyclePoints s))
                            (respCyclePoints s))).
Proof.
  assert (Hcyc : ∀ x y, respiratoryRate (metrics x) = respiratoryRate (metrics y) ->
                        respCyclePoints x = respCyclePoints y).
  { intros x y H. unfold respCyclePoints. by rewrite H. }
  unfold newestValue, ecgTickPatient. destruct (isLeadOff s).
  - unfold ecgTickLeadOff. cbv zeta. repeat skip_block.
    rewrite respPhase_respWaveData, shiftAppend_last. cbn [fmap option_fmap option_map value].
    repeat skip_block.
    match goal with
    | |- context [respCyclePoints ?x] =>
        lazymatch x with s => fail | _ => rewrite (Hcyc x s); [reflexivity|] end
    end.
    by repeat skip_block.
  - unfold ecgTickNormal. cbv zeta.
    rewrite respPhase_respWaveData, shiftAppend_last. cbn [fmap option_fmap option_map value].
    by repeat skip_block.
Qed.

Lemma stepEntry_respirationCyclePosition (e : EntryStep) (s : PatientSpecificSimData) :
  isHighFrequencyTick e = false ->
  respirationCyclePosition (stepEntry e s) = respirationCyclePosition s.
Proof.
  destruct e; cbn [stepEntry isHighFrequencyTick]; intros H.
  - discriminate.
  - unfold vitalsTickPatient, stampUpdates. cbv zeta. by decide_tests.
  - reflexivity.
  - reflexivity.
  - unfold provideAlarmFeedbackOn. cbv zeta.
    by destruct (existsb isLeadOffAlert (unacknowledgedOf alertSeverity s)).
  - reflexivity.
  - reflexivity.
  - reflexivity.
Qed.

Lemma num_rem_nonneg (a : Q) (cycle : Num) :
  (0 <= a)%Q -> match cycle with Finite c => (0 < c)%Q | Infinity => True end ->
  withinCycle (num_rem a cycle) cycle.
Proof.
  intros Ha Hc. destruct cycle as [c|]; [|by split].
  by apply num_rem_bounds.
Qed.

Lemma stepEntry_position_nonneg (e : EntryStep) (s : PatientSpecificSimData) :
  (0 <= respirationCyclePosition s)%Q -> (0 <= respirationCyclePosition (stepEntry e s))%Q.
Proof.
  intros Hs. destruct (isHighFrequencyTick e) eqn:E.
  - destruct e; try discriminate. cbn [stepEntry].
    rewrite ecgTickPatient_respirationCyclePosition.
    apply num_rem_nonneg; [lra|].
    destruct (respCyclePoints_cases s) as [[_ ->] | (_ & c & -> & Hc & _)]; done.
  - by rewrite stepEntry_respirationCyclePosition.
Qed.

(** X18: In every state an entry reaches from its creation the respiration
    phase counter is not negative.  With a respiratory rate of 0 the cycle
    is infinite: a high-frequency tick adds 1 to the counter and draws the
    sine at phase 0.  With a positive rate the cycle is 2400 points divided
    by the rate, the tick leaves the counter within the cycle, and the
    sample it draws is the sine at a phase from 0 up to, not including,
    1. *)
Theorem respiration_phase_stays_within_its_cycle
    (p : Patient) (hr nsr rr created : Z) (history : list EntryStep)
    (patient : Patient) (now drawnHR : Z) :
  let s := runEntry history (createInitialPatientSimData p hr nsr rr created) in
  let s' := ecgTickPatient patient now drawnHR s in
  let rate := respiratoryRate (metrics s) in
  (0 <= respirationCyclePosition s)%Q
  ∧ (rate <= 0 ->
     respCyclePoints s = Infinity
     ∧ respirationCyclePosition s' = (respirationCyclePosition s + 1)%Q
     ∧ newestValue (respWaveData s') = Some (RespSine 0))
  ∧ (0 < rate ->
     ∃ cycle phase,
       respCyclePoints s = Finite cycle
       ∧ (cycle * inject_Z rate == 2400)%Q
       ∧ (0 <= respirationCyclePosition s')%Q ∧ (respirationCyclePosition s' < cycle)%Q
       ∧ newestValue (respWaveData s') = Some (RespSine phase)
       ∧ (0 <= phase)%Q ∧ (phase < 1)%Q).
Proof.
  intros s s' rate.
  assert (Hrun : ∀ h s0, (0 <= respirationCyclePosition s0)%Q ->
                         (0 <= respirationCyclePosition (runEntry h s0))%Q).
  { intros h s0. apply (runEntry_invariant (fun x => (0 <= respirationCyclePosition x)%Q)).
    intros e x. apply stepEntry_position_nonneg. }
  assert (Hs : (0 <= respirationCyclePosition s)%Q) by (apply Hrun; apply Qle_refl).
  split; [exact Hs|].
  subst s'. rewrite ecgTickPatient_respirationCyclePosition, ecgTickPatient_respSample.
  destruct (respCyclePoints_cases s) as [[Hrate ->] | (Hrate & c & -> & Hc & Hcycle)].
  - split; [|intros H; fold rate in Hrate; lia]. intros _. done.
  - fold rate in Hrate, Hcycle. split; [intros H; lia|]. intros _.
    destruct (num_rem_bounds (respirationCyclePosition s + 1) c) as [Hlow Hhigh]; [lra|done|].
    eexists c, _. split; [done|]. split; [done|]. split; [done|]. split; [done|].
    split; [reflexivity|]. cbn [num_div]. split.
    + apply Qle_shift_div_l; [done|]. lra.
    + apply Qlt_shift_div_r; [done|]. lra.
Qed.

Lemma spo2Phase_fields (x : PatientSpecificSimData) :
  newestValue (spo2WaveData (spo2Phase x)) = Some (spo2Value x)
  ∧ spo2PulseBufferIndex (spo2Phase x)
    = (if spo2Walking x then S (spo2PulseBufferIndex x) else 0%nat)
  ∧ spo2PulsePatternBuffer (spo2Phase x)
    = (if spo2Walking x then spo2PulsePatternBuffer x else [])
  ∧ spo2NextPulseDue (spo2Phase x) = (if spo2Walking x then spo2NextPulseDue x else false).
Proof.
  unfold newestValue. rewrite spo2Phase_spo2WaveData, shiftAppend_last.
  split; [done|]. unfold spo2Phase, spo2Advance. cbv zeta.
  by destruct (spo2Walking x).
Qed.

Lemma loadPulse_fields (x : PatientSpecificSimData) :
  spo2PulsePatternBuffer (loadPulse x)
  = (if spo2NextPulseDue x && bool_decide (spo2PulseBufferIndex x = 0%nat)
     then ECG_SPO2_PULSE_PATTERN else spo2PulsePatternBuffer x)
  ∧ spo2PulseBufferIndex (loadPulse x) = spo2PulseBufferIndex x
  ∧ spo2NextPulseDue (loadPulse x) = spo2NextPulseDue x
  ∧ metrics (loadPulse x) = metrics x.
Proof. unfold loadPulse. by destruct (_ && _). Qed.

Lemma selectPattern_spo2NextPulseDue (patient : Patient) (now : Z) (due paced : bool)
    (x : PatientSpecificSimData) :
  spo2NextPulseDue (selectPattern patient now due paced x)
  = if (0 <? ecgBufferIndex x)%nat then spo2NextPulseDue x
    else if due then generatesQRS (RHYTHM_PARAMS (activeRhythm patient)) || paced
         else spo2NextPulseDue x.
Proof.
  unfold selectPattern. cbv zeta. destruct (0 <? _)%nat; [done|]. by destruct due.
Qed.

Lemma ecgTickNormal_pulse (patient : Patient) (now drawnHR : Z) (s : PatientSpecificSimData) :
  let s' := ecgTickNormal patient now drawnHR s in
  let pulseDue :=
    if (0 <? ecgBufferIndex s)%nat then spo2NextPulseDue s
    else if nextBeatDue s
         then generatesQRS (RHYTHM_PARAMS (activeRhythm patient)) || isPacedBeat patient s
         else spo2NextPulseDue s in
  let buffer :=
    if pulseDue && bool_decide (spo2PulseBufferIndex s = 0%nat)
    then ECG_SPO2_PULSE_PATTERN else spo2PulsePatternBuffer s in
  let walking := (spo2PulseBufferIndex s <? length buffer)%nat in
  newestValue (spo2WaveData s')
  = Some (if walking
          then Spo2Pulse (patternAt buffer (spo2PulseBufferIndex s))
                 (inject_Z (Z.of_nat (spo2PulseBufferIndex s))
                  / inject_Z SPO2_PULSE_POINTS_DURATION)%Q
                 (spo2 (metrics s))
          else Exact ECG_SPO2_BASELINE_VALUE)
  ∧ spo2PulseBufferIndex s' = (if walking then S (spo2PulseBufferIndex s) else 0%nat)
  ∧ spo2PulsePatternBuffer s' = (if walking then buffer else [])
  ∧ spo2NextPulseDue s' = (if walking then pulseDue else false).
Proof.
  intros s' pulseDue buffer walking. subst s'. unfold ecgTickNormal. cbv zeta.
  set (x := emitEcgSample _ _ _).
  assert (Hidx : spo2PulseBufferIndex x = spo2PulseBufferIndex s)
    by (subst x; by repeat skip_block).
  assert (Hbuf : spo2PulsePatternBuffer x = spo2PulsePatternBuffer s)
    by (subst x; by repeat skip_block).
  assert (Hmet : metrics x = metrics s) by (subst x; by repeat skip_block).
  assert (Hdue : spo2NextPulseDue x = pulseDue).
  { subst x. repeat skip_block. rewrite selectPattern_spo2NextPulseDue.
    by repeat skip_block. }
  clearbody x.
  destruct (loadPulse_fields x) as (L1 & L2 & L3 & L4).
  rewrite Hidx, Hbuf, Hdue in L1. fold buffer in L1. rewrite Hidx in L2. rewrite Hdue in L3.
  rewrite Hmet in L4.
  destruct (spo2Phase_fields (loadPulse x)) as (P1 & P2 & P3 & P4).
  assert (Hwalk : spo2Walking (loadPulse x) = walking).
  { unfold spo2Walking. by rewrite L1, L2. }
  rewrite Hwalk in P2, P3, P4. rewrite L2 in P2. rewrite L1 in P3. rewrite L3 in P4.
  assert (Hval : spo2Value (loadPulse x)
                 = if walking
                   then Spo2Pulse (patternAt buffer (spo2PulseBufferIndex s))
                          (inject_Z (Z.of_nat (spo2PulseBufferIndex s))
                           / inject_Z SPO2_PULSE_POINTS_DURATION)%Q
                          (spo2 (metrics s))
                   else Exact ECG_SPO2_BASELINE_VALUE).
  { unfold spo2Value. by rewrite Hwalk, L1, L2, L4. }
  rewrite Hval in P1.
  repeat skip_block. done.
Qed.

(** X17: With the lead on, both cursors idle and a beat due, the tick that
    starts the beat starts a pleth pulse exactly when the rhythm generates
    QRS complexes or the beat is paced: its first sample is drawn with the
    SpO2 of the entry, the pulse pattern is loaded and its cursor is at 1.
    Otherwise, with no pulse pending, the pleth shows its baseline and no
    pulse is started. *)
Theorem pleth_pulse_starts_with_a_conducted_or_paced_beat
    (patient : Patient) (now drawnHR : Z) (s : PatientSpecificSimData)
    (Hlead : isLeadOff s = false)
    (Hidle : ecgBufferIndex s = 0%nat)
    (Hdue : nextBeatDue s = true)
    (Hpulse : spo2PulseBufferIndex s = 0%nat) :
  let s' := ecgTickPatient patient now drawnHR s in
  let pulsed :=
    generatesQRS (RHYTHM_PARAMS (activeRhythm patient)) || isPacedBeat patient s in
  (pulsed = true ->
   newestValue (spo2WaveData s')
   = Some (Spo2Pulse 0.0 (inject_Z 0 / inject_Z SPO2_PULSE_POINTS_DURATION)%Q
             (spo2 (metrics s)))
   ∧ spo2PulsePatternBuffer s' = ECG_SPO2_PULSE_PATTERN
   ∧ spo2PulseBufferIndex s' = 1%nat
   ∧ spo2NextPulseDue s' = true)
  ∧ (pulsed = false -> spo2PulsePatternBuffer s = [] ->
     newestValue (spo2WaveData s') = Some (Exact ECG_SPO2_BASELINE_VALUE)
     ∧ spo2PulsePatternBuffer s' = []
     ∧ spo2PulseBufferIndex s' = 0%nat
     ∧ spo2NextPulseDue s' = false).
Proof.
  intros s' pulsed. subst s'. unfold ecgTickPatient. rewrite Hlead.
  destruct (ecgTickNormal_pulse patient now drawnHR s) as (H1 & H2 & H3 & H4).
  rewrite Hidle, Hdue, Hpulse in H1, H2, H3, H4. cbn [Nat.ltb Nat.leb] in H1, H2, H3, H4.
  fold pulsed in H1, H2, H3, H4.
  rewrite bool_decide_eq_true_2 in H1, H2, H3, H4 by done.
  split.
  - intros Hyes. rewrite Hyes in H1, H2, H3, H4. done.
  - intros Hno Hempty. rewrite Hno, Hempty in H1, H2, H3, H4. done.
Qed.

(** A beat of ventricular tachycardia starts a pulse; one of ventricular
    fibrillation does not. *)
Lemma pleth_pulse_starts_with_a_conducted_or_paced_beat_witness :
  let s := sampleSimData vtPatient 180 in
  let fibrillating := samplePatient "PID00300" VENTRICULAR_FIBRILLATION pacerOff None in
  isLeadOff s = false
  ∧ ecgBufferIndex s = 0%nat
  ∧ nextBeatDue s = true
  ∧ spo2PulseBufferIndex s = 0%nat
  ∧ spo2PulseBufferIndex (ecgTickPatient vtPatient 25 180 s) = 1%nat
  ∧ newestValue (spo2WaveData (ecgTickPatient fibrillating 25 300 s))
    = Some (Exact ECG_SPO2_BASELINE_VALUE).
Proof.
  intros s fibrillating.
  assert (Hlead : isLeadOff s = false) by reflexivity.
  assert (Hidle : ecgBufferIndex s = 0%nat) by reflexivity.
  assert (Hdue : nextBeatDue s = true) by reflexivity.
  assert (Hpulse : spo2PulseBufferIndex s = 0%nat) by reflexivity.
  split; [exact Hlead|]. split; [exact Hidle|]. split; [exact Hdue|]. split; [exact Hpulse|].
  split.
  - apply (proj1 (pleth_pulse_starts_with_a_conducted_or_paced_beat
                    vtPatient 25 180 s Hlead Hidle Hdue Hpulse)). reflexivity.
  - apply (proj2 (pleth_pulse_starts_with_a_conducted_or_paced_beat
                    fibrillating 25 300 s Hlead Hidle Hdue Hpulse)); reflexivity.
Defined.

(** ** Pacing settings and the selection *)

(** X8: [updatePatientPacingSettings] changes the pacer settings of the
    patients with the given id and nothing else of the state.  With the new
    settings, mode off never captures; demand mode at rate [r] captures at
    [r] exactly when the heart rate of the entry is below [r].  A field left
    out of the settings keeps the value the patient had; for a patient
    without settings, giving only a rate paces in demand mode. *)
Theorem pacing_update_decides_capture_at_the_next_due_beat
    (settings : PacerSettings) (p : Patient) (s : PatientSpecificSimData) :
  let p' := withPacing settings p in
  let paced r := if heartRate (metrics s) <? r then Some r else None in
  (mode settings = Some Off -> pacerCapture p' s = None)
  ∧ (∀ r, mode settings = Some Demand -> rate settings = Some r ->
          pacerCapture p' s = paced r)
  ∧ (∀ kept, mode settings = None -> pacerSettings p = Some kept ->
             mode (mergePacerSettings (pacerSettings p) settings) = mode kept)
  ∧ (∀ kept, rate settings = None -> pacerSettings p = Some kept ->
             rate (mergePacerSettings (pacerSettings p) settings) = rate kept)
  ∧ (∀ r, pacerSettings p = None -> mode settings = None -> rate settings = Some r ->
          pacerCapture p' s = paced r)
  ∧ (∀ patientId st,
       let st' := updatePatientPacingSettings patientId settings st in
       patients st'
       = (fun q => if decide (p_id q = patientId) then withPacing settings q else q)
           <$> patients st
       ∧ simulationDataMap st' = simulationDataMap st
       ∧ selectedPatientId st' = selectedPatientId st).
Proof.
  intros p' paced. subst p'. unfold withPacing, pacerCapture, pacerSettingsOf, mergePacerSettings.
  cbn [pacerSettings set_pacerSettings default from_option id mode rate].
  split; [|split; [|split; [|split; [|split]]]].
  - intros ->. cbn [nullish]. rewrite bool_decide_eq_false_2 by (intros H; by apply H).
    by destruct (nullish _ _).
  - intros r -> ->. cbn [nullish]. by rewrite bool_decide_eq_true_2.
  - by intros kept -> ->.
  - by intros kept -> ->.
  - intros r -> -> ->. cbn [nullish mbind option_bind]. by rewrite bool_decide_eq_true_2.
  - done.
Qed.

Lemma updatePatient_registeredIds (patientId : string) (f : Patient -> Patient)
    (st : HookState) :
  (∀ p, p_id p = patientId -> p_id (f p) = patientId) ->
  registeredIds (set_patients (updatePatient patientId f (patients st)) st) = registeredIds st.
Proof.
  intros Hf. unfold registeredIds. cbn [patients set_patients].
  by rewrite updatePatient_ids.
Qed.

Lemma applyOp_selectionRegistered (st : HookState) (op : HookOp) :
  keepsSelection st op = true -> selectionRegistered st -> selectionRegistered (applyOp st op).
Proof.
  unfold keepsSelection, selectionRegistered. intros Hkeeps Hinv.
  apply andb_true_iff in Hkeeps as [Hids Hsel].
  destruct op; cbn [applyOp keepsIds] in *.
  - unfold addPatient, registeredIds. cbn [selectedPatientId patients p_id].
    apply elem_of_list_to_set. rewrite fmap_app. apply elem_of_app. right.
    cbn [fmap list_fmap p_id]. by left.
  - unfold deletePatient, registeredIds. cbn [selectedPatientId patients].
    case_decide as Hselected.
    + destruct (List.filter _ (patients st)) as [|first rest]; [done|].
      apply elem_of_list_to_set. cbn [fmap list_fmap]. by left.
    + destruct (selectedPatientId st) as [selected|]; [|done].
      rewrite filter_ids. apply elem_of_difference. split; [done|].
      rewrite elem_of_singleton. congruence.
  - apply bool_decide_eq_true in Hsel. exact Hsel.
  - unfold updatePatientDetails. cbn [selectedPatientId set_patients].
    rewrite updatePatient_registeredIds; [done|].
    intros p Hp. apply bool_decide_eq_true in Hids. unfold applyDetails. cbn [p_id].
    by destruct Hids as [-> | ->].
  - unfold setPatientRhythm, registeredIds. cbn [selectedPatientId patients].
    by rewrite updatePatient_ids.
  - exact Hinv.
  - unfold updatePatientPacingSettings. cbn [selectedPatientId set_patients].
    by rewrite updatePatient_registeredIds.
  - unfold updatePatientNoiseSignatures. cbn [selectedPatientId set_patients].
    by rewrite updatePatient_registeredIds.
  - exact Hinv.
  - exact Hinv.
  - exact Hinv.
  - exact Hinv.
  - exact Hinv.
  - exact Hinv.
  - exact Hinv.
Qed.

(** X5: Start from a state whose selection is empty or names a registered
    patient, and apply operations of the hook that rename no patient and
    select among the registered patients only.  Then the selection is still
    empty or names a registered patient, who can be found in the registry,
    and it is empty when the registry is. *)
Theorem selection_names_a_registered_patient
    (ops : list HookOp) (st : HookState)
    (Hstart : selectionRegistered st)
    (Hsession : sessionKeepsSelection ops st = true) :
  let st' := runSession ops st in
  selectionRegistered st'
  ∧ (∀ patientId, selectedPatientId st' = Some patientId ->
                  is_Some (findPatient (patients st') patientId))
  ∧ (patients st' = [] -> selectedPatientId st' = None).
Proof.
  intros st'.
  assert (Hinv : selectionRegistered st').
  { subst st'. revert st Hstart Hsession.
    induction ops as [|op ops IH]; intros st Hstart Hsession; [exact Hstart|].
    cbn [sessionKeepsSelection] in Hsession. apply andb_true_iff in Hsession as [Hop Hrest].
    rewrite runSession_cons. apply IH; [|exact Hrest].
    by apply applyOp_selectionRegistered. }
  split; [exact Hinv|]. unfold selectionRegistered in Hinv. split.
  - intros patientId Hsel. rewrite Hsel in Hinv.
    apply findPatient_registered. by apply elem_of_list_to_set in Hinv.
  - intros Hnone. destruct (selectedPatientId st') as [patientId|]; [|done].
    unfold registeredIds in Hinv. rewrite Hnone in Hinv. by apply elem_of_empty in Hinv.
Qed.

(** The ward of three emptied patient by patient. *)
Lemma selection_names_a_registered_patient_witness :
  let ops := [OpSelectPatient "PID00125"; OpDeletePatient "PID00125";
              OpDeletePatient "PID00123"; OpDeletePatient "PID00124"] in
  selectionRegistered wardOfThree
  ∧ sessionKeepsSelection ops wardOfThree = true
  ∧ selectionRegistered (runSession ops wardOfThree)
  ∧ selectedPatientId (runSession (take 2 ops) wardOfThree) = Some "PID00123"
  ∧ selectedPatientId (runSession ops wardOfThree) = None.
Proof.
  intros ops.
  assert (Hstart : selectionRegistered wardOfThree).
  { unfold selectionRegistered, registeredIds. cbn [selectedPatientId wardOfThree patients].
    apply elem_of_list_to_set. cbn [fmap list_fmap]. right. left. }
  assert (Hsession : sessionKeepsSelection ops wardOfThree = true) by (vm_compute; reflexivity).
  split; [exact Hstart|]. split; [exact Hsession|].
  split; [|split; vm_compute; reflexivity].
  exact (proj1 (selection_names_a_registered_patient ops wardOfThree Hstart Hsession)).
Defined.
